(** * AlarmDial: the control core of a cellular alarm dialler

    A shallow embedding of [AlarmDial.c] (Raspberry Pi Pico firmware) and
    the properties of its persistent configuration record, SMS command
    parser, line classifier, input scanner and timeout handling, of its
    ring buffer and of the exchanges that initialise the modem.

    Conventions of the embedding.
    - A [char] is a byte, [Z] in [0, 256): the target is ARM, where plain
      [char] is unsigned.  [uint8_t] arithmetic wraps with [uint8].
    - A [char] array is a [list Z] of the declared length.  Bytes after the
      terminating NUL stay in the list (they are stale data in C as well).
    - Code that reads or writes past the end of an array has no defined
      behaviour; the embedding returns [Undefined] there.
    - Times are microseconds since boot.                                   *)

From Stdlib Require Import String Ascii ZArith Bool Lia List.
Import ListNotations.
Open Scope Z_scope.

(** ** Results of running a piece of the firmware *)

Inductive result (A : Type) : Type :=
| Done (a : A)      (* the code ran to its end *)
| Reboot            (* the watchdog was re-armed to 1 ms and the code spins *)
| Undefined.        (* an access outside an array *)

Arguments Done {A} a.
Arguments Reboot {A}.
Arguments Undefined {A}.

Definition bind {A B : Type} (m : result A) (k : A -> result B) : result B :=
  match m with
  | Done a => k a
  | Reboot => Reboot
  | Undefined => Undefined
  end.

Notation "x <- m ;; k" := (bind m (fun x => k))
  (at level 61, m at next level, right associativity).

(** ** Bytes, arrays and C strings *)

Definition uint8 (x : Z) : Z := x mod 256.

Fixpoint bytes_of (s : string) : list Z :=
  match s with
  | EmptyString => []
  | String c r => Z.of_N (N_of_ascii c) :: bytes_of r
  end.

(** A string literal of the source: its characters and the NUL. *)
Definition literal (s : string) : list Z := bytes_of s ++ [0].

(** [a[i] = v]; the callers stay inside the array. *)
Fixpoint upd {A : Type} (i : nat) (v : A) (l : list A) {struct l} : list A :=
  match l, i with
  | [], _ => []
  | _ :: r, O => v :: r
  | x :: r, S i' => x :: upd i' v r
  end.

(** Overwrite the start of [dst] with [src]. *)
Fixpoint blit (src dst : list Z) : list Z :=
  match src, dst with
  | [], _ => dst
  | _, [] => []
  | c :: s', _ :: d' => c :: blit s' d'
  end.

(** The characters of the string held in [buf], without the NUL;
    [None] when the array holds no NUL. *)
Fixpoint cstr (buf : list Z) : option (list Z) :=
  match buf with
  | [] => None
  | c :: r => if c =? 0 then Some [] else option_map (cons c) (cstr r)
  end.

(** The argument of a [%s] conversion, or of [strlen]. *)
Definition str_arg (buf : list Z) : result (list Z) :=
  match cstr buf with
  | Some s => Done s
  | None => Undefined
  end.

Definition strlen (buf : list Z) : result nat :=
  s <- str_arg buf ;; Done (length s).

(** [strcpy(dst, src)], and [sprintf(dst, ...)] once the output is known. *)
Definition store_string (dst s : list Z) : result (list Z) :=
  if (length s <? length dst)%nat then Done (blit (s ++ [0]) dst) else Undefined.

Definition strcpy (dst src : list Z) : result (list Z) :=
  s <- str_arg src ;; store_string dst s.

(** The [n] bytes that [strncpy(dst, src, n)] writes: the characters of
    [src] up to its NUL, then NULs. *)
Fixpoint strncpy_bytes (src : list Z) (n : nat) : result (list Z) :=
  match n with
  | O => Done []
  | S n' =>
      match src with
      | [] => Undefined
      | c :: r =>
          if c =? 0 then Done (repeat 0 n)
          else t <- strncpy_bytes r n' ;; Done (c :: t)
      end
  end.

Definition strncpy (dst src : list Z) (n : nat) : result (list Z) :=
  if (n <=? length dst)%nat
  then t <- strncpy_bytes src n ;; Done (blit t dst)
  else Undefined.

(** [strncmp(a, b, n)]: the difference of the first differing characters,
    [0] when the first [n] characters (or the strings) agree.  An array
    that ends is read as NUL; every call below stays inside its arrays. *)
Fixpoint strncmp (a b : list Z) (n : nat) : Z :=
  match n with
  | O => 0
  | S n' =>
      let x := hd 0 a in
      let y := hd 0 b in
      if x =? y then (if x =? 0 then 0 else strncmp (tl a) (tl b) n')
      else x - y
  end.

(** The characters [s] begin with the characters [p]. *)
Fixpoint prefix_of (p s : list Z) : bool :=
  match p, s with
  | [], _ => true
  | _, [] => false
  | x :: p', y :: s' => (x =? y) && prefix_of p' s'
  end.

(** [strstr(hay, needle) != NULL] on the characters of two strings. *)
Fixpoint strstr (hay needle : list Z) : bool :=
  prefix_of needle hay ||
  match hay with
  | [] => false
  | _ :: r => strstr r needle
  end.

(** [%1d] for the small numbers the firmware prints. *)
Definition digit (n : nat) : list Z := [48 + Z.of_nat n].

Notation "' pat <- m ;; k" :=
  (bind m (fun x => match x with pat => k end))
  (at level 61, pat pattern, m at next level, right associativity).

(** ** Constants of the source *)

Definition max_str_l : nat := 200.
Definition LF : Z := 10.
Definition CR : Z := 13.
Definition GPIO_NUMBER_PINS : nat := 3.

Definition CPSI_CHECK_INTERVAL_US : Z := 2419200000000.
Definition CREG_CHECK_INTERVAL_US : Z := 28800000000.
Definition CMGD_INTERVAL_US : Z := 86400000000.

(** Incoming modem messages. *)
Definition OK : nat := 0.
Definition ERROR : nat := 1.
Definition CPSI : nat := 2.
Definition CREG : nat := 3.
Definition CPMS : nat := 4.
Definition CSQ : nat := 5.
Definition CMGD : nat := 6.
Definition CMGS : nat := 7.
Definition CMTI : nat := 8.
Definition CMGR : nat := 9.
Definition CLCC : nat := 10.
Definition UNKNOWN : nat := 11.
Definition MAX_MSG : nat := 12.

(** Multi-stage actions; [0] is idle. *)
Definition MULTI_STAGE_RECEIVED_SIGNAL_REQUEST : nat := 1.
Definition MULTI_STAGE_RECEIVED_TEL_NO : nat := 2.
Definition MULTI_STAGE_RECEIVED_PW : nat := 3.
Definition MULTI_STAGE_RECEIVED_PIN_ACTION : nat := 4.
Definition MULTI_STAGE_RECEIVED_MSG : nat := 5.
Definition MULTI_STAGE_SEND_SIGNAL_LEVEL : nat := 6.
Definition MULTI_STAGE_SEND_STATUS_MSG : nat := 7.
Definition MULTI_STAGE_RECEIVED_DEFAULTS : nat := 8.
Definition MULTI_STAGE_INVALID_COMMAND : nat := 9.
Definition MULTI_STAGE_MAX_ACTIONS : nat := 10.

Definition FLASH_SETTINGS_BYTES : nat := 1024.
Definition RX_BUFFER_SIZE : Z := 10000.

(** ** The variables of [main], the ring buffer, the flash sector and the
    bytes written to the modem *)

Record state : Type := mkState {
  led_onoff : bool;
  last_led_switch_time : Z;
  multi_stage_handling_type : nat;
  multi_stage_message : list (list Z);
  received : list bool;
  received_response : list (list Z);
  received_sms_text : list Z;
  recognised_instruction : bool;
  last_status : list bool;
  last_status_check_time : Z;
  last_passw_reset_time : Z;
  last_passw_reset_check_time : Z;
  awaiting_response : list bool;
  received_sms : bool;
  last_creg_check_time : Z;
  last_cpsi_check_time : Z;
  last_cmgd_time : Z;
  initiate_time : list Z;
  flash_settings : list Z;
  store_new_flash_settings : bool;
  passw : list Z;
  tel_no : list Z;
  send_sms_on_change : list bool;
  sms_on_fall : list (list Z);
  sms_on_rise : list (list Z);
  rx_buffer : list Z;
  rx_buffer_read_position : Z;
  rx_buffer_entries : Z;
  rx_buffer_write_position : Z;
  rx_buffer_number_lf : Z;
  flash_target_contents : list Z;
  uart_tx : list (list Z)
}.

Definition set_led_onoff (v : bool) (s : state) : state :=
  mkState v (last_led_switch_time s) (multi_stage_handling_type s)
    (multi_stage_message s) (received s) (received_response s)
    (received_sms_text s) (recognised_instruction s) (last_status s)
    (last_status_check_time s) (last_passw_reset_time s)
    (last_passw_reset_check_time s) (awaiting_response s) (received_sms s)
    (last_creg_check_time s) (last_cpsi_check_time s) (last_cmgd_time s)
    (initiate_time s) (flash_settings s) (store_new_flash_settings s)
    (passw s) (tel_no s) (send_sms_on_change s) (sms_on_fall s)
    (sms_on_rise s) (rx_buffer s) (rx_buffer_read_position s)
    (rx_buffer_entries s) (rx_buffer_write_position s)
    (rx_buffer_number_lf s) (flash_target_contents s) (uart_tx s).

Definition set_last_led_switch_time (v : Z) (s : state) : state :=
  mkState (led_onoff s) v (multi_stage_handling_type s)
    (multi_stage_message s) (received s) (received_response s)
    (received_sms_text s) (recognised_instruction s) (last_status s)
    (last_status_check_time s) (last_passw_reset_time s)
    (last_passw_reset_check_time s) (awaiting_response s) (received_sms s)
    (last_creg_check_time s) (last_cpsi_check_time s) (last_cmgd_time s)
    (initiate_time s) (flash_settings s) (store_new_flash_settings s)
    (passw s) (tel_no s) (send_sms_on_change s) (sms_on_fall s)
    (sms_on_rise s) (rx_buffer s) (rx_buffer_read_position s)
    (rx_buffer_entries s) (rx_buffer_write_position s)
    (rx_buffer_number_lf s) (flash_target_contents s) (uart_tx s).

Definition set_multi_stage_handling_type (v : nat) (s : state) : state :=
  mkState (led_onoff s) (last_led_switch_time s) v (multi_stage_message s)
    (received s) (received_response s) (received_sms_text s)
    (recognised_instruction s) (last_status s) (last_status_check_time s)
    (last_passw_reset_time s) (last_passw_reset_check_time s)
    (awaiting_response s) (received_sms s) (last_creg_check_time s)
    (last_cpsi_check_time s) (last_cmgd_time s) (initiate_time s)
    (flash_settings s) (store_new_flash_settings s) (passw s) (tel_no s)
    (send_sms_on_change s) (sms_on_fall s) (sms_on_rise s) (rx_buffer s)
    (rx_buffer_read_position s) (rx_buffer_entries s)
    (rx_buffer_write_position s) (rx_buffer_number_lf s)
    (flash_target_contents s) (uart_tx s).

Definition set_multi_stage_message (v : list (list Z)) (s : state) : state :=
  mkState (led_onoff s) (last_led_switch_time s)
    (multi_stage_handling_type s) v (received s) (received_response s)
    (received_sms_text s) (recognised_instruction s) (last_status s)
    (last_status_check_time s) (last_passw_reset_time s)
    (last_passw_reset_check_time s) (awaiting_response s) (received_sms s)
    (last_creg_check_time s) (last_cpsi_check_time s) (last_cmgd_time s)
    (initiate_time s) (flash_settings s) (store_new_flash_settings s)
    (passw s) (tel_no s) (send_sms_on_change s) (sms_on_fall s)
    (sms_on_rise s) (rx_buffer s) (rx_buffer_read_position s)
    (rx_buffer_entries s) (rx_buffer_write_position s)
    (rx_buffer_number_lf s) (flash_target_contents s) (uart_tx s).

Definition set_received (v : list bool) (s : state) : state :=
  mkState (led_onoff s) (last_led_switch_time s)
    (multi_stage_handling_type s) (multi_stage_message s) v
    (received_response s) (received_sms_text s) (recognised_instruction s)
    (last_status s) (last_status_check_time s) (last_passw_reset_time s)
    (last_passw_reset_check_time s) (awaiting_response s) (received_sms s)
    (last_creg_check_time s) (last_cpsi_check_time s) (last_cmgd_time s)
    (initiate_time s) (flash_settings s) (store_new_flash_settings s)
    (passw s) (tel_no s) (send_sms_on_change s) (sms_on_fall s)
    (sms_on_rise s) (rx_buffer s) (rx_buffer_read_position s)
    (rx_buffer_entries s) (rx_buffer_write_position s)
    (rx_buffer_number_lf s) (flash_target_contents s) (uart_tx s).

Definition set_received_response (v : list (list Z)) (s : state) : state :=
  mkState (led_onoff s) (last_led_switch_time s)
    (multi_stage_handling_type s) (multi_stage_message s) (received s) v
    (received_sms_text s) (recognised_instruction s) (last_status s)
    (last_status_check_time s) (last_passw_reset_time s)
    (last_passw_reset_check_time s) (awaiting_response s) (received_sms s)
    (last_creg_check_time s) (last_cpsi_check_time s) (last_cmgd_time s)
    (initiate_time s) (flash_settings s) (store_new_flash_settings s)
    (passw s) (tel_no s) (send_sms_on_change s) (sms_on_fall s)
    (sms_on_rise s) (rx_buffer s) (rx_buffer_read_position s)
    (rx_buffer_entries s) (rx_buffer_write_position s)
    (rx_buffer_number_lf s) (flash_target_contents s) (uart_tx s).

Definition set_received_sms_text (v : list Z) (s : state) : state :=
  mkState (led_onoff s) (last_led_switch_time s)
    (multi_stage_handling_type s) (multi_stage_message s) (received s)
    (received_response s) v (recognised_instruction s) (last_status s)
    (last_status_check_time s) (last_passw_reset_time s)
    (last_passw_reset_check_time s) (awaiting_response s) (received_sms s)
    (last_creg_check_time s) (last_cpsi_check_time s) (last_cmgd_time s)
    (initiate_time s) (flash_settings s) (store_new_flash_settings s)
    (passw s) (tel_no s) (send_sms_on_change s) (sms_on_fall s)
    (sms_on_rise s) (rx_buffer s) (rx_buffer_read_position s)
    (rx_buffer_entries s) (rx_buffer_write_position s)
    (rx_buffer_number_lf s) (flash_target_contents s) (uart_tx s).

Definition set_recognised_instruction (v : bool) (s : state) : state :=
  mkState (led_onoff s) (last_led_switch_time s)
    (multi_stage_handling_type s) (multi_stage_message s) (received s)
    (received_response s) (received_sms_text s) v (last_status s)
    (last_status_check_time s) (last_passw_reset_time s)
    (last_passw_reset_check_time s) (awaiting_response s) (received_sms s)
    (last_creg_check_time s) (last_cpsi_check_time s) (last_cmgd_time s)
    (initiate_time s) (flash_settings s) (store_new_flash_settings s)
    (passw s) (tel_no s) (send_sms_on_change s) (sms_on_fall s)
    (sms_on_rise s) (rx_buffer s) (rx_buffer_read_position s)
    (rx_buffer_entries s) (rx_buffer_write_position s)
    (rx_buffer_number_lf s) (flash_target_contents s) (uart_tx s).

Definition set_last_status (v : list bool) (s : state) : state :=
  mkState (led_onoff s) (last_led_switch_time s)
    (multi_stage_handling_type s) (multi_stage_message s) (received s)
    (received_response s) (received_sms_text s) (recognised_instruction s) v
    (last_status_check_time s) (last_passw_reset_time s)
    (last_passw_reset_check_time s) (awaiting_response s) (received_sms s)
    (last_creg_check_time s) (last_cpsi_check_time s) (last_cmgd_time s)
    (initiate_time s) (flash_settings s) (store_new_flash_settings s)
    (passw s) (tel_no s) (send_sms_on_change s) (sms_on_fall s)
    (sms_on_rise s) (rx_buffer s) (rx_buffer_read_position s)
    (rx_buffer_entries s) (rx_buffer_write_position s)
    (rx_buffer_number_lf s) (flash_target_contents s) (uart_tx s).

Definition set_last_status_check_time (v : Z) (s : state) : state :=
  mkState (led_onoff s) (last_led_switch_time s)
    (multi_stage_handling_type s) (multi_stage_message s) (received s)
    (received_response s) (received_sms_text s) (recognised_instruction s)
    (last_status s) v (last_passw_reset_time s)
    (last_passw_reset_check_time s) (awaiting_response s) (received_sms s)
    (last_creg_check_time s) (last_cpsi_check_time s) (last_cmgd_time s)
    (initiate_time s) (flash_settings s) (store_new_flash_settings s)
    (passw s) (tel_no s) (send_sms_on_change s) (sms_on_fall s)
    (sms_on_rise s) (rx_buffer s) (rx_buffer_read_position s)
    (rx_buffer_entries s) (rx_buffer_write_position s)
    (rx_buffer_number_lf s) (flash_target_contents s) (uart_tx s).

Definition set_last_passw_reset_time (v : Z) (s : state) : state :=
  mkState (led_onoff s) (last_led_switch_time s)
    (multi_stage_handling_type s) (multi_stage_message s) (received s)
    (received_response s) (received_sms_text s) (recognised_instruction s)
    (last_status s) (last_status_check_time s) v
    (last_passw_reset_check_time s) (awaiting_response s) (received_sms s)
    (last_creg_check_time s) (last_cpsi_check_time s) (last_cmgd_time s)
    (initiate_time s) (flash_settings s) (store_new_flash_settings s)
    (passw s) (tel_no s) (send_sms_on_change s) (sms_on_fall s)
    (sms_on_rise s) (rx_buffer s) (rx_buffer_read_position s)
    (rx_buffer_entries s) (rx_buffer_write_position s)
    (rx_buffer_number_lf s) (flash_target_contents s) (uart_tx s).

Definition set_last_passw_reset_check_time (v : Z) (s : state) : state :=
  mkState (led_onoff s) (last_led_switch_time s)
    (multi_stage_handling_type s) (multi_stage_message s) (received s)
    (received_response s) (received_sms_text s) (recognised_instruction s)
    (last_status s) (last_status_check_time s) (last_passw_reset_time s) v
    (awaiting_response s) (received_sms s) (last_creg_check_time s)
    (last_cpsi_check_time s) (last_cmgd_time s) (initiate_time s)
    (flash_settings s) (store_new_flash_settings s) (passw s) (tel_no s)
    (send_sms_on_change s) (sms_on_fall s) (sms_on_rise s) (rx_buffer s)
    (rx_buffer_read_position s) (rx_buffer_entries s)
    (rx_buffer_write_position s) (rx_buffer_number_lf s)
    (flash_target_contents s) (uart_tx s).

Definition set_awaiting_response (v : list bool) (s : state) : state :=
  mkState (led_onoff s) (last_led_switch_time s)
    (multi_stage_handling_type s) (multi_stage_message s) (received s)
    (received_response s) (received_sms_text s) (recognised_instruction s)
    (last_status s) (last_status_check_time s) (last_passw_reset_time s)
    (last_passw_reset_check_time s) v (received_sms s)
    (last_creg_check_time s) (last_cpsi_check_time s) (last_cmgd_time s)
    (initiate_time s) (flash_settings s) (store_new_flash_settings s)
    (passw s) (tel_no s) (send_sms_on_change s) (sms_on_fall s)
    (sms_on_rise s) (rx_buffer s) (rx_buffer_read_position s)
    (rx_buffer_entries s) (rx_buffer_write_position s)
    (rx_buffer_number_lf s) (flash_target_contents s) (uart_tx s).

Definition set_received_sms (v : bool) (s : state) : state :=
  mkState (led_onoff s) (last_led_switch_time s)
    (multi_stage_handling_type s) (multi_stage_message s) (received s)
    (received_response s) (received_sms_text s) (recognised_instruction s)
    (last_status s) (last_status_check_time s) (last_passw_reset_time s)
    (last_passw_reset_check_time s) (awaiting_response s) v
    (last_creg_check_time s) (last_cpsi_check_time s) (last_cmgd_time s)
    (initiate_time s) (flash_settings s) (store_new_flash_settings s)
    (passw s) (tel_no s) (send_sms_on_change s) (sms_on_fall s)
    (sms_on_rise s) (rx_buffer s) (rx_buffer_read_position s)
    (rx_buffer_entries s) (rx_buffer_write_position s)
    (rx_buffer_number_lf s) (flash_target_contents s) (uart_tx s).

Definition set_last_creg_check_time (v : Z) (s : state) : state :=
  mkState (led_onoff s) (last_led_switch_time s)
    (multi_stage_handling_type s) (multi_stage_message s) (received s)
    (received_response s) (received_sms_text s) (recognised_instruction s)
    (last_status s) (last_status_check_time s) (last_passw_reset_time s)
    (last_passw_reset_check_time s) (awaiting_response s) (received_sms s) v
    (last_cpsi_check_time s) (last_cmgd_time s) (initiate_time s)
    (flash_settings s) (store_new_flash_settings s) (passw s) (tel_no s)
    (send_sms_on_change s) (sms_on_fall s) (sms_on_rise s) (rx_buffer s)
    (rx_buffer_read_position s) (rx_buffer_entries s)
    (rx_buffer_write_position s) (rx_buffer_number_lf s)
    (flash_target_contents s) (uart_tx s).

Definition set_last_cpsi_check_time (v : Z) (s : state) : state :=
  mkState (led_onoff s) (last_led_switch_time s)
    (multi_stage_handling_type s) (multi_stage_message s) (received s)
    (received_response s) (received_sms_text s) (recognised_instruction s)
    (last_status s) (last_status_check_time s) (last_passw_reset_time s)
    (last_passw_reset_check_time s) (awaiting_response s) (received_sms s)
    (last_creg_check_time s) v (last_cmgd_time s) (initiate_time s)
    (flash_settings s) (store_new_flash_settings s) (passw s) (tel_no s)
    (send_sms_on_change s) (sms_on_fall s) (sms_on_rise s) (rx_buffer s)
    (rx_buffer_read_position s) (rx_buffer_entries s)
    (rx_buffer_write_position s) (rx_buffer_number_lf s)
    (flash_target_contents s) (uart_tx s).

Definition set_last_cmgd_time (v : Z) (s : state) : state :=
  mkState (led_onoff s) (last_led_switch_time s)
    (multi_stage_handling_type s) (multi_stage_message s) (received s)
    (received_response s) (received_sms_text s) (recognised_instruction s)
    (last_status s) (last_status_check_time s) (last_passw_reset_time s)
    (last_passw_reset_check_time s) (awaiting_response s) (received_sms s)
    (last_creg_check_time s) (last_cpsi_check_time s) v (initiate_time s)
    (flash_settings s) (store_new_flash_settings s) (passw s) (tel_no s)
    (send_sms_on_change s) (sms_on_fall s) (sms_on_rise s) (rx_buffer s)
    (rx_buffer_read_position s) (rx_buffer_entries s)
    (rx_buffer_write_position s) (rx_buffer_number_lf s)
    (flash_target_contents s) (uart_tx s).

Definition set_initiate_time (v : list Z) (s : state) : state :=
  mkState (led_onoff s) (last_led_switch_time s)
    (multi_stage_handling_type s) (multi_stage_message s) (received s)
    (received_response s) (received_sms_text s) (recognised_instruction s)
    (last_status s) (last_status_check_time s) (last_passw_reset_time s)
    (last_passw_reset_check_time s) (awaiting_response s) (received_sms s)
    (last_creg_check_time s) (last_cpsi_check_time s) (last_cmgd_time s) v
    (flash_settings s) (store_new_flash_settings s) (passw s) (tel_no s)
    (send_sms_on_change s) (sms_on_fall s) (sms_on_rise s) (rx_buffer s)
    (rx_buffer_read_position s) (rx_buffer_entries s)
    (rx_buffer_write_position s) (rx_buffer_number_lf s)
    (flash_target_contents s) (uart_tx s).

Definition set_flash_settings (v : list Z) (s : state) : state :=
  mkState (led_onoff s) (last_led_switch_time s)
    (multi_stage_handling_type s) (multi_stage_message s) (received s)
    (received_response s) (received_sms_text s) (recognised_instruction s)
    (last_status s) (last_status_check_time s) (last_passw_reset_time s)
    (last_passw_reset_check_time s) (awaiting_response s) (received_sms s)
    (last_creg_check_time s) (last_cpsi_check_time s) (last_cmgd_time s)
    (initiate_time s) v (store_new_flash_settings s) (passw s) (tel_no s)
    (send_sms_on_change s) (sms_on_fall s) (sms_on_rise s) (rx_buffer s)
    (rx_buffer_read_position s) (rx_buffer_entries s)
    (rx_buffer_write_position s) (rx_buffer_number_lf s)
    (flash_target_contents s) (uart_tx s).

Definition set_store_new_flash_settings (v : bool) (s : state) : state :=
  mkState (led_onoff s) (last_led_switch_time s)
    (multi_stage_handling_type s) (multi_stage_message s) (received s)
    (received_response s) (received_sms_text s) (recognised_instruction s)
    (last_status s) (last_status_check_time s) (last_passw_reset_time s)
    (last_passw_reset_check_time s) (awaiting_response s) (received_sms s)
    (last_creg_check_time s) (last_cpsi_check_time s) (last_cmgd_time s)
    (initiate_time s) (flash_settings s) v (passw s) (tel_no s)
    (send_sms_on_change s) (sms_on_fall s) (sms_on_rise s) (rx_buffer s)
    (rx_buffer_read_position s) (rx_buffer_entries s)
    (rx_buffer_write_position s) (rx_buffer_number_lf s)
    (flash_target_contents s) (uart_tx s).

Definition set_passw (v : list Z) (s : state) : state :=
  mkState (led_onoff s) (last_led_switch_time s)
    (multi_stage_handling_type s) (multi_stage_message s) (received s)
    (received_response s) (received_sms_text s) (recognised_instruction s)
    (last_status s) (last_status_check_time s) (last_passw_reset_time s)
    (last_passw_reset_check_time s) (awaiting_response s) (received_sms s)
    (last_creg_check_time s) (last_cpsi_check_time s) (last_cmgd_time s)
    (initiate_time s) (flash_settings s) (store_new_flash_settings s) v
    (tel_no s) (send_sms_on_change s) (sms_on_fall s) (sms_on_rise s)
    (rx_buffer s) (rx_buffer_read_position s) (rx_buffer_entries s)
    (rx_buffer_write_position s) (rx_buffer_number_lf s)
    (flash_target_contents s) (uart_tx s).

Definition set_tel_no (v : list Z) (s : state) : state :=
  mkState (led_onoff s) (last_led_switch_time s)
    (multi_stage_handling_type s) (multi_stage_message s) (received s)
    (received_response s) (received_sms_text s) (recognised_instruction s)
    (last_status s) (last_status_check_time s) (last_passw_reset_time s)
    (last_passw_reset_check_time s) (awaiting_response s) (received_sms s)
    (last_creg_check_time s) (last_cpsi_check_time s) (last_cmgd_time s)
    (initiate_time s) (flash_settings s) (store_new_flash_settings s)
    (passw s) v (send_sms_on_change s) (sms_on_fall s) (sms_on_rise s)
    (rx_buffer s) (rx_buffer_read_position s) (rx_buffer_entries s)
    (rx_buffer_write_position s) (rx_buffer_number_lf s)
    (flash_target_contents s) (uart_tx s).

Definition set_send_sms_on_change (v : list bool) (s : state) : state :=
  mkState (led_onoff s) (last_led_switch_time s)
    (multi_stage_handling_type s) (multi_stage_message s) (received s)
    (received_response s) (received_sms_text s) (recognised_instruction s)
    (last_status s) (last_status_check_time s) (last_passw_reset_time s)
    (last_passw_reset_check_time s) (awaiting_response s) (received_sms s)
    (last_creg_check_time s) (last_cpsi_check_time s) (last_cmgd_time s)
    (initiate_time s) (flash_settings s) (store_new_flash_settings s)
    (passw s) (tel_no s) v (sms_on_fall s) (sms_on_rise s) (rx_buffer s)
    (rx_buffer_read_position s) (rx_buffer_entries s)
    (rx_buffer_write_position s) (rx_buffer_number_lf s)
    (flash_target_contents s) (uart_tx s).

Definition set_sms_on_fall (v : list (list Z)) (s : state) : state :=
  mkState (led_onoff s) (last_led_switch_time s)
    (multi_stage_handling_type s) (multi_stage_message s) (received s)
    (received_response s) (received_sms_text s) (recognised_instruction s)
    (last_status s) (last_status_check_time s) (last_passw_reset_time s)
    (last_passw_reset_check_time s) (awaiting_response s) (received_sms s)
    (last_creg_check_time s) (last_cpsi_check_time s) (last_cmgd_time s)
    (initiate_time s) (flash_settings s) (store_new_flash_settings s)
    (passw s) (tel_no s) (send_sms_on_change s) v (sms_on_rise s)
    (rx_buffer s) (rx_buffer_read_position s) (rx_buffer_entries s)
    (rx_buffer_write_position s) (rx_buffer_number_lf s)
    (flash_target_contents s) (uart_tx s).

Definition set_sms_on_rise (v : list (list Z)) (s : state) : state :=
  mkState (led_onoff s) (last_led_switch_time s)
    (multi_stage_handling_type s) (multi_stage_message s) (received s)
    (received_response s) (received_sms_text s) (recognised_instruction s)
    (last_status s) (last_status_check_time s) (last_passw_reset_time s)
    (last_passw_reset_check_time s) (awaiting_response s) (received_sms s)
    (last_creg_check_time s) (last_cpsi_check_time s) (last_cmgd_time s)
    (initiate_time s) (flash_settings s) (store_new_flash_settings s)
    (passw s) (tel_no s) (send_sms_on_change s) (sms_on_fall s) v
    (rx_buffer s) (rx_buffer_read_position s) (rx_buffer_entries s)
    (rx_buffer_write_position s) (rx_buffer_number_lf s)
    (flash_target_contents s) (uart_tx s).

Definition set_rx_buffer (v : list Z) (s : state) : state :=
  mkState (led_onoff s) (last_led_switch_time s)
    (multi_stage_handling_type s) (multi_stage_message s) (received s)
    (received_response s) (received_sms_text s) (recognised_instruction s)
    (last_status s) (last_status_check_time s) (last_passw_reset_time s)
    (last_passw_reset_check_time s) (awaiting_response s) (received_sms s)
    (last_creg_check_time s) (last_cpsi_check_time s) (last_cmgd_time s)
    (initiate_time s) (flash_settings s) (store_new_flash_settings s)
    (passw s) (tel_no s) (send_sms_on_change s) (sms_on_fall s)
    (sms_on_rise s) v (rx_buffer_read_position s) (rx_buffer_entries s)
    (rx_buffer_write_position s) (rx_buffer_number_lf s)
    (flash_target_contents s) (uart_tx s).

Definition set_rx_buffer_read_position (v : Z) (s : state) : state :=
  mkState (led_onoff s) (last_led_switch_time s)
    (multi_stage_handling_type s) (multi_stage_message s) (received s)
    (received_response s) (received_sms_text s) (recognised_instruction s)
    (last_status s) (last_status_check_time s) (last_passw_reset_time s)
    (last_passw_reset_check_time s) (awaiting_response s) (received_sms s)
    (last_creg_check_time s) (last_cpsi_check_time s) (last_cmgd_time s)
    (initiate_time s) (flash_settings s) (store_new_flash_settings s)
    (passw s) (tel_no s) (send_sms_on_change s) (sms_on_fall s)
    (sms_on_rise s) (rx_buffer s) v (rx_buffer_entries s)
    (rx_buffer_write_position s) (rx_buffer_number_lf s)
    (flash_target_contents s) (uart_tx s).

Definition set_rx_buffer_entries (v : Z) (s : state) : state :=
  mkState (led_onoff s) (last_led_switch_time s)
    (multi_stage_handling_type s) (multi_stage_message s) (received s)
    (received_response s) (received_sms_text s) (recognised_instruction s)
    (last_status s) (last_status_check_time s) (last_passw_reset_time s)
    (last_passw_reset_check_time s) (awaiting_response s) (received_sms s)
    (last_creg_check_time s) (last_cpsi_check_time s) (last_cmgd_time s)
    (initiate_time s) (flash_settings s) (store_new_flash_settings s)
    (passw s) (tel_no s) (send_sms_on_change s) (sms_on_fall s)
    (sms_on_rise s) (rx_buffer s) (rx_buffer_read_position s) v
    (rx_buffer_write_position s) (rx_buffer_number_lf s)
    (flash_target_contents s) (uart_tx s).

Definition set_rx_buffer_write_position (v : Z) (s : state) : state :=
  mkState (led_onoff s) (last_led_switch_time s)
    (multi_stage_handling_type s) (multi_stage_message s) (received s)
    (received_response s) (received_sms_text s) (recognised_instruction s)
    (last_status s) (last_status_check_time s) (last_passw_reset_time s)
    (last_passw_reset_check_time s) (awaiting_response s) (received_sms s)
    (last_creg_check_time s) (last_cpsi_check_time s) (last_cmgd_time s)
    (initiate_time s) (flash_settings s) (store_new_flash_settings s)
    (passw s) (tel_no s) (send_sms_on_change s) (sms_on_fall s)
    (sms_on_rise s) (rx_buffer s) (rx_buffer_read_position s)
    (rx_buffer_entries s) v (rx_buffer_number_lf s)
    (flash_target_contents s) (uart_tx s).

Definition set_rx_buffer_number_lf (v : Z) (s : state) : state :=
  mkState (led_onoff s) (last_led_switch_time s)
    (multi_stage_handling_type s) (multi_stage_message s) (received s)
    (received_response s) (received_sms_text s) (recognised_instruction s)
    (last_status s) (last_status_check_time s) (last_passw_reset_time s)
    (last_passw_reset_check_time s) (awaiting_response s) (received_sms s)
    (last_creg_check_time s) (last_cpsi_check_time s) (last_cmgd_time s)
    (initiate_time s) (flash_settings s) (store_new_flash_settings s)
    (passw s) (tel_no s) (send_sms_on_change s) (sms_on_fall s)
    (sms_on_rise s) (rx_buffer s) (rx_buffer_read_position s)
    (rx_buffer_entries s) (rx_buffer_write_position s) v
    (flash_target_contents s) (uart_tx s).

Definition set_flash_target_contents (v : list Z) (s : state) : state :=
  mkState (led_onoff s) (last_led_switch_time s)
    (multi_stage_handling_type s) (multi_stage_message s) (received s)
    (received_response s) (received_sms_text s) (recognised_instruction s)
    (last_status s) (last_status_check_time s) (last_passw_reset_time s)
    (last_passw_reset_check_time s) (awaiting_response s) (received_sms s)
    (last_creg_check_time s) (last_cpsi_check_time s) (last_cmgd_time s)
    (initiate_time s) (flash_settings s) (store_new_flash_settings s)
    (passw s) (tel_no s) (send_sms_on_change s) (sms_on_fall s)
    (sms_on_rise s) (rx_buffer s) (rx_buffer_read_position s)
    (rx_buffer_entries s) (rx_buffer_write_position s)
    (rx_buffer_number_lf s) v (uart_tx s).

Definition set_uart_tx (v : list (list Z)) (s : state) : state :=
  mkState (led_onoff s) (last_led_switch_time s)
    (multi_stage_handling_type s) (multi_stage_message s) (received s)
    (received_response s) (received_sms_text s) (recognised_instruction s)
    (last_status s) (last_status_check_time s) (last_passw_reset_time s)
    (last_passw_reset_check_time s) (awaiting_response s) (received_sms s)
    (last_creg_check_time s) (last_cpsi_check_time s) (last_cmgd_time s)
    (initiate_time s) (flash_settings s) (store_new_flash_settings s)
    (passw s) (tel_no s) (send_sms_on_change s) (sms_on_fall s)
    (sms_on_rise s) (rx_buffer s) (rx_buffer_read_position s)
    (rx_buffer_entries s) (rx_buffer_write_position s)
    (rx_buffer_number_lf s) (flash_target_contents s) v.
(** ** Loops *)

(** [for (i = lo; i < lo + n; i++) body]. *)
Fixpoint for_loop (n i : nat) (body : nat -> state -> result state)
    (s : state) : result state :=
  match n with
  | O => Done s
  | S n' => s' <- body i s ;; for_loop n' (S i) body s'
  end.

(** ** Default configuration *)

Definition default_passw : list Z := literal "674358".
Definition default_tel_no : list Z := literal "+447700900000".
Definition default_send_sms_on_change : list bool := [true; true; true].
Definition default_sms_on_fall : list (list Z) :=
  [literal "Intruder alarm triggered"; literal "Alarm system armed";
   literal "Panic button pressed"].
Definition default_sms_on_rise : list (list Z) :=
  [literal "Intruder alarm cleared"; literal "Alarm system disarmed";
   literal "Panic button cleared"].

(** The copy of the defaults into the current configuration, as written
    both at boot and in the [Defaults!] command. *)
Definition copy_defaults (s : state) : result state :=
  p <- strcpy (passw s) default_passw ;;
  let s := set_passw p s in
  t <- strcpy (tel_no s) default_tel_no ;;
  let s := set_tel_no t s in
  for_loop GPIO_NUMBER_PINS 0 (fun i s =>
    f <- strcpy (nth i (sms_on_fall s) []) (nth i default_sms_on_fall []) ;;
    let s := set_sms_on_fall (upd i f (sms_on_fall s)) s in
    r <- strcpy (nth i (sms_on_rise s) []) (nth i default_sms_on_rise []) ;;
    let s := set_sms_on_rise (upd i r (sms_on_rise s)) s in
    Done (set_send_sms_on_change
            (upd i (nth i default_send_sms_on_change false)
                 (send_sms_on_change s)) s)) s.

(** ** The persistent record *)

(** [checksum = 0; for (i = 1; i < FLASH_SETTINGS_BYTES; i++)
      checksum = checksum + flash_settings[i];] with [uint8_t checksum]. *)
Definition checksum_of (fs : list Z) : Z :=
  fold_left (fun checksum i => uint8 (checksum + nth i fs 0))
            (seq 1 (FLASH_SETTINGS_BYTES - 1)) 0.

(** [i = 0; do { dst[i++] = flash_settings[++l]; } while (flash_settings[l]);]
    The fuel is the room left in [dst]: when it is used up the next write
    is past the end of [dst]. *)
Fixpoint read_field (fuel : nat) (fs : list Z) (l : nat) (dst : list Z)
    (i : nat) : result (list Z * nat) :=
  match fuel with
  | O => Undefined
  | S fuel' =>
      let l := S l in
      if (l <? length fs)%nat && (i <? length dst)%nat then
        let dst := upd i (nth l fs 0) dst in
        if nth l fs 0 =? 0 then Done (dst, l)
        else read_field fuel' fs l dst (S i)
      else Undefined
  end.

Definition read_string (fs : list Z) (l : nat) (dst : list Z)
    : result (list Z * nat) :=
  read_field (length dst) fs l dst 0.

(** The same loop for each row of [sms_on_fall] or [sms_on_rise]. *)
Fixpoint read_rows (fs : list Z) (l : nat) (rows : list (list Z))
    : result (list (list Z) * nat) :=
  match rows with
  | [] => Done ([], l)
  | r :: rest =>
      '(r', l) <- read_string fs l r ;;
      '(rest', l) <- read_rows fs l rest ;;
      Done (r' :: rest', l)
  end.

(** [send_sms_on_change[i] = flash_settings[++l]]: a [char] read into a
    [bool]. *)
Fixpoint read_flags (fs : list Z) (l : nat) (flags : list bool)
    : result (list bool * nat) :=
  match flags with
  | [] => Done ([], l)
  | _ :: rest =>
      let l := S l in
      if (l <? length fs)%nat then
        '(rest', l') <- read_flags fs l rest ;;
        Done (negb (nth l fs 0 =? 0) :: rest', l')
      else Undefined
  end.

(** The [else] branch of the checksum test at boot. *)
Definition apply_flash_settings (s : state) : result state :=
  let fs := flash_settings s in
  '(p, l) <- read_string fs 0 (passw s) ;;
  '(t, l) <- read_string fs l (tel_no s) ;;
  '(f, l) <- read_rows fs l (sms_on_fall s) ;;
  '(r, l) <- read_rows fs l (sms_on_rise s) ;;
  '(c, l) <- read_flags fs l (send_sms_on_change s) ;;
  Done (set_send_sms_on_change c (set_sms_on_rise r (set_sms_on_fall f
         (set_tel_no t (set_passw p s))))).

(** Restore settings from flash, if not available schedule storage of
    defaults. *)
Definition restore_settings (s : state) : result state :=
  let s := set_flash_settings (flash_target_contents s) s in
  let checksum := checksum_of (flash_settings s) in
  if negb (checksum =? nth 0 (flash_settings s) 0) then
    s <- copy_defaults s ;;
    Done (set_store_new_flash_settings true s)
  else apply_flash_settings s.

(** [flash_settings[l++] = b] for each byte of [bytes]. *)
Fixpoint emit (bytes : list Z) (l : nat) (fs : list Z)
    : result (nat * list Z) :=
  match bytes with
  | [] => Done (l, fs)
  | b :: rest =>
      if (l <? length fs)%nat then emit rest (S l) (upd l b fs)
      else Undefined
  end.

(** [k = strlen(row); for (j = 0; j <= k; j++) flash_settings[l++] = row[j];] *)
Definition emit_string (row : list Z) (l : nat) (fs : list Z)
    : result (nat * list Z) :=
  k <- strlen row ;; emit (firstn (S k) row) l fs.

Fixpoint emit_rows (rows : list (list Z)) (l : nat) (fs : list Z)
    : result (nat * list Z) :=
  match rows with
  | [] => Done (l, fs)
  | r :: rest => '(l, fs) <- emit_string r l fs ;; emit_rows rest l fs
  end.

Definition char_of_bool (b : bool) : Z := if b then 1 else 0.

(** Save new flash settings: the body of the last [if] of the loop. *)
Definition save_flash_settings (s : state) : result state :=
  let fs := flash_settings s in
  '(l, fs) <- emit (firstn 7 (passw s)) 1 fs ;;
  '(l, fs) <- emit_string (tel_no s) l fs ;;
  '(l, fs) <- emit_rows (sms_on_fall s) l fs ;;
  '(l, fs) <- emit_rows (sms_on_rise s) l fs ;;
  '(l, fs) <- emit (map char_of_bool (send_sms_on_change s)) l fs ;;
  let checksum := checksum_of fs in
  let fs := upd 0 checksum fs in
  (* erase the sector and program the record, interrupts disabled *)
  Done (set_store_new_flash_settings false
         (set_flash_target_contents fs (set_flash_settings fs s))).

(** ** Time *)

Definition int64 (x : Z) : Z := (x + 2 ^ 63) mod 2 ^ 64 - 2 ^ 63.

(** The SDK's [absolute_time_diff_us(from, to)]: [to - from] in
    microseconds, as an [int64_t]. *)
Definition absolute_time_diff_us (from to : Z) : Z := int64 (to - from).

(** What one traversal of the main loop reads from outside: the clock and
    the level of each GPIO pin. *)
Record tick : Type := mkTick {
  current_time : Z;
  gpio_get : nat -> bool
}.

Definition GPIO_PIN_FIRST : nat := 2.
Definition GPIO_PIN_PW_RESET : nat := 5.

(** ** Writing to the modem *)

(** The characters [write_command] puts on the UART: up to the NUL, at
    most [max_str_l]. *)
Fixpoint command_chars (n : nat) (command : list Z) : list Z :=
  match n, command with
  | S n', c :: r => if c =? 0 then [] else c :: command_chars n' r
  | _, _ => []
  end.

Definition write_command (command : list Z) (s : state) : state :=
  set_uart_tx (uart_tx s ++ [command_chars max_str_l command]) s.

(** [sprintf] into a local array of [max_str_l] characters. *)
Definition sprintf (out : list Z) : result (list Z) :=
  if (length out <? max_str_l)%nat then Done (out ++ [0]) else Undefined.

Definition quote : Z := 34.

(** Instructs the modem to send [message] as SMS. *)
Definition send_sms (tel_no message : list Z) (s : state) : result state :=
  t <- str_arg tel_no ;;
  msg <- sprintf (bytes_of "AT+CMGS=" ++ [quote] ++ t ++ [quote; CR]) ;;
  let s := write_command msg s in
  (* sleep_ms(500) *)
  m <- str_arg message ;;
  msg <- sprintf (m ++ [26]) ;;
  Done (write_command msg s).

(** [initiate_time[k] = current_time; awaiting_response[k] = true;
     awaiting_response[UNKNOWN] = true;] *)
Definition await_response (k : nat) (now : Z) (s : state) : state :=
  let s := set_initiate_time (upd k now (initiate_time s)) s in
  let s := set_awaiting_response (upd k true (awaiting_response s)) s in
  set_awaiting_response (upd UNKNOWN true (awaiting_response s)) s.

(** ** The ring buffer *)

(** The interrupt handler, for the characters the UART holds when it
    fires.  No overflow checking. *)
Definition uart_rx_interrupt_handler (chars : list Z) (s : state) : state :=
  fold_left (fun s chr =>
    let s := set_rx_buffer_entries (rx_buffer_entries s + 1) s in
    let s := set_rx_buffer
               (upd (Z.to_nat (rx_buffer_write_position s)) chr (rx_buffer s))
               s in
    let s := set_rx_buffer_write_position (rx_buffer_write_position s + 1) s in
    let s := if chr =? LF
             then set_rx_buffer_number_lf (rx_buffer_number_lf s + 1) s
             else s in
    if rx_buffer_write_position s =? RX_BUFFER_SIZE
    then set_rx_buffer_write_position 0 s else s) chars s.

(** The [do ... while] that reads one message; [str] holds the [l]
    characters stored so far.  Every turn takes one entry, so the number of
    entries bounds the turns. *)
Fixpoint read_message_loop (fuel : nat) (str : list Z) (s : state)
    : list Z * state :=
  let chr := nth (Z.to_nat (rx_buffer_read_position s)) (rx_buffer s) 0 in
  let s := set_rx_buffer_read_position (rx_buffer_read_position s + 1) s in
  let s := set_rx_buffer_entries (rx_buffer_entries s - 1) s in
  let s := if rx_buffer_read_position s =? RX_BUFFER_SIZE
           then set_rx_buffer_read_position 0 s else s in
  let str := if negb (chr =? LF) && negb (chr =? CR)
                && (length str <? max_str_l - 1)%nat
             then str ++ [chr] else str in
  let s := if chr =? LF
           then set_rx_buffer_number_lf (rx_buffer_number_lf s - 1) s
           else s in
  if negb (chr =? LF) && (length str <? max_str_l - 1)%nat
     && (rx_buffer_entries s >? 0)
  then match fuel with
       | S fuel' => read_message_loop fuel' str s
       | O => (str, s)
       end
  else (str, s).

(** ** Classification of a message *)

Definition set_flag (k : nat) (v : bool) (flags : list bool) : list bool :=
  upd k v flags.

(** [received[k] = true; strcpy(received_response[k], str);] *)
Definition store_response (k : nat) (str : list Z) (s : state)
    : result state :=
  let s := set_received (set_flag k true (received s)) s in
  r <- strcpy (nth k (received_response s) []) str ;;
  Done (set_received_response (upd k r (received_response s)) s).

Definition is_prefix (str : list Z) (p : string) : bool :=
  strncmp str (literal p) (length (bytes_of p)) =? 0.

(** Determine the type of a nonempty message and set the action flag;
    [str] is the message with its NUL. *)
Definition classify (str : list Z) (s : state) : result state :=
  if is_prefix str "OK" then
    Done (set_received (set_flag OK true (received s)) s)
  else if is_prefix str "ERROR" then
    Done (set_received (set_flag ERROR true (received s)) s)
  else if is_prefix str "+CPSI" then store_response CPSI str s
  else if is_prefix str "+CREG" then store_response CREG str s
  else if is_prefix str "+CPMS" then store_response CPMS str s
  else if is_prefix str "+CSQ" then store_response CSQ str s
  else if is_prefix str "+CMGD" then store_response CMGD str s
  else if is_prefix str "+CMGS" then store_response CMGS str s
  else if is_prefix str "+CMTI" then store_response CMTI str s
  else if is_prefix str "+CMGR" then store_response CMGR str s
  else if is_prefix str "+CLCC" then store_response CLCC str s
  else if hd 0 str =? 62 (* '>' *) then Done s
  else if hd 0 str =? 0 then Done s
  else if hd 0 str =? 43 (* '+' *) then store_response UNKNOWN str s
  else if nth CMGR (awaiting_response s) false then
    t <- strcpy (received_sms_text s) str ;;
    Done (set_received_sms_text t (set_received_sms true s))
  else Done s.

(** If the ring buffer has a message (a LF has arrived), read one message
    and classify it. *)
Definition read_message (s : state) : result state :=
  if rx_buffer_number_lf s >? 0 then
    let '(str, s) :=
      read_message_loop (Z.to_nat (rx_buffer_entries s)) [] s in
    if (0 <? length str)%nat then classify (str ++ [0]) s else Done s
  else Done s.

(** ** The SMS command parser *)

Definition flag (k : nat) (flags : list bool) : bool := nth k flags false.

(** [sprintf(multi_stage_message[k], ...)] and [strcpy] into that row. *)
Definition stage_message (k : nat) (out : list Z) (s : state) : result state :=
  m <- store_string (nth k (multi_stage_message s) []) out ;;
  Done (set_multi_stage_message (upd k m (multi_stage_message s)) s).

(** [j = sizeof(passw) + sizeof(verb) - 2] *)
Definition verb_end (verb : string) : nat := 7 + length (literal verb) - 2.

(** [sprintf(str, "%s<verb>", passw);
     !strncmp(received_sms_text, str, j)] *)
Definition command_is (verb : string) (s : state) : result bool :=
  p <- str_arg (passw s) ;;
  str <- sprintf (p ++ bytes_of verb) ;;
  Done (strncmp (received_sms_text s) str (verb_end verb) =? 0).

(** Did we receive a signal level request? *)
Definition signal_request (s : state) : result state :=
  m <- command_is " Signal?" s ;;
  if m then
    let s := set_multi_stage_handling_type
               MULTI_STAGE_RECEIVED_SIGNAL_REQUEST s in
    Done (set_recognised_instruction false s)
  else Done s.

(** Did we receive a new telephone number? *)
Definition telephone_number (s : state) : result state :=
  m <- command_is " TelephoneNumber!" s ;;
  let j := verb_end " TelephoneNumber!" in
  if m then
    let s := set_multi_stage_handling_type MULTI_STAGE_RECEIVED_TEL_NO s in
    a <- str_arg (skipn j (received_sms_text s)) ;;
    str <- sprintf a ;;
    t <- strncpy (tel_no s) str 49 ;;
    let s := set_tel_no t s in
    let s := set_store_new_flash_settings true s in
    s <- stage_message MULTI_STAGE_RECEIVED_TEL_NO
           (bytes_of "Ok. Changed telephone number") s ;;
    Done (set_recognised_instruction false s)
  else Done s.

(** Did we receive a new password? *)
Definition password (s : state) : result state :=
  m <- command_is " Password!" s ;;
  let j := verb_end " Password!" in
  if m then
    let s := set_multi_stage_handling_type MULTI_STAGE_RECEIVED_PW s in
    a <- str_arg (skipn j (received_sms_text s)) ;;
    str <- sprintf a ;;
    n <- strlen str ;;
    s <- (if (n =? 6)%nat then
            p <- strcpy (passw s) str ;;
            let s := set_passw p s in
            let s := set_store_new_flash_settings true s in
            stage_message MULTI_STAGE_RECEIVED_PW
              (bytes_of "Ok. Changed password") s
          else
            stage_message MULTI_STAGE_RECEIVED_PW
              (bytes_of "Error. Invalid password (needs to be 6 characters)")
              s) ;;
    Done (set_recognised_instruction false s)
  else Done s.

(** Did we receive a change to SMS action rules? *)
Definition sms_on_input (s : state) : result state :=
  m <- command_is " SMSonInput!" s ;;
  let j := verb_end " SMSonInput!" in
  if m then
    let s := set_multi_stage_handling_type MULTI_STAGE_RECEIVED_PIN_ACTION s in
    let i := nth j (received_sms_text s) 0 - 49 (* '1' *) in
    s <- (if (i >=? 0) && (i <? Z.of_nat GPIO_NUMBER_PINS)
             && (nth (j + 1) (received_sms_text s) 0 =? 0) then
            let i := Z.to_nat i in
            let s := set_send_sms_on_change
                       (set_flag i (negb (flag i (send_sms_on_change s)))
                                 (send_sms_on_change s)) s in
            let s := set_store_new_flash_settings true s in
            stage_message MULTI_STAGE_RECEIVED_PIN_ACTION
              (bytes_of "Ok. Input " ++ digit (i + 1) ++ bytes_of " will "
               ++ (if flag i (send_sms_on_change s) then [] else bytes_of "not ")
               ++ bytes_of "trigger SMS from now on") s
          else
            stage_message MULTI_STAGE_RECEIVED_PIN_ACTION
              (bytes_of "Error. Invalid input number (must be 1-"
               ++ digit GPIO_NUMBER_PINS ++ bytes_of ")") s) ;;
    Done (set_recognised_instruction false s)
  else Done s.

(** Did we receive a request to change a message text? *)
Definition message_text (s : state) : result state :=
  m <- command_is " MessageText!" s ;;
  let j := verb_end " MessageText!" in
  if m then
    let s := set_multi_stage_handling_type MULTI_STAGE_RECEIVED_MSG s in
    let text := received_sms_text s in
    let k := nth j text 0 - 49 (* '1' *) in
    let l := if strncmp (skipn (j + 2) text) (literal "On!") 3 =? 0 then 1%nat
             else if strncmp (skipn (j + 2) text) (literal "Off!") 4 =? 0
                  then 2%nat else 0%nat in
    let l := if negb (nth (j + 1) text 0 =? 33 (* '!' *)) then 0%nat else l in
    s <- (if (k >=? 0) && (k <? Z.of_nat GPIO_NUMBER_PINS) && negb (l =? 0)%nat
          then
            let k := Z.to_nat k in
            s <- (if (l =? 1)%nat then
                    f <- strncpy (nth k (sms_on_fall s) [])
                                 (skipn (j + 5) text) 49 ;;
                    let s := set_sms_on_fall (upd k f (sms_on_fall s)) s in
                    shown <- str_arg (nth k (sms_on_fall s) []) ;;
                    stage_message MULTI_STAGE_RECEIVED_MSG
                      (bytes_of "Ok. New message for input " ++ digit (k + 1)
                       ++ bytes_of " activating: " ++ [quote] ++ shown
                       ++ [quote]) s
                  else
                    r <- strncpy (nth k (sms_on_rise s) [])
                                 (skipn (j + 6) text) 49 ;;
                    let s := set_sms_on_rise (upd k r (sms_on_rise s)) s in
                    shown <- str_arg (nth k (sms_on_rise s) []) ;;
                    stage_message MULTI_STAGE_RECEIVED_MSG
                      (bytes_of "Ok. New message for input " ++ digit (k + 1)
                       ++ bytes_of " deactivating: " ++ [quote] ++ shown
                       ++ [quote]) s) ;;
            Done (set_store_new_flash_settings true s)
          else
            stage_message MULTI_STAGE_RECEIVED_MSG
              (bytes_of "Error. Invalid message change request") s) ;;
    Done (set_recognised_instruction false s)
  else Done s.

(** Did we receive a request to reset settings to defaults? *)
Definition defaults (s : state) : result state :=
  m <- command_is " Defaults!" s ;;
  if m then
    let s := set_multi_stage_handling_type MULTI_STAGE_RECEIVED_DEFAULTS s in
    s <- stage_message MULTI_STAGE_RECEIVED_DEFAULTS
           (bytes_of "Ok. Resetting settings to defaults") s ;;
    s <- copy_defaults s ;;
    let s := set_store_new_flash_settings true s in
    Done (set_recognised_instruction false s)
  else Done s.

(** We received the correct password but no recognised instruction. *)
Definition invalid_command (s : state) : result state :=
  if recognised_instruction s then
    let s := set_multi_stage_handling_type MULTI_STAGE_INVALID_COMMAND s in
    stage_message MULTI_STAGE_INVALID_COMMAND (bytes_of "Invalid instruction") s
  else Done s.

(** Figure out what the SMS is instructing us to do, if anything. *)
Definition parse_sms (s : state) : result state :=
  let s := set_recognised_instruction
             (strncmp (received_sms_text s) (passw s) (7 - 1) =? 0) s in
  s <- signal_request s ;;
  s <- telephone_number s ;;
  s <- password s ;;
  s <- sms_on_input s ;;
  s <- message_text s ;;
  s <- defaults s ;;
  invalid_command s.

(** Process CMGR (SMS read-out from modem): the header and the text have
    both arrived. *)
Definition acknowledge_cmgr (now : Z) (s : state) : state :=
  let s := set_received (set_flag CMGR false (received s)) s in
  let s := set_awaiting_response
             (set_flag CMGR false (awaiting_response s)) s in
  let s := set_received_sms false s in
  await_response OK now s.

Definition process_cmgr (now : Z) (s : state) : result state :=
  if flag CMGR (received s) && flag CMGR (awaiting_response s)
     && received_sms s then
    parse_sms (acknowledge_cmgr now s)
  else if flag CMGR (received s) && negb (flag CMGR (awaiting_response s)) then
    let s := set_received (set_flag CMGR false (received s)) s in
    Done (set_received_sms false s)
  else if negb (flag CMGR (awaiting_response s)) && received_sms s then
    Done (set_received_sms false s)
  else Done s.

(** ** The other parts of the main loop *)

(** Collect any specific [awaiting_response] entries into the [UNKNOWN]
    entry, which blocks new action. *)
Definition collect_awaiting (s : state) : state :=
  let s := set_awaiting_response
             (set_flag UNKNOWN false (awaiting_response s)) s in
  fold_left (fun s i =>
    set_awaiting_response
      (set_flag UNKNOWN (flag UNKNOWN (awaiting_response s)
                         || flag i (awaiting_response s))
                (awaiting_response s)) s)
    (seq 0 (MAX_MSG - 1)) s.

Definition clear_received (k : nat) (s : state) : state :=
  set_received (set_flag k false (received s)) s.

Definition clear_awaiting (k : nat) (s : state) : state :=
  set_awaiting_response (set_flag k false (awaiting_response s)) s.

(** Regular modem status check, including reset if necessary. *)
Definition start_cpsi_check (now : Z) (s : state) : state :=
  if (absolute_time_diff_us (last_cpsi_check_time s) now
        >? CPSI_CHECK_INTERVAL_US)
     && negb (flag UNKNOWN (awaiting_response s)) then
    let s := write_command (bytes_of "AT+CPSI?" ++ [CR; 0]) s in
    let s := await_response CPSI now s in
    set_last_cpsi_check_time now s
  else s.

Definition process_cpsi (now : Z) (s : state) : result state :=
  if flag CPSI (received s) && flag CPSI (awaiting_response s) then
    let s := clear_received CPSI s in
    let s := clear_awaiting CPSI s in
    r <- str_arg (nth CPSI (received_response s) []) ;;
    if strstr r (bytes_of "Online") then
      rest <- str_arg (skipn 7 (nth CPSI (received_response s) [])) ;;
      s <- stage_message MULTI_STAGE_SEND_STATUS_MSG
             (bytes_of "Modem check: " ++ rest) s ;;
      let s := set_multi_stage_handling_type MULTI_STAGE_SEND_STATUS_MSG s in
      Done (await_response OK now s)
    else Reboot
  else if flag CPSI (received s) then Done (clear_received CPSI s)
  else Done s.

(** Regular network registration check, don't action response. *)
Definition start_creg_check (now : Z) (s : state) : state :=
  if (absolute_time_diff_us (last_creg_check_time s) now
        >? CREG_CHECK_INTERVAL_US)
     && negb (flag UNKNOWN (awaiting_response s)) then
    let s := write_command (bytes_of "AT+CREG?" ++ [CR; 0]) s in
    let s := await_response CREG now s in
    set_last_creg_check_time now s
  else s.

Definition process_creg (now : Z) (s : state) : state :=
  if flag CREG (received s) && flag CREG (awaiting_response s) then
    let s := clear_received CREG s in
    let s := clear_awaiting CREG s in
    await_response OK now s
  else if flag CREG (received s) then clear_received CREG s
  else s.

(** Process CMTI (modem signalling incoming SMS). *)
Definition process_cmti (now : Z) (s : state) : result state :=
  if flag CMTI (received s) && negb (flag UNKNOWN (awaiting_response s)) then
    let s := clear_received CMTI s in
    index <- str_arg (skipn 12 (nth CMTI (received_response s) [])) ;;
    str <- sprintf (bytes_of "AT+CMGR=" ++ index ++ [CR]) ;;
    let s := write_command str s in
    Done (await_response CMGR now s)
  else Done s.

(** Process CLCC (modem signalling incoming voice call): hang up. *)
Definition process_clcc (now : Z) (s : state) : state :=
  if flag CLCC (received s) && negb (flag UNKNOWN (awaiting_response s)) then
    let s := clear_received CLCC s in
    let s := write_command (bytes_of "AT+CHUP" ++ [CR; 0]) s in
    await_response OK now s
  else s.

(** [for (i = 0; (response[6+i] != ',') && (i < j); i++) str[i] = response[6+i];]
    returns the characters stored in [str]. *)
Fixpoint csq_level (fuel : nat) (response : list Z) (i : nat) (j : Z)
    : result (list Z) :=
  if (6 + i <? length response)%nat then
    if negb (nth (6 + i) response 0 =? 44 (* ',' *)) && (Z.of_nat i <? j) then
      match fuel with
      | S fuel' =>
          t <- csq_level fuel' response (S i) j ;;
          Done (nth (6 + i) response 0 :: t)
      | O => Undefined
      end
    else Done []
  else Undefined.

(** Process CSQ (readout of signal level from modem). *)
Definition process_csq (now : Z) (s : state) : result state :=
  if flag CSQ (received s) && flag CSQ (awaiting_response s) then
    let s := clear_received CSQ s in
    let s := clear_awaiting CSQ s in
    let response := nth CSQ (received_response s) [] in
    n <- strlen response ;;
    let j := Z.of_nat n - 1 in
    level <- csq_level (length response) response 0 j ;;
    shown <- str_arg (level ++ [0]) ;;
    s <- stage_message MULTI_STAGE_SEND_SIGNAL_LEVEL
           (bytes_of "Signal quality is " ++ shown) s ;;
    let s := set_multi_stage_handling_type MULTI_STAGE_SEND_SIGNAL_LEVEL s in
    Done (await_response OK now s)
  else if flag CSQ (received s) then Done (clear_received CSQ s)
  else Done s.

(** Regular message deletion. *)
Definition delete_messages (now : Z) (s : state) : state :=
  if (absolute_time_diff_us (last_cmgd_time s) now >? CMGD_INTERVAL_US)
     && negb (flag UNKNOWN (awaiting_response s)) then
    let s := write_command (bytes_of "AT+CMGD=0,4" ++ [CR; 0]) s in
    let s := await_response OK now s in
    set_last_cmgd_time now s
  else s.

(** Process CMGS (modem response to sending SMS). *)
Definition process_cmgs (now : Z) (s : state) : state :=
  if flag CMGS (received s) && flag CMGS (awaiting_response s) then
    let s := clear_received CMGS s in
    let s := clear_awaiting CMGS s in
    await_response OK now s
  else if flag CMGS (received s) then clear_received CMGS s
  else s.

(** Process OK, and the multi-stage actions as signalled. *)
Definition process_ok (now : Z) (s : state) : result state :=
  if flag OK (received s) && flag OK (awaiting_response s) then
    let s := clear_received OK s in
    let s := clear_awaiting OK s in
    if (multi_stage_handling_type s =? MULTI_STAGE_RECEIVED_SIGNAL_REQUEST)%nat
    then
      let s := write_command (bytes_of "AT+CSQ" ++ [CR; 0]) s in
      let s := await_response CSQ now s in
      Done (set_multi_stage_handling_type 0 s)
    else if negb (multi_stage_handling_type s =? 0)%nat then
      s <- send_sms (tel_no s)
             (nth (multi_stage_handling_type s) (multi_stage_message s) []) s ;;
      let s := await_response CMGS now s in
      Done (set_multi_stage_handling_type 0 s)
    else Done s
  else if flag OK (received s) then Done (clear_received OK s)
  else Done s.

(** Process unknown modem message. *)
Definition process_unknown (s : state) : state :=
  if flag UNKNOWN (received s) && negb (flag UNKNOWN (awaiting_response s))
  then clear_received UNKNOWN s
  else s.

(** Check for timeouts. *)
Definition timeout_us (i : nat) : Z :=
  if (i =? OK)%nat then 60000000 else 9000000.

Definition check_timeout (now : Z) (i : nat) (s : state) : state :=
  if (absolute_time_diff_us (nth i (initiate_time s) 0) now >? timeout_us i)
     && flag i (awaiting_response s) then
    let s := clear_awaiting i s in
    if (i =? CMGR)%nat then set_multi_stage_handling_type 0 s else s
  else s.

Definition check_timeouts (now : Z) (s : state) : state :=
  fold_left (fun s i => check_timeout now i s) (seq 0 (MAX_MSG - 1)) s.

(** One pin of the GPIO check. *)
Definition check_pin (t : tick) (i : nat) (s : state) : result state :=
  let status := negb (gpio_get t (GPIO_PIN_FIRST + i)) in
  if negb (Bool.eqb status (flag i (last_status s))) then
    let s := set_last_status
               (set_flag i (negb (flag i (last_status s))) (last_status s)) s in
    if flag i (send_sms_on_change s) then
      s <- send_sms (tel_no s)
             (if status then nth i (sms_on_fall s) []
              else nth i (sms_on_rise s) []) s ;;
      Done (await_response CMGS (current_time t) s)
    else Done s
  else Done s.

(** Check GPIO pins, action with SMS if change detected. *)
Definition check_pins (t : tick) (s : state) : result state :=
  if (absolute_time_diff_us (last_status_check_time s) (current_time t)
        >? 1000000)
     && negb (flag UNKNOWN (awaiting_response s)) then
    let s := set_last_status_check_time (current_time t) s in
    for_loop GPIO_NUMBER_PINS 0 (check_pin t) s
  else Done s.

(** Check GPIO pin for password reset. *)
Definition check_password_reset (t : tick) (s : state) : result state :=
  let now := current_time t in
  if (absolute_time_diff_us (last_passw_reset_check_time s) now >? 1000000)
     && (absolute_time_diff_us (last_passw_reset_time s) now >? 10000000)
     && negb (flag UNKNOWN (awaiting_response s)) then
    let s := set_last_passw_reset_check_time now s in
    if negb (gpio_get t GPIO_PIN_PW_RESET) then
      let s := set_last_passw_reset_time now s in
      p <- strcpy (passw s) default_passw ;;
      let s := set_passw p s in
      let s := set_store_new_flash_settings true s in
      s <- send_sms (tel_no s) (literal "Password reset to default") s ;;
      Done (await_response CMGS now s)
    else Done s
  else Done s.

(** LED blinking to signal all is working. *)
Definition blink_led (now : Z) (s : state) : state :=
  if absolute_time_diff_us (last_led_switch_time s) now >? 1000000 then
    let s := set_last_led_switch_time now s in
    set_led_onoff (negb (led_onoff s)) s
  else s.

(** Save new flash settings if necessary. *)
Definition store_settings (s : state) : result state :=
  if store_new_flash_settings s && negb (flag UNKNOWN (awaiting_response s))
  then save_flash_settings s
  else Done s.

(** ** One traversal of the main loop *)

(** From the reading of a message to the processing of unknown messages. *)
Definition process_messages (t : tick) (s : state) : result state :=
  let now := current_time t in
  s <- read_message s ;;
  let s := collect_awaiting s in
  let s := start_cpsi_check now s in
  s <- process_cpsi now s ;;
  let s := start_creg_check now s in
  let s := process_creg now s in
  s <- process_cmti now s ;;
  let s := process_clcc now s in
  s <- process_cmgr now s ;;
  s <- process_csq now s ;;
  let s := delete_messages now s in
  let s := process_cmgs now s in
  s <- process_ok now s ;;
  Done (process_unknown s).

(** From the GPIO check to the saving of the settings. *)
Definition act_on_inputs (t : tick) (s : state) : result state :=
  s <- check_pins t s ;;
  s <- check_password_reset t s ;;
  let s := blink_led (current_time t) s in
  store_settings s.

Definition loop_body (t : tick) (s : state) : result state :=
  s <- process_messages t s ;;
  let s := check_timeouts (current_time t) s in
  act_on_inputs t s.

(** ** Start-up, up to the main loop *)

(** [ram] is what the variables of [main] hold when it is entered; the
    zeroed globals and the declarations with an initialiser overwrite part
    of it.  [flash] is the settings region of the flash. *)
Definition initial_values (flash : list Z) (ram : state) : state :=
  let s := set_flash_target_contents flash ram in
  let s := set_uart_tx [] s in
  (* globals *)
  let s := set_rx_buffer (repeat 0 (Z.to_nat RX_BUFFER_SIZE)) s in
  let s := set_rx_buffer_read_position 0 s in
  let s := set_rx_buffer_entries 0 s in
  let s := set_rx_buffer_write_position 0 s in
  let s := set_rx_buffer_number_lf 0 s in
  (* initialisers *)
  let s := set_led_onoff false s in
  let s := set_multi_stage_handling_type 0 s in
  let s := set_last_status [false; false; false] s in
  let s := set_received_sms false s in
  set_store_new_flash_settings false s.

(** Initialise regular modem checks, GPIO checking interval, LED blinking
    interval, incoming modem message and action flags. *)
Definition initialise_loop (now : Z) (s : state) : state :=
  let s := set_last_status_check_time now s in
  let s := set_last_passw_reset_time now s in
  let s := set_last_passw_reset_check_time now s in
  let s := set_last_led_switch_time now s in
  let s := set_last_creg_check_time now s in
  let s := set_last_cpsi_check_time now s in
  let s := set_last_cmgd_time now s in
  let s := set_received (repeat false MAX_MSG) s in
  let s := set_awaiting_response (repeat false MAX_MSG) s in
  set_initiate_time (repeat now MAX_MSG) s.

(** [main] up to the loop.  The modem reset and initialisation between the
    two parts are blocking exchanges on the UART that touch none of the
    variables; [now] is the time read after them. *)
Definition startup (now : Z) (flash : list Z) (ram : state) : result state :=
  s <- restore_settings (initial_values flash ram) ;;
  Done (initialise_loop now s).

(** ** Runs of the firmware *)

(** The sizes that the declarations give to the arrays. *)
Definition table (n len : nat) (a : list (list Z)) : Prop :=
  length a = n /\ Forall (fun row => length row = len) a.

Record well_sized (s : state) : Prop := mkWellSized {
  size_multi_stage_message :
    table MULTI_STAGE_MAX_ACTIONS max_str_l (multi_stage_message s);
  size_received : length (received s) = MAX_MSG;
  size_received_response : table MAX_MSG max_str_l (received_response s);
  size_received_sms_text : length (received_sms_text s) = max_str_l;
  size_last_status : length (last_status s) = GPIO_NUMBER_PINS;
  size_awaiting_response : length (awaiting_response s) = MAX_MSG;
  size_initiate_time : length (initiate_time s) = MAX_MSG;
  size_flash_settings : length (flash_settings s) = FLASH_SETTINGS_BYTES;
  size_passw : length (passw s) = 7%nat;
  size_tel_no : length (tel_no s) = 50%nat;
  size_send_sms_on_change : length (send_sms_on_change s) = GPIO_NUMBER_PINS;
  size_sms_on_fall : table GPIO_NUMBER_PINS 50 (sms_on_fall s);
  size_sms_on_rise : table GPIO_NUMBER_PINS 50 (sms_on_rise s)
}.

(** A memory image of zeros, for concrete runs. *)
Definition zero_ram : state :=
  mkState false 0 0 (repeat (repeat 0 max_str_l) MULTI_STAGE_MAX_ACTIONS)
    (repeat false MAX_MSG) (repeat (repeat 0 max_str_l) MAX_MSG)
    (repeat 0 max_str_l) false (repeat false GPIO_NUMBER_PINS) 0 0 0
    (repeat false MAX_MSG) false 0 0 0 (repeat 0 MAX_MSG)
    (repeat 0 FLASH_SETTINGS_BYTES) false (repeat 0 7%nat) (repeat 0 50%nat)
    (repeat false GPIO_NUMBER_PINS) (repeat (repeat 0 50%nat) GPIO_NUMBER_PINS)
    (repeat (repeat 0 50%nat) GPIO_NUMBER_PINS)
    (repeat 0 (Z.to_nat RX_BUFFER_SIZE)) 0 0 0 0
    (repeat 0 FLASH_SETTINGS_BYTES) [].

(** An erased flash sector. *)
Definition blank_flash : list Z := repeat 255 FLASH_SETTINGS_BYTES.

(** The states of the control loop: after start-up, after an interrupt,
    after a traversal of the loop. *)
Inductive reachable : state -> Prop :=
| reach_startup now flash ram s :
    well_sized ram -> length flash = FLASH_SETTINGS_BYTES ->
    startup now flash ram = Done s -> reachable s
| reach_interrupt chars s :
    reachable s -> reachable (uart_rx_interrupt_handler chars s)
| reach_loop t s s' :
    reachable s -> loop_body t s = Done s' -> reachable s'.

(** The dialogue is busy when some response is awaited. *)
Definition busy (s : state) : Prop :=
  exists k, (k < MAX_MSG)%nat /\ flag k (awaiting_response s) = true.

(** ** The configuration as a value *)

Record configuration : Type := mkConfiguration {
  password_of : list Z;
  destination_number : list Z;
  message_on_activate : list (list Z);
  message_on_deactivate : list (list Z);
  notify_enabled : list bool
}.

Fixpoint cstrs (rows : list (list Z)) : option (list (list Z)) :=
  match rows with
  | [] => Some []
  | r :: rest =>
      match cstr r, cstrs rest with
      | Some x, Some xs => Some (x :: xs)
      | _, _ => None
      end
  end.

(** The strings and flags held in the configuration variables. *)
Definition configuration_of (s : state) : option configuration :=
  match cstr (passw s), cstr (tel_no s),
        cstrs (sms_on_fall s), cstrs (sms_on_rise s) with
  | Some p, Some t, Some f, Some r =>
      Some (mkConfiguration p t f r (send_sms_on_change s))
  | _, _, _, _ => None
  end.

Definition default_configuration : configuration :=
  mkConfiguration (bytes_of "674358") (bytes_of "+447700900000")
    [bytes_of "Intruder alarm triggered"; bytes_of "Alarm system armed";
     bytes_of "Panic button pressed"]
    [bytes_of "Intruder alarm cleared"; bytes_of "Alarm system disarmed";
     bytes_of "Panic button cleared"]
    [true; true; true].

Definition nul_free (str : list Z) : Prop := Forall (fun c => c <> 0) str.

Definition short_string (str : list Z) : Prop :=
  nul_free str /\ (length str <= 49)%nat.

(** The valid domain: a password of 6 characters, a number and messages of
    at most 49, one message pair and one flag per input. *)
Record valid_configuration (c : configuration) : Prop := mkValid {
  valid_password : nul_free (password_of c) /\ length (password_of c) = 6%nat;
  valid_number : short_string (destination_number c);
  valid_activate :
    length (message_on_activate c) = GPIO_NUMBER_PINS
    /\ Forall short_string (message_on_activate c);
  valid_deactivate :
    length (message_on_deactivate c) = GPIO_NUMBER_PINS
    /\ Forall short_string (message_on_deactivate c);
  valid_flags : length (notify_enabled c) = GPIO_NUMBER_PINS
}.

(** The sum of bytes [1 .. 1023] of a record. *)
Definition byte_sum (record : list Z) : Z :=
  fold_right Z.add 0
    (map (fun i => nth i record 0) (seq 1 (FLASH_SETTINGS_BYTES - 1))).

(** Byte 0 is the 8-bit sum of the bytes that follow. *)
Definition record_valid (record : list Z) : Prop :=
  nth 0 record 0 = byte_sum record mod 256.

(** The bytes that encode a string, a list of strings, a configuration. *)
Definition terminated (str : list Z) : list Z := str ++ [0].

Definition encode_rows (strs : list (list Z)) : list Z :=
  concat (map terminated strs).

Definition payload (c : configuration) : list Z :=
  terminated (password_of c) ++ terminated (destination_number c)
  ++ encode_rows (message_on_activate c)
  ++ encode_rows (message_on_deactivate c)
  ++ map char_of_bool (notify_enabled c).

Definition nonzero (str : list Z) : bool :=
  forallb (fun c => negb (c =? 0)) str.

(** The configuration variables after the defaults are copied in. *)
Definition with_defaults (s : state) : state :=
  set_send_sms_on_change default_send_sms_on_change
    (set_sms_on_rise
       (map (fun p => blit (fst p) (snd p))
            (combine default_sms_on_rise (sms_on_rise s)))
       (set_sms_on_fall
          (map (fun p => blit (fst p) (snd p))
               (combine default_sms_on_fall (sms_on_fall s)))
          (set_tel_no (blit default_tel_no (tel_no s))
             (set_passw (blit default_passw (passw s)) s)))).

(** ** Notions used in the properties *)

(** A part of the loop that, when it runs to its end, leaves [proj] as it
    was. *)
Definition keeps {A : Type} (proj : state -> A) (f : state -> result state)
    : Prop :=
  forall s s', f s = Done s' -> proj s' = proj s.

(** The password variable holds the six characters [p] and the NUL. *)
Definition password_is (p : list Z) (s : state) : Prop :=
  cstr (passw s) = Some p /\ length p = 6%nat.

(** The text of the SMS is [p], [verb] and [arg]. *)
Definition sms_is (p : list Z) (verb : string) (arg : list Z) (s : state)
    : Prop :=
  cstr (received_sms_text s) = Some (p ++ bytes_of verb ++ arg).

Definition ok_changed_password : list Z := bytes_of "Ok. Changed password".

Definition error_invalid_password : list Z :=
  bytes_of "Error. Invalid password (needs to be 6 characters)".

(** The input that the argument of [SMSonInput!] names: one character,
    ['1'] to ['3']. *)
Definition pin_of (arg : list Z) : option nat :=
  match arg with
  | [c] => if (49 <=? c) && (c <=? 51) then Some (Z.to_nat (c - 49)) else None
  | _ => None
  end.

Definition ok_input (i : nat) (enabled : bool) : list Z :=
  bytes_of "Ok. Input " ++ digit (i + 1) ++ bytes_of " will "
  ++ (if enabled then [] else bytes_of "not ")
  ++ bytes_of "trigger SMS from now on".

Definition error_invalid_input : list Z :=
  bytes_of "Error. Invalid input number (must be 1-"
  ++ digit GPIO_NUMBER_PINS ++ bytes_of ")".

(** The wait for response [k] has passed its deadline at [now]. *)
Definition timed_out (now : Z) (k : nat) (s : state) : bool :=
  (absolute_time_diff_us (nth k (initiate_time s) 0) now >? timeout_us k)
  && flag k (awaiting_response s).

(** What [send_sms] puts on the UART for the strings [tel] and [text]:
    the command, then the text closed by Ctrl-Z. *)
Definition sms_writes (tel text : list Z) : list (list Z) :=
  [command_chars max_str_l
     ((bytes_of "AT+CMGS=" ++ [quote] ++ tel ++ [quote; CR]) ++ [0]);
   command_chars max_str_l ((text ++ [26]) ++ [0])].

(** The level of input [i] in a scan, negative logic. *)
Definition pin_status (t : tick) (i : nat) : bool :=
  negb (gpio_get t (GPIO_PIN_FIRST + i)).

(** Input [i] has changed since the last scan and its SMS is enabled. *)
Definition notifies (t : tick) (s : state) (i : nat) : bool :=
  negb (Bool.eqb (pin_status t i) (flag i (last_status s)))
  && flag i (send_sms_on_change s).

(** ** Concrete runs *)

Definition state_of (r : result state) : state :=
  match r with
  | Done s => s
  | _ => zero_ram
  end.

(** The state at the head of the loop after a start from blank flash. *)
Definition started : state := state_of (startup 0 blank_flash zero_ram).

(** A scan two seconds later that finds the three inputs low (activated)
    and the reset input high. *)
Definition all_low : tick :=
  mkTick 2000000 (fun pin => (pin =? GPIO_PIN_PW_RESET)%nat).

(** What happens between two states of a run. *)
Inductive event : Type :=
| Interrupt (chars : list Z)
| Loop (t : tick).

Definition step (r : result state) (e : event) : result state :=
  s <- r ;;
  match e with
  | Interrupt chars => Done (uart_rx_interrupt_handler chars s)
  | Loop t => loop_body t s
  end.

Definition run (events : list event) (s : state) : result state :=
  fold_left step events (Done s).

(** A traversal with no input activated and no reset asked. *)
Definition quiet (now : Z) : event := Loop (mkTick now (fun _ => true)).

Definition line (text : list Z) : event := Interrupt (text ++ [CR; LF]).

(** An SMS with the text [text] arrives and the modem reads it out. *)
Definition arrival (text : list Z) : list event :=
  [quiet 10;
   line (bytes_of "+CMTI: " ++ [quote] ++ bytes_of "SM" ++ [quote]
         ++ bytes_of ",1");
   quiet 20;
   line (bytes_of "+CMGR: " ++ [quote] ++ bytes_of "REC UNREAD" ++ [quote]);
   quiet 30;
   line text].

(** The state in which the next traversal of the loop processes the
    read-out: the loop has read the line with the text. *)
Definition read_out (text : list Z) : state :=
  state_of (s <- run (arrival text) started ;; read_message s).

(** An SMS with the [Defaults!] command arrives and is read out; the OK
    that closes the read-out never comes. *)
Definition lost_ok : list event :=
  arrival (bytes_of "674358 Defaults!")
  ++ [quiet 40; quiet 60000050; quiet 60000060].

(** The same arrival after the time [now]. *)
Definition arrival_at (now : Z) (text : list Z) : list event :=
  [quiet (now + 10);
   line (bytes_of "+CMTI: " ++ [quote] ++ bytes_of "SM" ++ [quote]
         ++ bytes_of ",1");
   quiet (now + 20);
   line (bytes_of "+CMGR: " ++ [quote] ++ bytes_of "REC UNREAD" ++ [quote]);
   quiet (now + 30);
   line text].

(** A voice call is hung up and the OK of the modem never comes, so the
    wait for it times out while no action is pending; then an SMS with the
    [Defaults!] command arrives and is read out. *)
Definition lost_hangup_ok : list event :=
  [line (bytes_of "+CLCC: 1,1,4,0,0"); quiet 10; quiet 60000020]
  ++ arrival_at 60000020 (bytes_of "674358 Defaults!")
  ++ [quiet 60000060].

(** In the traversal [t] from [s] a pending action loses its OK: the
    awaited OK times out while the multi-stage action slot is not idle, and
    the wait for a read-out, whose timeout resets the slot, does not time
    out in the same check. *)
Definition action_times_out (t : tick) (s : state) : bool :=
  match process_messages t s with
  | Done m =>
      timed_out (current_time t) OK m
      && negb (multi_stage_handling_type m =? 0)%nat
      && negb (timed_out (current_time t) CMGR m)
  | _ => false
  end.

(** The states reached by runs in which no pending action loses its OK. *)
Inductive reachable_in_time : state -> Prop :=
| in_time_startup now flash ram s :
    well_sized ram -> length flash = FLASH_SETTINGS_BYTES ->
    startup now flash ram = Done s -> reachable_in_time s
| in_time_interrupt chars s :
    reachable_in_time s ->
    reachable_in_time (uart_rx_interrupt_handler chars s)
| in_time_loop t s s' :
    reachable_in_time s -> action_times_out t s = false ->
    loop_body t s = Done s' -> reachable_in_time s'.

(** A pending multi-stage action waits for an OK. *)
Definition action_awaits_ok (s : state) : Prop :=
  length (awaiting_response s) = MAX_MSG
  /\ (multi_stage_handling_type s <> 0%nat ->
      flag OK (awaiting_response s) = true).

(** An OK is awaited. *)
Definition ok_awaited (s : state) : Prop :=
  length (awaiting_response s) = MAX_MSG
  /\ flag OK (awaiting_response s) = true.

(** A run that stops when a pending action loses its OK. *)
Definition step_in_time (r : result state) (e : event) : result state :=
  s <- r ;;
  match e with
  | Interrupt chars => Done (uart_rx_interrupt_handler chars s)
  | Loop t => if action_times_out t s then Undefined else loop_body t s
  end.

Definition run_in_time (events : list event) (s : state) : result state :=
  fold_left step_in_time events (Done s).

(** The last character of every message row is the NUL that [strncpy]
    with [sizeof - 1] never overwrites. *)
Definition closed_rows (rows : list (list Z)) : Prop :=
  Forall (fun row => nth 49 row 0 = 0) rows.

(** What the command parser reads is in place: the arrays have their
    declared sizes, the password holds its six characters, the SMS text
    holds a string, and a message row holds a string when the text of the
    SMS is copied into it: the SMS has fewer than 73 characters, so that
    what follows [MessageText!], the input and [On!] does not fill the 49
    characters that are copied, or the message rows are closed. *)
Record parsable (s : state) : Prop := mkParsable {
  parsable_sized : well_sized s;
  parsable_password : exists p, password_is p s;
  parsable_text :
    exists t, cstr (received_sms_text s) = Some t
      /\ ((length t < 73)%nat
          \/ closed_rows (sms_on_fall s) /\ closed_rows (sms_on_rise s))
}.

(** RAM that holds the byte 170 in every place of the message rows, and
    the start from blank flash that finds it. *)
Definition stale_ram : state :=
  set_sms_on_fall (repeat (repeat 170 50) GPIO_NUMBER_PINS)
    (set_sms_on_rise (repeat (repeat 170 50) GPIO_NUMBER_PINS) zero_ram).

Definition started_stale : state :=
  state_of (startup 0 blank_flash stale_ram).

(** The read-out of an SMS after the start [start]. *)
Definition read_out_from (start : state) (text : list Z) : state :=
  state_of (s <- run (arrival text) start ;; read_message s).

(** A [MessageText!] command whose text fills the 49 characters that are
    copied into a message row. *)
Definition long_message : list Z :=
  bytes_of "674358 MessageText!1!On!" ++ repeat 120 49.

(** The sizes and the closing NULs of a concrete state, computed. *)
Definition tableb (n len : nat) (a : list (list Z)) : bool :=
  (length a =? n)%nat && forallb (fun row => (length row =? len)%nat) a.

Definition well_sizedb (s : state) : bool :=
  tableb MULTI_STAGE_MAX_ACTIONS max_str_l (multi_stage_message s)
  && (length (received s) =? MAX_MSG)%nat
  && tableb MAX_MSG max_str_l (received_response s)
  && (length (received_sms_text s) =? max_str_l)%nat
  && (length (last_status s) =? GPIO_NUMBER_PINS)%nat
  && (length (awaiting_response s) =? MAX_MSG)%nat
  && (length (initiate_time s) =? MAX_MSG)%nat
  && (length (flash_settings s) =? FLASH_SETTINGS_BYTES)%nat
  && (length (passw s) =? 7)%nat
  && (length (tel_no s) =? 50)%nat
  && (length (send_sms_on_change s) =? GPIO_NUMBER_PINS)%nat
  && tableb GPIO_NUMBER_PINS 50 (sms_on_fall s)
  && tableb GPIO_NUMBER_PINS 50 (sms_on_rise s).

Definition closed_rowsb (rows : list (list Z)) : bool :=
  forallb (fun row => nth 49 row 0 =? 0) rows.


(** ** The ring buffer as a queue *)

(** The ring buffer holds the characters [q], oldest first, and nothing
    has been overwritten. *)
Definition ring_holds (s : state) (q : list Z) : Prop :=
  length (rx_buffer s) = Z.to_nat RX_BUFFER_SIZE
  /\ 0 <= rx_buffer_read_position s < RX_BUFFER_SIZE
  /\ rx_buffer_entries s = Z.of_nat (length q)
  /\ rx_buffer_write_position s
     = (rx_buffer_read_position s + Z.of_nat (length q)) mod RX_BUFFER_SIZE
  /\ rx_buffer_number_lf s = Z.of_nat (count_occ Z.eq_dec q LF)
  /\ Z.of_nat (length q) <= RX_BUFFER_SIZE
  /\ forall i, (i < length q)%nat ->
       nth (Z.to_nat ((rx_buffer_read_position s + Z.of_nat i)
                      mod RX_BUFFER_SIZE)) (rx_buffer s) 0
       = nth i q 0.

(** The characters of a line that are stored: all but the CRs. *)
Definition without_cr (line : list Z) : list Z :=
  filter (fun c => negb (c =? CR)) line.

(** What reading a message changes besides the message: the read position
    and the two counters of the ring buffer. *)
Definition taken (p e n : Z) (s : state) : state :=
  set_rx_buffer_number_lf n
    (set_rx_buffer_entries e (set_rx_buffer_read_position p s)).

(** ** The responses of the modem that the classifier stores *)

Definition response_tags : list (nat * string) :=
  [(CPSI, "+CPSI"); (CREG, "+CREG"); (CPMS, "+CPMS"); (CSQ, "+CSQ");
   (CMGD, "+CMGD"); (CMGS, "+CMGS"); (CMTI, "+CMTI"); (CMGR, "+CMGR");
   (CLCC, "+CLCC")]%string.

(** [received[k] = true; strcpy(received_response[k], line)], done. *)
Definition stored_response (k : nat) (line : list Z) (s : state) : state :=
  set_received_response
    (upd k (blit (line ++ [0]) (nth k (received_response s) []))
         (received_response s))
    (set_received (set_flag k true (received s)) s).

(** ** Notions used in the properties of the loop *)

(** A part of the loop that sets no [received] flag. *)
Definition sets_none (f : state -> result state) : Prop :=
  forall s s', f s = Done s' ->
  forall k, flag k (received s) = false -> flag k (received s') = false.

(** The words of the six commands, each with the blank that separates it
    from the password. *)
Definition command_verbs : list string :=
  [" Signal?"; " TelephoneNumber!"; " Password!"; " SMSonInput!";
   " MessageText!"; " Defaults!"]%string.



(** ** The exchanges with the modem before the main loop

    While the interrupt handler is not installed the firmware polls the
    UART.  What arrives there is given as a list with one entry for each
    call of [uart_is_readable_within_us]: [Some chr] when a character is
    there before the time given in the call has passed (the [uart_getc]
    that follows returns it), [None] when the time passes without one.
    After the last entry nothing arrives any more. *)
Module Init.

Definition uart_in : Type := list (option Z).

(** [message[l] = chr] *)
Definition store (l : nat) (chr : Z) (message : list Z) : result (list Z) :=
  if (l <? length message)%nat then Done (upd l chr message) else Undefined.

(** The [while] of [read_message], entered with [l] characters stored;
    gives [success], the array and what is left to arrive. *)
Fixpoint read_message_loop (input : uart_in) (l : nat) (message : list Z)
    : result (Z * list Z * uart_in) :=
  match input with
  | Some chr :: input' =>
      '(l, message) <-
        (if negb (chr =? LF) && negb (chr =? CR) && (l <? max_str_l - 1)%nat
         then message <- store l chr message ;; Done (S l, message)
         else Done (l, message)) ;;
      if chr =? LF then
        message <- store l 0 message ;; Done (0, message, input')
      else read_message_loop input' l message
  | None :: input' => Done (1, message, input')
  | [] => Done (1, message, [])
  end.

(** Reads a complete (LF-terminated) message from the modem, or returns
    with 1 if no complete message arrives within the timeout. *)
Definition read_message (message : list Z) (wait_us : Z) (input : uart_in)
    : result (Z * list Z * uart_in) :=
  message <- store 0 0 message ;;
  read_message_loop input 0 message.

(** [while (uart_is_readable_within_us(UART_ID, 0)) uart_getc(UART_ID);] *)
Fixpoint flush (input : uart_in) : uart_in :=
  match input with
  | Some _ :: input' => flush input'
  | None :: input' => input'
  | [] => []
  end.

(** The [do ... while] of [write_command_with_response_check], entered
    with [success] set.  A further turn follows a message that ended in
    LF, so the entries of [input] bound the turns. *)
Fixpoint check_response (fuel : nat) (target_response response : list Z)
    (wait_us : Z) (input : uart_in) : result (Z * list Z * uart_in) :=
  '(res, response, input) <- read_message response wait_us input ;;
  n <- strlen target_response ;;
  let success := if strncmp response target_response n =? 0 then 0 else 1 in
  if (res =? 0) && negb (success =? 0) then
    match fuel with
    | S fuel' => check_response fuel' target_response response wait_us input
    | O => Done (success, response, input)
    end
  else Done (success, response, input).

(** The outer [while], with [tries] turns left. *)
Fixpoint attempts (tries : nat) (command target_response response : list Z)
    (wait_us : Z) (input : uart_in) (s : state)
    : result (Z * list Z * uart_in * state) :=
  match tries with
  | O => Done (1, response, input, s)
  | S tries' =>
      let input := flush input in
      let s := write_command command s in
      '(success, response, input) <-
        check_response (length input) target_response response wait_us
          input ;;
      if success =? 0 then Done (0, response, input, s)
      else attempts tries' command target_response response wait_us input s
  end.

(** Writes a command to the modem and checks for a pre-determined
    response; 0 upon success, 1 if the response has not arrived within
    the timeout upon [repeat] tries. *)
Definition write_command_with_response_check
    (command target_response response : list Z) (wait_us : Z) (tries : nat)
    (input : uart_in) (s : state) : result (Z * list Z * uart_in * state) :=
  attempts tries command target_response response wait_us input s.

Definition ATE0 : list Z := bytes_of "ATE0" ++ [CR; 0].
Definition AT_D0 : list Z := bytes_of "AT&D0" ++ [CR; 0].
Definition ATV1 : list Z := bytes_of "ATV1" ++ [CR; 0].
Definition AT_CGEREP : list Z :=
  bytes_of "AT+CGEREP=0,0;+CVHU=0;+CLIP=0;+CLCC=1" ++ [CR; 0].
Definition AT_CNMP : list Z :=
  bytes_of "AT+CNMP=2;+CSCS=" ++ [quote] ++ bytes_of "IRA" ++ [quote]
  ++ bytes_of ";+CMGF=1;+CNMI=2,1" ++ [CR; 0].
Definition AT_CPMS (memory : string) : list Z :=
  bytes_of "AT+CPMS=" ++ [quote] ++ bytes_of memory ++ [quote; 44; quote]
  ++ bytes_of memory ++ [quote; 44; quote] ++ bytes_of memory
  ++ [quote; CR; 0].
Definition AT_CMGD : list Z := bytes_of "AT+CMGD=0,4" ++ [CR; 0].

(** Initialises the modem; [response] is the local array as it is found. *)
Definition initialise_modem (response : list Z) (input : uart_in)
    (s : state) : result (list Z * uart_in * state) :=
  '(_, response, input, s) <-
    write_command_with_response_check ATE0 (literal "OK") response
      120000000 3 input s ;;
  '(_, response, input, s) <-
    write_command_with_response_check AT_D0 (literal "OK") response
      9000000 3 input s ;;
  '(_, response, input, s) <-
    write_command_with_response_check ATV1 (literal "OK") response
      9000000 3 input s ;;
  '(_, response, input, s) <-
    write_command_with_response_check AT_CGEREP (literal "OK") response
      36000000 3 input s ;;
  '(_, response, input, s) <-
    write_command_with_response_check AT_CNMP (literal "OK") response
      36000000 3 input s ;;
  '(_, response, input, s) <-
    write_command_with_response_check (AT_CPMS "SM") (literal "OK") response
      9000000 3 input s ;;
  '(_, response, input, s) <-
    write_command_with_response_check AT_CMGD (literal "OK") response
      9000000 3 input s ;;
  '(_, response, input, s) <-
    write_command_with_response_check (AT_CPMS "ME") (literal "OK") response
      9000000 3 input s ;;
  '(_, response, input, s) <-
    write_command_with_response_check AT_CMGD (literal "OK") response
      9000000 3 input s ;;
  Done (response, input, s).

(** [main] up to the loop, with the modem reset and initialisation that
    [startup] leaves out. *)
Definition boot (now : Z) (response : list Z) (input : uart_in)
    (flash : list Z) (ram : state) : result (uart_in * state) :=
  s <- restore_settings (initial_values flash ram) ;;
  (* sleep_ms(10000) *)
  let s := write_command (bytes_of "AT+CRESET" ++ [CR; 0]) s in
  (* sleep_ms(30000) *)
  '(_, input, s) <- initialise_modem response input s ;;
  Done (input, initialise_loop now s).

End Init.

(** The characters of a message that the blocking [read_message] stores. *)
Definition stored (line : list Z) : list Z :=
  firstn (max_str_l - 1) (without_cr line).

(** The modem commands of the initialisation, as they are sent. *)
Definition modem_commands : list (list Z) :=
  map (command_chars max_str_l)
    [Init.ATE0; Init.AT_D0; Init.ATV1; Init.AT_CGEREP; Init.AT_CNMP;
     Init.AT_CPMS "SM"; Init.AT_CMGD; Init.AT_CPMS "ME"; Init.AT_CMGD].

(** Each command as often as the list [ns] says. *)
Definition sent (commands : list (list Z)) (ns : list nat)
    : list (list Z) :=
  concat (map (fun cn => repeat (fst cn) (snd cn)) (combine commands ns)).

(** Complete lines as they arrive one after the other. *)
Definition lines_in (lines : list (list Z)) : Init.uart_in :=
  concat (map (fun line => map Some line ++ [Some LF]) lines).

(** ** Concrete states *)

(** The line [text] has arrived in [s] and the loop has read it. *)
Definition line_read (text : list Z) (s : state) : state :=
  state_of (read_message (uart_rx_interrupt_handler (text ++ [CR; LF]) s)).

(** * Properties *)

(** Projections of an updated state: everywhere, in the goal, in [H]. *)
Ltac fields :=
  cbn [led_onoff last_led_switch_time multi_stage_handling_type
    multi_stage_message received received_response received_sms_text
    recognised_instruction last_status last_status_check_time
    last_passw_reset_time last_passw_reset_check_time awaiting_response
    received_sms last_creg_check_time last_cpsi_check_time last_cmgd_time
    initiate_time flash_settings store_new_flash_settings passw tel_no
    send_sms_on_change sms_on_fall sms_on_rise rx_buffer
    rx_buffer_read_position rx_buffer_entries rx_buffer_write_position
    rx_buffer_number_lf flash_target_contents uart_tx set_led_onoff
    set_last_led_switch_time set_multi_stage_handling_type
    set_multi_stage_message set_received set_received_response
    set_received_sms_text set_recognised_instruction set_last_status
    set_last_status_check_time set_last_passw_reset_time
    set_last_passw_reset_check_time set_awaiting_response set_received_sms
    set_last_creg_check_time set_last_cpsi_check_time set_last_cmgd_time
    set_initiate_time set_flash_settings set_store_new_flash_settings
    set_passw set_tel_no set_send_sms_on_change set_sms_on_fall
    set_sms_on_rise set_rx_buffer set_rx_buffer_read_position
    set_rx_buffer_entries set_rx_buffer_write_position
    set_rx_buffer_number_lf set_flash_target_contents set_uart_tx] in *.

Ltac fields_goal :=
  cbn [led_onoff last_led_switch_time multi_stage_handling_type
    multi_stage_message received received_response received_sms_text
    recognised_instruction last_status last_status_check_time
    last_passw_reset_time last_passw_reset_check_time awaiting_response
    received_sms last_creg_check_time last_cpsi_check_time last_cmgd_time
    initiate_time flash_settings store_new_flash_settings passw tel_no
    send_sms_on_change sms_on_fall sms_on_rise rx_buffer
    rx_buffer_read_position rx_buffer_entries rx_buffer_write_position
    rx_buffer_number_lf flash_target_contents uart_tx set_led_onoff
    set_last_led_switch_time set_multi_stage_handling_type
    set_multi_stage_message set_received set_received_response
    set_received_sms_text set_recognised_instruction set_last_status
    set_last_status_check_time set_last_passw_reset_time
    set_last_passw_reset_check_time set_awaiting_response set_received_sms
    set_last_creg_check_time set_last_cpsi_check_time set_last_cmgd_time
    set_initiate_time set_flash_settings set_store_new_flash_settings
    set_passw set_tel_no set_send_sms_on_change set_sms_on_fall
    set_sms_on_rise set_rx_buffer set_rx_buffer_read_position
    set_rx_buffer_entries set_rx_buffer_write_position
    set_rx_buffer_number_lf set_flash_target_contents set_uart_tx].

Ltac fields_in H :=
  cbn [led_onoff last_led_switch_time multi_stage_handling_type
    multi_stage_message received received_response received_sms_text
    recognised_instruction last_status last_status_check_time
    last_passw_reset_time last_passw_reset_check_time awaiting_response
    received_sms last_creg_check_time last_cpsi_check_time last_cmgd_time
    initiate_time flash_settings store_new_flash_settings passw tel_no
    send_sms_on_change sms_on_fall sms_on_rise rx_buffer
    rx_buffer_read_position rx_buffer_entries rx_buffer_write_position
    rx_buffer_number_lf flash_target_contents uart_tx set_led_onoff
    set_last_led_switch_time set_multi_stage_handling_type
    set_multi_stage_message set_received set_received_response
    set_received_sms_text set_recognised_instruction set_last_status
    set_last_status_check_time set_last_passw_reset_time
    set_last_passw_reset_check_time set_awaiting_response set_received_sms
    set_last_creg_check_time set_last_cpsi_check_time set_last_cmgd_time
    set_initiate_time set_flash_settings set_store_new_flash_settings
    set_passw set_tel_no set_send_sms_on_change set_sms_on_fall
    set_sms_on_rise set_rx_buffer set_rx_buffer_read_position
    set_rx_buffer_entries set_rx_buffer_write_position
    set_rx_buffer_number_lf set_flash_target_contents set_uart_tx] in H.
(** ** Arrays *)

Lemma upd_length {A : Type} (i : nat) (v : A) (l : list A) :
  length (upd i v l) = length l.
Proof.
  revert i; induction l as [|x l IH]; intros [|i]; simpl; auto.
Qed.

Lemma nth_upd_eq {A : Type} (i : nat) (v d : A) (l : list A) :
  (i < length l)%nat -> nth i (upd i v l) d = v.
Proof.
  revert i; induction l as [|x l IH]; intros [|i] H; simpl in *;
    try lia; auto.
  apply IH; lia.
Qed.

Lemma nth_upd_neq {A : Type} (i j : nat) (v d : A) (l : list A) :
  i <> j -> nth j (upd i v l) d = nth j l d.
Proof.
  revert i j; induction l as [|x l IH]; intros [|i] [|j] H; simpl;
    try reflexivity; try congruence.
  apply IH; congruence.
Qed.

Lemma upd_app {A : Type} (pre post : list A) (x v : A) :
  upd (length pre) v (pre ++ x :: post) = pre ++ v :: post.
Proof.
  induction pre as [|y pre IH]; simpl; [reflexivity | now rewrite IH].
Qed.

Lemma Forall_upd {A : Type} (P : A -> Prop) (i : nat) (v : A) (l : list A) :
  P v -> Forall P l -> Forall P (upd i v l).
Proof.
  intros Hv Hl; revert i; induction Hl as [|x l Hx Hl IH]; intros [|i];
    simpl; constructor; auto.
Qed.

Lemma blit_length (src dst : list Z) : length (blit src dst) = length dst.
Proof.
  revert dst; induction src as [|c src IH]; intros [|d dst]; simpl; auto.
Qed.

Lemma blit_app (src dst : list Z) :
  (length src <= length dst)%nat ->
  blit src dst = src ++ skipn (length src) dst.
Proof.
  revert dst; induction src as [|c src IH]; intros [|d dst] H; simpl in *;
    try reflexivity; try lia.
  rewrite IH by lia; reflexivity.
Qed.

(** ** C strings *)

Lemma cstr_app (str rest : list Z) :
  nul_free str -> cstr (str ++ 0 :: rest) = Some str.
Proof.
  induction 1 as [|c str Hc Hs IH]; simpl; [reflexivity|].
  destruct (Z.eqb_spec c 0); [contradiction|].
  rewrite IH; reflexivity.
Qed.

Lemma cstr_inv (buf str : list Z) :
  cstr buf = Some str ->
  nul_free str /\ exists rest, buf = str ++ 0 :: rest.
Proof.
  revert str; induction buf as [|c buf IH]; simpl; intros str H;
    [discriminate|].
  destruct (Z.eqb_spec c 0) as [->|Hc].
  - injection H as <-. split; [constructor | now exists buf].
  - destruct (cstr buf) as [t|]; [|discriminate].
    injection H as <-. destruct (IH t eq_refl) as [Hn [rest ->]].
    split; [constructor; auto | now exists rest].
Qed.

Lemma cstr_length (buf str : list Z) :
  cstr buf = Some str -> (length str < length buf)%nat.
Proof.
  intros H; destruct (cstr_inv _ _ H) as [_ [rest ->]].
  rewrite length_app; simpl; lia.
Qed.

Lemma cstr_blit (str dst : list Z) :
  nul_free str -> (length str < length dst)%nat ->
  cstr (blit (str ++ [0]) dst) = Some str.
Proof.
  intros Hn Hl. rewrite blit_app by (rewrite length_app; simpl; lia).
  rewrite <- app_assoc; simpl. apply cstr_app; assumption.
Qed.

Lemma nul_free_bytes (str : list Z) :
  forallb (fun c => negb (c =? 0)) str = true -> nul_free str.
Proof.
  induction str as [|c str IH]; simpl; intros H; constructor.
  - apply andb_prop in H as [H _]. now destruct (Z.eqb_spec c 0).
  - apply IH. now apply andb_prop in H as [_ H].
Qed.

Lemma cstr_literal (str : string) :
  forallb (fun c => negb (c =? 0)) (bytes_of str) = true ->
  cstr (literal str) = Some (bytes_of str).
Proof.
  intros H; unfold literal. apply cstr_app, nul_free_bytes, H.
Qed.

Lemma store_string_cstr (dst str out : list Z) :
  nul_free str -> store_string dst str = Done out ->
  cstr out = Some str /\ length out = length dst.
Proof.
  unfold store_string; intros Hn H.
  destruct (Nat.ltb_spec (length str) (length dst)); [|discriminate].
  injection H as <-. split; [now apply cstr_blit | apply blit_length].
Qed.

Lemma store_string_fits (dst str : list Z) :
  (length str < length dst)%nat ->
  store_string dst str = Done (blit (str ++ [0]) dst).
Proof.
  unfold store_string; intros H.
  destruct (Nat.ltb_spec (length str) (length dst)); [reflexivity | lia].
Qed.

(** ** Results *)

Lemma bind_done {A B : Type} (m : result A) (k : A -> result B) (b : B) :
  bind m k = Done b -> exists a, m = Done a /\ k a = Done b.
Proof.
  destruct m; simpl; intros H; try discriminate. now exists a.
Qed.

Ltac bind_inv H :=
  let a := fresh "a" in
  let Ha := fresh "Ha" in
  apply bind_done in H; destruct H as [a [Ha H]].

Lemma firstn_S_upd {A : Type} (i : nat) (v : A) (l : list A) :
  (i < length l)%nat -> firstn (S i) (upd i v l) = firstn i l ++ [v].
Proof.
  revert i; induction l as [|x l IH]; intros [|i] H; simpl in *; try lia;
    [reflexivity|].
  f_equal. apply IH; lia.
Qed.

Lemma skipn_upd {A : Type} (i k : nat) (v : A) (l : list A) :
  (i < k)%nat -> skipn k (upd i v l) = skipn k l.
Proof.
  revert i k; induction l as [|x l IH]; intros [|i] [|k] H; simpl; try lia;
    try reflexivity.
  apply IH; lia.
Qed.

Lemma nth_app_at {A : Type} (pre post : list A) (x d : A) :
  nth (length pre) (pre ++ x :: post) d = x.
Proof.
  rewrite app_nth2 by lia. now rewrite Nat.sub_diag.
Qed.

(** ** Writing the record *)

Lemma emit_app (bytes : list Z) :
  forall pre tail, (length bytes <= length tail)%nat ->
  emit bytes (length pre) (pre ++ tail)
  = Done (length (pre ++ bytes), (pre ++ bytes) ++ skipn (length bytes) tail).
Proof.
  induction bytes as [|b bytes IH]; intros pre tail H; simpl.
  - now rewrite app_nil_r.
  - destruct tail as [|o tail]; simpl in H; [lia|].
    destruct (Nat.ltb_spec (length pre) (length (pre ++ o :: tail)))
      as [_|Hge]; [|rewrite length_app in Hge; simpl in Hge; lia].
    rewrite upd_app.
    replace (S (length pre)) with (length (pre ++ [b]))
      by (rewrite length_app; simpl; lia).
    replace (pre ++ b :: tail) with ((pre ++ [b]) ++ tail)
      by (now rewrite <- app_assoc).
    rewrite IH by lia. rewrite <- !app_assoc. reflexivity.
Qed.

Lemma firstn_cstr (row str : list Z) :
  cstr row = Some str -> firstn (S (length str)) row = terminated str.
Proof.
  intros H; destruct (cstr_inv _ _ H) as [_ [rest ->]].
  replace (str ++ 0 :: rest) with (terminated str ++ rest)
    by (unfold terminated; now rewrite <- app_assoc).
  replace (S (length str)) with (length (terminated str) + 0)%nat
    by (unfold terminated; rewrite length_app; simpl; lia).
  rewrite firstn_app_2; simpl. now rewrite app_nil_r.
Qed.

Lemma emit_string_app (row str : list Z) :
  cstr row = Some str ->
  forall pre tail, (length (terminated str) <= length tail)%nat ->
  emit_string row (length pre) (pre ++ tail)
  = Done (length (pre ++ terminated str),
          (pre ++ terminated str) ++ skipn (length (terminated str)) tail).
Proof.
  intros H pre tail Hl. unfold emit_string, strlen, str_arg.
  rewrite H; cbn [bind]. rewrite (firstn_cstr _ _ H). now apply emit_app.
Qed.

Lemma emit_rows_app (rows : list (list Z)) :
  forall strs, cstrs rows = Some strs ->
  forall pre tail, (length (encode_rows strs) <= length tail)%nat ->
  emit_rows rows (length pre) (pre ++ tail)
  = Done (length (pre ++ encode_rows strs),
          (pre ++ encode_rows strs)
          ++ skipn (length (encode_rows strs)) tail).
Proof.
  induction rows as [|row rows IH]; simpl; intros strs H pre tail Hl.
  - injection H as <-. simpl. now rewrite app_nil_r.
  - destruct (cstr row) as [str|] eqn:Hrow; [|discriminate].
    destruct (cstrs rows) as [rest|] eqn:Hrows; [|discriminate].
    injection H as <-. unfold encode_rows in *; simpl in *.
    rewrite length_app in Hl.
    rewrite (emit_string_app _ _ Hrow) by lia. cbn [bind].
    rewrite (IH rest eq_refl) by (rewrite length_skipn; lia).
    rewrite skipn_skipn, (length_app (terminated str)), <- !app_assoc.
    now rewrite (Nat.add_comm (length (terminated str))).
Qed.

(** ** Reading the record *)

Lemma upd_eq {A : Type} (i : nat) (v : A) (l : list A) :
  (i < length l)%nat -> upd i v l = firstn i l ++ v :: skipn (S i) l.
Proof.
  revert i; induction l as [|x l IH]; intros [|i] H; simpl in *; try lia;
    [reflexivity|].
  f_equal. apply IH; lia.
Qed.

Lemma read_field_spec (str : list Z) :
  forall fuel pre rest dst i l,
  nul_free str -> length pre = S l ->
  (i + length str < length dst)%nat -> (length str < fuel)%nat ->
  read_field fuel (pre ++ str ++ 0 :: rest) l dst i
  = Done (firstn i dst ++ terminated str
            ++ skipn (i + length str + 1) dst,
          (l + length str + 1)%nat).
Proof.
  induction str as [|c str IH]; intros fuel pre rest dst i l Hn Hp Hd Hf;
    (destruct fuel as [|fuel]; [simpl in Hf; lia|]); cbn [read_field].
  - destruct (Nat.ltb_spec (S l) (length (pre ++ [] ++ 0 :: rest)))
      as [_|Hge]; [|rewrite length_app in Hge; simpl in Hge; lia].
    destruct (Nat.ltb_spec i (length dst)); [|simpl in Hd; lia].
    cbn [andb app]. rewrite <- Hp, nth_app_at. cbn [Z.eqb].
    rewrite upd_eq by assumption. unfold terminated. cbn [app length].
    rewrite Hp. repeat f_equal; lia.
  - inversion Hn as [|? ? Hc Hn']; subst. simpl in Hd, Hf.
    destruct (Nat.ltb_spec (S l) (length (pre ++ (c :: str) ++ 0 :: rest)))
      as [_|Hge]; [|rewrite length_app in Hge; simpl in Hge; lia].
    destruct (Nat.ltb_spec i (length dst)); [|lia].
    cbn [andb app]. rewrite <- Hp, nth_app_at.
    destruct (Z.eqb_spec c 0); [contradiction|].
    replace (pre ++ c :: str ++ 0 :: rest)
      with ((pre ++ [c]) ++ str ++ 0 :: rest) by (now rewrite <- app_assoc).
    rewrite IH; try assumption.
    + rewrite firstn_S_upd, skipn_upd by lia. unfold terminated.
      rewrite <- !app_assoc.
      replace (l + length (c :: str) + 1)%nat
        with (length pre + length str + 1)%nat by (simpl; lia).
      replace (i + length (c :: str) + 1)%nat
        with (S i + length str + 1)%nat by (simpl; lia).
      reflexivity.
    + rewrite length_app; simpl; lia.
    + rewrite upd_length; lia.
    + lia.
Qed.

Lemma read_string_spec (str pre rest dst : list Z) (l : nat) :
  nul_free str -> length pre = S l -> (length str < length dst)%nat ->
  read_string (pre ++ terminated str ++ rest) l dst
  = Done (blit (terminated str) dst, (l + length (terminated str))%nat).
Proof.
  intros Hn Hp Hd. unfold read_string, terminated at 1.
  rewrite <- app_assoc. cbn [app].
  rewrite read_field_spec; try assumption; try lia.
  rewrite blit_app by (unfold terminated; rewrite length_app; simpl; lia).
  unfold terminated. rewrite length_app. simpl.
  now rewrite <- app_assoc, Nat.add_assoc.
Qed.

Lemma cstrs_blit (strs : list (list Z)) :
  forall rows, length rows = length strs ->
  Forall short_string strs -> Forall (fun row => length row = 50%nat) rows ->
  cstrs (map (fun p => blit (terminated (fst p)) (snd p)) (combine strs rows))
  = Some strs.
Proof.
  induction strs as [|str strs IH]; intros [|row rows] Hl Hs Hr;
    simpl in *; try discriminate; [reflexivity|].
  inversion Hs as [|? ? [Hn Hlen] Hs']; inversion Hr; subst.
  unfold terminated at 1. rewrite cstr_blit by (assumption || lia).
  rewrite IH; auto.
Qed.

Lemma read_rows_spec (strs : list (list Z)) :
  forall rows pre rest l,
  length rows = length strs -> Forall short_string strs ->
  Forall (fun row => length row = 50%nat) rows -> length pre = S l ->
  read_rows (pre ++ encode_rows strs ++ rest) l rows
  = Done (map (fun p => blit (terminated (fst p)) (snd p))
              (combine strs rows),
          (l + length (encode_rows strs))%nat).
Proof.
  induction strs as [|str strs IH]; intros [|row rows] pre rest l Hl Hs Hr Hp;
    simpl in *; try discriminate.
  - now rewrite Nat.add_0_r.
  - inversion Hs as [|? ? [Hn Hlen] Hs']; inversion Hr; subst.
    unfold encode_rows; cbn [map concat]. rewrite <- app_assoc.
    rewrite read_string_spec by (assumption || lia). cbn [bind].
    fold (encode_rows strs). rewrite (app_assoc pre).
    rewrite IH; auto.
    + cbn [bind]. rewrite length_app, Nat.add_assoc. reflexivity.
    + rewrite length_app, Hp. unfold terminated. rewrite length_app.
      simpl. lia.
Qed.

Lemma bool_of_char (b : bool) : negb (char_of_bool b =? 0) = b.
Proof. now destruct b. Qed.

Lemma read_flags_spec (flags : list bool) :
  forall old pre rest l,
  length old = length flags -> length pre = S l ->
  read_flags (pre ++ map char_of_bool flags ++ rest) l old
  = Done (flags, (l + length flags)%nat).
Proof.
  induction flags as [|b flags IH]; intros [|o old] pre rest l Hl Hp;
    simpl in *; try discriminate.
  - now rewrite Nat.add_0_r.
  - destruct (Nat.ltb_spec (S l)
                (length (pre ++ char_of_bool b :: map char_of_bool flags ++ rest)))
      as [_|Hge]; [|rewrite length_app in Hge; simpl in Hge; lia].
    replace (pre ++ char_of_bool b :: map char_of_bool flags ++ rest)
      with ((pre ++ [char_of_bool b]) ++ map char_of_bool flags ++ rest)
      by (now rewrite <- app_assoc).
    rewrite IH by (rewrite ?length_app; simpl; lia). cbn [bind].
    rewrite <- app_assoc. simpl. rewrite <- Hp, nth_app_at, bool_of_char.
    repeat f_equal. lia.
Qed.

(** ** The checksum *)

Lemma checksum_fold (fs : list Z) (idx : list nat) :
  forall a,
  fold_left (fun checksum i => uint8 (checksum + nth i fs 0)) idx a mod 256
  = (a + fold_right Z.add 0 (map (fun i => nth i fs 0) idx)) mod 256.
Proof.
  induction idx as [|i idx IH]; intros a; simpl.
  - now rewrite Z.add_0_r.
  - rewrite IH. unfold uint8. rewrite Zplus_mod_idemp_l.
    f_equal. lia.
Qed.

Lemma checksum_fold_byte (fs : list Z) (idx : list nat) :
  forall a, 0 <= a < 256 ->
  0 <= fold_left (fun checksum i => uint8 (checksum + nth i fs 0)) idx a < 256.
Proof.
  induction idx as [|i idx IH]; intros a Ha; simpl; [assumption|].
  apply IH. unfold uint8. apply Z.mod_pos_bound. lia.
Qed.

Lemma checksum_of_byte_sum (fs : list Z) :
  checksum_of fs = byte_sum fs mod 256.
Proof.
  unfold checksum_of, byte_sum.
  rewrite <- (Z.mod_small (fold_left _ _ _) 256)
    by (apply checksum_fold_byte; lia).
  now rewrite checksum_fold.
Qed.

Lemma byte_sum_upd_0 (v : Z) (fs : list Z) :
  byte_sum (upd 0 v fs) = byte_sum fs.
Proof.
  unfold byte_sum. f_equal. apply map_ext_in. intros i Hi.
  apply in_seq in Hi. apply nth_upd_neq. lia.
Qed.

Lemma record_valid_upd (fs : list Z) :
  record_valid (upd 0 (checksum_of fs) fs).
Proof.
  unfold record_valid. rewrite byte_sum_upd_0, <- checksum_of_byte_sum.
  destruct fs as [|x fs]; [reflexivity|]. reflexivity.
Qed.

Lemma record_valid_checksum (fs : list Z) :
  (checksum_of fs =? nth 0 fs 0) = true <-> record_valid fs.
Proof.
  unfold record_valid. rewrite <- checksum_of_byte_sum, Z.eqb_eq.
  split; intros H; now symmetry.
Qed.

Lemma save_flash_settings_valid (s s' : state) :
  save_flash_settings s = Done s' -> record_valid (flash_target_contents s').
Proof.
  unfold save_flash_settings. intros H.
  repeat (bind_inv H; destruct a). injection H as <-. fields.
  apply record_valid_upd.
Qed.

(** ** The record that [save_flash_settings] writes *)

Lemma terminated_length (str : list Z) :
  length (terminated str) = S (length str).
Proof. unfold terminated. rewrite length_app. simpl. lia. Qed.

Lemma encode_rows_length (strs : list (list Z)) :
  Forall short_string strs ->
  (length (encode_rows strs) <= 50 * length strs)%nat.
Proof.
  induction 1 as [|str strs [_ Hs] _ IH]; unfold encode_rows in *; simpl;
    [lia|].
  rewrite length_app, terminated_length. lia.
Qed.

Lemma save_flash_settings_spec (s : state) (c : configuration) :
  well_sized s -> configuration_of s = Some c -> valid_configuration c ->
  exists x tail,
    let record := x :: payload c ++ tail in
    length record = FLASH_SETTINGS_BYTES /\
    save_flash_settings s
    = Done (set_store_new_flash_settings false
             (set_flash_target_contents record
               (set_flash_settings record s))).
Proof.
  intros Hs Hc Hv. unfold configuration_of in Hc.
  destruct (cstr (passw s)) as [p|] eqn:Hp; [|discriminate].
  destruct (cstr (tel_no s)) as [t|] eqn:Ht; [|discriminate].
  destruct (cstrs (sms_on_fall s)) as [f|] eqn:Hf; [|discriminate].
  destruct (cstrs (sms_on_rise s)) as [r|] eqn:Hr; [|discriminate].
  injection Hc as <-.
  destruct Hv as [[_ Hpl] [_ Htl] [Hfn Hfs] [Hrn Hrs] Hfl].
  cbn [password_of destination_number message_on_activate
       message_on_deactivate notify_enabled] in *.
  apply encode_rows_length in Hfs, Hrs. rewrite Hfn in Hfs. rewrite Hrn in Hrs.
  unfold GPIO_NUMBER_PINS in *.
  pose proof (size_flash_settings s Hs) as Hlen.
  unfold save_flash_settings, payload.
  cbn [password_of destination_number message_on_activate
       message_on_deactivate notify_enabled].
  destruct (flash_settings s) as [|x0 t0]; [discriminate|].
  unfold FLASH_SETTINGS_BYTES in *. cbn [length] in Hlen.
  replace (firstn 7 (passw s)) with (terminated p)
    by (now rewrite <- (firstn_cstr _ _ Hp), Hpl).
  change (emit (terminated p) 1 (x0 :: t0))
    with (emit (terminated p) (length [x0]) ([x0] ++ t0)).
  rewrite emit_app by (rewrite terminated_length; lia). cbn [bind].
  rewrite (emit_string_app _ _ Ht)
    by (rewrite length_skipn, !terminated_length; lia). cbn [bind].
  rewrite (emit_rows_app _ _ Hf)
    by (rewrite !length_skipn, !terminated_length; lia). cbn [bind].
  rewrite (emit_rows_app _ _ Hr)
    by (rewrite !length_skipn, !terminated_length; lia). cbn [bind].
  rewrite emit_app
    by (rewrite !length_skipn, !terminated_length, length_map; lia).
  cbn [bind]. rewrite <- !app_assoc. cbn [app upd].
  eexists; eexists. cbv zeta. rewrite <- !app_assoc.
  split; [|reflexivity].
  cbn [length]. rewrite !length_app, !length_skipn, !terminated_length,
    length_map. lia.
Qed.

(** ** Reading a written record back *)

Lemma table_blit (n : nat) (strs rows : list (list Z)) :
  length strs = n -> table n 50 rows ->
  table n 50 (map (fun p => blit (terminated (fst p)) (snd p))
                  (combine strs rows)).
Proof.
  intros Hn [Hl Hr]. split.
  - rewrite length_map, length_combine. lia.
  - apply Forall_forall. intros row Hin. apply in_map_iff in Hin.
    destruct Hin as [[str old] [<- Hin]]. rewrite blit_length.
    apply in_combine_r in Hin. cbn [snd].
    now apply (proj1 (Forall_forall _ _) Hr).
Qed.

Lemma apply_flash_settings_spec (ram : state) (c : configuration)
    (x : Z) (tail : list Z) :
  well_sized ram -> valid_configuration c ->
  flash_settings ram = x :: payload c ++ tail ->
  exists s, apply_flash_settings ram = Done s
            /\ configuration_of s = Some c
            /\ store_new_flash_settings s = store_new_flash_settings ram
            /\ well_sized s.
Proof.
  intros Hs [[Hpn Hpl] [Htn Htl] [Hfn Hfs] [Hrn Hrs] Hfl] Hfs0.
  destruct c as [p t f r flags].
  cbn [password_of destination_number message_on_activate
       message_on_deactivate notify_enabled] in *.
  destruct Hs as [Hmm Hrc Hrr Hst Hls Haw Hit Hfl0 Hpw Htel Hch Hfall Hrise].
  pose proof Hfall as [Hf3 Hf50]. pose proof Hrise as [Hr3 Hr50].
  unfold apply_flash_settings. rewrite Hfs0. unfold payload.
  cbn [password_of destination_number message_on_activate
       message_on_deactivate notify_enabled].
  rewrite <- !app_assoc.
  change (x :: ?rest) with ([x] ++ rest).
  rewrite read_string_spec by (auto; lia). cbn [bind].
  rewrite (app_assoc [x]).
  rewrite read_string_spec
    by (auto; try lia; rewrite length_app; reflexivity). cbn [bind].
  rewrite (app_assoc (_ ++ _)).
  rewrite read_rows_spec
    by (auto; try congruence; rewrite !length_app; simpl; lia). cbn [bind].
  rewrite (app_assoc (_ ++ _)).
  rewrite read_rows_spec
    by (auto; try congruence; rewrite !length_app; simpl; lia). cbn [bind].
  rewrite (app_assoc (_ ++ _)).
  rewrite read_flags_spec
    by (try congruence; rewrite !length_app; simpl; lia). cbn [bind].
  eexists; split; [reflexivity|]. unfold configuration_of. fields.
  unfold terminated at 1 2.
  rewrite !cstr_blit by (auto; lia).
  rewrite !cstrs_blit by (auto; congruence).
  split; [reflexivity | split; [reflexivity|]].
  constructor; fields; rewrite ?blit_length; auto;
    apply table_blit; congruence.
Qed.

(** ** The defaults *)

Lemma strcpy_literal (dst : list Z) (str : string) :
  nonzero (bytes_of str) = true ->
  (length (bytes_of str) <? length dst)%nat = true ->
  strcpy dst (literal str) = Done (blit (literal str) dst).
Proof.
  intros Hn Hl. unfold strcpy, str_arg. rewrite cstr_literal by assumption.
  cbn [bind]. unfold store_string. now rewrite Hl.
Qed.

Lemma cstr_blit_literal (dst : list Z) (str : string) :
  nonzero (bytes_of str) = true ->
  (length (bytes_of str) <? length dst)%nat = true ->
  cstr (blit (literal str) dst) = Some (bytes_of str).
Proof.
  intros Hn Hl. apply cstr_blit; [now apply nul_free_bytes|].
  now apply Nat.ltb_lt.
Qed.

Lemma table_3 (len : nat) (a : list (list Z)) :
  table GPIO_NUMBER_PINS len a ->
  exists r0 r1 r2, a = [r0; r1; r2]
    /\ length r0 = len /\ length r1 = len /\ length r2 = len.
Proof.
  intros [Hl Hr].
  destruct a as [|r0 [|r1 [|r2 [|]]]]; try discriminate.
  inversion Hr as [|? ? L0 Hr1]; inversion Hr1 as [|? ? L1 Hr2];
    inversion Hr2 as [|? ? L2 _]; subst.
  now exists r0, r1, r2.
Qed.

Lemma table_3_intro (len : nat) (r0 r1 r2 : list Z) :
  length r0 = len -> length r1 = len -> length r2 = len ->
  table GPIO_NUMBER_PINS len [r0; r1; r2].
Proof. intros; split; [reflexivity | repeat constructor; assumption]. Qed.

Lemma for_loop_S (n i : nat) (body : nat -> state -> result state)
    (s : state) :
  for_loop (S n) i body s = (s' <- body i s ;; for_loop n (S i) body s').
Proof. reflexivity. Qed.

Lemma copy_defaults_spec (s : state) :
  well_sized s -> copy_defaults s = Done (with_defaults s).
Proof.
  intros Hs.
  destruct (table_3 _ _ (size_sms_on_fall s Hs)) as (f0 & f1 & f2 & Hf & F0 & F1 & F2).
  destruct (table_3 _ _ (size_sms_on_rise s Hs)) as (r0 & r1 & r2 & Hr & R0 & R1 & R2).
  pose proof (size_passw s Hs) as Hp. pose proof (size_tel_no s Hs) as Ht.
  pose proof (size_send_sms_on_change s Hs) as Hc.
  destruct (send_sms_on_change s) as [|c0 [|c1 [|c2 [|]]]] eqn:Hcs;
    try discriminate.
  unfold copy_defaults, with_defaults, default_passw, default_tel_no.
  rewrite strcpy_literal by (rewrite ?Hp; reflexivity). cbn [bind]. fields.
  rewrite strcpy_literal by (rewrite ?Ht; reflexivity). cbn [bind].
  unfold GPIO_NUMBER_PINS.
  do 3 (rewrite for_loop_S; fields; rewrite ?Hf, ?Hr, ?Hcs;
        cbn [nth default_sms_on_fall default_sms_on_rise upd
             default_send_sms_on_change];
        rewrite strcpy_literal
          by (rewrite ?F0, ?F1, ?F2; reflexivity);
        cbn [bind]; fields; rewrite ?Hf, ?Hr, ?Hcs;
        cbn [nth default_sms_on_fall default_sms_on_rise upd
             default_send_sms_on_change];
        rewrite strcpy_literal
          by (rewrite ?R0, ?R1, ?R2; reflexivity);
        cbn [bind]; fields; rewrite ?Hf, ?Hr, ?Hcs;
        cbn [nth default_sms_on_fall default_sms_on_rise upd
             default_send_sms_on_change]).
  cbn [for_loop]. reflexivity.
Qed.

Lemma with_defaults_configuration (s : state) :
  well_sized s -> configuration_of (with_defaults s) = Some default_configuration.
Proof.
  intros Hs.
  destruct (table_3 _ _ (size_sms_on_fall s Hs)) as (f0 & f1 & f2 & Hf & F0 & F1 & F2).
  destruct (table_3 _ _ (size_sms_on_rise s Hs)) as (r0 & r1 & r2 & Hr & R0 & R1 & R2).
  pose proof (size_passw s Hs) as Hp. pose proof (size_tel_no s Hs) as Ht.
  unfold configuration_of, with_defaults. fields. rewrite Hf, Hr.
  unfold default_passw, default_tel_no, default_sms_on_fall,
    default_sms_on_rise. cbn [combine map fst snd cstrs].
  rewrite !cstr_blit_literal
    by (rewrite ?Hp, ?Ht, ?F0, ?F1, ?F2, ?R0, ?R1, ?R2; reflexivity).
  reflexivity.
Qed.

Lemma with_defaults_sized (s : state) :
  well_sized s -> well_sized (with_defaults s).
Proof.
  intros Hs.
  destruct (table_3 _ _ (size_sms_on_fall s Hs)) as (f0 & f1 & f2 & Hf & F0 & F1 & F2).
  destruct (table_3 _ _ (size_sms_on_rise s Hs)) as (r0 & r1 & r2 & Hr & R0 & R1 & R2).
  destruct Hs. unfold with_defaults.
  constructor; fields; rewrite ?blit_length; auto.
  - rewrite Hf. apply table_3_intro; now rewrite blit_length.
  - rewrite Hr. apply table_3_intro; now rewrite blit_length.
Qed.

Lemma default_configuration_valid : valid_configuration default_configuration.
Proof.
  constructor; cbn [password_of destination_number message_on_activate
                    message_on_deactivate notify_enabled default_configuration].
  - split; [now apply nul_free_bytes | reflexivity].
  - split; [now apply nul_free_bytes | cbv; lia].
  - split; [reflexivity|].
    repeat constructor; try (now apply nul_free_bytes); cbv; lia.
  - split; [reflexivity|].
    repeat constructor; try (now apply nul_free_bytes); cbv; lia.
  - reflexivity.
Qed.

(** ** Start-up *)

Lemma initial_values_sized (flash : list Z) (ram : state) :
  well_sized ram -> length flash = FLASH_SETTINGS_BYTES ->
  well_sized (set_flash_settings flash (initial_values flash ram)).
Proof.
  intros [] Hl. unfold initial_values. constructor; fields; auto.
Qed.

Lemma initialise_loop_sized (now : Z) (s : state) :
  well_sized s -> well_sized (initialise_loop now s).
Proof.
  intros []. unfold initialise_loop. constructor; fields; auto.
Qed.

Lemma initialise_loop_configuration (now : Z) (s : state) :
  configuration_of (initialise_loop now s) = configuration_of s.
Proof. reflexivity. Qed.

Lemma set_store_configuration (b : bool) (s : state) :
  configuration_of (set_store_new_flash_settings b s) = configuration_of s.
Proof. reflexivity. Qed.

Lemma set_store_sized (b : bool) (s : state) :
  well_sized s -> well_sized (set_store_new_flash_settings b s).
Proof. intros []. constructor; fields; auto. Qed.

Lemma restore_settings_invalid (flash : list Z) (s : state) :
  flash_target_contents s = flash -> ~ record_valid flash ->
  well_sized (set_flash_settings flash s) ->
  restore_settings s
  = Done (set_store_new_flash_settings true
            (with_defaults (set_flash_settings flash s))).
Proof.
  intros <- Hv Hs. unfold restore_settings. fields.
  destruct (checksum_of (flash_target_contents s)
            =? nth 0 (flash_target_contents s) 0) eqn:E.
  - apply record_valid_checksum in E. contradiction.
  - cbn [negb]. now rewrite copy_defaults_spec.
Qed.

Lemma restore_settings_valid (flash : list Z) (s : state) :
  flash_target_contents s = flash -> record_valid flash ->
  restore_settings s = apply_flash_settings (set_flash_settings flash s).
Proof.
  intros <- Hv. unfold restore_settings. fields.
  apply record_valid_checksum in Hv. now rewrite Hv.
Qed.

Lemma initial_values_flash (flash : list Z) (ram : state) :
  flash_target_contents (initial_values flash ram) = flash.
Proof. reflexivity. Qed.

(** Start-up from a record that fails the checksum test. *)
Lemma startup_invalid (now : Z) (flash : list Z) (ram : state) :
  well_sized ram -> length flash = FLASH_SETTINGS_BYTES ->
  ~ record_valid flash ->
  exists s, startup now flash ram = Done s
    /\ well_sized s
    /\ configuration_of s = Some default_configuration
    /\ store_new_flash_settings s = true
    /\ awaiting_response s = repeat false MAX_MSG
    /\ flash_target_contents s = flash.
Proof.
  intros Hs Hl Hv. unfold startup.
  pose proof (initial_values_sized flash ram Hs Hl) as Hs0.
  rewrite (restore_settings_invalid flash)
    by (assumption || apply initial_values_flash). cbn [bind].
  eexists; split; [reflexivity|].
  split; [|split; [|split; [|split]]].
  - apply initialise_loop_sized, set_store_sized, with_defaults_sized, Hs0.
  - rewrite initialise_loop_configuration, set_store_configuration.
    apply (with_defaults_configuration _ Hs0).
  - unfold initialise_loop. fields. reflexivity.
  - unfold initialise_loop. fields. reflexivity.
  - unfold initialise_loop, with_defaults, initial_values. fields.
    reflexivity.
Qed.

(** Start-up from a record written by [save_flash_settings]. *)
Lemma startup_written (now x : Z) (tail : list Z) (c : configuration)
    (ram : state) :
  well_sized ram -> valid_configuration c ->
  length (x :: payload c ++ tail) = FLASH_SETTINGS_BYTES ->
  record_valid (x :: payload c ++ tail) ->
  exists s, startup now (x :: payload c ++ tail) ram = Done s
    /\ configuration_of s = Some c
    /\ store_new_flash_settings s = false.
Proof.
  intros Hs Hc Hl Hv. unfold startup.
  pose proof (initial_values_sized _ ram Hs Hl) as Hs0.
  rewrite (restore_settings_valid (x :: payload c ++ tail))
    by (assumption || apply initial_values_flash).
  destruct (apply_flash_settings_spec _ c x tail Hs0 Hc eq_refl)
    as (s & -> & Hcfg & Hst & _).
  cbn [bind]. eexists; split; [reflexivity|]. split.
  - now rewrite initialise_loop_configuration.
  - unfold initialise_loop. fields. exact Hst.
Qed.

(** ** What a part of the loop leaves alone *)

Ltac helpers :=
  unfold write_command, acknowledge_cmgr, await_response, clear_received,
    clear_awaiting in *;
  fields.

Ltac helpers_goal :=
  unfold write_command, acknowledge_cmgr, await_response, clear_received,
    clear_awaiting;
  fields_goal.

Ltac helpers_in H :=
  unfold write_command, acknowledge_cmgr, await_response, clear_received,
    clear_awaiting in H;
  fields_in H.

(** Case analysis along the code, for every hypothesis [... = Done _];
    the hypotheses are taken apart, not rewritten. *)
Ltac crunch_step :=
  match goal with
  | H : Done _ = Done _ |- _ => injection H as H; try subst
  | H : Reboot = Done _ |- _ => discriminate H
  | H : Undefined = Done _ |- _ => discriminate H
  | H : bind ?m _ = Done _ |- _ =>
      let a := fresh "a" in
      let E := fresh "E" in
      destruct m as [a| |] eqn:E; cbn [bind] in H;
      [ | discriminate H | discriminate H ]
  | H : (if ?c then _ else _) = Done _ |- _ => destruct c eqn:?
  | H : (let (_, _) := ?p in _) = Done _ |- _ => destruct p
  | H : match ?x with _ => _ end = Done _ |- _ => destruct x eqn:?
  | H : (let _ := _ in _) = Done _ |- _ => cbv zeta in H
  end.

Ltac crunch := repeat crunch_step.

(** From [E : f x = Done a] and a hint [keeps proj f], [proj a = proj x]. *)
Ltac forward proj :=
  repeat match goal with
         | E : ?f ?x = Done ?a |- _ =>
             lazymatch goal with
             | _ : proj a = _ |- _ => fail
             | _ => idtac
             end;
             let K := fresh "K" in
             assert (K : proj a = proj x)
               by (refine ((_ : keeps proj f) x a E); eauto with keeps);
             helpers_in K; autorewrite with keeps in K
         end.

Create HintDb keeps.
Create Rewrite HintDb keeps.
#[local] Hint Rewrite @upd_length : keeps.

Ltac keeps_tac proj :=
  unfold keeps; intros; crunch; forward proj; helpers_goal;
  autorewrite with keeps; congruence.

Ltac pure_tac :=
  intros;
  repeat match goal with
         | |- context [if ?c then _ else _] => destruct c
         end;
  helpers; autorewrite with keeps; reflexivity.

Lemma for_loop_keeps {A : Type} (proj : state -> A)
    (body : nat -> state -> result state) (n : nat) :
  (forall i, keeps proj (body i)) ->
  forall i, keeps proj (for_loop n i body).
Proof.
  intros Hb. induction n as [|n IH]; intros i s s' H; simpl in H.
  - now injection H as <-.
  - bind_inv H. rewrite (IH _ _ _ H). now apply (Hb i).
Qed.

Lemma fold_left_keeps {A B : Type} (proj : state -> A)
    (f : state -> B -> state) (l : list B) :
  (forall s b, proj (f s b) = proj s) ->
  forall s, proj (fold_left f l s) = proj s.
Proof.
  intros Hf. induction l as [|b l IH]; intros s; simpl; [reflexivity|].
  now rewrite IH, Hf.
Qed.

(** *** The flash sector is written by [save_flash_settings] only *)

Lemma stage_message_flash k out :
  keeps flash_target_contents (stage_message k out).
Proof. unfold stage_message. keeps_tac flash_target_contents. Qed.
#[local] Hint Resolve stage_message_flash : keeps.

Lemma send_sms_flash t m : keeps flash_target_contents (send_sms t m).
Proof. unfold send_sms. keeps_tac flash_target_contents. Qed.
#[local] Hint Resolve send_sms_flash : keeps.

Lemma copy_defaults_flash : keeps flash_target_contents copy_defaults.
Proof.
  unfold copy_defaults. intros s s' H. crunch.
  apply (for_loop_keeps flash_target_contents) in H; [exact H|].
  intros i. keeps_tac flash_target_contents.
Qed.
#[local] Hint Resolve copy_defaults_flash : keeps.

Lemma read_message_loop_flash fuel :
  forall str s,
  flash_target_contents (snd (read_message_loop fuel str s))
  = flash_target_contents s.
Proof.
  induction fuel as [|fuel IH]; intros str s; cbn [read_message_loop];
    repeat match goal with
           | |- context [if ?c then _ else _] => destruct c
           end; cbn [snd]; rewrite ?IH; fields; reflexivity.
Qed.

Lemma store_response_flash k str :
  keeps flash_target_contents (store_response k str).
Proof. unfold store_response. keeps_tac flash_target_contents. Qed.
#[local] Hint Resolve store_response_flash : keeps.

Lemma classify_flash str : keeps flash_target_contents (classify str).
Proof. unfold classify. keeps_tac flash_target_contents. Qed.
#[local] Hint Resolve classify_flash : keeps.

Lemma read_message_flash : keeps flash_target_contents read_message.
Proof.
  unfold read_message. intros s s' H.
  destruct (rx_buffer_number_lf s >? 0); [|now injection H as <-].
  pose proof (read_message_loop_flash (Z.to_nat (rx_buffer_entries s)) [] s)
    as L.
  destruct (read_message_loop _ _ _) as [str s1]. cbn [snd] in L.
  rewrite <- L. revert H. generalize s1. fold (keeps flash_target_contents (fun s1 => if (0 <? length str)%nat then classify (str ++ [0]) s1 else Done s1)).
  keeps_tac flash_target_contents.
Qed.
#[local] Hint Resolve read_message_flash : keeps.

Lemma collect_awaiting_flash s :
  flash_target_contents (collect_awaiting s) = flash_target_contents s.
Proof.
  unfold collect_awaiting. now rewrite fold_left_keeps.
Qed.
#[local] Hint Rewrite collect_awaiting_flash : keeps.

Lemma start_cpsi_check_flash now s :
  flash_target_contents (start_cpsi_check now s) = flash_target_contents s.
Proof. unfold start_cpsi_check. pure_tac. Qed.
#[local] Hint Rewrite start_cpsi_check_flash : keeps.

Lemma process_cpsi_flash now : keeps flash_target_contents (process_cpsi now).
Proof. unfold process_cpsi. keeps_tac flash_target_contents. Qed.
#[local] Hint Resolve process_cpsi_flash : keeps.

Lemma start_creg_check_flash now s :
  flash_target_contents (start_creg_check now s) = flash_target_contents s.
Proof. unfold start_creg_check. pure_tac. Qed.

Lemma process_creg_flash now s :
  flash_target_contents (process_creg now s) = flash_target_contents s.
Proof. unfold process_creg. pure_tac. Qed.
#[local] Hint Rewrite start_creg_check_flash process_creg_flash : keeps.

Lemma process_cmti_flash now : keeps flash_target_contents (process_cmti now).
Proof. unfold process_cmti. keeps_tac flash_target_contents. Qed.
#[local] Hint Resolve process_cmti_flash : keeps.

Lemma process_clcc_flash now s :
  flash_target_contents (process_clcc now s) = flash_target_contents s.
Proof. unfold process_clcc. pure_tac. Qed.
#[local] Hint Rewrite process_clcc_flash : keeps.

Lemma signal_request_flash : keeps flash_target_contents signal_request.
Proof. unfold signal_request. keeps_tac flash_target_contents. Qed.

Lemma telephone_number_flash : keeps flash_target_contents telephone_number.
Proof. unfold telephone_number. keeps_tac flash_target_contents. Qed.

Lemma password_flash : keeps flash_target_contents password.
Proof. unfold password. keeps_tac flash_target_contents. Qed.

Lemma sms_on_input_flash : keeps flash_target_contents sms_on_input.
Proof. unfold sms_on_input. keeps_tac flash_target_contents. Qed.

Lemma message_text_flash : keeps flash_target_contents message_text.
Proof. unfold message_text. keeps_tac flash_target_contents. Qed.

Lemma defaults_flash : keeps flash_target_contents defaults.
Proof. unfold defaults. keeps_tac flash_target_contents. Qed.

Lemma invalid_command_flash : keeps flash_target_contents invalid_command.
Proof. unfold invalid_command. keeps_tac flash_target_contents. Qed.

#[local] Hint Resolve signal_request_flash telephone_number_flash
  password_flash sms_on_input_flash message_text_flash defaults_flash
  invalid_command_flash : keeps.

Lemma parse_sms_flash : keeps flash_target_contents parse_sms.
Proof. unfold parse_sms. keeps_tac flash_target_contents. Qed.
#[local] Hint Resolve parse_sms_flash : keeps.

Lemma process_cmgr_flash now : keeps flash_target_contents (process_cmgr now).
Proof. unfold process_cmgr. keeps_tac flash_target_contents. Qed.
#[local] Hint Resolve process_cmgr_flash : keeps.

Lemma process_csq_flash now : keeps flash_target_contents (process_csq now).
Proof. unfold process_csq. keeps_tac flash_target_contents. Qed.
#[local] Hint Resolve process_csq_flash : keeps.

Lemma delete_messages_flash now s :
  flash_target_contents (delete_messages now s) = flash_target_contents s.
Proof. unfold delete_messages. pure_tac. Qed.

Lemma process_cmgs_flash now s :
  flash_target_contents (process_cmgs now s) = flash_target_contents s.
Proof. unfold process_cmgs. pure_tac. Qed.

Lemma process_unknown_flash s :
  flash_target_contents (process_unknown s) = flash_target_contents s.
Proof. unfold process_unknown. pure_tac. Qed.

Lemma check_timeout_flash now i s :
  flash_target_contents (check_timeout now i s) = flash_target_contents s.
Proof. unfold check_timeout. pure_tac. Qed.

Lemma check_timeouts_flash now s :
  flash_target_contents (check_timeouts now s) = flash_target_contents s.
Proof.
  unfold check_timeouts. apply fold_left_keeps. intros.
  apply check_timeout_flash.
Qed.

Lemma blink_led_flash now s :
  flash_target_contents (blink_led now s) = flash_target_contents s.
Proof. unfold blink_led. pure_tac. Qed.

#[local] Hint Rewrite delete_messages_flash process_cmgs_flash
  process_unknown_flash check_timeouts_flash blink_led_flash : keeps.

Lemma process_ok_flash now : keeps flash_target_contents (process_ok now).
Proof. unfold process_ok. keeps_tac flash_target_contents. Qed.
#[local] Hint Resolve process_ok_flash : keeps.

Lemma process_messages_flash t :
  keeps flash_target_contents (process_messages t).
Proof. unfold process_messages. keeps_tac flash_target_contents. Qed.
#[local] Hint Resolve process_messages_flash : keeps.

Lemma check_pin_flash t i : keeps flash_target_contents (check_pin t i).
Proof. unfold check_pin. keeps_tac flash_target_contents. Qed.

Lemma check_pins_flash t : keeps flash_target_contents (check_pins t).
Proof.
  unfold check_pins. intros s s' H. crunch; [|reflexivity].
  apply (for_loop_keeps flash_target_contents) in H; [exact H|].
  intros i. apply check_pin_flash.
Qed.

Lemma check_password_reset_flash t :
  keeps flash_target_contents (check_password_reset t).
Proof. unfold check_password_reset. keeps_tac flash_target_contents. Qed.
#[local] Hint Resolve check_pins_flash check_password_reset_flash : keeps.

(** A traversal of the loop leaves the flash as it is or leaves a record
    whose checksum byte is right. *)
Lemma loop_body_flash t s s' :
  loop_body t s = Done s' ->
  flash_target_contents s' = flash_target_contents s
  \/ record_valid (flash_target_contents s').
Proof.
  unfold loop_body, act_on_inputs, store_settings. intros H.
  bind_inv H. bind_inv H. bind_inv H.
  apply process_messages_flash in Ha.
  apply check_pins_flash in Ha0. apply check_password_reset_flash in Ha1.
  destruct (store_new_flash_settings _ && _).
  - right. eapply save_flash_settings_valid, H.
  - left. injection H as <-. autorewrite with keeps in *. congruence.
Qed.

(** ** The persistent configuration *)

Lemma store_settings_idle (s : state) :
  store_new_flash_settings s = true ->
  awaiting_response s = repeat false MAX_MSG ->
  store_settings s = save_flash_settings s.
Proof.
  intros Hst Haw. unfold store_settings. now rewrite Hst, Haw.
Qed.

Lemma apply_flash_settings_store :
  keeps store_new_flash_settings apply_flash_settings.
Proof. unfold apply_flash_settings. keeps_tac store_new_flash_settings. Qed.

(** C1: at boot the record is accepted exactly when its byte 0 is the sum
    of bytes 1..1023 mod 256; otherwise the configuration becomes the
    default one and the rewrite that is scheduled leaves on flash a record
    with the right checksum byte that encodes the defaults; and whatever a
    traversal of the loop writes to flash has the right checksum byte. *)
Theorem settings_checksum (now : Z) (flash : list Z) (ram : state) :
  well_sized ram -> length flash = FLASH_SETTINGS_BYTES ->
  (record_valid flash ->
     startup now flash ram
     = (s <- apply_flash_settings
               (set_flash_settings flash (initial_values flash ram)) ;;
        Done (initialise_loop now s))
     /\ forall s, startup now flash ram = Done s ->
                  store_new_flash_settings s = false)
  /\ (~ record_valid flash ->
      exists s, startup now flash ram = Done s
        /\ configuration_of s = Some default_configuration
        /\ store_new_flash_settings s = true
        /\ exists s', store_settings s = Done s'
             /\ store_new_flash_settings s' = false
             /\ record_valid (flash_target_contents s')
             /\ forall now' ram', well_sized ram' ->
                  exists s'',
                    startup now' (flash_target_contents s') ram' = Done s''
                    /\ configuration_of s'' = Some default_configuration
                    /\ store_new_flash_settings s'' = false)
  /\ (forall t s s', loop_body t s = Done s' ->
        flash_target_contents s' = flash_target_contents s
        \/ record_valid (flash_target_contents s')).
Proof.
  intros Hs Hl. split; [|split].
  - intros Hv.
    assert (E : startup now flash ram
                = (s <- apply_flash_settings
                          (set_flash_settings flash (initial_values flash ram)) ;;
                   Done (initialise_loop now s))).
    { unfold startup.
      now rewrite (restore_settings_valid flash)
        by (assumption || apply initial_values_flash). }
    split; [exact E|]. intros s H. rewrite E in H. bind_inv H.
    injection H as <-. apply apply_flash_settings_store in Ha.
    unfold initialise_loop. fields_goal. rewrite Ha. reflexivity.
  - intros Hv.
    destruct (startup_invalid now flash ram Hs Hl Hv)
      as (s & Hrun & Hsz & Hcfg & Hst & Haw & Hfl).
    exists s. repeat (split; [assumption|]).
    destruct (save_flash_settings_spec s default_configuration Hsz Hcfg
                default_configuration_valid) as (x & tail & Hlen & Hsave).
    cbv zeta in Hlen, Hsave.
    rewrite (store_settings_idle s Hst Haw), Hsave.
    eexists; split; [reflexivity|]. fields_goal.
    split; [reflexivity|].
    assert (Hrec : record_valid (x :: payload default_configuration ++ tail)).
    { pose proof (save_flash_settings_valid _ _ Hsave) as V.
      fields_in V. exact V. }
    split; [exact Hrec|]. intros now' ram' Hs'.
    apply startup_written; auto using default_configuration_valid.
  - intros t s s'. apply loop_body_flash.
Qed.

(** C2: a valid configuration that is written to the flash record and read
    back in the declared field order is the same configuration. *)
Theorem configuration_round_trip (s : state) (c : configuration) :
  well_sized s -> configuration_of s = Some c -> valid_configuration c ->
  exists s', save_flash_settings s = Done s'
    /\ length (flash_target_contents s') = FLASH_SETTINGS_BYTES
    /\ forall ram, well_sized ram ->
         flash_settings ram = flash_target_contents s' ->
         exists s'', apply_flash_settings ram = Done s''
                     /\ configuration_of s'' = Some c.
Proof.
  intros Hs Hc Hv.
  destruct (save_flash_settings_spec s c Hs Hc Hv) as (x & tail & Hlen & Hsave).
  cbv zeta in Hlen, Hsave. rewrite Hsave.
  eexists; split; [reflexivity|]. fields_goal. split; [exact Hlen|].
  intros ram Hr Hfs.
  destruct (apply_flash_settings_spec ram c x tail Hr Hv Hfs)
    as (s'' & Hrun & Hcfg & _).
  now exists s''.
Qed.

(** ** Comparing strings *)

Lemma strncmp_prefix_of (pat : list Z) :
  nul_free pat ->
  forall a tail,
  (strncmp a (pat ++ tail) (length pat) =? 0) = prefix_of pat a.
Proof.
  induction 1 as [|c pat Hc Hn IH]; intros a tail; [reflexivity|].
  cbn [app length strncmp hd tl].
  destruct a as [|x a]; cbn [hd tl prefix_of].
  - destruct (Z.eqb_spec 0 c) as [E|Hx]; [congruence|].
    apply Z.eqb_neq. lia.
  - rewrite (Z.eqb_sym c x).
    destruct (Z.eqb_spec x c) as [E|Hx]; cbn [andb].
    + subst x. destruct (Z.eqb_spec c 0); [contradiction | apply IH].
    + apply Z.eqb_neq. lia.
Qed.

Lemma prefix_of_spec (pat a : list Z) :
  prefix_of pat a = true <-> exists rest, a = pat ++ rest.
Proof.
  revert a; induction pat as [|c pat IH]; intros a; cbn [prefix_of].
  - split; [now exists a | reflexivity].
  - destruct a as [|x a].
    + split; [discriminate | now intros [rest H]].
    + rewrite andb_true_iff, IH, Z.eqb_eq. split.
      * intros [-> [rest ->]]. now exists rest.
      * cbn [app]. intros [rest H]. injection H as -> ->.
        split; [reflexivity | now exists rest].
Qed.

Lemma prefix_of_app_l (p v a : list Z) :
  prefix_of (p ++ v) a = true -> prefix_of p a = true.
Proof.
  rewrite !prefix_of_spec. intros [rest ->].
  exists (v ++ rest). now rewrite app_assoc.
Qed.

Lemma prefix_of_app (p v a : list Z) :
  prefix_of (p ++ v) (p ++ a) = prefix_of v a.
Proof.
  induction p as [|c p IH]; cbn [app prefix_of]; [reflexivity|].
  now rewrite Z.eqb_refl, IH.
Qed.

Lemma prefix_of_firstn (p a : list Z) :
  prefix_of p a = true <-> firstn (length p) a = p /\ (length p <= length a)%nat.
Proof.
  rewrite prefix_of_spec. split.
  - intros [rest ->]. split.
    + rewrite firstn_app, Nat.sub_diag, firstn_all. cbn [firstn].
      apply app_nil_r.
    + rewrite length_app. lia.
  - intros [H _]. exists (skipn (length p) a).
    rewrite <- H at 1. symmetry. apply firstn_skipn.
Qed.

(** Two prefixes of the same length followed by different verbs. *)
Lemma prefix_of_other (p q v w a : list Z) :
  length p = length q -> prefix_of v (w ++ a) = false ->
  prefix_of (p ++ v) (q ++ w ++ a) = false.
Proof.
  revert q; induction p as [|c p IH]; intros [|d q] Hl Hv;
    try discriminate; cbn [app prefix_of]; [assumption|].
  rewrite IH by (cbn [length] in Hl; lia || assumption).
  apply andb_false_r.
Qed.

(** ** The password prefix *)

Lemma sprintf_fits (out : list Z) :
  (length out <? max_str_l)%nat = true -> sprintf out = Done (out ++ [0]).
Proof. unfold sprintf. now intros ->. Qed.

Lemma command_is_spec (verb : string) (p : list Z) (s : state) :
  password_is p s -> nonzero (bytes_of verb) = true ->
  (length (bytes_of verb) <? 100)%nat = true ->
  command_is verb s
  = Done (prefix_of (p ++ bytes_of verb) (received_sms_text s)).
Proof.
  intros [Hp Hl] Hn Hv. unfold command_is, str_arg. rewrite Hp. cbn [bind].
  apply Nat.ltb_lt in Hv.
  rewrite sprintf_fits
    by (apply Nat.ltb_lt; rewrite length_app, Hl; unfold max_str_l; lia).
  cbn [bind]. f_equal.
  replace (verb_end verb) with (length (p ++ bytes_of verb)).
  - apply strncmp_prefix_of. apply Forall_app. split.
    + now destruct (cstr_inv _ _ Hp).
    + now apply nul_free_bytes.
  - unfold verb_end, literal. rewrite !length_app, Hl. cbn [length]. lia.
Qed.

Lemma recognised_spec (p : list Z) (s : state) :
  password_is p s ->
  (strncmp (received_sms_text s) (passw s) (7 - 1) =? 0)
  = prefix_of p (received_sms_text s).
Proof.
  intros [Hp Hl]. destruct (cstr_inv _ _ Hp) as [Hn [rest ->]].
  change (7 - 1)%nat with 6%nat. rewrite <- Hl.
  now apply strncmp_prefix_of.
Qed.

(** ** An SMS without the password *)

Lemma command_is_wrong_password (verb : string) (p : list Z) (s : state) :
  password_is p s -> prefix_of p (received_sms_text s) = false ->
  nonzero (bytes_of verb) = true ->
  (length (bytes_of verb) <? 100)%nat = true ->
  command_is verb s = Done false.
Proof.
  intros Hp Hw Hn Hl. rewrite (command_is_spec verb p s Hp Hn Hl). f_equal.
  destruct (prefix_of (p ++ bytes_of verb) (received_sms_text s)) eqn:E;
    [|reflexivity].
  apply prefix_of_app_l in E. congruence.
Qed.

Lemma parse_sms_wrong_password (p : list Z) (s : state) :
  password_is p s -> prefix_of p (received_sms_text s) = false ->
  parse_sms s = Done (set_recognised_instruction false s).
Proof.
  intros Hp Hw. unfold parse_sms. rewrite (recognised_spec p s Hp), Hw.
  set (s0 := set_recognised_instruction false s).
  assert (Hp0 : password_is p s0) by exact Hp.
  assert (Hw0 : prefix_of p (received_sms_text s0) = false) by exact Hw.
  assert (Hc : forall verb,
             nonzero (bytes_of verb) = true ->
             (length (bytes_of verb) <? 100)%nat = true ->
             command_is verb s0 = Done false)
    by (intros; now apply (command_is_wrong_password verb p)).
  unfold signal_request, telephone_number, password, sms_on_input,
    message_text, defaults, invalid_command.
  repeat (rewrite Hc by reflexivity; cbn [bind]).
  reflexivity.
Qed.

(** C3: an SMS whose first six characters are not the password changes
    neither the configuration nor the flag that schedules its storage, and
    leaves the multi-stage action and its messages as they were. *)
Theorem wrong_password_ignored (now : Z) (s : state) (p : list Z) :
  password_is p s -> firstn 6 (received_sms_text s) <> p ->
  exists s', process_cmgr now s = Done s'
    /\ passw s' = passw s /\ tel_no s' = tel_no s
    /\ sms_on_fall s' = sms_on_fall s /\ sms_on_rise s' = sms_on_rise s
    /\ send_sms_on_change s' = send_sms_on_change s
    /\ store_new_flash_settings s' = store_new_flash_settings s
    /\ multi_stage_handling_type s' = multi_stage_handling_type s
    /\ multi_stage_message s' = multi_stage_message s.
Proof.
  intros Hp Hw.
  assert (Hpre : prefix_of p (received_sms_text s) = false).
  { destruct (prefix_of p (received_sms_text s)) eqn:E; [|reflexivity].
    apply prefix_of_firstn in E. destruct Hp as [_ Hl].
    rewrite Hl in E. now destruct E. }
  unfold process_cmgr.
  destruct (flag CMGR (received s) && flag CMGR (awaiting_response s)
            && received_sms s).
  - rewrite (parse_sms_wrong_password p) by assumption.
    eexists; split; [reflexivity|]. unfold acknowledge_cmgr.
    helpers_goal. repeat split.
  - destruct (flag CMGR (received s) && negb (flag CMGR (awaiting_response s))).
    + eexists; split; [reflexivity|]. helpers_goal. repeat split.
    + destruct (negb (flag CMGR (awaiting_response s)) && received_sms s);
        eexists; (split; [reflexivity|]); helpers_goal; repeat split.
Qed.

(** ** An SMS with the password and a command *)

Lemma sms_is_text (p : list Z) (verb : string) (arg : list Z) (s : state) :
  sms_is p verb arg s ->
  nul_free arg /\
  exists rest, received_sms_text s = p ++ bytes_of verb ++ arg ++ 0 :: rest.
Proof.
  intros H. destruct (cstr_inv _ _ H) as [Hn [rest ->]]. split.
  - apply Forall_app in Hn as [_ Hn]. now apply Forall_app in Hn as [_ Hn].
  - exists rest. now rewrite <- !app_assoc.
Qed.

(** The command is [verb] and no other. *)
Lemma command_is_same (verb : string) (p arg : list Z) (s : state) :
  password_is p s -> sms_is p verb arg s ->
  nonzero (bytes_of verb) = true ->
  (length (bytes_of verb) <? 100)%nat = true ->
  command_is verb s = Done true.
Proof.
  intros Hp Hs Hn Hl. rewrite (command_is_spec verb p s Hp Hn Hl). f_equal.
  destruct (sms_is_text _ _ _ _ Hs) as [_ [rest ->]].
  apply prefix_of_spec. exists (arg ++ 0 :: rest). now rewrite <- app_assoc.
Qed.

Lemma command_is_other (other verb : string) (p q arg : list Z) (s : state) :
  password_is q s -> length p = 6%nat -> sms_is p verb arg s ->
  nonzero (bytes_of other) = true ->
  (length (bytes_of other) <? 100)%nat = true ->
  (forall rest, prefix_of (bytes_of other) (bytes_of verb ++ rest) = false) ->
  command_is other s = Done false.
Proof.
  intros Hq Hl Hs Hn Hlen Hd.
  rewrite (command_is_spec other q s Hq Hn Hlen). f_equal.
  destruct (sms_is_text _ _ _ _ Hs) as [_ [rest ->]].
  apply prefix_of_other; [destruct Hq; lia | apply Hd].
Qed.

(** The argument of the command, as [&received_sms_text[j]]. *)
Lemma argument_at (verb : string) (p arg : list Z) (s : state) :
  length p = 6%nat -> sms_is p verb arg s ->
  exists rest,
    skipn (verb_end verb) (received_sms_text s) = arg ++ 0 :: rest.
Proof.
  intros Hl Hs. destruct (sms_is_text _ _ _ _ Hs) as [_ [rest ->]].
  exists rest. rewrite app_assoc.
  replace (verb_end verb) with (length (p ++ bytes_of verb)).
  - now rewrite skipn_app, skipn_all, Nat.sub_diag.
  - unfold verb_end, literal. rewrite !length_app, Hl. cbn [length]. lia.
Qed.

Lemma argument_short (verb : string) (p arg : list Z) (s : state) :
  sms_is p verb arg s -> length (received_sms_text s) = max_str_l ->
  (length arg < max_str_l)%nat.
Proof.
  intros Hs Hl. apply cstr_length in Hs. rewrite Hl, !length_app in Hs. lia.
Qed.

(** The commands that follow the recognised one are skipped. *)
Lemma skip_signal_request (s : state) :
  command_is " Signal?" s = Done false -> signal_request s = Done s.
Proof. unfold signal_request. now intros ->. Qed.

Lemma skip_telephone_number (s : state) :
  command_is " TelephoneNumber!" s = Done false -> telephone_number s = Done s.
Proof. unfold telephone_number. now intros ->. Qed.

Lemma skip_password (s : state) :
  command_is " Password!" s = Done false -> password s = Done s.
Proof. unfold password. now intros ->. Qed.

Lemma skip_sms_on_input (s : state) :
  command_is " SMSonInput!" s = Done false -> sms_on_input s = Done s.
Proof. unfold sms_on_input. now intros ->. Qed.

Lemma skip_message_text (s : state) :
  command_is " MessageText!" s = Done false -> message_text s = Done s.
Proof. unfold message_text. now intros ->. Qed.

Lemma skip_defaults (s : state) :
  command_is " Defaults!" s = Done false -> defaults s = Done s.
Proof. unfold defaults. now intros ->. Qed.

Lemma skip_invalid_command (s : state) :
  recognised_instruction s = false -> invalid_command s = Done s.
Proof. unfold invalid_command. now intros ->. Qed.

Lemma stage_message_fits (k : nat) (out : list Z) (s : state) :
  (length out <? length (nth k (multi_stage_message s) []))%nat = true ->
  stage_message k out s
  = Done (set_multi_stage_message
            (upd k (blit (out ++ [0]) (nth k (multi_stage_message s) []))
                 (multi_stage_message s)) s).
Proof.
  intros H. unfold stage_message, store_string. now rewrite H.
Qed.

Lemma table_nth (n len k : nat) (a : list (list Z)) :
  table n len a -> (k < n)%nat -> length (nth k a []) = len.
Proof.
  intros [Hl Hr] Hk. rewrite <- Hl in Hk.
  apply (proj1 (Forall_forall _ _) Hr). now apply nth_In.
Qed.

(** ** The [Password!] command *)

Lemma password_argument (p arg : list Z) (s : state) :
  well_sized s -> password_is p s -> sms_is p " Password!" arg s ->
  password s
  = (let s := set_multi_stage_handling_type MULTI_STAGE_RECEIVED_PW s in
     s <- (if (length arg =? 6)%nat then
             p <- strcpy (passw s) (arg ++ [0]) ;;
             let s := set_passw p s in
             let s := set_store_new_flash_settings true s in
             stage_message MULTI_STAGE_RECEIVED_PW ok_changed_password s
           else
             stage_message MULTI_STAGE_RECEIVED_PW error_invalid_password s) ;;
     Done (set_recognised_instruction false s)).
Proof.
  intros Hsz Hp Hs. unfold password.
  rewrite (command_is_same " Password!" p arg s Hp Hs) by reflexivity.
  cbn [bind].
  change (received_sms_text (set_multi_stage_handling_type _ s))
    with (received_sms_text s).
  destruct Hp as [Hp Hl6].
  destruct (argument_at " Password!" p arg s Hl6 Hs) as [rest ->].
  destruct (sms_is_text _ _ _ _ Hs) as [Hn _].
  unfold str_arg at 1. rewrite (cstr_app arg rest Hn). cbn [bind].
  rewrite sprintf_fits
    by (apply Nat.ltb_lt;
        apply (argument_short _ _ _ _ Hs), (size_received_sms_text s Hsz)).
  cbn [bind]. unfold strlen, str_arg. rewrite (cstr_app arg [] Hn).
  cbn [bind]. reflexivity.
Qed.

Lemma parse_sms_password (p arg : list Z) (s : state) :
  well_sized s -> password_is p s -> sms_is p " Password!" arg s ->
  exists s', parse_sms s = Done s'
    /\ multi_stage_handling_type s' = MULTI_STAGE_RECEIVED_PW
    /\ tel_no s' = tel_no s /\ sms_on_fall s' = sms_on_fall s
    /\ sms_on_rise s' = sms_on_rise s
    /\ send_sms_on_change s' = send_sms_on_change s
    /\ if (length arg =? 6)%nat then
         cstr (passw s') = Some arg
         /\ store_new_flash_settings s' = true
         /\ cstr (nth MULTI_STAGE_RECEIVED_PW (multi_stage_message s') [])
            = Some ok_changed_password
       else
         passw s' = passw s
         /\ store_new_flash_settings s' = store_new_flash_settings s
         /\ cstr (nth MULTI_STAGE_RECEIVED_PW (multi_stage_message s') [])
            = Some error_invalid_password.
Proof.
  intros Hsz Hp Hs. unfold parse_sms.
  assert (Hpre : prefix_of p (received_sms_text s) = true).
  { destruct (sms_is_text _ _ _ _ Hs) as [_ [rest ->]].
    apply prefix_of_spec. now eexists. }
  rewrite (recognised_spec p s Hp), Hpre.
  set (s0 := set_recognised_instruction true s).
  assert (Hsz0 : well_sized s0) by (destruct Hsz; constructor; assumption).
  assert (Hp0 : password_is p s0) by exact Hp.
  assert (Hs0 : sms_is p " Password!" arg s0) by exact Hs.
  assert (Hl6 : length p = 6%nat) by apply Hp.
  rewrite skip_signal_request
    by (apply (command_is_other _ " Password!" p p arg); auto).
  cbn [bind].
  rewrite skip_telephone_number
    by (apply (command_is_other _ " Password!" p p arg); auto).
  cbn [bind].
  rewrite (password_argument p arg s0 Hsz0 Hp0 Hs0). cbv zeta.
  pose proof (table_nth _ _ MULTI_STAGE_RECEIVED_PW _
                (size_multi_stage_message s Hsz) ltac:(cbv; lia)) as Hrow.
  pose proof (size_passw s Hsz) as Hpw.
  destruct (sms_is_text _ _ _ _ Hs) as [Hn _].
  destruct (Nat.eqb_spec (length arg) 6) as [Ha|Ha].
  - unfold strcpy, str_arg. rewrite (cstr_app arg [] Hn). cbn [bind].
    rewrite store_string_fits by (change (passw _) with (passw s); lia).
    cbn [bind].
    rewrite stage_message_fits
      by (change (multi_stage_message _) with (multi_stage_message s);
          rewrite Hrow; reflexivity).
    cbn [bind].
    match goal with
    | |- context [sms_on_input ?x] => set (s3 := x)
    end.
    assert (Hp3 : password_is arg s3).
    { split; [|exact Ha]. subst s3 s0. fields_goal.
      apply cstr_blit; [assumption | lia]. }
    assert (Hs3 : sms_is p " Password!" arg s3) by exact Hs.
    rewrite skip_sms_on_input
      by (apply (command_is_other _ " Password!" p arg arg); auto).
    cbn [bind].
    rewrite skip_message_text
      by (apply (command_is_other _ " Password!" p arg arg); auto).
    cbn [bind].
    rewrite skip_defaults
      by (apply (command_is_other _ " Password!" p arg arg); auto).
    cbn [bind].
    rewrite skip_invalid_command by reflexivity.
    eexists; split; [reflexivity|]. subst s3 s0. fields_goal.
    repeat (split; [reflexivity|]).
    split; [apply cstr_blit; [assumption | lia]|].
    split; [reflexivity|].
    rewrite nth_upd_eq
      by (rewrite (proj1 (size_multi_stage_message s Hsz)); cbv; lia).
    apply cstr_blit; [now apply nul_free_bytes | rewrite Hrow; cbv; lia].
  - rewrite stage_message_fits
      by (change (multi_stage_message _) with (multi_stage_message s);
          rewrite Hrow; reflexivity).
    cbn [bind].
    match goal with
    | |- context [sms_on_input ?x] => set (s3 := x)
    end.
    assert (Hp3 : password_is p s3) by exact Hp.
    assert (Hs3 : sms_is p " Password!" arg s3) by exact Hs.
    rewrite skip_sms_on_input
      by (apply (command_is_other _ " Password!" p p arg); auto).
    cbn [bind].
    rewrite skip_message_text
      by (apply (command_is_other _ " Password!" p p arg); auto).
    cbn [bind].
    rewrite skip_defaults
      by (apply (command_is_other _ " Password!" p p arg); auto).
    cbn [bind].
    rewrite skip_invalid_command by reflexivity.
    eexists; split; [reflexivity|]. subst s3 s0. fields_goal.
    repeat (split; [reflexivity|]).
    rewrite nth_upd_eq
      by (rewrite (proj1 (size_multi_stage_message s Hsz)); cbv; lia).
    apply cstr_blit; [now apply nul_free_bytes | rewrite Hrow; cbv; lia].
Qed.

Lemma acknowledge_cmgr_sized (now : Z) (s : state) :
  well_sized s -> well_sized (acknowledge_cmgr now s).
Proof.
  intros []. unfold acknowledge_cmgr, await_response, set_flag.
  constructor; fields_goal; rewrite ?upd_length; assumption.
Qed.

(** C4: a [Password!] command with the right password and an argument that
    is not six characters long stages the error reply and leaves the
    password as it is; with an argument of six characters the password is
    replaced, the settings are marked for storage and the confirmation is
    staged. *)
Theorem password_command (now : Z) (s : state) (p arg : list Z) :
  well_sized s -> password_is p s -> sms_is p " Password!" arg s ->
  flag CMGR (received s) && flag CMGR (awaiting_response s)
  && received_sms s = true ->
  exists s', process_cmgr now s = Done s'
    /\ multi_stage_handling_type s' = MULTI_STAGE_RECEIVED_PW
    /\ if (length arg =? 6)%nat then
         cstr (passw s') = Some arg
         /\ store_new_flash_settings s' = true
         /\ cstr (nth MULTI_STAGE_RECEIVED_PW (multi_stage_message s') [])
            = Some (bytes_of "Ok. Changed password")
       else
         passw s' = passw s
         /\ store_new_flash_settings s' = store_new_flash_settings s
         /\ cstr (nth MULTI_STAGE_RECEIVED_PW (multi_stage_message s') [])
            = Some (bytes_of
                      "Error. Invalid password (needs to be 6 characters)").
Proof.
  intros Hsz Hp Hs Hc. unfold process_cmgr. rewrite Hc.
  destruct (parse_sms_password p arg (acknowledge_cmgr now s)
              (acknowledge_cmgr_sized now s Hsz) Hp Hs)
    as (s' & Hrun & Htag & _ & _ & _ & _ & Hres).
  exists s'. split; [exact Hrun|]. split; [exact Htag|]. exact Hres.
Qed.

(** ** The [SMSonInput!] command *)

Lemma nth_after {A : Type} (pre x : list A) (k : nat) (d : A) :
  nth (length pre + k) (pre ++ x) d = nth k x d.
Proof. now rewrite app_nth2_plus. Qed.

Lemma sms_on_input_argument (p arg : list Z) (s : state) :
  password_is p s -> sms_is p " SMSonInput!" arg s ->
  sms_on_input s
  = (let s := set_multi_stage_handling_type MULTI_STAGE_RECEIVED_PIN_ACTION s in
     s <- match pin_of arg with
          | Some i =>
              let s := set_send_sms_on_change
                         (set_flag i (negb (flag i (send_sms_on_change s)))
                                   (send_sms_on_change s)) s in
              let s := set_store_new_flash_settings true s in
              stage_message MULTI_STAGE_RECEIVED_PIN_ACTION
                (ok_input i (flag i (send_sms_on_change s))) s
          | None =>
              stage_message MULTI_STAGE_RECEIVED_PIN_ACTION
                error_invalid_input s
          end ;;
     Done (set_recognised_instruction false s)).
Proof.
  intros Hp Hs. unfold sms_on_input.
  rewrite (command_is_same " SMSonInput!" p arg s Hp Hs) by reflexivity.
  cbn [bind].
  change (received_sms_text (set_multi_stage_handling_type _ s))
    with (received_sms_text s).
  destruct (sms_is_text _ _ _ _ Hs) as [Hn [rest Ht]].
  assert (Hj : verb_end " SMSonInput!" = length (p ++ bytes_of " SMSonInput!")).
  { destruct Hp as [_ Hl]. unfold verb_end, literal.
    rewrite !length_app, Hl. reflexivity. }
  assert (H0 : nth (verb_end " SMSonInput!") (received_sms_text s) 0
               = nth 0 (arg ++ 0 :: rest) 0).
  { rewrite Hj, Ht, (app_assoc p).
    rewrite <- (Nat.add_0_r (length (p ++ bytes_of " SMSonInput!"))).
    apply nth_after. }
  assert (H1 : nth (verb_end " SMSonInput!" + 1) (received_sms_text s) 0
               = nth 1 (arg ++ 0 :: rest) 0).
  { rewrite Hj, Ht, (app_assoc p). apply nth_after. }
  rewrite H0, H1. cbv zeta.
  destruct arg as [|c [|d arg']]; cbn [pin_of nth app].
  - reflexivity.
  - rewrite Z.eqb_refl, andb_true_r.
    replace ((c - 49 >=? 0) && (c - 49 <? Z.of_nat GPIO_NUMBER_PINS))
      with ((49 <=? c) && (c <=? 51))
      by (unfold GPIO_NUMBER_PINS;
          destruct (Z.leb_spec 49 c), (Z.leb_spec c 51),
            (Z.geb_spec (c - 49) 0), (Z.ltb_spec (c - 49) (Z.of_nat 3));
          cbn [andb]; try reflexivity; lia).
    destruct ((49 <=? c) && (c <=? 51)); reflexivity.
  - inversion Hn as [|? ? _ Hn']; inversion Hn' as [|? ? Hd _]; subst.
    destruct (Z.eqb_spec d 0); [contradiction|].
    now rewrite andb_false_r.
Qed.

Lemma pin_of_spec (arg : list Z) (i : nat) :
  pin_of arg = Some i
  <-> (i < GPIO_NUMBER_PINS)%nat /\ arg = [49 + Z.of_nat i].
Proof.
  unfold pin_of, GPIO_NUMBER_PINS. destruct arg as [|c [|d arg]];
    try (split; [discriminate | now intros [_ H]]).
  split.
  - destruct (Z.leb_spec 49 c) as [L|L], (Z.leb_spec c 51) as [U|U];
      cbn [andb]; try discriminate.
    intros E. assert (Ei : Z.to_nat (c - 49) = i) by congruence.
    split; [lia|]. f_equal. lia.
  - intros [Hi E]. assert (Ec : c = 49 + Z.of_nat i) by congruence.
    destruct (Z.leb_spec 49 c) as [L|L], (Z.leb_spec c 51) as [U|U];
      cbn [andb]; try lia.
    f_equal. lia.
Qed.

Lemma nul_free_app (a b : list Z) :
  nul_free a -> nul_free b -> nul_free (a ++ b).
Proof. intros Ha Hb. apply Forall_app. now split. Qed.

Lemma nul_free_ok_input (i : nat) (b : bool) : nul_free (ok_input i b).
Proof.
  unfold ok_input, digit.
  apply nul_free_app; [now apply nul_free_bytes|].
  apply nul_free_app; [repeat constructor; lia|].
  apply nul_free_app; [now apply nul_free_bytes|].
  apply nul_free_app; [|now apply nul_free_bytes].
  destruct b; [constructor | now apply nul_free_bytes].
Qed.

Lemma ok_input_length (i : nat) (b : bool) : (length (ok_input i b) <= 50)%nat.
Proof.
  unfold ok_input, digit. rewrite !length_app. destruct b; cbn; lia.
Qed.

Lemma parse_sms_sms_on_input (p arg : list Z) (s : state) :
  well_sized s -> password_is p s -> sms_is p " SMSonInput!" arg s ->
  exists s', parse_sms s = Done s'
    /\ multi_stage_handling_type s' = MULTI_STAGE_RECEIVED_PIN_ACTION
    /\ passw s' = passw s
    /\ match pin_of arg with
       | Some i =>
           send_sms_on_change s'
           = set_flag i (negb (flag i (send_sms_on_change s)))
                      (send_sms_on_change s)
           /\ store_new_flash_settings s' = true
           /\ cstr (nth MULTI_STAGE_RECEIVED_PIN_ACTION
                        (multi_stage_message s') [])
              = Some (ok_input i (negb (flag i (send_sms_on_change s))))
       | None =>
           send_sms_on_change s' = send_sms_on_change s
           /\ store_new_flash_settings s' = store_new_flash_settings s
           /\ cstr (nth MULTI_STAGE_RECEIVED_PIN_ACTION
                        (multi_stage_message s') [])
              = Some error_invalid_input
       end.
Proof.
  intros Hsz Hp Hs. unfold parse_sms.
  assert (Hpre : prefix_of p (received_sms_text s) = true).
  { destruct (sms_is_text _ _ _ _ Hs) as [_ [rest ->]].
    apply prefix_of_spec. now eexists. }
  rewrite (recognised_spec p s Hp), Hpre.
  set (s0 := set_recognised_instruction true s).
  assert (Hp0 : password_is p s0) by exact Hp.
  assert (Hs0 : sms_is p " SMSonInput!" arg s0) by exact Hs.
  assert (Hl6 : length p = 6%nat) by apply Hp.
  rewrite skip_signal_request
    by (apply (command_is_other _ " SMSonInput!" p p arg); auto).
  cbn [bind].
  rewrite skip_telephone_number
    by (apply (command_is_other _ " SMSonInput!" p p arg); auto).
  cbn [bind].
  rewrite skip_password
    by (apply (command_is_other _ " SMSonInput!" p p arg); auto).
  cbn [bind].
  rewrite (sms_on_input_argument p arg s0 Hp0 Hs0). cbv zeta.
  pose proof (table_nth _ _ MULTI_STAGE_RECEIVED_PIN_ACTION _
                (size_multi_stage_message s Hsz) ltac:(cbv; lia)) as Hrow.
  pose proof (size_send_sms_on_change s Hsz) as Hflags.
  destruct (pin_of arg) as [i|] eqn:Hpin.
  - apply pin_of_spec in Hpin as [Hi _].
    assert (Hshown : flag i (set_flag i (negb (flag i (send_sms_on_change s)))
                                       (send_sms_on_change s))
                     = negb (flag i (send_sms_on_change s))).
    { unfold flag, set_flag. apply nth_upd_eq. now rewrite Hflags. }
    rewrite stage_message_fits
      by (change (multi_stage_message _) with (multi_stage_message s);
          rewrite Hrow; apply Nat.ltb_lt;
          pose proof (ok_input_length i
            (flag i (send_sms_on_change
               (set_store_new_flash_settings true
                  (set_send_sms_on_change
                     (set_flag i
                        (negb (flag i (send_sms_on_change
                           (set_multi_stage_handling_type
                              MULTI_STAGE_RECEIVED_PIN_ACTION s0))))
                        (send_sms_on_change
                           (set_multi_stage_handling_type
                              MULTI_STAGE_RECEIVED_PIN_ACTION s0)))
                     (set_multi_stage_handling_type
                        MULTI_STAGE_RECEIVED_PIN_ACTION s0))))));
          unfold max_str_l; lia).
    cbn [bind].
    match goal with
    | |- context [message_text ?x] => set (s3 := x)
    end.
    assert (Hp3 : password_is p s3) by exact Hp.
    assert (Hs3 : sms_is p " SMSonInput!" arg s3) by exact Hs.
    rewrite skip_message_text
      by (apply (command_is_other _ " SMSonInput!" p p arg); auto).
    cbn [bind].
    rewrite skip_defaults
      by (apply (command_is_other _ " SMSonInput!" p p arg); auto).
    cbn [bind].
    rewrite skip_invalid_command by reflexivity.
    eexists; split; [reflexivity|]. subst s3 s0. fields_goal.
    repeat (split; [reflexivity|]).
    rewrite nth_upd_eq
      by (rewrite (proj1 (size_multi_stage_message s Hsz)); cbv; lia).
    rewrite Hshown.
    apply cstr_blit; [apply nul_free_ok_input|].
    rewrite Hrow. pose proof (ok_input_length i
                                (negb (flag i (send_sms_on_change s)))).
    unfold max_str_l. lia.
  - rewrite stage_message_fits
      by (change (multi_stage_message _) with (multi_stage_message s);
          rewrite Hrow; reflexivity).
    cbn [bind].
    match goal with
    | |- context [message_text ?x] => set (s3 := x)
    end.
    assert (Hp3 : password_is p s3) by exact Hp.
    assert (Hs3 : sms_is p " SMSonInput!" arg s3) by exact Hs.
    rewrite skip_message_text
      by (apply (command_is_other _ " SMSonInput!" p p arg); auto).
    cbn [bind].
    rewrite skip_defaults
      by (apply (command_is_other _ " SMSonInput!" p p arg); auto).
    cbn [bind].
    rewrite skip_invalid_command by reflexivity.
    eexists; split; [reflexivity|]. subst s3 s0. fields_goal.
    repeat (split; [reflexivity|]).
    rewrite nth_upd_eq
      by (rewrite (proj1 (size_multi_stage_message s Hsz)); cbv; lia).
    apply cstr_blit; [now apply nul_free_bytes | rewrite Hrow; cbv; lia].
Qed.

(** C9: an [SMSonInput!] command toggles the flag of input [i] and stages
    the confirmation exactly when its argument is the one digit of an input
    ['1'..'3']; with any other argument, such as a digit followed by another
    character, it stages the error reply and leaves the flags as they are. *)
Theorem sms_on_input_command (now : Z) (s : state) (p arg : list Z) :
  well_sized s -> password_is p s -> sms_is p " SMSonInput!" arg s ->
  flag CMGR (received s) && flag CMGR (awaiting_response s)
  && received_sms s = true ->
  exists s', process_cmgr now s = Done s'
    /\ multi_stage_handling_type s' = MULTI_STAGE_RECEIVED_PIN_ACTION
    /\ (forall i, (i < GPIO_NUMBER_PINS)%nat -> arg = [49 + Z.of_nat i] ->
          send_sms_on_change s'
          = set_flag i (negb (flag i (send_sms_on_change s)))
                     (send_sms_on_change s)
          /\ store_new_flash_settings s' = true
          /\ cstr (nth MULTI_STAGE_RECEIVED_PIN_ACTION
                       (multi_stage_message s') [])
             = Some (bytes_of "Ok. Input " ++ digit (i + 1)
                     ++ bytes_of " will "
                     ++ (if flag i (send_sms_on_change s')
                         then [] else bytes_of "not ")
                     ++ bytes_of "trigger SMS from now on"))
    /\ ((forall i, (i < GPIO_NUMBER_PINS)%nat -> arg <> [49 + Z.of_nat i]) ->
          send_sms_on_change s' = send_sms_on_change s
          /\ store_new_flash_settings s' = store_new_flash_settings s
          /\ cstr (nth MULTI_STAGE_RECEIVED_PIN_ACTION
                       (multi_stage_message s') [])
             = Some (bytes_of "Error. Invalid input number (must be 1-3)")).
Proof.
  intros Hsz Hp Hs Hc. unfold process_cmgr. rewrite Hc.
  destruct (parse_sms_sms_on_input p arg (acknowledge_cmgr now s)
              (acknowledge_cmgr_sized now s Hsz) Hp Hs)
    as (s' & Hrun & Htag & _ & Hres).
  change (send_sms_on_change (acknowledge_cmgr now s))
    with (send_sms_on_change s) in Hres.
  change (store_new_flash_settings (acknowledge_cmgr now s))
    with (store_new_flash_settings s) in Hres.
  exists s'. split; [exact Hrun|]. split; [exact Htag|]. split.
  - intros i Hi Harg.
    assert (Hpin : pin_of arg = Some i) by (now apply pin_of_spec).
    rewrite Hpin in Hres. destruct Hres as (Hf & Hst & Hm).
    split; [exact Hf|]. split; [exact Hst|]. rewrite Hm. f_equal.
    unfold ok_input. rewrite Hf. unfold flag at 2, set_flag.
    rewrite nth_upd_eq
      by (now rewrite (size_send_sms_on_change s Hsz)).
    reflexivity.
  - intros Hno. destruct (pin_of arg) as [i|] eqn:Hpin.
    + apply pin_of_spec in Hpin as [Hi Harg]. now destruct (Hno i Hi).
    + exact Hres.
Qed.

(** ** The classification of a message *)

Lemma prefix_of_cstr (pat line rest : list Z) :
  nul_free pat ->
  prefix_of pat (line ++ 0 :: rest) = prefix_of pat line.
Proof.
  intros Hn. revert line.
  induction Hn as [|c pat Hc Hn IH]; intros line; [reflexivity|].
  destruct line as [|x line]; cbn [app prefix_of].
  - destruct (Z.eqb_spec c 0); [contradiction | reflexivity].
  - now rewrite IH.
Qed.

Lemma is_prefix_spec (str line : list Z) (p : string) :
  cstr str = Some line -> nonzero (bytes_of p) = true ->
  is_prefix str p = prefix_of (bytes_of p) line.
Proof.
  intros Hs Hn. destruct (cstr_inv _ _ Hs) as [_ [rest ->]].
  unfold is_prefix, literal.
  rewrite strncmp_prefix_of by (now apply nul_free_bytes).
  apply prefix_of_cstr. now apply nul_free_bytes.
Qed.

Lemma flag_set_eq (k : nat) (v : bool) (flags : list bool) :
  (k < length flags)%nat -> flag k (set_flag k v flags) = v.
Proof. unfold flag, set_flag. apply nth_upd_eq. Qed.

Lemma flag_set_neq (i k : nat) (v : bool) (flags : list bool) :
  i <> k -> flag k (set_flag i v flags) = flag k flags.
Proof. unfold flag, set_flag. apply nth_upd_neq. Qed.

Lemma store_response_spec (k : nat) (str line : list Z) (s : state) :
  well_sized s -> cstr str = Some line -> (length line < max_str_l)%nat ->
  (k < MAX_MSG)%nat ->
  exists r, store_response k str s
            = Done (set_received_response r
                      (set_received (set_flag k true (received s)) s)).
Proof.
  intros Hsz Hs Hl Hk. unfold store_response, strcpy, str_arg.
  rewrite Hs. cbn [bind].
  change (received_response (set_received _ s)) with (received_response s).
  rewrite store_string_fits
    by (now rewrite (table_nth _ _ k _ (size_received_response s Hsz) Hk)).
  cbn [bind]. now eexists.
Qed.

(** C5, as the code has it: a message is marked OK exactly when it begins
    with the two characters "OK", and ERROR exactly when it begins with
    "ERROR"; characters that follow do not matter. *)
Theorem classify_by_prefix (str line : list Z) (s : state) :
  well_sized s -> cstr str = Some line -> (length line < max_str_l)%nat ->
  exists s', classify str s = Done s'
    /\ (flag OK (received s') = true
        <-> flag OK (received s) = true
            \/ prefix_of (bytes_of "OK") line = true)
    /\ (flag ERROR (received s') = true
        <-> flag ERROR (received s) = true
            \/ prefix_of (bytes_of "ERROR") line = true).
Proof.
  intros Hsz Hs Hl. unfold classify.
  pose proof (size_received s Hsz) as Hrec.
  rewrite !(is_prefix_spec str line) by (assumption || reflexivity).
  destruct (prefix_of (bytes_of "OK") line) eqn:Hok.
  { eexists; split; [reflexivity|]. fields_goal.
    rewrite flag_set_eq by (rewrite Hrec; cbv; lia).
    rewrite flag_set_neq by discriminate.
    apply prefix_of_spec in Hok as [rest ->].
    change (prefix_of (bytes_of "ERROR") (bytes_of "OK" ++ rest)) with false.
    intuition discriminate. }
  destruct (prefix_of (bytes_of "ERROR") line) eqn:Herr.
  { eexists; split; [reflexivity|]. fields_goal.
    rewrite flag_set_eq by (rewrite Hrec; cbv; lia).
    rewrite flag_set_neq by discriminate. intuition discriminate. }
  assert (Hstore : forall k, (k < MAX_MSG)%nat -> k <> OK -> k <> ERROR ->
            exists s', store_response k str s = Done s'
              /\ (flag OK (received s') = true <->
                  flag OK (received s) = true \/ false = true)
              /\ (flag ERROR (received s') = true <->
                  flag ERROR (received s) = true \/ false = true)).
  { intros k Hk H0 H1.
    destruct (store_response_spec k str line s Hsz Hs Hl Hk) as [r ->].
    eexists; split; [reflexivity|]. fields_goal.
    rewrite !flag_set_neq by assumption. intuition discriminate. }
  assert (Hsame : exists s', Done s = Done s'
              /\ (flag OK (received s') = true <->
                  flag OK (received s) = true \/ false = true)
              /\ (flag ERROR (received s') = true <->
                  flag ERROR (received s) = true \/ false = true)).
  { exists s. intuition discriminate. }
  repeat match goal with
         | |- context [if ?c then _ else _] => destruct c
         end;
    try (apply Hstore; cbv; (lia || discriminate));
    try exact Hsame.
  unfold strcpy, str_arg. rewrite Hs. cbn [bind].
  rewrite store_string_fits
    by (now rewrite (size_received_sms_text s Hsz)).
  cbn [bind]. eexists; split; [reflexivity|]. fields_goal.
  intuition discriminate.
Qed.

(** C5 as stated fails: a message that only begins with "OK" is marked OK. *)
Lemma classify_ok_not_exact :
  ~ (forall str line s s',
       cstr str = Some line -> flag OK (received s) = false ->
       classify str s = Done s' ->
       (flag OK (received s') = true <-> line = bytes_of "OK")).
Proof.
  intros H.
  destruct (H (literal "OKx") (bytes_of "OKx") zero_ram
              (set_received (set_flag OK true (received zero_ram)) zero_ram)
              eq_refl eq_refl eq_refl) as [H1 _].
  specialize (H1 eq_refl). discriminate H1.
Qed.

(** ** Timeouts *)

Lemma check_timeout_initiate (now : Z) (i : nat) (s : state) :
  initiate_time (check_timeout now i s) = initiate_time s.
Proof.
  unfold check_timeout.
  destruct (_ && _); [|reflexivity].
  destruct (i =? CMGR)%nat; reflexivity.
Qed.

Lemma check_timeout_awaiting (now : Z) (i : nat) (s : state) :
  awaiting_response (check_timeout now i s)
  = if timed_out now i s then set_flag i false (awaiting_response s)
    else awaiting_response s.
Proof.
  unfold check_timeout, timed_out.
  destruct (_ && _); [|reflexivity].
  destruct (i =? CMGR)%nat; reflexivity.
Qed.

Lemma check_timeout_action (now : Z) (i : nat) (s : state) :
  multi_stage_handling_type (check_timeout now i s)
  = if timed_out now i s && (i =? CMGR)%nat then 0%nat
    else multi_stage_handling_type s.
Proof.
  unfold check_timeout, timed_out.
  destruct (_ && _); [|reflexivity].
  destruct (i =? CMGR)%nat; reflexivity.
Qed.

Lemma timed_out_other (now : Z) (i k : nat) (s : state) :
  i <> k -> timed_out now k (check_timeout now i s) = timed_out now k s.
Proof.
  intros Hik. unfold timed_out.
  rewrite check_timeout_initiate, check_timeout_awaiting.
  destruct (timed_out now i s); [|reflexivity].
  now rewrite flag_set_neq.
Qed.

(** The loop over a list of responses without repetition. *)
Lemma check_timeouts_fold (now : Z) (l : list nat) :
  NoDup l ->
  forall s k, (k < length (awaiting_response s))%nat ->
  let s' := fold_left (fun s i => check_timeout now i s) l s in
  flag k (awaiting_response s')
  = (if existsb (Nat.eqb k) l
     then flag k (awaiting_response s) && negb (timed_out now k s)
     else flag k (awaiting_response s))
  /\ multi_stage_handling_type s'
     = (if existsb (Nat.eqb CMGR) l && timed_out now CMGR s then 0%nat
        else multi_stage_handling_type s)
  /\ initiate_time s' = initiate_time s
  /\ length (awaiting_response s') = length (awaiting_response s).
Proof.
  induction 1 as [|i l Hi Hl IH]; intros s k Hk; cbn [fold_left existsb].
  - repeat split.
  - assert (Hlen : length (awaiting_response (check_timeout now i s))
                   = length (awaiting_response s)).
    { rewrite check_timeout_awaiting. destruct (timed_out now i s);
        [apply upd_length | reflexivity]. }
    destruct (IH (check_timeout now i s) k ltac:(now rewrite Hlen))
      as (Ha & Ht & Hin & Hl').
    cbv zeta in *. rewrite Ha, Ht, Hin, Hl'. clear Ha Ht Hin Hl'.
    rewrite check_timeout_initiate, Hlen. repeat split.
    + destruct (Nat.eqb_spec k i) as [->|Hki]; cbn [orb].
      * assert (Hnot : existsb (Nat.eqb i) l = false).
        { destruct (existsb (Nat.eqb i) l) eqn:E; [|reflexivity].
          apply existsb_exists in E as [x [Hx E]].
          apply Nat.eqb_eq in E. now subst x. }
        rewrite Hnot, check_timeout_awaiting.
        destruct (timed_out now i s) eqn:E.
        -- rewrite flag_set_eq by assumption. now rewrite andb_false_r.
        -- now rewrite andb_true_r.
      * rewrite timed_out_other by congruence.
        rewrite check_timeout_awaiting.
        destruct (timed_out now i s); [|reflexivity].
        now rewrite flag_set_neq by congruence.
    + rewrite check_timeout_action.
      destruct (Nat.eqb_spec CMGR i) as [<-|Hci]; cbn [orb].
      * assert (Hnot : existsb (Nat.eqb CMGR) l = false).
        { destruct (existsb (Nat.eqb CMGR) l) eqn:E; [|reflexivity].
          apply existsb_exists in E as [x [Hx E]].
          apply Nat.eqb_eq in E. now subst x. }
        rewrite Hnot. cbn [andb]. now rewrite andb_true_r.
      * rewrite timed_out_other by congruence.
        replace (i =? CMGR)%nat with false
          by (symmetry; apply Nat.eqb_neq; congruence).
        now rewrite andb_false_r.
Qed.

Lemma check_timeouts_spec (now : Z) (s : state) (k : nat) :
  (k < MAX_MSG - 1)%nat -> length (awaiting_response s) = MAX_MSG ->
  flag k (awaiting_response (check_timeouts now s))
  = flag k (awaiting_response s) && negb (timed_out now k s)
  /\ multi_stage_handling_type (check_timeouts now s)
     = (if timed_out now CMGR s then 0%nat else multi_stage_handling_type s)
  /\ initiate_time (check_timeouts now s) = initiate_time s
  /\ length (awaiting_response (check_timeouts now s)) = MAX_MSG.
Proof.
  intros Hk Hlen. unfold check_timeouts.
  destruct (check_timeouts_fold now (seq 0 (MAX_MSG - 1)) (seq_NoDup _ _) s k)
    as (Ha & Ht & Hi & Hl).
  { rewrite Hlen. unfold MAX_MSG in *. lia. }
  cbv zeta in *. rewrite Ha, Ht, Hi, Hl. clear Ha Ht Hi Hl.
  assert (Hin : existsb (Nat.eqb k) (seq 0 (MAX_MSG - 1)) = true).
  { apply existsb_exists. exists k. split; [|apply Nat.eqb_refl].
    apply in_seq. lia. }
  rewrite Hin. repeat split. assumption.
Qed.

(** C8: the check for timeouts keeps the wait for a response up to its
    deadline and clears it when the wait has lasted longer: the deadline
    is 60 seconds for OK and 9 seconds for every other response.  A
    response that is not awaited stays so, the times at which the waits
    began stay, and the multi-stage action is reset exactly when the wait
    for CMGR is cleared, after its 9 seconds; otherwise the action stays
    as it is. *)
Theorem timeout_clears_wait (now : Z) (s : state) (k : nat) :
  (k < MAX_MSG - 1)%nat -> length (awaiting_response s) = MAX_MSG ->
  flag k (awaiting_response (check_timeouts now s))
  = flag k (awaiting_response s)
    && negb (absolute_time_diff_us (nth k (initiate_time s) 0) now
             >? (if (k =? OK)%nat then 60000000 else 9000000))
  /\ multi_stage_handling_type (check_timeouts now s)
     = (if flag CMGR (awaiting_response s)
           && (absolute_time_diff_us (nth CMGR (initiate_time s) 0) now
               >? 9000000)
        then 0%nat else multi_stage_handling_type s)
  /\ initiate_time (check_timeouts now s) = initiate_time s.
Proof.
  intros Hk Hlen.
  destruct (check_timeouts_spec now s k Hk Hlen) as (Ha & Ht & Hi & _).
  rewrite Ha, Ht, Hi. unfold timed_out, timeout_us.
  split; [|split; [|reflexivity]].
  - destruct (flag k (awaiting_response s));
      [now rewrite andb_true_r | now rewrite andb_false_r].
  - change (CMGR =? OK)%nat with false. cbv iota.
    now rewrite andb_comm.
Qed.

(** ** The scan of the inputs *)

Lemma send_sms_spec (tel message t m : list Z) (s : state) :
  cstr tel = Some t -> cstr message = Some m ->
  (length t < 100)%nat -> (length m < 100)%nat ->
  send_sms tel message s
  = Done (set_uart_tx (uart_tx s ++ sms_writes t m) s).
Proof.
  intros Ht Hm Hlt Hlm. unfold send_sms, str_arg. rewrite Ht. cbn [bind].
  rewrite sprintf_fits
    by (apply Nat.ltb_lt; rewrite !length_app; cbn [length bytes_of];
        unfold max_str_l; cbn; lia).
  cbn [bind]. rewrite Hm. cbn [bind].
  rewrite sprintf_fits
    by (apply Nat.ltb_lt; rewrite !length_app; cbn [length];
        unfold max_str_l; lia).
  cbn [bind]. unfold write_command, sms_writes. fields_goal.
  now rewrite <- app_assoc.
Qed.

Lemma cstrs_nth (rows strs : list (list Z)) (i : nat) :
  cstrs rows = Some strs -> (i < length rows)%nat ->
  cstr (nth i rows []) = Some (nth i strs []).
Proof.
  revert strs i; induction rows as [|row rows IH]; intros strs i H Hi;
    cbn [length] in Hi; [lia|].
  cbn [cstrs] in H. destruct (cstr row) as [x|] eqn:Hx; [|discriminate].
  destruct (cstrs rows) as [xs|] eqn:Hxs; [|discriminate].
  injection H as <-. destruct i as [|i]; cbn [nth]; [assumption|].
  apply IH; [reflexivity | lia].
Qed.

Lemma upd_same {A : Type} (i : nat) (d : A) (l : list A) :
  upd i (nth i l d) l = l.
Proof.
  revert i; induction l as [|x l IH]; intros [|i]; cbn [upd nth];
    try reflexivity.
  now rewrite IH.
Qed.

(** One input of the scan. *)
Lemma check_pin_spec (t : tick) (i : nat) (s : state) (c : configuration) :
  well_sized s -> configuration_of s = Some c -> (i < GPIO_NUMBER_PINS)%nat ->
  exists s', check_pin t i s = Done s'
    /\ last_status s' = set_flag i (pin_status t i) (last_status s)
    /\ length (uart_tx s')
       = (length (uart_tx s) + (if notifies t s i then 2 else 0))%nat
    /\ send_sms_on_change s' = send_sms_on_change s
    /\ (notifies t s i = true \/ flag CMGS (awaiting_response s) = true ->
        flag CMGS (awaiting_response s') = true)
    /\ well_sized s' /\ configuration_of s' = Some c.
Proof.
  intros Hsz Hc Hi. unfold check_pin, notifies.
  fold (pin_status t i).
  destruct (Bool.eqb (pin_status t i) (flag i (last_status s))) eqn:Heq;
    cbn [negb andb].
  - apply Bool.eqb_prop in Heq. exists s.
    split; [reflexivity|]. split.
    { rewrite Heq. unfold set_flag, flag. symmetry. apply upd_same. }
    split; [lia|]. split; [reflexivity|].
    split; [now intros [H|H]|]. split; assumption.
  - assert (Hst : negb (flag i (last_status s)) = pin_status t i).
    { destruct (pin_status t i), (flag i (last_status s));
        (reflexivity || discriminate). }
    rewrite Hst.
    change (send_sms_on_change (set_last_status _ s))
      with (send_sms_on_change s).
    destruct (flag i (send_sms_on_change s)) eqn:Hen.
    + unfold configuration_of in Hc.
      destruct (cstr (passw s)) as [p|] eqn:Hp; [|discriminate].
      destruct (cstr (tel_no s)) as [tel|] eqn:Htel; [|discriminate].
      destruct (cstrs (sms_on_fall s)) as [f|] eqn:Hf; [|discriminate].
      destruct (cstrs (sms_on_rise s)) as [r|] eqn:Hr; [|discriminate].
      pose proof (cstr_length _ _ Htel) as Ltel.
      rewrite (size_tel_no s Hsz) in Ltel.
      assert (Hmsg : exists m,
                cstr (if pin_status t i then nth i (sms_on_fall s) []
                      else nth i (sms_on_rise s) []) = Some m
                /\ (length m < 100)%nat).
      { destruct (size_sms_on_fall s Hsz) as [Lf _].
        destruct (size_sms_on_rise s Hsz) as [Lr _].
        destruct (pin_status t i).
        - pose proof (cstrs_nth _ _ i Hf ltac:(lia)) as E.
          exists (nth i f []). split; [exact E|].
          apply cstr_length in E.
          rewrite (table_nth _ _ i _ (size_sms_on_fall s Hsz) Hi) in E. lia.
        - pose proof (cstrs_nth _ _ i Hr ltac:(lia)) as E.
          exists (nth i r []). split; [exact E|].
          apply cstr_length in E.
          rewrite (table_nth _ _ i _ (size_sms_on_rise s Hsz) Hi) in E. lia. }
      destruct Hmsg as (m & Hm & Lm).
      change (tel_no (set_last_status _ s)) with (tel_no s).
      change (sms_on_fall (set_last_status _ s)) with (sms_on_fall s).
      change (sms_on_rise (set_last_status _ s)) with (sms_on_rise s).
      rewrite (send_sms_spec _ _ tel m _ Htel Hm) by lia. cbn [bind].
      eexists; split; [reflexivity|]. unfold await_response. fields_goal.
      split; [reflexivity|]. split.
      { rewrite length_app. reflexivity. }
      split; [reflexivity|]. split.
      { intros _. rewrite flag_set_neq by discriminate.
        apply flag_set_eq. rewrite (size_awaiting_response s Hsz).
        cbv; lia. }
      split.
      { destruct Hsz. unfold set_flag.
        constructor; fields_goal; rewrite ?upd_length; assumption. }
      unfold configuration_of. fields_goal. rewrite Hp, Htel, Hf, Hr.
      exact Hc.
    + eexists; split; [reflexivity|]. fields_goal.
      split; [reflexivity|]. split; [lia|]. split; [reflexivity|].
      split; [now intros [H|H]|]. split; [|exact Hc].
      destruct Hsz. unfold set_flag.
      constructor; fields_goal; rewrite ?upd_length; assumption.
Qed.

Lemma send_sms_keeps_awaiting tel message :
  keeps awaiting_response (send_sms tel message).
Proof. unfold send_sms. keeps_tac awaiting_response. Qed.

Lemma notifies_after (t : tick) (s s' : state) (i j : nat) (v : bool) :
  i <> j -> last_status s' = set_flag i v (last_status s) ->
  send_sms_on_change s' = send_sms_on_change s ->
  notifies t s' j = notifies t s j.
Proof.
  intros Hij Hl Hs. unfold notifies. rewrite Hl, Hs.
  now rewrite flag_set_neq.
Qed.

(** C6, as the code has it: a scan sends the SMS of every input that has
    changed and has its SMS enabled, all in the same traversal of the loop,
    and records the level of every input; nothing is left for a later
    scan. *)
Theorem scan_notifies_every_change (t : tick) (s : state) (c : configuration) :
  well_sized s -> configuration_of s = Some c ->
  absolute_time_diff_us (last_status_check_time s) (current_time t) > 1000000 ->
  flag UNKNOWN (awaiting_response s) = false ->
  exists s', check_pins t s = Done s'
    /\ last_status s' = map (pin_status t) (seq 0 GPIO_NUMBER_PINS)
    /\ length (uart_tx s')
       = (length (uart_tx s)
          + 2 * length (filter (notifies t s) (seq 0 GPIO_NUMBER_PINS)))%nat
    /\ (forall i, (i < GPIO_NUMBER_PINS)%nat -> notifies t s i = true ->
          flag CMGS (awaiting_response s') = true).
Proof.
  intros Hsz Hc Hdue Hidle. unfold check_pins.
  apply Z.gtb_gt in Hdue. rewrite Hdue, Hidle. cbn [negb andb].
  set (s0 := set_last_status_check_time (current_time t) s).
  assert (Hsz0 : well_sized s0) by (destruct Hsz; constructor; assumption).
  assert (Hc0 : configuration_of s0 = Some c) by exact Hc.
  unfold GPIO_NUMBER_PINS.
  destruct (check_pin_spec t 0 s0 c Hsz0 Hc0 ltac:(cbv; lia))
    as (s1 & R1 & L1 & U1 & F1 & A1 & Hsz1 & Hc1).
  destruct (check_pin_spec t 1 s1 c Hsz1 Hc1 ltac:(cbv; lia))
    as (s2 & R2 & L2 & U2 & F2 & A2 & Hsz2 & Hc2).
  destruct (check_pin_spec t 2 s2 c Hsz2 Hc2 ltac:(cbv; lia))
    as (s3 & R3 & L3 & U3 & F3 & A3 & Hsz3 & Hc3).
  rewrite for_loop_S, R1. cbn [bind].
  rewrite for_loop_S, R2. cbn [bind].
  rewrite for_loop_S, R3. cbn [bind for_loop].
  exists s3. split; [reflexivity|].
  assert (N1 : notifies t s1 1 = notifies t s 1).
  { apply (notifies_after t s0 s1 0 1 (pin_status t 0));
      [discriminate | exact L1 | exact F1]. }
  assert (N2 : notifies t s2 2 = notifies t s 2).
  { rewrite (notifies_after t s1 s2 1 2 (pin_status t 1))
      by (discriminate || assumption).
    apply (notifies_after t s0 s1 0 2 (pin_status t 0));
      [discriminate | exact L1 | exact F1]. }
  change (notifies t s0 0) with (notifies t s 0) in U1, A1.
  rewrite N1 in U2, A2. rewrite N2 in U3, A3.
  split; [|split].
  - rewrite L3, L2, L1. subst s0. fields_goal.
    pose proof (size_last_status s Hsz) as Hl.
    destruct (last_status s) as [|a [|b [|d [|]]]]; try discriminate.
    reflexivity.
  - rewrite U3, U2, U1. subst s0. fields_goal. cbn [seq filter].
    destruct (notifies t s 0), (notifies t s 1), (notifies t s 2);
      cbn [length]; lia.
  - intros i Hi Hn.
    destruct i as [|[|[|i]]]; try (unfold GPIO_NUMBER_PINS in Hi; lia).
    + apply A3. right. apply A2. right. apply A1. now left.
    + apply A3. right. apply A2. now left.
    + apply A3. now left.
Qed.

(** ** Concrete runs *)

Lemma zero_ram_sized : well_sized zero_ram.
Proof.
  constructor; try reflexivity; split; try reflexivity;
    repeat constructor.
Qed.

Lemma blank_flash_invalid : ~ record_valid blank_flash.
Proof. unfold record_valid. vm_compute. discriminate. Qed.

Lemma started_run : startup 0 blank_flash zero_ram = Done started.
Proof. vm_compute. reflexivity. Qed.

Lemma started_reachable : reachable started.
Proof.
  apply (reach_startup 0 blank_flash zero_ram);
    [exact zero_ram_sized | reflexivity | exact started_run].
Qed.

Lemma scan_all_low :
  loop_body all_low started = Done (state_of (loop_body all_low started)).
Proof. vm_compute. reflexivity. Qed.

(** C6 as stated fails: when the three inputs change in the same scan, the
    SMS of the first two (and of the third) are written in that traversal
    of the loop. *)
Lemma several_sms_in_one_scan :
  ~ (forall t s s', reachable s -> loop_body t s = Done s' ->
       forall tel text1 text2 rest,
       uart_tx s' <> uart_tx s ++ sms_writes tel text1
                     ++ sms_writes tel text2 ++ rest).
Proof.
  intros H.
  apply (H all_low started _ started_reachable scan_all_low
           (bytes_of "+447700900000") (bytes_of "Intruder alarm triggered")
           (bytes_of "Alarm system armed")
           (sms_writes (bytes_of "+447700900000")
                       (bytes_of "Panic button pressed"))).
  vm_compute. reflexivity.
Qed.

(** ** A pending action and the awaited OK *)

Lemma run_reachable (events : list event) :
  forall s s', reachable s -> run events s = Done s' -> reachable s'.
Proof.
  unfold run. induction events as [|e events IH]; intros s s' Hs H;
    cbn [fold_left] in H.
  - now injection H as <-.
  - destruct e as [chars|t]; cbn [step bind] in H.
    + apply (IH _ _ (reach_interrupt chars s Hs) H).
    + destruct (loop_body t s) as [s1| |] eqn:E.
      * apply (IH s1 s' (reach_loop t s s1 Hs E) H).
      * clear - H. induction events; cbn in H; [discriminate | auto].
      * clear - H. induction events; cbn in H; [discriminate | auto].
Qed.

Lemma lost_ok_run : run lost_ok started = Done (state_of (run lost_ok started)).
Proof. vm_compute. reflexivity. Qed.

(** C7 as stated fails: after the OK of an SMS read-out has timed out, the
    action that the SMS staged is still pending and nothing is awaited. *)
Lemma pending_action_without_wait :
  ~ (forall s, reachable s -> multi_stage_handling_type s <> 0%nat -> busy s).
Proof.
  intros H.
  destruct (H _ (run_reachable lost_ok started _ started_reachable lost_ok_run))
    as (k & Hk & Hflag).
  - vm_compute. discriminate.
  - assert (E : awaiting_response (state_of (run lost_ok started))
                = repeat false MAX_MSG) by (vm_compute; reflexivity).
    rewrite E in Hflag. unfold MAX_MSG in Hk.
    do 12 (destruct k as [|k]; [discriminate Hflag|]). lia.
Qed.

(** *** What leaves the awaited responses and the pending action alone *)

Lemma stage_message_awaiting k out :
  keeps awaiting_response (stage_message k out).
Proof. unfold stage_message. keeps_tac awaiting_response. Qed.

Lemma stage_message_action k out :
  keeps multi_stage_handling_type (stage_message k out).
Proof. unfold stage_message. keeps_tac multi_stage_handling_type. Qed.

Lemma send_sms_action tel message :
  keeps multi_stage_handling_type (send_sms tel message).
Proof. unfold send_sms. keeps_tac multi_stage_handling_type. Qed.

#[local] Hint Resolve stage_message_awaiting stage_message_action
  send_sms_keeps_awaiting send_sms_action : keeps.

Lemma copy_defaults_awaiting : keeps awaiting_response copy_defaults.
Proof.
  unfold copy_defaults. intros s s' H. crunch.
  apply (for_loop_keeps awaiting_response) in H; [exact H|].
  intros i. keeps_tac awaiting_response.
Qed.

Lemma copy_defaults_action : keeps multi_stage_handling_type copy_defaults.
Proof.
  unfold copy_defaults. intros s s' H. crunch.
  apply (for_loop_keeps multi_stage_handling_type) in H; [exact H|].
  intros i. keeps_tac multi_stage_handling_type.
Qed.

#[local] Hint Resolve copy_defaults_awaiting copy_defaults_action : keeps.

Lemma signal_request_awaiting : keeps awaiting_response signal_request.
Proof. unfold signal_request. keeps_tac awaiting_response. Qed.

Lemma telephone_number_awaiting : keeps awaiting_response telephone_number.
Proof. unfold telephone_number. keeps_tac awaiting_response. Qed.

Lemma password_awaiting : keeps awaiting_response password.
Proof. unfold password. keeps_tac awaiting_response. Qed.

Lemma sms_on_input_awaiting : keeps awaiting_response sms_on_input.
Proof. unfold sms_on_input. keeps_tac awaiting_response. Qed.

Lemma message_text_awaiting : keeps awaiting_response message_text.
Proof. unfold message_text. keeps_tac awaiting_response. Qed.

Lemma defaults_awaiting : keeps awaiting_response defaults.
Proof. unfold defaults. keeps_tac awaiting_response. Qed.

Lemma invalid_command_awaiting : keeps awaiting_response invalid_command.
Proof. unfold invalid_command. keeps_tac awaiting_response. Qed.

#[local] Hint Resolve signal_request_awaiting telephone_number_awaiting
  password_awaiting sms_on_input_awaiting message_text_awaiting
  defaults_awaiting invalid_command_awaiting : keeps.

Lemma parse_sms_awaiting : keeps awaiting_response parse_sms.
Proof. unfold parse_sms. keeps_tac awaiting_response. Qed.

Lemma signal_request_initiate : keeps initiate_time signal_request.
Proof. unfold signal_request. keeps_tac initiate_time. Qed.

Lemma stage_message_initiate k out : keeps initiate_time (stage_message k out).
Proof. unfold stage_message. keeps_tac initiate_time. Qed.
#[local] Hint Resolve stage_message_initiate : keeps.

Lemma copy_defaults_initiate : keeps initiate_time copy_defaults.
Proof.
  unfold copy_defaults. intros s s' H. crunch.
  apply (for_loop_keeps initiate_time) in H; [exact H|].
  intros i. keeps_tac initiate_time.
Qed.
#[local] Hint Resolve copy_defaults_initiate : keeps.

Lemma telephone_number_initiate : keeps initiate_time telephone_number.
Proof. unfold telephone_number. keeps_tac initiate_time. Qed.

Lemma password_initiate : keeps initiate_time password.
Proof. unfold password. keeps_tac initiate_time. Qed.

Lemma sms_on_input_initiate : keeps initiate_time sms_on_input.
Proof. unfold sms_on_input. keeps_tac initiate_time. Qed.

Lemma message_text_initiate : keeps initiate_time message_text.
Proof. unfold message_text. keeps_tac initiate_time. Qed.

Lemma defaults_initiate : keeps initiate_time defaults.
Proof. unfold defaults. keeps_tac initiate_time. Qed.

Lemma invalid_command_initiate : keeps initiate_time invalid_command.
Proof. unfold invalid_command. keeps_tac initiate_time. Qed.

#[local] Hint Resolve signal_request_initiate telephone_number_initiate
  password_initiate sms_on_input_initiate message_text_initiate
  defaults_initiate invalid_command_initiate : keeps.

Lemma parse_sms_initiate : keeps initiate_time parse_sms.
Proof. unfold parse_sms. keeps_tac initiate_time. Qed.

#[local] Hint Resolve parse_sms_awaiting parse_sms_initiate : keeps.

Lemma store_response_awaiting k str :
  keeps awaiting_response (store_response k str).
Proof. unfold store_response. keeps_tac awaiting_response. Qed.

Lemma store_response_action k str :
  keeps multi_stage_handling_type (store_response k str).
Proof. unfold store_response. keeps_tac multi_stage_handling_type. Qed.
#[local] Hint Resolve store_response_awaiting store_response_action : keeps.

Lemma classify_awaiting str : keeps awaiting_response (classify str).
Proof. unfold classify. keeps_tac awaiting_response. Qed.

Lemma classify_action str : keeps multi_stage_handling_type (classify str).
Proof. unfold classify. keeps_tac multi_stage_handling_type. Qed.

Lemma read_message_loop_keeps {A : Type} (proj : state -> A) :
  (forall v s, proj (set_rx_buffer_read_position v s) = proj s) ->
  (forall v s, proj (set_rx_buffer_entries v s) = proj s) ->
  (forall v s, proj (set_rx_buffer_number_lf v s) = proj s) ->
  forall fuel str s,
  proj (snd (read_message_loop fuel str s)) = proj s.
Proof.
  intros H1 H2 H3.
  induction fuel as [|fuel IH]; intros str s; cbn [read_message_loop];
    repeat match goal with
           | |- context [if ?c then _ else _] => destruct c
           end; cbn [snd];
    repeat (rewrite IH || rewrite H1 || rewrite H2 || rewrite H3);
    reflexivity.
Qed.

Lemma read_message_awaiting : keeps awaiting_response read_message.
Proof.
  unfold read_message. intros s s' H.
  destruct (rx_buffer_number_lf s >? 0); [|now injection H as <-].
  pose proof (read_message_loop_keeps awaiting_response
                ltac:(reflexivity) ltac:(reflexivity) ltac:(reflexivity)
                (Z.to_nat (rx_buffer_entries s)) [] s) as L.
  destruct (read_message_loop _ _ _) as [str s1]. cbn [snd] in L.
  rewrite <- L. destruct (0 <? length str)%nat; [|now injection H as <-].
  now apply classify_awaiting in H.
Qed.

Lemma read_message_action : keeps multi_stage_handling_type read_message.
Proof.
  unfold read_message. intros s s' H.
  destruct (rx_buffer_number_lf s >? 0); [|now injection H as <-].
  pose proof (read_message_loop_keeps multi_stage_handling_type
                ltac:(reflexivity) ltac:(reflexivity) ltac:(reflexivity)
                (Z.to_nat (rx_buffer_entries s)) [] s) as L.
  destruct (read_message_loop _ _ _) as [str s1]. cbn [snd] in L.
  rewrite <- L. destruct (0 <? length str)%nat; [|now injection H as <-].
  now apply classify_action in H.
Qed.

Lemma save_flash_settings_awaiting :
  keeps awaiting_response save_flash_settings.
Proof. unfold save_flash_settings. keeps_tac awaiting_response. Qed.

Lemma save_flash_settings_action :
  keeps multi_stage_handling_type save_flash_settings.
Proof. unfold save_flash_settings. keeps_tac multi_stage_handling_type. Qed.

Lemma apply_flash_settings_action :
  keeps multi_stage_handling_type apply_flash_settings.
Proof. unfold apply_flash_settings. keeps_tac multi_stage_handling_type. Qed.

Lemma restore_settings_action :
  keeps multi_stage_handling_type restore_settings.
Proof.
  unfold restore_settings. intros s s' H. crunch.
  - apply copy_defaults_action in E. exact E.
  - apply apply_flash_settings_action in H. exact H.
Qed.

#[local] Hint Resolve read_message_awaiting read_message_action
  save_flash_settings_awaiting save_flash_settings_action : keeps.

(** *** The parts of the loop keep [action_awaits_ok] *)

Lemma flag_upd_eq (k : nat) (v : bool) (flags : list bool) :
  (k < length flags)%nat -> flag k (upd k v flags) = v.
Proof. unfold flag. apply nth_upd_eq. Qed.

Lemma flag_upd_neq (i k : nat) (v : bool) (flags : list bool) :
  i <> k -> flag k (upd i v flags) = flag k flags.
Proof. unfold flag. apply nth_upd_neq. Qed.

Ltac small_hyps :=
  repeat match goal with
         | H : _ = true |- _ => progress helpers_in H
         | H : _ = false |- _ => progress helpers_in H
         end;
  repeat match goal with
         | H : negb (_ =? 0)%nat = false |- _ =>
             apply negb_false_iff, Nat.eqb_eq in H
         end.

Ltac awaits_finish :=
  small_hyps;
  forward awaiting_response; forward multi_stage_handling_type;
  unfold action_awaits_ok in *; helpers_goal;
  repeat match goal with
         | K : awaiting_response _ = _ |- _ => rewrite ?K; clear K
         | K : multi_stage_handling_type _ = _ |- _ => rewrite ?K; clear K
         end;
  unfold set_flag; rewrite ?upd_length;
  match goal with
  | HJ : _ /\ _ |- _ =>
      let HJl := fresh "HJl" in
      let HJt := fresh "HJt" in
      destruct HJ as [HJl HJt];
      split; [assumption|];
      let Htag := fresh "Htag" in
      intros Htag; rewrite ?flag_upd_neq by discriminate;
      first [ apply flag_upd_eq; rewrite ?upd_length, HJl; cbv; lia
            | now apply HJt
            | congruence ]
  end.

Ltac awaits_pure :=
  intros;
  repeat match goal with
         | |- context [if ?c then _ else _] => destruct c eqn:?
         end;
  awaits_finish.

Ltac awaits_tac := intros; crunch; awaits_finish.

Lemma for_loop_invariant (P : state -> Prop)
    (body : nat -> state -> result state) (n : nat) :
  (forall i s s', P s -> body i s = Done s' -> P s') ->
  forall i s s', P s -> for_loop n i body s = Done s' -> P s'.
Proof.
  intros Hb. induction n as [|n IH]; intros i s s' Hs H; cbn [for_loop] in H.
  - now injection H as <-.
  - bind_inv H. apply (IH _ _ _ (Hb _ _ _ Hs Ha) H).
Qed.

Lemma fold_left_invariant {B : Type} (P : state -> Prop)
    (f : state -> B -> state) (l : list B) :
  (forall s b, P s -> P (f s b)) -> forall s, P s -> P (fold_left f l s).
Proof.
  intros Hf. induction l as [|b l IH]; intros s Hs; cbn [fold_left]; auto.
Qed.

Lemma read_message_awaits s s' :
  action_awaits_ok s -> read_message s = Done s' -> action_awaits_ok s'.
Proof.
  intros [Hl Ht] H. unfold action_awaits_ok.
  rewrite (read_message_awaiting _ _ H), (read_message_action _ _ H).
  now split.
Qed.

Lemma collect_awaiting_awaits s :
  action_awaits_ok s -> action_awaits_ok (collect_awaiting s).
Proof.
  intros HJ. unfold collect_awaiting. apply fold_left_invariant.
  - clear. intros s i HJ. awaits_finish.
  - awaits_finish.
Qed.

Lemma start_cpsi_check_awaits now s :
  action_awaits_ok s -> action_awaits_ok (start_cpsi_check now s).
Proof. unfold start_cpsi_check. awaits_pure. Qed.

Lemma process_cpsi_awaits now s s' :
  action_awaits_ok s -> process_cpsi now s = Done s' -> action_awaits_ok s'.
Proof. unfold process_cpsi. awaits_tac. Qed.

Lemma start_creg_check_awaits now s :
  action_awaits_ok s -> action_awaits_ok (start_creg_check now s).
Proof. unfold start_creg_check. awaits_pure. Qed.

Lemma process_creg_awaits now s :
  action_awaits_ok s -> action_awaits_ok (process_creg now s).
Proof. unfold process_creg. awaits_pure. Qed.

Lemma process_cmti_awaits now s s' :
  action_awaits_ok s -> process_cmti now s = Done s' -> action_awaits_ok s'.
Proof. unfold process_cmti. awaits_tac. Qed.

Lemma process_clcc_awaits now s :
  action_awaits_ok s -> action_awaits_ok (process_clcc now s).
Proof. unfold process_clcc. awaits_pure. Qed.

Lemma process_cmgr_awaits now s s' :
  action_awaits_ok s -> process_cmgr now s = Done s' -> action_awaits_ok s'.
Proof. unfold process_cmgr. awaits_tac. Qed.

Lemma process_csq_awaits now s s' :
  action_awaits_ok s -> process_csq now s = Done s' -> action_awaits_ok s'.
Proof. unfold process_csq. awaits_tac. Qed.

Lemma delete_messages_awaits now s :
  action_awaits_ok s -> action_awaits_ok (delete_messages now s).
Proof. unfold delete_messages. awaits_pure. Qed.

Lemma process_cmgs_awaits now s :
  action_awaits_ok s -> action_awaits_ok (process_cmgs now s).
Proof. unfold process_cmgs. awaits_pure. Qed.

Lemma process_ok_awaits now s s' :
  action_awaits_ok s -> process_ok now s = Done s' -> action_awaits_ok s'.
Proof. unfold process_ok. awaits_tac. Qed.

Lemma process_unknown_awaits s :
  action_awaits_ok s -> action_awaits_ok (process_unknown s).
Proof. unfold process_unknown. awaits_pure. Qed.

Lemma process_messages_awaits t s s' :
  action_awaits_ok s -> process_messages t s = Done s' -> action_awaits_ok s'.
Proof.
  unfold process_messages. intros HJ H.
  bind_inv H. bind_inv H. bind_inv H. bind_inv H. bind_inv H. bind_inv H.
  injection H as <-.
  apply process_unknown_awaits.
  eapply process_ok_awaits; [|exact Ha4].
  apply process_cmgs_awaits, delete_messages_awaits.
  eapply process_csq_awaits; [|exact Ha3].
  eapply process_cmgr_awaits; [|exact Ha2].
  apply process_clcc_awaits.
  eapply process_cmti_awaits; [|exact Ha1].
  apply process_creg_awaits, start_creg_check_awaits.
  eapply process_cpsi_awaits; [|exact Ha0].
  apply start_cpsi_check_awaits, collect_awaiting_awaits.
  apply (read_message_awaits _ _ HJ Ha).
Qed.

Lemma check_timeouts_awaits now s :
  action_awaits_ok s ->
  timed_out now OK s && negb (multi_stage_handling_type s =? 0)%nat
  && negb (timed_out now CMGR s) = false ->
  action_awaits_ok (check_timeouts now s).
Proof.
  intros [Hl Ht] Hok.
  destruct (check_timeouts_spec now s OK ltac:(cbv; lia) Hl)
    as (Ha & Hm & _ & Hl').
  split; [exact Hl'|]. rewrite Ha, Hm.
  destruct (timed_out now CMGR s); [congruence|].
  intros Hn. rewrite (Ht Hn). rewrite andb_true_r in Hok.
  apply Nat.eqb_neq in Hn. rewrite Hn, andb_true_r in Hok.
  now rewrite Hok.
Qed.

Lemma check_pin_awaits t i s s' :
  action_awaits_ok s -> check_pin t i s = Done s' -> action_awaits_ok s'.
Proof. unfold check_pin. awaits_tac. Qed.

Lemma check_pins_awaits t s s' :
  action_awaits_ok s -> check_pins t s = Done s' -> action_awaits_ok s'.
Proof.
  unfold check_pins. intros HJ H.
  destruct (_ && _); [|now injection H as <-].
  apply (for_loop_invariant action_awaits_ok) in H; [exact H | | exact HJ].
  intros i. apply check_pin_awaits.
Qed.

Lemma check_password_reset_awaits t s s' :
  action_awaits_ok s -> check_password_reset t s = Done s' ->
  action_awaits_ok s'.
Proof. unfold check_password_reset. awaits_tac. Qed.

Lemma blink_led_awaits now s :
  action_awaits_ok s -> action_awaits_ok (blink_led now s).
Proof. unfold blink_led. awaits_pure. Qed.

Lemma store_settings_awaits s s' :
  action_awaits_ok s -> store_settings s = Done s' -> action_awaits_ok s'.
Proof. unfold store_settings. awaits_tac. Qed.

Lemma loop_body_awaits t s s' :
  action_awaits_ok s -> action_times_out t s = false ->
  loop_body t s = Done s' -> action_awaits_ok s'.
Proof.
  unfold loop_body, act_on_inputs, action_times_out. intros HJ Hok H.
  bind_inv H. rewrite Ha in Hok. bind_inv H. bind_inv H.
  eapply store_settings_awaits; [|exact H].
  apply blink_led_awaits.
  eapply check_password_reset_awaits; [|exact Ha1].
  eapply check_pins_awaits; [|exact Ha0].
  apply check_timeouts_awaits; [|exact Hok].
  apply (process_messages_awaits _ _ _ HJ Ha).
Qed.

(** *** What the check of the inputs leaves as it is *)

Ltac same_wait :=
  unfold keeps; intros; crunch; forward awaiting_response; helpers_goal;
  repeat match goal with
         | K : awaiting_response _ = _ |- _ => rewrite ?K; clear K
         end;
  unfold set_flag; rewrite ?flag_upd_neq by discriminate; reflexivity.

Lemma check_pin_wait t i :
  keeps (fun s => flag OK (awaiting_response s)) (check_pin t i).
Proof. unfold check_pin. same_wait. Qed.

Lemma check_pins_wait t :
  keeps (fun s => flag OK (awaiting_response s)) (check_pins t).
Proof.
  unfold check_pins. intros s s' H.
  destruct (_ && _); [|now injection H as <-].
  apply (for_loop_keeps (fun s => flag OK (awaiting_response s))) in H;
    [exact H|].
  intros i. apply check_pin_wait.
Qed.

Lemma check_password_reset_wait t :
  keeps (fun s => flag OK (awaiting_response s)) (check_password_reset t).
Proof. unfold check_password_reset. same_wait. Qed.

Lemma store_settings_wait :
  keeps (fun s => flag OK (awaiting_response s)) store_settings.
Proof. unfold store_settings. same_wait. Qed.

Lemma act_on_inputs_wait t :
  keeps (fun s => flag OK (awaiting_response s)) (act_on_inputs t).
Proof.
  unfold act_on_inputs. intros s s' H. bind_inv H. bind_inv H.
  cbv beta. rewrite (store_settings_wait _ _ H).
  cbv beta. unfold blink_led.
  rewrite <- (check_pins_wait t _ _ Ha), <- (check_password_reset_wait t _ _ Ha0).
  cbv beta. destruct (_ >? _); reflexivity.
Qed.

Ltac same_length :=
  unfold keeps; intros; crunch; forward awaiting_response; helpers_goal;
  repeat match goal with
         | K : awaiting_response _ = _ |- _ => rewrite ?K; clear K
         end;
  unfold set_flag; rewrite ?upd_length; reflexivity.

Lemma check_pin_length t i :
  keeps (fun s => length (awaiting_response s)) (check_pin t i).
Proof. unfold check_pin. same_length. Qed.

Lemma check_pins_length t :
  keeps (fun s => length (awaiting_response s)) (check_pins t).
Proof.
  unfold check_pins. intros s s' H.
  destruct (_ && _); [|now injection H as <-].
  apply (for_loop_keeps (fun s => length (awaiting_response s))) in H;
    [exact H|].
  intros i. apply check_pin_length.
Qed.

Lemma check_password_reset_length t :
  keeps (fun s => length (awaiting_response s)) (check_password_reset t).
Proof. unfold check_password_reset. same_length. Qed.

Lemma store_settings_length :
  keeps (fun s => length (awaiting_response s)) store_settings.
Proof. unfold store_settings. same_length. Qed.

Lemma act_on_inputs_length t :
  keeps (fun s => length (awaiting_response s)) (act_on_inputs t).
Proof.
  unfold act_on_inputs. intros s s' H. bind_inv H. bind_inv H.
  cbv beta. rewrite (store_settings_length _ _ H).
  cbv beta. unfold blink_led.
  rewrite <- (check_pins_length t _ _ Ha),
    <- (check_password_reset_length t _ _ Ha0).
  cbv beta. destruct (_ >? _); reflexivity.
Qed.

Lemma check_pin_action t i :
  keeps multi_stage_handling_type (check_pin t i).
Proof. unfold check_pin. keeps_tac multi_stage_handling_type. Qed.

Lemma check_pins_action t : keeps multi_stage_handling_type (check_pins t).
Proof.
  unfold check_pins. intros s s' H.
  destruct (_ && _); [|now injection H as <-].
  apply (for_loop_keeps multi_stage_handling_type) in H; [exact H|].
  intros i. apply check_pin_action.
Qed.

Lemma check_password_reset_action t :
  keeps multi_stage_handling_type (check_password_reset t).
Proof.
  unfold check_password_reset. keeps_tac multi_stage_handling_type.
Qed.

Lemma store_settings_action : keeps multi_stage_handling_type store_settings.
Proof. unfold store_settings. keeps_tac multi_stage_handling_type. Qed.

Lemma act_on_inputs_action t :
  keeps multi_stage_handling_type (act_on_inputs t).
Proof.
  unfold act_on_inputs. intros s s' H. bind_inv H. bind_inv H.
  rewrite (store_settings_action _ _ H). unfold blink_led.
  rewrite <- (check_pins_action t _ _ Ha),
    <- (check_password_reset_action t _ _ Ha0).
  destruct (_ >? _); reflexivity.
Qed.

(** A traversal in which a pending action loses its OK ends with the
    action pending and no OK awaited. *)
Lemma loop_body_loses_ok t s s' :
  action_awaits_ok s -> action_times_out t s = true ->
  loop_body t s = Done s' ->
  multi_stage_handling_type s' <> 0%nat
  /\ flag OK (awaiting_response s') = false.
Proof.
  unfold loop_body, action_times_out. intros HJ Hout H.
  bind_inv H. rewrite Ha in Hout.
  destruct (process_messages_awaits _ _ _ HJ Ha) as [Hl _].
  destruct (check_timeouts_spec (current_time t) a OK ltac:(cbv; lia) Hl)
    as (Hflag & Htag & _).
  apply andb_true_iff in Hout as [Hout Hcmgr].
  apply andb_true_iff in Hout as [Hok Hn].
  apply negb_true_iff in Hcmgr. apply negb_true_iff, Nat.eqb_neq in Hn.
  rewrite (act_on_inputs_action t _ _ H), Htag, Hcmgr.
  split; [exact Hn|].
  pose proof (act_on_inputs_wait t _ _ H) as Hw. cbv beta in Hw.
  rewrite Hw, Hflag, Hok. apply andb_false_r.
Qed.

Lemma interrupt_awaits chars s :
  action_awaits_ok s -> action_awaits_ok (uart_rx_interrupt_handler chars s).
Proof.
  intros HJ. unfold uart_rx_interrupt_handler.
  apply fold_left_invariant; [|exact HJ].
  clear. intros s chr HJ. cbv zeta.
  repeat match goal with
         | |- context [if ?c then _ else _] => destruct c
         end; exact HJ.
Qed.

Lemma startup_awaits now flash ram s :
  startup now flash ram = Done s -> action_awaits_ok s.
Proof.
  unfold startup. intros H. bind_inv H. injection H as <-.
  apply restore_settings_action in Ha. split; [reflexivity|].
  unfold initialise_loop. fields_goal. rewrite Ha. intros Hn.
  now elim Hn.
Qed.

Lemma in_time_awaits s : reachable_in_time s -> action_awaits_ok s.
Proof.
  induction 1 as [now flash ram s _ _ H | chars s _ IH | t s s' _ IH Hok H].
  - apply (startup_awaits _ _ _ _ H).
  - now apply interrupt_awaits.
  - apply (loop_body_awaits t s s' IH Hok H).
Qed.

(** C7, as the code has it: in every state that the control loop reaches
    without a pending action having lost its OK to a timeout, a pending
    multi-stage action means that an OK is awaited, so the dialogue is
    busy.  Nothing more is left out than must be: a traversal is left out
    of these runs only when it ends with the action pending and no OK
    awaited (the awaited OK times out, which clears the wait and keeps
    the action, and no timeout of a read-out resets the action in the same
    check).  From any state in which a pending action awaits its OK, be it
    reached in this way or not, every interrupt and every other traversal
    lead to such a state again. *)
Theorem pending_action_awaits_ok (s : state) :
  reachable_in_time s ->
  (multi_stage_handling_type s <> 0%nat ->
   flag OK (awaiting_response s) = true /\ busy s)
  /\ (forall t s', action_times_out t s = true -> loop_body t s = Done s' ->
      multi_stage_handling_type s' <> 0%nat
      /\ flag OK (awaiting_response s') = false)
  /\ (forall t s1 s2, action_awaits_ok s1 -> action_times_out t s1 = false ->
      loop_body t s1 = Done s2 -> action_awaits_ok s2)
  /\ (forall chars s1, action_awaits_ok s1 ->
      action_awaits_ok (uart_rx_interrupt_handler chars s1)).
Proof.
  intros Hr. pose proof (in_time_awaits s Hr) as HJ.
  split; [|split; [|split]].
  - intros Ht. destruct HJ as [_ Hok]. specialize (Hok Ht).
    split; [exact Hok|]. exists OK. split; [cbv; lia | exact Hok].
  - intros t s' Hout H. apply (loop_body_loses_ok t s s' HJ Hout H).
  - intros t s1 s2. apply loop_body_awaits.
  - intros chars s1. apply interrupt_awaits.
Qed.

(** ** The fuel of the message loop *)

Lemma read_message_loop_turn (fuel : nat) (str : list Z) (s : state) :
  read_message_loop fuel str s
  = (let chr := nth (Z.to_nat (rx_buffer_read_position s)) (rx_buffer s) 0 in
     let s := set_rx_buffer_read_position (rx_buffer_read_position s + 1) s in
     let s := set_rx_buffer_entries (rx_buffer_entries s - 1) s in
     let s := if rx_buffer_read_position s =? RX_BUFFER_SIZE
              then set_rx_buffer_read_position 0 s else s in
     let str := if negb (chr =? LF) && negb (chr =? CR)
                   && (length str <? max_str_l - 1)%nat
                then str ++ [chr] else str in
     let s := if chr =? LF
              then set_rx_buffer_number_lf (rx_buffer_number_lf s - 1) s
              else s in
     if negb (chr =? LF) && (length str <? max_str_l - 1)%nat
        && (rx_buffer_entries s >? 0)
     then match fuel with
          | S fuel' => read_message_loop fuel' str s
          | O => (str, s)
          end
     else (str, s)).
Proof. destruct fuel; reflexivity. Qed.

(** Every turn of the loop takes one entry of the ring buffer and the loop
    goes on only while entries are left: the entries held at the start are
    fuel enough, and more fuel changes nothing. *)
Lemma read_message_loop_fuel (fuel : nat) :
  forall str s, rx_buffer_entries s <= Z.of_nat fuel ->
  read_message_loop (S fuel) str s = read_message_loop fuel str s.
Proof.
  induction fuel as [|fuel IH]; intros str s H.
  - rewrite (read_message_loop_turn 1), (read_message_loop_turn 0).
    cbv zeta.
    set (chr := nth (Z.to_nat (rx_buffer_read_position s)) (rx_buffer s) 0).
    destruct (chr =? LF);
      match goal with
      | |- context [if ?c then set_rx_buffer_read_position 0 _ else _] =>
          destruct c
      end; fields_goal;
      replace (rx_buffer_entries s - 1 >? 0) with false
        by (symmetry; rewrite Z.gtb_ltb; apply Z.ltb_ge; lia);
      rewrite ?andb_false_r; reflexivity.
  - rewrite (read_message_loop_turn (S (S fuel))),
      (read_message_loop_turn (S fuel)).
    cbv zeta.
    set (chr := nth (Z.to_nat (rx_buffer_read_position s)) (rx_buffer s) 0).
    destruct (chr =? LF);
      match goal with
      | |- context [if ?c then set_rx_buffer_read_position 0 _ else _] =>
          destruct c
      end;
      match goal with
      | |- (if ?c then _ else _) = _ => destruct c; [|reflexivity]
      end; apply IH; fields_goal; lia.
Qed.
(** ** The parser runs to its end on every SMS *)

Lemma strncpy_bytes_cstr (n : nat) :
  forall src a, cstr src = Some a ->
  exists t, strncpy_bytes src n = Done t /\ length t = n
    /\ ((length a < n)%nat -> nth (length a) t 0 = 0).
Proof.
  induction n as [|n IH]; intros src a H.
  - exists []. split; [now destruct src|]. split; [reflexivity | lia].
  - destruct src as [|c r]; [discriminate|].
    cbn [strncpy_bytes]. cbn [cstr] in H.
    destruct (c =? 0).
    + exists (repeat 0 (S n)). split; [reflexivity|].
      split; [apply repeat_length|]. intros _. injection H as <-. reflexivity.
    + destruct (cstr r) as [a'|] eqn:Hr; [|discriminate].
      injection H as <-.
      destruct (IH r a' Hr) as (t & -> & Hl & Hz).
      exists (c :: t). split; [reflexivity|].
      split; [cbn [length]; now rewrite Hl|].
      cbn [length nth]. intros Hlt. apply Hz. lia.
Qed.

Lemma cstr_exists (buf : list Z) :
  forall i, (i < length buf)%nat -> nth i buf 0 = 0 ->
  exists a, cstr buf = Some a /\ (length a <= i)%nat.
Proof.
  induction buf as [|c r IH]; intros i Hi H; [cbn in Hi; lia|].
  cbn [cstr]. destruct (Z.eqb_spec c 0) as [Hc|Hc].
  - exists []. split; [reflexivity | cbn; lia].
  - destruct i as [|i]; [cbn in H; contradiction|].
    cbn [nth length] in *.
    destruct (IH i ltac:(lia) H) as (a & -> & Hl).
    exists (c :: a). split; [reflexivity | cbn [length]; lia].
Qed.

Lemma cstr_skipn (n : nat) :
  forall buf a, cstr buf = Some a -> (n <= length a)%nat ->
  cstr (skipn n buf) = Some (skipn n a).
Proof.
  induction n as [|n IH]; intros buf a H Hn; [exact H|].
  destruct buf as [|c r]; [discriminate|].
  cbn [cstr] in H. destruct (c =? 0).
  - injection H as <-. cbn in Hn. lia.
  - destruct (cstr r) as [a'|] eqn:Hr; [|discriminate].
    injection H as <-. cbn [skipn]. apply IH; [exact Hr|].
    cbn [length] in Hn. lia.
Qed.

Lemma nonzero_prefix_length (buf a : list Z) (n : nat) :
  cstr buf = Some a -> (forall i, (i < n)%nat -> nth i buf 0 <> 0) ->
  (n <= length a)%nat.
Proof.
  intros H Hnz. destruct (cstr_inv _ _ H) as [_ [rest ->]].
  destruct (Nat.le_gt_cases n (length a)) as [|Hlt]; [assumption|].
  exfalso. apply (Hnz (length a) Hlt).
  rewrite app_nth2 by lia. now rewrite Nat.sub_diag.
Qed.

Lemma prefix_of_nul_free (pat : list Z) :
  nul_free pat -> forall t rest,
  prefix_of pat (t ++ 0 :: rest) = true -> exists arg, t = pat ++ arg.
Proof.
  induction 1 as [|x pat Hx Hpat IH]; intros t rest H.
  - now exists t.
  - destruct t as [|y t]; cbn [app prefix_of] in H;
      apply andb_true_iff in H as [Hxy H].
    + apply Z.eqb_eq in Hxy. contradiction.
    + apply Z.eqb_eq in Hxy. subst y.
      destruct (IH t rest H) as [arg ->]. now exists arg.
Qed.

Lemma matched_sms (verb : string) (p : list Z) (s : state) :
  password_is p s -> nonzero (bytes_of verb) = true ->
  (exists t, cstr (received_sms_text s) = Some t) ->
  prefix_of (p ++ bytes_of verb) (received_sms_text s) = true ->
  exists arg, sms_is p verb arg s.
Proof.
  intros [Hp _] Hv [t Ht] Hm.
  destruct (cstr_inv _ _ Hp) as [Hnp _].
  destruct (cstr_inv _ _ Ht) as [Hnt [rest Hrest]].
  rewrite Hrest in Hm.
  destruct (prefix_of_nul_free (p ++ bytes_of verb)
              (nul_free_app _ _ Hnp (nul_free_bytes _ Hv)) t rest Hm)
    as [arg Harg].
  exists arg. unfold sms_is. rewrite Ht, Harg. now rewrite <- app_assoc.
Qed.

Lemma table_upd (n len k : nat) (row : list Z) (a : list (list Z)) :
  table n len a -> length row = len -> table n len (upd k row a).
Proof.
  intros [Hl Hr] Hrow. split; [now rewrite upd_length|].
  now apply Forall_upd.
Qed.

Lemma nth_blit_after (src dst : list Z) (i : nat) :
  (length src <= i)%nat -> nth i (blit src dst) 0 = nth i dst 0.
Proof.
  revert dst i. induction src as [|c src IH]; intros dst i Hi; [reflexivity|].
  destruct dst as [|d dst]; [reflexivity|].
  destruct i as [|i]; [cbn in Hi; lia|].
  cbn [blit nth]. apply IH. cbn [length] in Hi. lia.
Qed.

Lemma nth_blit_before (src dst : list Z) (i : nat) :
  (i < length src)%nat -> (length src <= length dst)%nat ->
  nth i (blit src dst) 0 = nth i src 0.
Proof.
  revert dst i. induction src as [|c src IH]; intros dst i Hi Hl;
    [cbn in Hi; lia|].
  destruct dst as [|d dst]; [cbn in Hl; lia|].
  destruct i as [|i]; [reflexivity|].
  cbn [blit nth]. apply IH; cbn [length] in *; lia.
Qed.

Lemma closed_rows_nth (rows : list (list Z)) (k : nat) :
  closed_rows rows -> (k < length rows)%nat -> nth 49 (nth k rows []) 0 = 0.
Proof.
  intros H Hk. unfold closed_rows in H. rewrite Forall_forall in H.
  apply H. now apply nth_In.
Qed.

Lemma staged_sized (k : nat) (out : list Z) (s : state) :
  well_sized s -> (k < MULTI_STAGE_MAX_ACTIONS)%nat ->
  well_sized
    (set_multi_stage_message
       (upd k (blit (out ++ [0]) (nth k (multi_stage_message s) []))
            (multi_stage_message s)) s).
Proof.
  intros Hsz Hk. pose proof (table_nth _ _ k _
                               (size_multi_stage_message s Hsz) Hk) as Hrow.
  destruct Hsz. constructor; fields_goal; try assumption.
  apply table_upd; [assumption|]. now rewrite blit_length.
Qed.
Lemma parsable_same (s s' : state) :
  parsable s -> well_sized s' -> passw s' = passw s ->
  received_sms_text s' = received_sms_text s ->
  sms_on_fall s' = sms_on_fall s -> sms_on_rise s' = sms_on_rise s ->
  parsable s'.
Proof.
  intros [_ Hp (t & Ht & Hrows)] Hsz Ep Et Ef Er.
  constructor; [assumption| |].
  - destruct Hp as [p Hp]. exists p. unfold password_is. now rewrite Ep.
  - exists t. now rewrite Et, Ef, Er.
Qed.

Lemma parsable_string (s : state) :
  parsable s -> exists t, cstr (received_sms_text s) = Some t.
Proof. intros [_ _ (t & Ht & _)]. now exists t. Qed.

Lemma parsable_tag (k : nat) (s : state) :
  parsable s -> parsable (set_multi_stage_handling_type k s).
Proof.
  intros H. apply (parsable_same s); try reflexivity; [assumption|].
  destruct (parsable_sized s H). constructor; assumption.
Qed.

Lemma parsable_recognised (b : bool) (s : state) :
  parsable s -> parsable (set_recognised_instruction b s).
Proof.
  intros H. apply (parsable_same s); try reflexivity; [assumption|].
  destruct (parsable_sized s H). constructor; assumption.
Qed.

Lemma parsable_store (b : bool) (s : state) :
  parsable s -> parsable (set_store_new_flash_settings b s).
Proof.
  intros H. apply (parsable_same s); try reflexivity; [assumption|].
  destruct (parsable_sized s H). constructor; assumption.
Qed.

Lemma parsable_staged (k : nat) (out : list Z) (s : state) :
  parsable s -> (k < MULTI_STAGE_MAX_ACTIONS)%nat ->
  parsable
    (set_multi_stage_message
       (upd k (blit (out ++ [0]) (nth k (multi_stage_message s) []))
            (multi_stage_message s)) s).
Proof.
  intros H Hk. apply (parsable_same s); try reflexivity; [assumption|].
  apply staged_sized; [apply H | assumption].
Qed.

(** A reply of fewer than [max_str_l] characters is staged. *)
Lemma stage_message_total (k : nat) (out : list Z) (s : state) :
  parsable s -> (k < MULTI_STAGE_MAX_ACTIONS)%nat ->
  (length out < max_str_l)%nat ->
  exists s', stage_message k out s = Done s' /\ parsable s'.
Proof.
  intros H Hk Hout.
  pose proof (table_nth _ _ k _
                (size_multi_stage_message s (parsable_sized s H)) Hk) as Hrow.
  rewrite stage_message_fits by (rewrite Hrow; now apply Nat.ltb_lt).
  eexists; split; [reflexivity|]. now apply parsable_staged.
Qed.

Lemma signal_request_total (s : state) :
  parsable s -> exists s', signal_request s = Done s' /\ parsable s'.
Proof.
  intros H. destruct (parsable_password s H) as [p Hp].
  unfold signal_request. rewrite (command_is_spec _ p s Hp) by reflexivity.
  cbn [bind]. destruct (prefix_of _ _).
  - eexists; split; [reflexivity|].
    now apply parsable_recognised, parsable_tag.
  - now exists s.
Qed.

Lemma telephone_number_total (s : state) :
  parsable s -> exists s', telephone_number s = Done s' /\ parsable s'.
Proof.
  intros H. destruct (parsable_password s H) as [p Hp].
  pose proof (parsable_sized s H) as Hsz.
  unfold telephone_number. rewrite (command_is_spec _ p s Hp) by reflexivity.
  cbn [bind]. destruct (prefix_of _ _) eqn:Hm; [|now exists s].
  destruct (matched_sms " TelephoneNumber!" p s Hp eq_refl
              (parsable_string s H) Hm) as [arg Hs].
  change (received_sms_text (set_multi_stage_handling_type _ s))
    with (received_sms_text s).
  destruct (argument_at " TelephoneNumber!" p arg s (proj2 Hp) Hs)
    as [rest ->].
  destruct (sms_is_text _ _ _ _ Hs) as [Hn _].
  unfold str_arg at 1. rewrite (cstr_app arg rest Hn). cbn [bind].
  rewrite sprintf_fits
    by (apply Nat.ltb_lt;
        apply (argument_short _ _ _ _ Hs), (size_received_sms_text s Hsz)).
  cbn [bind]. unfold strncpy.
  change (tel_no (set_multi_stage_handling_type _ s)) with (tel_no s).
  rewrite (size_tel_no s Hsz).
  destruct (strncpy_bytes_cstr 49 _ _ (cstr_app arg [] Hn))
    as (t & Ht & Hl & _).
  change (49 <=? 50)%nat with true. cbv iota. rewrite Ht. cbn [bind].
  match goal with
  | |- context [stage_message ?k ?out ?x] =>
      destruct (stage_message_total k out x) as (s' & -> & Hs')
  end.
  - apply parsable_store. apply (parsable_same s); try reflexivity;
      [assumption|].
    destruct Hsz. constructor; fields_goal; try assumption.
    now rewrite blit_length.
  - cbv; lia.
  - cbv; lia.
  - cbn [bind]. eexists; split; [reflexivity|].
    now apply parsable_recognised.
Qed.

Lemma password_total (s : state) :
  parsable s -> exists s', password s = Done s' /\ parsable s'.
Proof.
  intros H. destruct (parsable_password s H) as [p Hp].
  pose proof (parsable_sized s H) as Hsz.
  destruct (prefix_of (p ++ bytes_of " Password!") (received_sms_text s))
    eqn:Hm.
  2:{ exists s. split; [|assumption]. apply skip_password.
      rewrite (command_is_spec _ p s Hp) by reflexivity. now rewrite Hm. }
  destruct (matched_sms " Password!" p s Hp eq_refl
              (parsable_string s H) Hm) as [arg Hs].
  rewrite (password_argument p arg s Hsz Hp Hs). cbv zeta.
  destruct (sms_is_text _ _ _ _ Hs) as [Hn _].
  destruct (Nat.eqb_spec (length arg) 6) as [Ha|Ha].
  - unfold strcpy, str_arg. rewrite (cstr_app arg [] Hn). cbn [bind].
    rewrite store_string_fits
      by (change (passw _) with (passw s); rewrite (size_passw s Hsz); lia).
    cbn [bind].
    match goal with
    | |- context [stage_message ?k ?out ?x] =>
        destruct (stage_message_total k out x) as (s' & -> & Hs')
    end.
    + apply parsable_store. destruct H as [_ _ Ht].
      constructor; try assumption.
      * destruct Hsz. constructor; fields_goal; try assumption.
        now rewrite blit_length.
      * exists arg. split; [|exact Ha]. fields_goal.
        apply cstr_blit; [assumption | rewrite (size_passw s Hsz); lia].
    + cbv; lia.
    + cbv; lia.
    + cbn [bind]. eexists; split; [reflexivity|].
      now apply parsable_recognised.
  - match goal with
    | |- context [stage_message ?k ?out ?x] =>
        destruct (stage_message_total k out x) as (s' & -> & Hs')
    end.
    + now apply parsable_tag.
    + cbv; lia.
    + cbv; lia.
    + cbn [bind]. eexists; split; [reflexivity|].
      now apply parsable_recognised.
Qed.

Lemma sms_on_input_total (s : state) :
  parsable s -> exists s', sms_on_input s = Done s' /\ parsable s'.
Proof.
  intros H. destruct (parsable_password s H) as [p Hp].
  pose proof (parsable_sized s H) as Hsz.
  destruct (prefix_of (p ++ bytes_of " SMSonInput!") (received_sms_text s))
    eqn:Hm.
  2:{ exists s. split; [|assumption]. apply skip_sms_on_input.
      rewrite (command_is_spec _ p s Hp) by reflexivity. now rewrite Hm. }
  destruct (matched_sms " SMSonInput!" p s Hp eq_refl
              (parsable_string s H) Hm) as [arg Hs].
  rewrite (sms_on_input_argument p arg s Hp Hs). cbv zeta.
  destruct (pin_of arg) as [i|] eqn:Hpin.
  - match goal with
    | |- context [stage_message ?k (ok_input ?i ?b) ?x] =>
        destruct (stage_message_total k (ok_input i b) x) as (s' & -> & Hs')
    end.
    + apply parsable_store. apply (parsable_same s); try reflexivity;
        [assumption|].
      destruct Hsz. constructor; fields_goal; try assumption.
      unfold set_flag. now rewrite upd_length.
    + cbv; lia.
    + match goal with
      | |- (length (ok_input ?i ?b) < _)%nat =>
          pose proof (ok_input_length i b)
      end.
      unfold max_str_l. lia.
    + cbn [bind]. eexists; split; [reflexivity|].
      now apply parsable_recognised.
  - match goal with
    | |- context [stage_message ?k ?out ?x] =>
        destruct (stage_message_total k out x) as (s' & -> & Hs')
    end.
    + now apply parsable_tag.
    + cbv; lia.
    + cbv; lia.
    + cbn [bind]. eexists; split; [reflexivity|].
      now apply parsable_recognised.
Qed.
Lemma message_row_total (rows : list (list Z)) (k d : nat) (text arg : list Z) :
  table GPIO_NUMBER_PINS 50 rows ->
  closed_rows rows \/ (length arg < d + 49)%nat ->
  (k < GPIO_NUMBER_PINS)%nat ->
  cstr text = Some arg -> (d <= length arg)%nat ->
  exists row shown,
    strncpy (nth k rows []) (skipn d text) 49 = Done row
    /\ str_arg (nth k (upd k row rows) []) = Done shown
    /\ (length shown <= 49)%nat
    /\ table GPIO_NUMBER_PINS 50 (upd k row rows)
    /\ (closed_rows rows -> closed_rows (upd k row rows)).
Proof.
  intros Ht Hc Hk Hx Hd.
  pose proof (table_nth _ _ k _ Ht Hk) as Hrow.
  unfold strncpy. rewrite Hrow. change (49 <=? 50)%nat with true. cbv iota.
  destruct (strncpy_bytes_cstr 49 _ _ (cstr_skipn d text arg Hx Hd))
    as (t & -> & Hl & Hz).
  cbn [bind].
  assert (Hnul : exists i, (i <= 49)%nat
                 /\ nth i (blit t (nth k rows [])) 0 = 0).
  { destruct Hc as [Hc|Hshort].
    - exists 49%nat. split; [lia|].
      rewrite nth_blit_after by lia.
      apply (closed_rows_nth rows k Hc). now rewrite (proj1 Ht).
    - rewrite length_skipn in Hz. exists (length arg - d)%nat.
      split; [lia|]. rewrite nth_blit_before by lia. apply Hz. lia. }
  destruct Hnul as (i & Hi & Hlast).
  destruct (cstr_exists (blit t (nth k rows [])) i
              ltac:(rewrite blit_length; lia) Hlast) as (shown & Hshown & Hs).
  exists (blit t (nth k rows [])), shown.
  split; [reflexivity|].
  rewrite nth_upd_eq by (now rewrite (proj1 Ht)).
  unfold str_arg. rewrite Hshown.
  split; [reflexivity|]. split; [lia|].
  split; [apply table_upd; [assumption | now rewrite blit_length]|].
  intros Hclosed. apply Forall_upd; [|assumption].
  rewrite nth_blit_after by lia.
  apply (closed_rows_nth rows k Hclosed). now rewrite (proj1 Ht).
Qed.

Lemma parsable_fall_rows (rows : list (list Z)) (s : state) :
  parsable s -> table GPIO_NUMBER_PINS 50 rows ->
  (closed_rows (sms_on_fall s) -> closed_rows rows) ->
  parsable (set_sms_on_fall rows s).
Proof.
  intros [Hsz Hp (t & Ht & Hrows)] Htab Hc. constructor; [|assumption|].
  - destruct Hsz. constructor; assumption.
  - exists t. split; [exact Ht|].
    destruct Hrows as [Hshort|[Hf Hr]]; [now left | right].
    split; [now apply Hc | exact Hr].
Qed.

Lemma parsable_rise_rows (rows : list (list Z)) (s : state) :
  parsable s -> table GPIO_NUMBER_PINS 50 rows ->
  (closed_rows (sms_on_rise s) -> closed_rows rows) ->
  parsable (set_sms_on_rise rows s).
Proof.
  intros [Hsz Hp (t & Ht & Hrows)] Htab Hc. constructor; [|assumption|].
  - destruct Hsz. constructor; assumption.
  - exists t. split; [exact Ht|].
    destruct Hrows as [Hshort|[Hf Hr]]; [now left | right].
    split; [exact Hf | now apply Hc].
Qed.

Lemma message_text_total (s : state) :
  parsable s -> exists s', message_text s = Done s' /\ parsable s'.
Proof.
  intros H. destruct (parsable_password s H) as [p Hp].
  pose proof (parsable_sized s H) as Hsz.
  unfold message_text. rewrite (command_is_spec _ p s Hp) by reflexivity.
  cbn [bind]. destruct (prefix_of _ _) eqn:Hm; [|now exists s].
  destruct (matched_sms " MessageText!" p s Hp eq_refl
              (parsable_string s H) Hm) as [arg Hs].
  cbv zeta.
  change (received_sms_text (set_multi_stage_handling_type _ s))
    with (received_sms_text s).
  destruct (argument_at " MessageText!" p arg s (proj2 Hp) Hs) as [rest HX].
  destruct (sms_is_text _ _ _ _ Hs) as [Hn _].
  assert (Hfit : closed_rows (sms_on_fall s) /\ closed_rows (sms_on_rise s)
                 \/ (length arg < 5 + 49)%nat).
  { destruct (parsable_text s H) as (t & Ht & [Hshort|Hclosed]);
      [right | now left].
    unfold sms_is in Hs. rewrite Ht in Hs. injection Hs as ->.
    rewrite !length_app, (proj2 Hp) in Hshort. cbn [length] in Hshort.
    lia. }
  assert (HcX : cstr (skipn (verb_end " MessageText!") (received_sms_text s))
                = Some arg) by (rewrite HX; now apply cstr_app).
  clear HX.
  change (nth (verb_end " MessageText!") (received_sms_text s) 0)
    with (nth (verb_end " MessageText!" + 0) (received_sms_text s) 0).
  rewrite <- !nth_skipn.
  change (skipn (verb_end " MessageText!" + 2) (received_sms_text s))
    with (skipn (2 + verb_end " MessageText!") (received_sms_text s)).
  change (skipn (verb_end " MessageText!" + 5) (received_sms_text s))
    with (skipn (5 + verb_end " MessageText!") (received_sms_text s)).
  change (skipn (verb_end " MessageText!" + 6) (received_sms_text s))
    with (skipn (6 + verb_end " MessageText!") (received_sms_text s)).
  rewrite <- !skipn_skipn.
  set (X := skipn (verb_end " MessageText!") (received_sms_text s)) in *.
  set (s1 := set_multi_stage_handling_type MULTI_STAGE_RECEIVED_MSG s).
  assert (H1 : parsable s1) by now apply parsable_tag.
  assert (Herr : exists s',
    (s0 <- stage_message MULTI_STAGE_RECEIVED_MSG
             (bytes_of "Error. Invalid message change request") s1 ;;
     Done (set_recognised_instruction false s0)) = Done s' /\ parsable s').
  { destruct (stage_message_total MULTI_STAGE_RECEIVED_MSG
                (bytes_of "Error. Invalid message change request") s1 H1
                ltac:(cbv; lia) ltac:(cbv; lia)) as (s' & -> & Hs').
    cbn [bind]. eexists; split; [reflexivity|].
    now apply parsable_recognised. }
  change GPIO_NUMBER_PINS with 3%nat.
  destruct ((nth 0 X 0 - 49 >=? 0) && (nth 0 X 0 - 49 <? Z.of_nat 3)) eqn:Ek;
    [|exact Herr].
  apply andb_true_iff in Ek as [Ek0 Ek1].
  apply Z.geb_le in Ek0. apply Z.ltb_lt in Ek1.
  assert (Hk : (Z.to_nat (nth 0 X 0 - 49)%Z < GPIO_NUMBER_PINS)%nat)
    by (unfold GPIO_NUMBER_PINS; lia).
  set (k := Z.to_nat (nth 0 X 0 - 49)) in *.
  destruct (Z.eqb_spec (nth 1 X 0) 33) as [E1|E1]; [|exact Herr].
  cbn [negb andb].
  replace (strncmp (skipn 2 X) (literal "On!") 3 =? 0)
    with (prefix_of (bytes_of "On!") (skipn 2 X))
    by (symmetry;
        exact (strncmp_prefix_of (bytes_of "On!")
                 ltac:(now apply nul_free_bytes) (skipn 2 X) [0])).
  replace (strncmp (skipn 2 X) (literal "Off!") 4 =? 0)
    with (prefix_of (bytes_of "Off!") (skipn 2 X))
    by (symmetry;
        exact (strncmp_prefix_of (bytes_of "Off!")
                 ltac:(now apply nul_free_bytes) (skipn 2 X) [0])).
  assert (Hhead : forall i, (i < 2)%nat -> nth i X 0 <> 0).
  { intros [|[|i]] Hi; [lia | lia | lia]. }
  assert (Hat : forall pat i, prefix_of pat (skipn 2 X) = true ->
                (i < length pat)%nat -> nth (2 + i) X 0 = nth i pat 0).
  { intros pat i Hpat Hi. apply prefix_of_spec in Hpat as [r Hr].
    rewrite <- nth_skipn, Hr. now apply app_nth1. }
  destruct (prefix_of (bytes_of "On!") (skipn 2 X)) eqn:Eon.
  - cbn [Nat.eqb negb].
    assert (Hd : (5 <= length arg)%nat).
    { apply (nonzero_prefix_length X arg 5 HcX).
      intros [|[|[|[|[|i]]]]] Hi; try (apply Hhead; lia); try lia.
      - change (nth 2 X 0) with (nth (2 + 0) X 0).
        rewrite (Hat (bytes_of "On!") 0%nat Eon ltac:(cbv; lia)). cbv; lia.
      - change (nth 3 X 0) with (nth (2 + 1) X 0).
        rewrite (Hat (bytes_of "On!") 1%nat Eon ltac:(cbv; lia)). cbv; lia.
      - change (nth 4 X 0) with (nth (2 + 2) X 0).
        rewrite (Hat (bytes_of "On!") 2%nat Eon ltac:(cbv; lia)). cbv; lia. }
    destruct (message_row_total (sms_on_fall s1) k 5 X arg
                (size_sms_on_fall s Hsz)
                ltac:(destruct Hfit as [[? _]|?]; [now left | right; lia])
                Hk HcX Hd)
      as (row & shown & -> & Hshown & Hlen & Htab & Hclosed).
    cbn [bind].
    change (sms_on_fall (set_sms_on_fall ?v s1)) with v.
    rewrite Hshown. cbn [bind].
    match goal with
    | |- context [stage_message ?k ?out ?x] =>
        destruct (stage_message_total k out x) as (s' & -> & Hs')
    end.
    + now apply parsable_fall_rows.
    + cbv; lia.
    + rewrite !length_app. cbn [length digit quote].
      change (length (bytes_of "Ok. New message for input ")) with 26%nat.
      change (length (bytes_of " activating: ")) with 13%nat.
      unfold max_str_l. lia.
    + cbn [bind]. eexists; split; [reflexivity|].
      now apply parsable_recognised, parsable_store.
  - destruct (prefix_of (bytes_of "Off!") (skipn 2 X)) eqn:Eoff;
      [|exact Herr].
    cbn [Nat.eqb negb].
    assert (Hd : (6 <= length arg)%nat).
    { apply (nonzero_prefix_length X arg 6 HcX).
      intros [|[|[|[|[|[|i]]]]]] Hi; try (apply Hhead; lia); try lia.
      - change (nth 2 X 0) with (nth (2 + 0) X 0).
        rewrite (Hat (bytes_of "Off!") 0%nat Eoff ltac:(cbv; lia)). cbv; lia.
      - change (nth 3 X 0) with (nth (2 + 1) X 0).
        rewrite (Hat (bytes_of "Off!") 1%nat Eoff ltac:(cbv; lia)). cbv; lia.
      - change (nth 4 X 0) with (nth (2 + 2) X 0).
        rewrite (Hat (bytes_of "Off!") 2%nat Eoff ltac:(cbv; lia)). cbv; lia.
      - change (nth 5 X 0) with (nth (2 + 3) X 0).
        rewrite (Hat (bytes_of "Off!") 3%nat Eoff ltac:(cbv; lia)).
        cbv; lia. }
    destruct (message_row_total (sms_on_rise s1) k 6 X arg
                (size_sms_on_rise s Hsz)
                ltac:(destruct Hfit as [[_ ?]|?]; [now left | right; lia])
                Hk HcX Hd)
      as (row & shown & -> & Hshown & Hlen & Htab & Hclosed).
    cbn [bind].
    change (sms_on_rise (set_sms_on_rise ?v s1)) with v.
    rewrite Hshown. cbn [bind].
    match goal with
    | |- context [stage_message ?k ?out ?x] =>
        destruct (stage_message_total k out x) as (s' & -> & Hs')
    end.
    + now apply parsable_rise_rows.
    + cbv; lia.
    + rewrite !length_app. cbn [length digit quote].
      change (length (bytes_of "Ok. New message for input ")) with 26%nat.
      change (length (bytes_of " deactivating: ")) with 15%nat.
      unfold max_str_l. lia.
    + cbn [bind]. eexists; split; [reflexivity|].
      now apply parsable_recognised, parsable_store.
Qed.

(** ** The wait for OK *)

(** *** No part of the loop sets a flag of [received] but the classifier *)

Lemma stage_message_received k out : keeps received (stage_message k out).
Proof. unfold stage_message. keeps_tac received. Qed.

Lemma send_sms_received tel message : keeps received (send_sms tel message).
Proof. unfold send_sms. keeps_tac received. Qed.

#[local] Hint Resolve stage_message_received send_sms_received : keeps.

Lemma copy_defaults_received : keeps received copy_defaults.
Proof.
  unfold copy_defaults. intros s s' H. crunch.
  apply (for_loop_keeps received) in H; [exact H|].
  intros i. keeps_tac received.
Qed.
#[local] Hint Resolve copy_defaults_received : keeps.

Lemma signal_request_received : keeps received signal_request.
Proof. unfold signal_request. keeps_tac received. Qed.

Lemma telephone_number_received : keeps received telephone_number.
Proof. unfold telephone_number. keeps_tac received. Qed.

Lemma password_received : keeps received password.
Proof. unfold password. keeps_tac received. Qed.

Lemma sms_on_input_received : keeps received sms_on_input.
Proof. unfold sms_on_input. keeps_tac received. Qed.

Lemma message_text_received : keeps received message_text.
Proof. unfold message_text. keeps_tac received. Qed.

Lemma defaults_received : keeps received defaults.
Proof. unfold defaults. keeps_tac received. Qed.

Lemma invalid_command_received : keeps received invalid_command.
Proof. unfold invalid_command. keeps_tac received. Qed.

#[local] Hint Resolve signal_request_received telephone_number_received
  password_received sms_on_input_received message_text_received
  defaults_received invalid_command_received : keeps.

Lemma parse_sms_received : keeps received parse_sms.
Proof. unfold parse_sms. keeps_tac received. Qed.

Lemma save_flash_settings_received : keeps received save_flash_settings.
Proof. unfold save_flash_settings. keeps_tac received. Qed.

#[local] Hint Resolve parse_sms_received save_flash_settings_received : keeps.

(** *** Between the classifier and the processing of OK, a received OK
    stays and a wait for OK stays *)

Ltac same_received :=
  unfold keeps; intros; crunch; forward received; helpers_goal;
  repeat match goal with
         | K : received _ = _ |- _ => rewrite ?K; clear K
         end;
  unfold set_flag; rewrite ?flag_upd_neq by discriminate; reflexivity.

Ltac same_received_pure :=
  intros;
  repeat match goal with
         | |- context [if ?c then _ else _] => destruct c
         end;
  helpers_goal; unfold set_flag; rewrite ?flag_upd_neq by discriminate;
  reflexivity.

Lemma collect_awaiting_received s :
  received (collect_awaiting s) = received s.
Proof.
  unfold collect_awaiting.
  rewrite (fold_left_keeps received); [reflexivity|]. reflexivity.
Qed.

Lemma start_cpsi_check_ok_received now s :
  flag OK (received (start_cpsi_check now s)) = flag OK (received s).
Proof. unfold start_cpsi_check. same_received_pure. Qed.

Lemma process_cpsi_ok_received now :
  keeps (fun s => flag OK (received s)) (process_cpsi now).
Proof. unfold process_cpsi. same_received. Qed.

Lemma start_creg_check_ok_received now s :
  flag OK (received (start_creg_check now s)) = flag OK (received s).
Proof. unfold start_creg_check. same_received_pure. Qed.

Lemma process_creg_ok_received now s :
  flag OK (received (process_creg now s)) = flag OK (received s).
Proof. unfold process_creg. same_received_pure. Qed.

Lemma process_cmti_ok_received now :
  keeps (fun s => flag OK (received s)) (process_cmti now).
Proof. unfold process_cmti. same_received. Qed.

Lemma process_clcc_ok_received now s :
  flag OK (received (process_clcc now s)) = flag OK (received s).
Proof. unfold process_clcc. same_received_pure. Qed.

Lemma process_cmgr_ok_received now :
  keeps (fun s => flag OK (received s)) (process_cmgr now).
Proof. unfold process_cmgr. same_received. Qed.

Lemma process_csq_ok_received now :
  keeps (fun s => flag OK (received s)) (process_csq now).
Proof. unfold process_csq. same_received. Qed.

Lemma delete_messages_ok_received now s :
  flag OK (received (delete_messages now s)) = flag OK (received s).
Proof. unfold delete_messages. same_received_pure. Qed.

Lemma process_cmgs_ok_received now s :
  flag OK (received (process_cmgs now s)) = flag OK (received s).
Proof. unfold process_cmgs. same_received_pure. Qed.

Ltac waits_finish :=
  small_hyps;
  forward awaiting_response;
  unfold ok_awaited in *; helpers_goal;
  repeat match goal with
         | K : awaiting_response _ = _ |- _ => rewrite ?K; clear K
         end;
  unfold set_flag; rewrite ?upd_length;
  match goal with
  | HJ : _ /\ _ |- _ =>
      let HJl := fresh "HJl" in
      let HJt := fresh "HJt" in
      destruct HJ as [HJl HJt];
      split; [assumption|];
      rewrite ?flag_upd_neq by discriminate;
      first [ apply flag_upd_eq; rewrite ?upd_length, HJl; cbv; lia
            | assumption ]
  end.

Ltac waits_pure :=
  intros;
  repeat match goal with
         | |- context [if ?c then _ else _] => destruct c eqn:?
         end;
  waits_finish.

Ltac waits_tac := intros; crunch; waits_finish.

Lemma read_message_waits s s' :
  ok_awaited s -> read_message s = Done s' -> ok_awaited s'.
Proof.
  intros HJ H. unfold ok_awaited.
  now rewrite (read_message_awaiting _ _ H).
Qed.

Lemma collect_awaiting_waits s : ok_awaited s -> ok_awaited (collect_awaiting s).
Proof.
  intros HJ. unfold collect_awaiting. apply fold_left_invariant.
  - clear. intros s i HJ. waits_finish.
  - waits_finish.
Qed.

Lemma start_cpsi_check_waits now s :
  ok_awaited s -> ok_awaited (start_cpsi_check now s).
Proof. unfold start_cpsi_check. waits_pure. Qed.

Lemma process_cpsi_waits now s s' :
  ok_awaited s -> process_cpsi now s = Done s' -> ok_awaited s'.
Proof. unfold process_cpsi. waits_tac. Qed.

Lemma start_creg_check_waits now s :
  ok_awaited s -> ok_awaited (start_creg_check now s).
Proof. unfold start_creg_check. waits_pure. Qed.

Lemma process_creg_waits now s :
  ok_awaited s -> ok_awaited (process_creg now s).
Proof. unfold process_creg. waits_pure. Qed.

Lemma process_cmti_waits now s s' :
  ok_awaited s -> process_cmti now s = Done s' -> ok_awaited s'.
Proof. unfold process_cmti. waits_tac. Qed.

Lemma process_clcc_waits now s :
  ok_awaited s -> ok_awaited (process_clcc now s).
Proof. unfold process_clcc. waits_pure. Qed.

Lemma process_cmgr_waits now s s' :
  ok_awaited s -> process_cmgr now s = Done s' -> ok_awaited s'.
Proof. unfold process_cmgr. waits_tac. Qed.

Lemma process_csq_waits now s s' :
  ok_awaited s -> process_csq now s = Done s' -> ok_awaited s'.
Proof. unfold process_csq. waits_tac. Qed.

Lemma delete_messages_waits now s :
  ok_awaited s -> ok_awaited (delete_messages now s).
Proof. unfold delete_messages. waits_pure. Qed.

Lemma process_cmgs_waits now s :
  ok_awaited s -> ok_awaited (process_cmgs now s).
Proof. unfold process_cmgs. waits_pure. Qed.

(** The processing of OK ends the wait exactly when an OK has been
    received. *)
Lemma process_ok_ends_wait now s s' :
  ok_awaited s -> process_ok now s = Done s' ->
  length (awaiting_response s') = MAX_MSG
  /\ flag OK (awaiting_response s') = negb (flag OK (received s)).
Proof.
  intros [Hl Hw] H. unfold process_ok in H. rewrite Hw, andb_true_r in H.
  destruct (flag OK (received s)); cbn [negb].
  - crunch; forward awaiting_response; helpers_goal;
      repeat match goal with
             | K : awaiting_response _ = _ |- _ => rewrite ?K; clear K
             end;
      unfold set_flag; rewrite ?upd_length; (split; [assumption|]);
      rewrite ?flag_upd_neq by discriminate;
      apply flag_upd_eq; rewrite Hl; cbv; lia.
  - injection H as <-. now split.
Qed.

Lemma process_unknown_awaiting s :
  awaiting_response (process_unknown s) = awaiting_response s.
Proof. unfold process_unknown. now destruct (_ && _). Qed.

Lemma process_messages_wait t s m s' :
  ok_awaited s -> read_message s = Done m ->
  process_messages t s = Done s' ->
  length (awaiting_response s') = MAX_MSG
  /\ flag OK (awaiting_response s') = negb (flag OK (received m)).
Proof.
  unfold process_messages. intros HJ Hm H. rewrite Hm in H. cbn [bind] in H.
  bind_inv H. bind_inv H. bind_inv H. bind_inv H. bind_inv H.
  injection H as <-. rewrite process_unknown_awaiting.
  match type of Ha3 with
  | process_ok _ ?x = _ =>
      assert (Hx : ok_awaited x
                   /\ flag OK (received x) = flag OK (received m))
  end.
  { split.
    - apply process_cmgs_waits, delete_messages_waits.
      eapply process_csq_waits; [|exact Ha2].
      eapply process_cmgr_waits; [|exact Ha1].
      apply process_clcc_waits.
      eapply process_cmti_waits; [|exact Ha0].
      apply process_creg_waits, start_creg_check_waits.
      eapply process_cpsi_waits; [|exact Ha].
      apply start_cpsi_check_waits, collect_awaiting_waits.
      apply (read_message_waits _ _ HJ Hm).
    - rewrite process_cmgs_ok_received, delete_messages_ok_received.
      rewrite (process_csq_ok_received _ _ _ Ha2).
      rewrite (process_cmgr_ok_received _ _ _ Ha1).
      rewrite process_clcc_ok_received.
      rewrite (process_cmti_ok_received _ _ _ Ha0).
      rewrite process_creg_ok_received, start_creg_check_ok_received.
      rewrite (process_cpsi_ok_received _ _ _ Ha).
      rewrite start_cpsi_check_ok_received.
      now rewrite collect_awaiting_received. }
  destruct Hx as [Hw Hr].
  destruct (process_ok_ends_wait _ _ _ Hw Ha3) as [Hl Hf].
  split; [exact Hl|]. now rewrite Hf, Hr.
Qed.

(** A traversal of the loop keeps the wait for OK unless an OK has been
    received or the wait has lasted longer than its deadline. *)
Lemma loop_body_wait t s m m' s' :
  ok_awaited s -> read_message s = Done m ->
  process_messages t s = Done m' -> loop_body t s = Done s' ->
  length (awaiting_response s') = MAX_MSG
  /\ flag OK (awaiting_response s')
     = negb (flag OK (received m))
       && negb (absolute_time_diff_us (nth OK (initiate_time m') 0)
                  (current_time t) >? 60000000).
Proof.
  intros HJ Hm Hp H. unfold loop_body in H. rewrite Hp in H.
  cbn [bind] in H.
  destruct (process_messages_wait t s m m' HJ Hm Hp) as [Hl Hf].
  destruct (check_timeouts_spec (current_time t) m' OK ltac:(cbv; lia) Hl)
    as (Hflag & _ & _ & Hl').
  pose proof (act_on_inputs_wait t _ _ H) as Hw. cbv beta in Hw.
  pose proof (act_on_inputs_length t _ _ H) as Hn. cbv beta in Hn.
  split; [now rewrite Hn|].
  rewrite Hw, Hflag. unfold timed_out, timeout_us.
  change (OK =? OK)%nat with true. cbv iota. rewrite Hf.
  destruct (flag OK (received m)); [reflexivity|].
  cbn [negb andb]. now rewrite andb_true_r.
Qed.

Lemma interrupt_awaiting chars s :
  awaiting_response (uart_rx_interrupt_handler chars s) = awaiting_response s
  /\ initiate_time (uart_rx_interrupt_handler chars s) = initiate_time s.
Proof.
  unfold uart_rx_interrupt_handler. split.
  - apply (fold_left_keeps awaiting_response). intros x chr. cbv zeta.
    repeat match goal with
           | |- context [if ?c then _ else _] => destruct c
           end; reflexivity.
  - apply (fold_left_keeps initiate_time). intros x chr. cbv zeta.
    repeat match goal with
           | |- context [if ?c then _ else _] => destruct c
           end; reflexivity.
Qed.
Lemma with_defaults_parsable (s : state) :
  parsable s -> parsable (with_defaults s).
Proof.
  intros [Hs Hp (t & Ht & Hrows)].
  destruct (table_3 _ _ (size_sms_on_fall s Hs))
    as (f0 & f1 & f2 & Ef & F0 & F1 & F2).
  destruct (table_3 _ _ (size_sms_on_rise s Hs))
    as (r0 & r1 & r2 & Er & R0 & R1 & R2).
  constructor.
  - now apply with_defaults_sized.
  - exists (bytes_of "674358"). split; [|reflexivity].
    unfold with_defaults, default_passw. fields_goal.
    apply cstr_blit_literal; [reflexivity|].
    now rewrite (size_passw s Hs).
  - exists t. split; [exact Ht|].
    destruct Hrows as [Hshort|[Hf Hr]]; [now left | right]. split.
    + unfold with_defaults, closed_rows in *. fields_goal.
      rewrite Ef in *. cbn [default_sms_on_fall combine map fst snd].
      inversion_clear Hf as [|? ? H0 Hf1].
      inversion_clear Hf1 as [|? ? H1 Hf2].
      inversion_clear Hf2 as [|? ? H2 _].
      repeat constructor; rewrite nth_blit_after by (cbv; lia); assumption.
    + unfold with_defaults, closed_rows in *. fields_goal.
      rewrite Er in *. cbn [default_sms_on_rise combine map fst snd].
      inversion_clear Hr as [|? ? H0 Hr1].
      inversion_clear Hr1 as [|? ? H1 Hr2].
      inversion_clear Hr2 as [|? ? H2 _].
      repeat constructor; rewrite nth_blit_after by (cbv; lia); assumption.
Qed.

Lemma defaults_total (s : state) :
  parsable s -> exists s', defaults s = Done s' /\ parsable s'.
Proof.
  intros H. destruct (parsable_password s H) as [p Hp].
  unfold defaults. rewrite (command_is_spec _ p s Hp) by reflexivity.
  cbn [bind]. destruct (prefix_of _ _); [|now exists s].
  match goal with
  | |- context [stage_message ?k ?out ?x] =>
      destruct (stage_message_total k out x) as (s' & -> & Hs')
  end.
  - now apply parsable_tag.
  - cbv; lia.
  - cbv; lia.
  - cbn [bind]. rewrite (copy_defaults_spec s' (parsable_sized s' Hs')).
    cbn [bind]. eexists; split; [reflexivity|].
    now apply parsable_recognised, parsable_store, with_defaults_parsable.
Qed.

Lemma invalid_command_total (s : state) :
  parsable s -> exists s', invalid_command s = Done s' /\ parsable s'.
Proof.
  intros H. unfold invalid_command.
  destruct (recognised_instruction s); [|now exists s].
  apply stage_message_total; [now apply parsable_tag | cbv; lia | cbv; lia].
Qed.

(** Whatever the SMS says, the parser runs to its end. *)
Lemma parse_sms_total (s : state) :
  parsable s -> exists s', parse_sms s = Done s' /\ parsable s'.
Proof.
  intros H. unfold parse_sms.
  match goal with
  | |- context [signal_request ?x] =>
      destruct (signal_request_total x) as (s1 & -> & H1);
        [now apply parsable_recognised|]
  end.
  cbn [bind]. destruct (telephone_number_total s1 H1) as (s2 & -> & H2).
  cbn [bind]. destruct (password_total s2 H2) as (s3 & -> & H3).
  cbn [bind]. destruct (sms_on_input_total s3 H3) as (s4 & -> & H4).
  cbn [bind]. destruct (message_text_total s4 H4) as (s5 & -> & H5).
  cbn [bind]. destruct (defaults_total s5 H5) as (s6 & -> & H6).
  cbn [bind]. now apply invalid_command_total.
Qed.

Lemma acknowledge_cmgr_parsable (now : Z) (s : state) :
  parsable s -> parsable (acknowledge_cmgr now s).
Proof.
  intros H. apply (parsable_same s); try reflexivity; [assumption|].
  apply acknowledge_cmgr_sized, H.
Qed.

(** C10: processing a completed CMGR read-out begins, whatever password
    or command the SMS carries, by ending the wait for CMGR and setting the
    wait for OK, with [now] as the time the wait began, and then runs the
    parser, which changes neither; so after every run of the handler that
    ends the dialogue is busy, also when the SMS was silently ignored.
    The handler ends when the parser finds its inputs in place.  The wait
    for OK then lasts: an interrupt keeps it, and a traversal of the loop
    ends it exactly when an OK has been received or the wait has lasted
    longer than its 60 seconds. *)
Theorem cmgr_readout_awaits_ok (now : Z) (s : state) :
  well_sized s ->
  flag CMGR (received s) && flag CMGR (awaiting_response s)
  && received_sms s = true ->
  (process_cmgr now s = parse_sms (acknowledge_cmgr now s)
   /\ ok_awaited (acknowledge_cmgr now s)
   /\ nth OK (initiate_time (acknowledge_cmgr now s)) 0 = now
   /\ flag CMGR (awaiting_response (acknowledge_cmgr now s)) = false)
  /\ (parsable s -> exists s', process_cmgr now s = Done s')
  /\ (forall s', process_cmgr now s = Done s' ->
      flag OK (awaiting_response s') = true
      /\ nth OK (initiate_time s') 0 = now
      /\ flag CMGR (awaiting_response s') = false
      /\ ok_awaited s' /\ busy s')
  /\ (forall chars s1,
      awaiting_response (uart_rx_interrupt_handler chars s1)
      = awaiting_response s1
      /\ initiate_time (uart_rx_interrupt_handler chars s1)
         = initiate_time s1)
  /\ (forall t s1 m m' s2,
      ok_awaited s1 -> read_message s1 = Done m ->
      process_messages t s1 = Done m' -> loop_body t s1 = Done s2 ->
      length (awaiting_response s2) = MAX_MSG
      /\ flag OK (awaiting_response s2)
         = negb (flag OK (received m))
           && negb (absolute_time_diff_us (nth OK (initiate_time m') 0)
                      (current_time t) >? 60000000)).
Proof.
  intros Hsz Hc.
  pose proof (size_awaiting_response s Hsz) as Ha.
  pose proof (size_initiate_time s Hsz) as Hi.
  assert (Hl : length (awaiting_response (acknowledge_cmgr now s)) = MAX_MSG).
  { unfold acknowledge_cmgr, await_response, set_flag. fields_goal.
    now rewrite !upd_length. }
  assert (Hok : flag OK (awaiting_response (acknowledge_cmgr now s)) = true).
  { unfold acknowledge_cmgr, await_response, set_flag, flag. fields_goal.
    rewrite nth_upd_neq by (cbv; lia).
    apply nth_upd_eq. rewrite upd_length, Ha. cbv; lia. }
  assert (Ht : nth OK (initiate_time (acknowledge_cmgr now s)) 0 = now).
  { unfold acknowledge_cmgr, await_response. fields_goal.
    apply nth_upd_eq. rewrite Hi. cbv; lia. }
  assert (Hcmgr : flag CMGR (awaiting_response (acknowledge_cmgr now s))
                  = false).
  { unfold acknowledge_cmgr, await_response, set_flag, flag. fields_goal.
    rewrite !nth_upd_neq by (cbv; lia).
    apply nth_upd_eq. rewrite Ha. cbv; lia. }
  assert (Hrun : process_cmgr now s = parse_sms (acknowledge_cmgr now s))
    by (unfold process_cmgr; now rewrite Hc).
  split; [|split; [|split; [|split]]].
  - split; [exact Hrun|]. split; [now split|]. now split.
  - intros H. rewrite Hrun.
    destruct (parse_sms_total _ (acknowledge_cmgr_parsable now s H))
      as (s' & Hs' & _).
    now exists s'.
  - intros s' Hs'. rewrite Hrun in Hs'.
    pose proof (parse_sms_awaiting _ _ Hs') as Ea.
    pose proof (parse_sms_initiate _ _ Hs') as Ei.
    rewrite Ea, Ei. unfold ok_awaited. rewrite Ea.
    split; [exact Hok|]. split; [exact Ht|]. split; [exact Hcmgr|].
    split; [now split|].
    exists OK. split; [cbv; lia | now rewrite Ea].
  - intros chars s1. apply interrupt_awaiting.
  - intros t s1 m m' s2 Hw Hm Hp H.
    exact (loop_body_wait t s1 m m' s2 Hw Hm Hp H).
Qed.

(** ** The properties at concrete states *)

Lemma table_check (n len : nat) (a : list (list Z)) :
  tableb n len a = true -> table n len a.
Proof.
  unfold tableb, table. intros H. apply andb_true_iff in H as [Hl Hr].
  split; [now apply Nat.eqb_eq|].
  apply Forall_forall. intros row Hrow. apply Nat.eqb_eq.
  rewrite forallb_forall in Hr. now apply Hr.
Qed.

Lemma well_sized_check (s : state) : well_sizedb s = true -> well_sized s.
Proof.
  unfold well_sizedb. intros H.
  do 12 (apply andb_true_iff in H as [H ?]).
  constructor; try (now apply table_check); now apply Nat.eqb_eq.
Qed.

Lemma closed_rows_check (rows : list (list Z)) :
  closed_rowsb rows = true -> closed_rows rows.
Proof.
  unfold closed_rowsb, closed_rows. intros H.
  apply Forall_forall. intros row Hrow. apply Z.eqb_eq.
  rewrite forallb_forall in H. now apply H.
Qed.

Lemma parsable_check (s : state) (p t : list Z) :
  well_sizedb s = true -> cstr (passw s) = Some p -> length p = 6%nat ->
  cstr (received_sms_text s) = Some t ->
  (length t <? 73)%nat
  || closed_rowsb (sms_on_fall s) && closed_rowsb (sms_on_rise s) = true ->
  parsable s.
Proof.
  intros Hs Hp Hl Ht Hr. constructor.
  - now apply well_sized_check.
  - exists p. now split.
  - exists t. split; [exact Ht|].
    apply orb_true_iff in Hr as [Hr|Hr]; [left; now apply Nat.ltb_lt|].
    apply andb_true_iff in Hr as [Hf Hr]. right.
    split; now apply closed_rows_check.
Qed.

Lemma run_in_time_reachable (events : list event) :
  forall s s', reachable_in_time s -> run_in_time events s = Done s' ->
  reachable_in_time s'.
Proof.
  unfold run_in_time. induction events as [|e events IH]; intros s s' Hs H;
    cbn [fold_left] in H.
  - now injection H as <-.
  - assert (Hstuck : forall r, r <> Done s' ->
              (forall x, r <> Done x) ->
              fold_left step_in_time events r <> Done s').
    { clear. intros r _ Hr. induction events as [|e events IH]; cbn.
      - intros E. now apply (Hr s').
      - destruct r as [x| |]; [now destruct (Hr x) | exact IH | exact IH]. }
    destruct e as [chars|t]; cbn [step_in_time bind] in H.
    + apply (IH _ _ (in_time_interrupt chars s Hs) H).
    + destruct (action_times_out t s) eqn:Et.
      * exfalso. revert H. apply Hstuck; [discriminate | discriminate].
      * destruct (loop_body t s) as [s1| |] eqn:E.
        -- apply (IH s1 s' (in_time_loop t s s1 Hs Et E) H).
        -- exfalso. revert H. apply Hstuck; discriminate.
        -- exfalso. revert H. apply Hstuck; discriminate.
Qed.

Lemma started_in_time : reachable_in_time started.
Proof.
  apply (in_time_startup 0 blank_flash zero_ram);
    [exact zero_ram_sized | reflexivity | exact started_run].
Qed.

(** After a start from blank flash, a first traversal of the loop with no
    input activated writes the record of the defaults. *)
Lemma first_traversal_stores_defaults :
  exists s', loop_body (mkTick 10 (fun _ => true)) started = Done s'
    /\ record_valid (flash_target_contents s')
    /\ store_new_flash_settings s' = false
    /\ exists s'', startup 0 (flash_target_contents s') zero_ram = Done s''
         /\ configuration_of s'' = Some default_configuration.
Proof.
  eexists. split; [vm_compute; reflexivity|].
  split; [unfold record_valid; vm_compute; reflexivity|].
  split; [reflexivity|].
  eexists. split; vm_compute; reflexivity.
Qed.

(** The parser does not end for every read-out that the loop can come to:
    after a start that finds stale bytes in the message rows, a
    [MessageText!] command whose text fills the 49 characters that are
    copied leaves the row without a NUL, and the reply that quotes the row
    reads past its end. *)
Lemma long_message_text_overruns :
  well_sized stale_ram
  /\ startup 0 blank_flash stale_ram = Done started_stale
  /\ (s <- run (arrival long_message) started_stale ;; read_message s)
     = Done (read_out_from started_stale long_message)
  /\ flag CMGR (received (read_out_from started_stale long_message))
     && flag CMGR (awaiting_response
                     (read_out_from started_stale long_message))
     && received_sms (read_out_from started_stale long_message) = true
  /\ length long_message = 73%nat
  /\ process_cmgr 40 (read_out_from started_stale long_message) = Undefined
  /\ run (arrival long_message ++ [quiet 40]) started_stale = Undefined.
Proof.
  split; [apply well_sized_check; vm_compute; reflexivity|].
  split; [vm_compute; reflexivity|].
  split; [vm_compute; reflexivity|].
  split; [vm_compute; reflexivity|].
  split; [vm_compute; reflexivity|].
  split; vm_compute; reflexivity.
Qed.

Lemma settings_checksum_witness :
  well_sized zero_ram /\ length blank_flash = FLASH_SETTINGS_BYTES
  /\ exists s, startup 0 blank_flash zero_ram = Done s
       /\ configuration_of s = Some default_configuration
       /\ store_new_flash_settings s = true.
Proof.
  assert (Hs : well_sized zero_ram)
    by (apply well_sized_check; vm_compute; reflexivity).
  assert (Hl : length blank_flash = FLASH_SETTINGS_BYTES) by reflexivity.
  assert (Hbad : ~ record_valid blank_flash)
    by (unfold record_valid; vm_compute; discriminate).
  split; [exact Hs|]. split; [exact Hl|].
  destruct (settings_checksum 0 blank_flash zero_ram Hs Hl) as (_ & H & _).
  destruct (H Hbad) as (s & Hrun & Hc & Hd & _).
  exists s. repeat split; assumption.
Defined.

Lemma configuration_round_trip_witness :
  well_sized started
  /\ configuration_of started = Some default_configuration
  /\ valid_configuration default_configuration
  /\ exists s', save_flash_settings started = Done s'
       /\ length (flash_target_contents s') = FLASH_SETTINGS_BYTES.
Proof.
  assert (Hs : well_sized started)
    by (apply well_sized_check; vm_compute; reflexivity).
  assert (Hc : configuration_of started = Some default_configuration)
    by (vm_compute; reflexivity).
  split; [exact Hs|]. split; [exact Hc|].
  split; [exact default_configuration_valid|].
  destruct (configuration_round_trip started default_configuration Hs Hc
              default_configuration_valid) as (s' & Hrun & Hl & _).
  exists s'. split; assumption.
Defined.

Lemma wrong_password_ignored_witness :
  password_is (bytes_of "674358") (read_out (bytes_of "000000 Defaults!"))
  /\ firstn 6 (received_sms_text (read_out (bytes_of "000000 Defaults!")))
     <> bytes_of "674358"
  /\ exists s', process_cmgr 40 (read_out (bytes_of "000000 Defaults!"))
                = Done s'
       /\ passw s' = passw (read_out (bytes_of "000000 Defaults!"))
       /\ multi_stage_handling_type s' = 0%nat.
Proof.
  assert (Hp : password_is (bytes_of "674358")
                 (read_out (bytes_of "000000 Defaults!")))
    by (split; vm_compute; reflexivity).
  assert (Hw : firstn 6 (received_sms_text
                           (read_out (bytes_of "000000 Defaults!")))
               <> bytes_of "674358") by (vm_compute; discriminate).
  split; [exact Hp|]. split; [exact Hw|].
  destruct (wrong_password_ignored 40 _ _ Hp Hw)
    as (s' & Hrun & Hpw & _ & _ & _ & _ & _ & Htag & _).
  exists s'. split; [exact Hrun|]. split; [exact Hpw|].
  rewrite Htag. vm_compute. reflexivity.
Defined.

Lemma password_command_witness :
  well_sized (read_out (bytes_of "674358 Password!abcdef"))
  /\ password_is (bytes_of "674358")
       (read_out (bytes_of "674358 Password!abcdef"))
  /\ sms_is (bytes_of "674358") " Password!" (bytes_of "abcdef")
       (read_out (bytes_of "674358 Password!abcdef"))
  /\ exists s', process_cmgr 40 (read_out (bytes_of "674358 Password!abcdef"))
                = Done s'
       /\ cstr (passw s') = Some (bytes_of "abcdef")
       /\ store_new_flash_settings s' = true.
Proof.
  assert (Hs : well_sized (read_out (bytes_of "674358 Password!abcdef")))
    by (apply well_sized_check; vm_compute; reflexivity).
  assert (Hp : password_is (bytes_of "674358")
                 (read_out (bytes_of "674358 Password!abcdef")))
    by (split; vm_compute; reflexivity).
  assert (Ht : sms_is (bytes_of "674358") " Password!" (bytes_of "abcdef")
                 (read_out (bytes_of "674358 Password!abcdef")))
    by (unfold sms_is; vm_compute; reflexivity).
  split; [exact Hs|]. split; [exact Hp|]. split; [exact Ht|].
  destruct (password_command 40 _ _ _ Hs Hp Ht)
    as (s' & Hrun & _ & Hpw & Hd & _); [vm_compute; reflexivity|].
  exists s'. repeat split; assumption.
Defined.

Lemma sms_on_input_command_witness :
  well_sized (read_out (bytes_of "674358 SMSonInput!2"))
  /\ password_is (bytes_of "674358")
       (read_out (bytes_of "674358 SMSonInput!2"))
  /\ sms_is (bytes_of "674358") " SMSonInput!" (bytes_of "2")
       (read_out (bytes_of "674358 SMSonInput!2"))
  /\ exists s', process_cmgr 40 (read_out (bytes_of "674358 SMSonInput!2"))
                = Done s'
       /\ send_sms_on_change s' = [true; false; true]
       /\ store_new_flash_settings s' = true.
Proof.
  assert (Hs : well_sized (read_out (bytes_of "674358 SMSonInput!2")))
    by (apply well_sized_check; vm_compute; reflexivity).
  assert (Hp : password_is (bytes_of "674358")
                 (read_out (bytes_of "674358 SMSonInput!2")))
    by (split; vm_compute; reflexivity).
  assert (Ht : sms_is (bytes_of "674358") " SMSonInput!" (bytes_of "2")
                 (read_out (bytes_of "674358 SMSonInput!2")))
    by (unfold sms_is; vm_compute; reflexivity).
  split; [exact Hs|]. split; [exact Hp|]. split; [exact Ht|].
  destruct (sms_on_input_command 40 _ _ _ Hs Hp Ht)
    as (s' & Hrun & _ & Hok & _); [vm_compute; reflexivity|].
  destruct (Hok 1%nat) as (Hf & Hd & _);
    [unfold GPIO_NUMBER_PINS; lia | reflexivity|].
  exists s'. split; [exact Hrun|]. split; [|exact Hd].
  rewrite Hf. vm_compute. reflexivity.
Defined.

Lemma classify_by_prefix_witness :
  well_sized zero_ram
  /\ cstr (literal "OKx") = Some (bytes_of "OKx")
  /\ (length (bytes_of "OKx") < max_str_l)%nat
  /\ exists s', classify (literal "OKx") zero_ram = Done s'
       /\ flag OK (received s') = true.
Proof.
  assert (Hs : well_sized zero_ram)
    by (apply well_sized_check; vm_compute; reflexivity).
  assert (Hc : cstr (literal "OKx") = Some (bytes_of "OKx")) by reflexivity.
  assert (Hl : (length (bytes_of "OKx") < max_str_l)%nat)
    by (unfold max_str_l; simpl; lia).
  split; [exact Hs|]. split; [exact Hc|]. split; [exact Hl|].
  destruct (classify_by_prefix _ _ zero_ram Hs Hc Hl) as (s' & Hrun & Hok & _).
  exists s'. split; [exact Hrun|]. apply Hok. right. reflexivity.
Defined.

Lemma scan_notifies_every_change_witness :
  well_sized started
  /\ configuration_of started = Some default_configuration
  /\ absolute_time_diff_us (last_status_check_time started)
       (current_time all_low) > 1000000
  /\ flag UNKNOWN (awaiting_response started) = false
  /\ exists s', check_pins all_low started = Done s'
       /\ last_status s' = [true; true; true]
       /\ length (uart_tx s') = (length (uart_tx started) + 6)%nat.
Proof.
  assert (Hs : well_sized started)
    by (apply well_sized_check; vm_compute; reflexivity).
  assert (Hc : configuration_of started = Some default_configuration)
    by (vm_compute; reflexivity).
  assert (Ht : absolute_time_diff_us (last_status_check_time started)
                 (current_time all_low) > 1000000)
    by (vm_compute; reflexivity).
  assert (Hu : flag UNKNOWN (awaiting_response started) = false)
    by (vm_compute; reflexivity).
  split; [exact Hs|]. split; [exact Hc|]. split; [exact Ht|].
  split; [exact Hu|].
  destruct (scan_notifies_every_change all_low started default_configuration
              Hs Hc Ht Hu) as (s' & Hrun & Hst & Hlen & _).
  exists s'. split; [exact Hrun|]. split.
  - rewrite Hst. vm_compute. reflexivity.
  - rewrite Hlen. vm_compute. reflexivity.
Defined.

Lemma pending_action_awaits_ok_witness :
  reachable_in_time (state_of (run_in_time lost_hangup_ok started))
  /\ multi_stage_handling_type
       (state_of (run_in_time lost_hangup_ok started)) <> 0%nat
  /\ flag OK (awaiting_response
                (state_of (run_in_time lost_hangup_ok started))) = true.
Proof.
  assert (Hr : reachable_in_time
                 (state_of (run_in_time lost_hangup_ok started))).
  { apply (run_in_time_reachable lost_hangup_ok started);
      [exact started_in_time | vm_compute; reflexivity]. }
  assert (Ht : multi_stage_handling_type
                 (state_of (run_in_time lost_hangup_ok started)) <> 0%nat)
    by (vm_compute; discriminate).
  split; [exact Hr|]. split; [exact Ht|].
  exact (proj1 (proj1 (pending_action_awaits_ok _ Hr) Ht)).
Defined.

Lemma timeout_clears_wait_witness :
  (OK < MAX_MSG - 1)%nat
  /\ length (awaiting_response
               (state_of (run (arrival (bytes_of "hello") ++ [quiet 40])
                              started))) = MAX_MSG
  /\ flag OK (awaiting_response
                (state_of (run (arrival (bytes_of "hello") ++ [quiet 40])
                               started))) = true
  /\ flag OK (awaiting_response
                (check_timeouts 10000040
                   (state_of (run (arrival (bytes_of "hello") ++ [quiet 40])
                                  started)))) = true
  /\ flag OK (awaiting_response
                (check_timeouts 60000041
                   (state_of (run (arrival (bytes_of "hello") ++ [quiet 40])
                                  started)))) = false.
Proof.
  assert (Hk : (OK < MAX_MSG - 1)%nat) by (vm_compute; lia).
  assert (Hl : length (awaiting_response
                         (state_of (run (arrival (bytes_of "hello")
                                         ++ [quiet 40]) started)))
               = MAX_MSG) by (vm_compute; reflexivity).
  split; [exact Hk|]. split; [exact Hl|].
  split; [vm_compute; reflexivity|].
  split.
  - rewrite (proj1 (timeout_clears_wait 10000040 _ OK Hk Hl)).
    vm_compute. reflexivity.
  - rewrite (proj1 (timeout_clears_wait 60000041 _ OK Hk Hl)).
    vm_compute. reflexivity.
Defined.

Lemma cmgr_readout_awaits_ok_witness :
  well_sized (read_out_from started_stale (bytes_of "hello"))
  /\ flag CMGR (received (read_out_from started_stale (bytes_of "hello")))
     && flag CMGR (awaiting_response
                     (read_out_from started_stale (bytes_of "hello")))
     && received_sms (read_out_from started_stale (bytes_of "hello")) = true
  /\ closed_rowsb (sms_on_fall
                     (read_out_from started_stale (bytes_of "hello")))
     = false
  /\ exists s',
       process_cmgr 40 (read_out_from started_stale (bytes_of "hello"))
       = Done s'
       /\ flag OK (awaiting_response s') = true
       /\ nth OK (initiate_time s') 0 = 40
       /\ busy s'.
Proof.
  assert (Hs : well_sized (read_out_from started_stale (bytes_of "hello")))
    by (apply well_sized_check; vm_compute; reflexivity).
  assert (Hp : parsable (read_out_from started_stale (bytes_of "hello")))
    by (apply (parsable_check _ (bytes_of "674358") (bytes_of "hello"));
        vm_compute; reflexivity).
  assert (Hc : flag CMGR (received
                            (read_out_from started_stale (bytes_of "hello")))
               && flag CMGR (awaiting_response
                               (read_out_from started_stale
                                  (bytes_of "hello")))
               && received_sms
                    (read_out_from started_stale (bytes_of "hello")) = true)
    by (vm_compute; reflexivity).
  split; [exact Hs|]. split; [exact Hc|].
  split; [vm_compute; reflexivity|].
  destruct (cmgr_readout_awaits_ok 40 _ Hs Hc) as (_ & Hends & Hsets & _).
  destruct (Hends Hp) as [s' Hrun].
  destruct (Hsets s' Hrun) as (Hok & Ht & _ & _ & Hb).
  exists s'. split; [exact Hrun|]. split; [exact Hok|].
  split; [exact Ht | exact Hb].
Defined.


(** * The remaining parts of the firmware *)

(** ** The ring buffer is a queue *)

Lemma ring_slot_range (p i : Z) :
  0 <= (p + i) mod RX_BUFFER_SIZE < RX_BUFFER_SIZE.
Proof. apply Z.mod_pos_bound. reflexivity. Qed.

Lemma ring_slots_differ (p : Z) (i j : nat) :
  Z.of_nat i < RX_BUFFER_SIZE -> Z.of_nat j < RX_BUFFER_SIZE -> i <> j ->
  Z.to_nat ((p + Z.of_nat i) mod RX_BUFFER_SIZE)
  <> Z.to_nat ((p + Z.of_nat j) mod RX_BUFFER_SIZE).
Proof.
  intros Hi Hj Hij E.
  pose proof (ring_slot_range p (Z.of_nat i)).
  pose proof (ring_slot_range p (Z.of_nat j)).
  apply Z2Nat.inj in E; try lia.
  unfold RX_BUFFER_SIZE in *.
  apply Hij. apply Nat2Z.inj.
  pose proof (Z.div_mod (p + Z.of_nat i) 10000 ltac:(lia)).
  pose proof (Z.div_mod (p + Z.of_nat j) 10000 ltac:(lia)).
  lia.
Qed.

(** One character enters the buffer. *)
Lemma ring_push (chr : Z) (s : state) (q : list Z) :
  ring_holds s q -> Z.of_nat (length q) < RX_BUFFER_SIZE ->
  ring_holds
    (let s := set_rx_buffer_entries (rx_buffer_entries s + 1) s in
     let s := set_rx_buffer
                (upd (Z.to_nat (rx_buffer_write_position s)) chr (rx_buffer s))
                s in
     let s := set_rx_buffer_write_position (rx_buffer_write_position s + 1) s in
     let s := if chr =? LF
              then set_rx_buffer_number_lf (rx_buffer_number_lf s + 1) s
              else s in
     if rx_buffer_write_position s =? RX_BUFFER_SIZE
     then set_rx_buffer_write_position 0 s else s)
    (q ++ [chr]).
Proof.
  intros (Hlen & Hr & He & Hw & Hn & Hq & Hat) Hroom. cbv zeta.
  assert (Hcount : Z.of_nat (count_occ Z.eq_dec (q ++ [chr]) LF)
                   = rx_buffer_number_lf s + (if chr =? LF then 1 else 0)).
  { rewrite count_occ_app, Hn. cbn [count_occ].
    destruct (Z.eq_dec chr LF) as [->|Hc].
    - rewrite Z.eqb_refl. lia.
    - apply Z.eqb_neq in Hc. rewrite Hc. lia. }
  assert (Hwrap : (if rx_buffer_write_position s + 1 =? RX_BUFFER_SIZE
                   then 0 else rx_buffer_write_position s + 1)
                  = (rx_buffer_read_position s + Z.of_nat (length (q ++ [chr])))
                    mod RX_BUFFER_SIZE).
  { rewrite length_app. cbn [length]. rewrite Hw.
    pose proof (ring_slot_range (rx_buffer_read_position s)
                  (Z.of_nat (length q))) as Hs.
    unfold RX_BUFFER_SIZE in *.
    pose proof (Z.div_mod (rx_buffer_read_position s + Z.of_nat (length q))
                  10000 ltac:(lia)).
    pose proof (Z.div_mod
                  (rx_buffer_read_position s + Z.of_nat (length q + 1))
                  10000 ltac:(lia)).
    pose proof (Z.mod_pos_bound
                  (rx_buffer_read_position s + Z.of_nat (length q + 1))
                  10000 ltac:(lia)).
    destruct (Z.eqb_spec
                ((rx_buffer_read_position s + Z.of_nat (length q)) mod 10000
                 + 1) 10000); lia. }
  assert (Hslot : forall i, (i < length (q ++ [chr]))%nat ->
            nth (Z.to_nat ((rx_buffer_read_position s + Z.of_nat i)
                           mod RX_BUFFER_SIZE))
                (upd (Z.to_nat (rx_buffer_write_position s)) chr (rx_buffer s))
                0
            = nth i (q ++ [chr]) 0).
  { intros i Hi. rewrite length_app in Hi. cbn [length] in Hi.
    destruct (Nat.eq_dec i (length q)) as [->|Hne].
    - rewrite Hw, nth_upd_eq, app_nth2, Nat.sub_diag by
        (try lia; rewrite Hlen;
         pose proof (ring_slot_range (rx_buffer_read_position s)
                       (Z.of_nat (length q))); lia).
      reflexivity.
    - rewrite Hw, nth_upd_neq, app_nth1 by
        (try lia; apply ring_slots_differ; lia).
      apply Hat. lia. }
  destruct (chr =? LF);
    fields_goal;
    (destruct (rx_buffer_write_position s + 1 =? RX_BUFFER_SIZE) eqn:Ew;
     unfold ring_holds; fields_goal;
     rewrite ?upd_length;
     (split; [exact Hlen|]); (split; [exact Hr|]);
     (split; [rewrite length_app; cbn [length]; lia|]);
     (split; [exact Hwrap|]);
     (split; [rewrite Hcount; lia|]);
     (split; [rewrite length_app; cbn [length]; lia|]);
     exact Hslot).
Qed.

Lemma interrupt_queue (chars : list Z) :
  forall s q, ring_holds s q ->
  Z.of_nat (length q + length chars) <= RX_BUFFER_SIZE ->
  ring_holds (uart_rx_interrupt_handler chars s) (q ++ chars).
Proof.
  unfold uart_rx_interrupt_handler.
  induction chars as [|chr chars IH]; intros s q H Hroom.
  - now rewrite app_nil_r.
  - cbn [fold_left length] in *.
    replace (q ++ chr :: chars) with ((q ++ [chr]) ++ chars)
      by (now rewrite <- app_assoc).
    apply IH.
    + apply (ring_push chr s q H). lia.
    + rewrite length_app. cbn [length]. lia.
Qed.

(** X1: the interrupt handler appends the characters it receives to the
    queue that the ring buffer holds, as long as they fit. *)
Theorem interrupt_enqueues (chars : list Z) (s : state) (q : list Z) :
  ring_holds s q ->
  Z.of_nat (length q + length chars) <= RX_BUFFER_SIZE ->
  ring_holds (uart_rx_interrupt_handler chars s) (q ++ chars).
Proof. apply interrupt_queue. Qed.

Lemma ring_read_position (s : state) (q : list Z) :
  ring_holds s q ->
  (rx_buffer_read_position s + 0) mod RX_BUFFER_SIZE
  = rx_buffer_read_position s.
Proof.
  intros (_ & Hr & _). rewrite Z.add_0_r. apply Z.mod_small. exact Hr.
Qed.

(** One turn of the loop that reads a message. *)
Lemma ring_pop (fuel : nat) (str : list Z) (c : Z) (s : state) (q : list Z) :
  ring_holds s (c :: q) ->
  let str' := if negb (c =? LF) && negb (c =? CR)
                 && (length str <? max_str_l - 1)%nat
              then str ++ [c] else str in
  let s1 := taken ((rx_buffer_read_position s + 1) mod RX_BUFFER_SIZE)
                  (rx_buffer_entries s - 1)
                  (rx_buffer_number_lf s - (if c =? LF then 1 else 0)) s in
  ring_holds s1 q
  /\ read_message_loop fuel str s
     = if negb (c =? LF) && (length str' <? max_str_l - 1)%nat
          && negb (length q =? 0)%nat
       then match fuel with
            | S fuel' => read_message_loop fuel' str' s1
            | O => (str', s1)
            end
       else (str', s1).
Proof.
  intros H. pose proof H as (Hlen & Hr & He & Hw & Hn & Hq & Hat).
  assert (Hc : nth (Z.to_nat (rx_buffer_read_position s)) (rx_buffer s) 0 = c).
  { rewrite <- (ring_read_position s _ H) at 1.
    apply (Hat 0%nat). cbn [length]. lia. }
  assert (Hnext : (rx_buffer_read_position s + 1) mod RX_BUFFER_SIZE
                  = if rx_buffer_read_position s + 1 =? RX_BUFFER_SIZE
                    then 0 else rx_buffer_read_position s + 1).
  { destruct (Z.eqb_spec (rx_buffer_read_position s + 1) RX_BUFFER_SIZE)
      as [E|E].
    - rewrite E. apply Z.mod_same. discriminate.
    - apply Z.mod_small. lia. }
  cbv zeta. split.
  - unfold ring_holds, taken. fields_goal. cbn [length] in *.
    split; [exact Hlen|].
    split; [apply ring_slot_range|].
    split; [lia|].
    split.
    { rewrite Hw. rewrite Zplus_mod_idemp_l. f_equal. lia. }
    split.
    { rewrite Hn. cbn [count_occ].
      destruct (Z.eq_dec c LF) as [->|Hne].
      - rewrite Z.eqb_refl. lia.
      - apply Z.eqb_neq in Hne. rewrite Hne. lia. }
    split; [lia|].
    intros i Hi. rewrite Zplus_mod_idemp_l.
    replace (rx_buffer_read_position s + 1 + Z.of_nat i)
      with (rx_buffer_read_position s + Z.of_nat (S i)) by lia.
    apply (Hat (S i)). lia.
  - rewrite read_message_loop_turn. cbv zeta. rewrite Hc.
    assert (Hleft : (rx_buffer_entries s - 1 >? 0)
                    = negb (length q =? 0)%nat).
    { rewrite He. cbn [length].
      destruct (Nat.eqb_spec (length q) 0) as [E|E]; cbn [negb].
      - rewrite E. reflexivity.
      - rewrite Z.gtb_ltb. apply Z.ltb_lt. lia. }
    unfold taken. rewrite Hnext.
    destruct (c =? LF);
      fields_goal;
      destruct (rx_buffer_read_position s + 1 =? RX_BUFFER_SIZE);
      fields_goal; rewrite Hleft, ?Z.sub_0_r; reflexivity.
Qed.

Lemma taken_taken (p e n p1 e1 n1 : Z) (s : state) :
  taken p e n (taken p1 e1 n1 s) = taken p e n s.
Proof. reflexivity. Qed.

Lemma without_cr_cons (c : Z) (line : list Z) :
  without_cr (c :: line)
  = if negb (c =? CR) then c :: without_cr line else without_cr line.
Proof. reflexivity. Qed.

(** The loop reads a line that fits up to its LF. *)
Lemma read_line (line : list Z) :
  forall str s fuel rest,
  ring_holds s (line ++ LF :: rest) -> ~ In LF line ->
  (length str + length (without_cr line) < max_str_l - 1)%nat ->
  (length line <= fuel)%nat ->
  exists p e n,
    read_message_loop fuel str s = (str ++ without_cr line, taken p e n s)
    /\ ring_holds (taken p e n s) rest.
Proof.
  induction line as [|c line IH]; intros str s fuel rest H Hlf Hfit Hfuel;
    cbn [app] in H;
    destruct (ring_pop fuel str _ s _ H) as [H1 Hturn];
    cbv zeta in Hturn, H1; rewrite Hturn; clear Hturn.
  - rewrite Z.eqb_refl. cbn [negb andb]. rewrite app_nil_r.
    do 3 eexists. split; [reflexivity | exact H1].
  - assert (Hc : (c =? LF) = false)
      by (apply Z.eqb_neq; intros ->; apply Hlf; now left).
    rewrite Hc in *. cbn [negb andb] in *.
    rewrite without_cr_cons in Hfit |- *.
    assert (Hq : (length (line ++ LF :: rest) =? 0)%nat = false)
      by (apply Nat.eqb_neq; rewrite length_app; cbn [length]; lia).
    rewrite Hq. cbn [negb]. rewrite andb_true_r.
    destruct fuel as [|fuel]; [cbn [length] in Hfuel; lia|].
    cbn [length] in Hfuel.
    destruct (negb (c =? CR)).
    + cbn [length] in Hfit.
      replace (length str <? max_str_l - 1)%nat with true
        by (symmetry; apply Nat.ltb_lt; lia).
      cbn [andb].
      replace (length (str ++ [c]) <? max_str_l - 1)%nat with true
        by (symmetry; apply Nat.ltb_lt; rewrite length_app; cbn [length]; lia).
      cbn [andb].
      destruct (IH (str ++ [c]) _ fuel rest H1) as (p & e & n & Hrun & Hring).
      * intros Hin. apply Hlf. now right.
      * rewrite length_app. cbn [length]. lia.
      * lia.
      * rewrite taken_taken in Hrun, Hring.
        exists p, e, n. split; [|exact Hring].
        rewrite Hrun, <- app_assoc. reflexivity.
    + cbn [andb].
      replace (length str <? max_str_l - 1)%nat with true
        by (symmetry; apply Nat.ltb_lt; lia).
      destruct (IH str _ fuel rest H1) as (p & e & n & Hrun & Hring).
      * intros Hin. apply Hlf. now right.
      * lia.
      * lia.
      * rewrite taken_taken in Hrun, Hring.
        exists p, e, n. split; [exact Hrun | exact Hring].
Qed.

(** The loop stops when the message is full: the characters it has taken
    are [pre], the last of them stored as the 199th. *)
Lemma read_full (pre : list Z) :
  forall str s fuel c rest,
  ring_holds s (pre ++ c :: rest) -> ~ In LF (pre ++ [c]) -> c <> CR ->
  (length str + length (without_cr (pre ++ [c])) = max_str_l - 1)%nat ->
  (length pre <= fuel)%nat ->
  exists p e n,
    read_message_loop fuel str s
    = (str ++ without_cr (pre ++ [c]), taken p e n s)
    /\ ring_holds (taken p e n s) rest.
Proof.
  induction pre as [|d pre IH]; intros str s fuel c rest H Hlf Hcr Hfit Hfuel;
    cbn [app] in H;
    destruct (ring_pop fuel str _ s _ H) as [H1 Hturn];
    cbv zeta in Hturn, H1; rewrite Hturn; clear Hturn.
  - assert (Hc : (c =? LF) = false)
      by (apply Z.eqb_neq; intros ->; apply Hlf; now left).
    assert (Hc' : (c =? CR) = false) by now apply Z.eqb_neq.
    cbn [app] in *. rewrite without_cr_cons in *.
    rewrite Hc, Hc' in *. cbn [negb andb length without_cr filter] in *.
    replace (length str <? max_str_l - 1)%nat with true
      by (symmetry; apply Nat.ltb_lt; lia).
    cbn [andb].
    replace (length (str ++ [c]) <? max_str_l - 1)%nat with false
      by (symmetry; apply Nat.ltb_ge; rewrite length_app; cbn [length]; lia).
    cbn [andb]. do 3 eexists. split; [reflexivity | exact H1].
  - assert (Hd : (d =? LF) = false)
      by (apply Z.eqb_neq; intros ->; apply Hlf; now left).
    rewrite Hd in *. cbn [negb andb app] in *.
    rewrite without_cr_cons in Hfit |- *.
    assert (Hlast : (1 <= length (without_cr (pre ++ [c])))%nat).
    { unfold without_cr. rewrite filter_app, length_app. cbn [filter].
      replace (negb (c =? CR)) with true
        by (symmetry; apply negb_true_iff; now apply Z.eqb_neq).
      cbn [length]. lia. }
    assert (Hq : (length (pre ++ c :: rest) =? 0)%nat = false)
      by (apply Nat.eqb_neq; rewrite length_app; cbn [length]; lia).
    rewrite Hq. cbn [negb]. rewrite andb_true_r.
    destruct fuel as [|fuel]; [cbn [length] in Hfuel; lia|].
    cbn [length] in Hfuel.
    destruct (negb (d =? CR)).
    + cbn [length] in Hfit.
      replace (length str <? max_str_l - 1)%nat with true
        by (symmetry; apply Nat.ltb_lt; lia).
      cbn [andb].
      replace (length (str ++ [d]) <? max_str_l - 1)%nat with true
        by (symmetry; apply Nat.ltb_lt; rewrite length_app; cbn [length]; lia).
      cbn [andb].
      destruct (IH (str ++ [d]) _ fuel c rest H1)
        as (p & e & n & Hrun & Hring).
      * intros Hin. apply Hlf. now right.
      * exact Hcr.
      * rewrite length_app. cbn [length]. lia.
      * lia.
      * rewrite taken_taken in Hrun, Hring.
        exists p, e, n. split; [|exact Hring].
        rewrite Hrun, <- app_assoc. reflexivity.
    + cbn [andb].
      replace (length str <? max_str_l - 1)%nat with true
        by (symmetry; apply Nat.ltb_lt; lia).
      destruct (IH str _ fuel c rest H1) as (p & e & n & Hrun & Hring).
      * intros Hin. apply Hlf. now right.
      * exact Hcr.
      * lia.
      * lia.
      * rewrite taken_taken in Hrun, Hring.
        exists p, e, n. split; [exact Hrun | exact Hring].
Qed.

Lemma count_lf_none (q : list Z) :
  ~ In LF q -> count_occ Z.eq_dec q LF = 0%nat.
Proof. intros H. now apply count_occ_not_In. Qed.

Lemma count_lf_some (q : list Z) :
  In LF q -> (0 < count_occ Z.eq_dec q LF)%nat.
Proof. intros H. now apply count_occ_In. Qed.

(** X2: when the ring buffer holds a complete line, a traversal of the loop
    takes the line with its LF out of the buffer and classifies its
    characters without the CRs; a line with no such character is dropped.
    What follows the line stays in the buffer. *)
Theorem read_message_takes_line (s : state) (line rest : list Z) :
  ring_holds s (line ++ LF :: rest) -> ~ In LF line ->
  (length (without_cr line) < max_str_l - 1)%nat ->
  exists p e n,
    ring_holds (taken p e n s) rest
    /\ read_message s
       = if (0 <? length (without_cr line))%nat
         then classify (without_cr line ++ [0]) (taken p e n s)
         else Done (taken p e n s).
Proof.
  intros H Hlf Hfit. pose proof H as (_ & _ & He & _ & Hn & _).
  unfold read_message.
  replace (rx_buffer_number_lf s >? 0) with true.
  2:{ symmetry. rewrite Z.gtb_ltb. apply Z.ltb_lt. rewrite Hn.
      pose proof (count_lf_some (line ++ LF :: rest)
                    ltac:(apply in_or_app; right; now left)). lia. }
  destruct (read_line line [] s (Z.to_nat (rx_buffer_entries s)) rest H Hlf)
    as (p & e & n & Hrun & Hring).
  - cbn [length]. lia.
  - rewrite He, Nat2Z.id, length_app. lia.
  - rewrite Hrun. cbn [app]. exists p, e, n. split; [exact Hring|].
    reflexivity.
Qed.

(** X3: a line of 199 characters or more, the CRs not counted, is cut: the
    traversal takes the characters up to the 199th that is stored and
    classifies them as a message; the rest of the line stays in the buffer
    and is the next message. *)
Theorem read_message_cuts_long_line (s : state) (pre : list Z) (c : Z)
    (rest : list Z) :
  ring_holds s (pre ++ c :: rest) -> ~ In LF (pre ++ [c]) -> c <> CR ->
  length (without_cr (pre ++ [c])) = (max_str_l - 1)%nat -> In LF rest ->
  exists p e n,
    ring_holds (taken p e n s) rest
    /\ read_message s
       = classify (without_cr (pre ++ [c]) ++ [0]) (taken p e n s).
Proof.
  intros H Hlf Hcr Hfull Hrest. pose proof H as (_ & _ & He & _ & Hn & _).
  unfold read_message.
  replace (rx_buffer_number_lf s >? 0) with true.
  2:{ symmetry. rewrite Z.gtb_ltb. apply Z.ltb_lt. rewrite Hn.
      pose proof (count_lf_some (pre ++ c :: rest)
                    ltac:(apply in_or_app; right; now right)). lia. }
  destruct (read_full pre [] s (Z.to_nat (rx_buffer_entries s)) c rest
              H Hlf Hcr)
    as (p & e & n & Hrun & Hring).
  - cbn [length]. lia.
  - rewrite He, Nat2Z.id, length_app. lia.
  - rewrite Hrun. cbn [app]. exists p, e, n. split; [exact Hring|].
    rewrite Hfull. reflexivity.
Qed.

(** X4: as long as no LF is in the buffer, the loop reads nothing: the
    characters of an incomplete line wait there. *)
Theorem read_message_waits_for_lf (s : state) (q : list Z) :
  ring_holds s q -> ~ In LF q -> read_message s = Done s.
Proof.
  intros (_ & _ & _ & _ & Hn & _) Hlf. unfold read_message.
  rewrite Hn, (count_lf_none q Hlf). reflexivity.
Qed.

(** X5: the handler does not check for overflow: a character that arrives
    when the buffer is full overwrites the oldest one, and the count of
    entries passes the size of the buffer. *)
Theorem interrupt_overflow_overwrites (chr c : Z) (s : state) (q : list Z) :
  ring_holds s (c :: q) -> Z.of_nat (length (c :: q)) = RX_BUFFER_SIZE ->
  nth (Z.to_nat (rx_buffer_read_position s))
      (rx_buffer (uart_rx_interrupt_handler [chr] s)) 0 = chr
  /\ rx_buffer_entries (uart_rx_interrupt_handler [chr] s)
     = RX_BUFFER_SIZE + 1
  /\ rx_buffer_read_position (uart_rx_interrupt_handler [chr] s)
     = rx_buffer_read_position s.
Proof.
  intros (Hlen & Hr & He & Hw & _) Hfull.
  assert (Hpos : rx_buffer_write_position s = rx_buffer_read_position s).
  { rewrite Hw, Hfull. rewrite <- (Z.mul_1_l RX_BUFFER_SIZE) at 1.
    rewrite Z.mod_add by discriminate. apply Z.mod_small. exact Hr. }
  unfold uart_rx_interrupt_handler. cbn [fold_left].
  destruct (chr =? LF); fields_goal;
    destruct (rx_buffer_write_position s + 1 =? RX_BUFFER_SIZE);
    fields_goal; rewrite Hpos, He, Hfull;
    (split; [apply nth_upd_eq; rewrite Hlen; lia|]);
    split; reflexivity.
Qed.

(** ** Writing to the modem *)

Lemma command_chars_string (str : list Z) :
  nul_free str -> forall n rest,
  command_chars n (str ++ 0 :: rest) = firstn n str.
Proof.
  induction 1 as [|c str Hc Hstr IH]; intros n rest.
  - destruct n; reflexivity.
  - destruct n as [|n]; [reflexivity|]. cbn [app command_chars firstn].
    apply Z.eqb_neq in Hc. rewrite Hc. now rewrite IH.
Qed.

(** X6: [write_command] sends the characters of the string up to its NUL,
    and of a string of more than [max_str_l] characters the first
    [max_str_l] only. *)
Theorem write_command_sends (command str : list Z) (s : state) :
  cstr command = Some str ->
  write_command command s
  = set_uart_tx (uart_tx s ++ [firstn max_str_l str]) s.
Proof.
  intros H. destruct (cstr_inv _ _ H) as [Hn [rest ->]].
  unfold write_command. now rewrite command_chars_string.
Qed.

Lemma sprintf_overflows (out : list Z) :
  (max_str_l <= length out)%nat -> sprintf out = Undefined.
Proof.
  intros H. unfold sprintf.
  now replace (length out <? max_str_l)%nat with false
    by (symmetry; apply Nat.ltb_ge; exact H).
Qed.

Lemma nul_free_cons (c : Z) (str : list Z) :
  c <> 0 -> nul_free str -> nul_free (c :: str).
Proof. intros. now constructor. Qed.

Lemma send_sms_sends (tel message t m : list Z) (s : state) :
  cstr tel = Some t -> cstr message = Some m ->
  (length t <= 188)%nat -> (length m <= 198)%nat ->
  send_sms tel message s
  = Done (set_uart_tx
            (uart_tx s
             ++ [bytes_of "AT+CMGS=" ++ [quote] ++ t ++ [quote; CR];
                 m ++ [26]]) s).
Proof.
  intros Ht Hm Hlt Hlm. destruct (cstr_inv _ _ Ht) as [Hnt _].
  destruct (cstr_inv _ _ Hm) as [Hnm _].
  assert (Hcmd : length (bytes_of "AT+CMGS=" ++ [quote] ++ t ++ [quote; CR])
                 = (length t + 11)%nat)
    by (rewrite !length_app; cbn [length bytes_of]; cbn; lia).
  assert (Htxt : length (m ++ [26]) = (length m + 1)%nat)
    by (rewrite length_app; reflexivity).
  unfold send_sms, str_arg. rewrite Ht, Hm. cbn [bind].
  rewrite sprintf_fits by (apply Nat.ltb_lt; rewrite Hcmd; unfold max_str_l; lia).
  cbn [bind].
  rewrite sprintf_fits by (apply Nat.ltb_lt; rewrite Htxt; unfold max_str_l; lia).
  cbn [bind]. unfold write_command. fields_goal.
  rewrite !command_chars_string.
  - rewrite !firstn_all2 by (rewrite ?Hcmd, ?Htxt; unfold max_str_l; lia).
    now rewrite <- app_assoc.
  - apply nul_free_app; [exact Hnm | now repeat constructor].
  - apply nul_free_app; [now apply nul_free_bytes|].
    apply nul_free_cons; [discriminate|].
    apply nul_free_app; [exact Hnt | now repeat constructor].
Qed.

(** X7: [send_sms] writes the command that names the number and then the
    text closed by Ctrl-Z, in this order; a text of 199 characters or
    more, or a number of 189 or more, does not fit the buffer the two are
    printed to. *)
Theorem send_sms_writes (tel message t m : list Z) (s : state) :
  cstr tel = Some t -> cstr message = Some m ->
  ((length t <= 188)%nat -> (length m <= 198)%nat ->
   send_sms tel message s
   = Done (set_uart_tx
             (uart_tx s
              ++ [bytes_of "AT+CMGS=" ++ [quote] ++ t ++ [quote; CR];
                  m ++ [26]]) s))
  /\ ((189 <= length t)%nat \/ (199 <= length m)%nat ->
      send_sms tel message s = Undefined).
Proof.
  intros Ht Hm. split; [now apply send_sms_sends|].
  assert (Hcmd : length (bytes_of "AT+CMGS=" ++ [quote] ++ t ++ [quote; CR])
                 = (length t + 11)%nat)
    by (rewrite !length_app; cbn [length bytes_of]; cbn; lia).
  assert (Htxt : length (m ++ [26]) = (length m + 1)%nat)
    by (rewrite length_app; reflexivity).
  unfold send_sms, str_arg. rewrite Ht, Hm. cbn [bind].
  intros [Hlt|Hlm].
  - now rewrite sprintf_overflows by (rewrite Hcmd; unfold max_str_l; lia).
  - destruct (Nat.le_gt_cases (length t) 188) as [Hlt|Hlt].
    + rewrite sprintf_fits
        by (apply Nat.ltb_lt; rewrite Hcmd; unfold max_str_l; lia).
      cbn [bind].
      now rewrite sprintf_overflows
        by (rewrite Htxt; unfold max_str_l; lia).
    + now rewrite sprintf_overflows
        by (rewrite Hcmd; unfold max_str_l; lia).
Qed.

(** ** The classifier, for the responses with a text *)

Lemma store_response_stored (k : nat) (str line : list Z) (s : state) :
  well_sized s -> cstr str = Some line -> (length line < max_str_l)%nat ->
  (k < MAX_MSG)%nat ->
  store_response k str s = Done (stored_response k line s).
Proof.
  intros Hsz Hs Hl Hk. unfold store_response, strcpy, str_arg.
  rewrite Hs. cbn [bind].
  change (received_response (set_received _ s)) with (received_response s).
  rewrite store_string_fits
    by (now rewrite (table_nth _ _ k _ (size_received_response s Hsz) Hk)).
  reflexivity.
Qed.

Ltac decide_prefixes :=
  repeat match goal with
         | |- context [prefix_of ?a (?b ++ ?r)] =>
             let v := eval cbv in (prefix_of a (b ++ r)) in
             change (prefix_of a (b ++ r)) with v
         end.

Lemma hd_cstr (str line : list Z) :
  cstr str = Some line -> hd 0 str = hd 0 line.
Proof.
  intros H. destruct (cstr_inv _ _ H) as [_ [rest ->]]. now destruct line.
Qed.

(** X8: a line that begins with one of the nine response names is marked
    as received under that name and copied to its slot, whatever follows
    the name; a line that begins with ['+'] and none of the names is
    stored as UNKNOWN.  Nothing else changes. *)
Theorem classify_tagged_response (str line : list Z) (s : state) :
  well_sized s -> cstr str = Some line -> (length line < max_str_l)%nat ->
  (forall k tag, In (k, tag) response_tags ->
     prefix_of (bytes_of tag) line = true ->
     classify str s = Done (stored_response k line s)
     /\ cstr (nth k (received_response (stored_response k line s)) [])
        = Some line)
  /\ ((forall k tag, In (k, tag) response_tags ->
         prefix_of (bytes_of tag) line = false) ->
      hd 0 line = 43 ->
      classify str s = Done (stored_response UNKNOWN line s)).
Proof.
  intros Hsz Hs Hl.
  destruct (cstr_inv _ _ Hs) as [Hnul _].
  assert (Hslot : forall k, (k < MAX_MSG)%nat ->
            cstr (nth k (received_response (stored_response k line s)) [])
            = Some line).
  { intros k Hk. unfold stored_response. fields_goal.
    rewrite nth_upd_eq
      by (rewrite (proj1 (size_received_response s Hsz)); exact Hk).
    apply cstr_blit; [exact Hnul|].
    now rewrite (table_nth _ _ k _ (size_received_response s Hsz) Hk). }
  split.
  - intros k tag Hin Hpre. split.
    2:{ apply Hslot. cbn in Hin.
        repeat (destruct Hin as [Hin|Hin];
                [injection Hin as <- _; cbv; lia|]).
        contradiction. }
    unfold classify.
    rewrite !(is_prefix_spec str line) by (assumption || reflexivity).
    apply prefix_of_spec in Hpre as [rest Hline].
    cbn in Hin.
    repeat (destruct Hin as [Hin|Hin];
            [injection Hin as <- <-; rewrite Hline; decide_prefixes;
             cbv iota; rewrite <- Hline;
             apply store_response_stored; (assumption || (cbv; lia))|]).
    contradiction.
  - intros Hnone Hplus. unfold classify.
    rewrite !(is_prefix_spec str line) by (assumption || reflexivity).
    rewrite (hd_cstr str line Hs), Hplus.
    assert (Hok : prefix_of (bytes_of "OK") line = false)
      by (destruct line as [|c line]; [reflexivity|];
          cbn [hd] in Hplus; subst c; reflexivity).
    assert (Herr : prefix_of (bytes_of "ERROR") line = false)
      by (destruct line as [|c line]; [reflexivity|];
          cbn [hd] in Hplus; subst c; reflexivity).
    rewrite Hok, Herr.
    repeat match goal with
           | |- context [prefix_of (bytes_of ?tag) line] =>
               rewrite (Hnone _ tag) by (cbn; tauto)
           end.
    cbv iota. change (43 =? 62) with false. change (43 =? 0) with false.
    change (43 =? 43) with true. cbv iota.
    apply store_response_stored; (assumption || (cbv; lia)).
Qed.

(** X9: a line that is no response of the modem, neither its prompt ['>']
    nor a line that begins with ['+'], "OK" or "ERROR", is taken as the
    text of an SMS exactly when the read-out of an SMS is awaited;
    otherwise, like the prompt, it is dropped. *)
Theorem classify_sms_text (str line : list Z) (s : state) :
  well_sized s -> cstr str = Some line -> (length line < max_str_l)%nat ->
  prefix_of (bytes_of "OK") line = false ->
  prefix_of (bytes_of "ERROR") line = false ->
  hd 0 line <> 43 ->
  classify str s
  = if (hd 0 line =? 62) || (hd 0 line =? 0)
       || negb (flag CMGR (awaiting_response s))
    then Done s
    else Done (set_received_sms_text
                 (blit (line ++ [0]) (received_sms_text s))
                 (set_received_sms true s)).
Proof.
  intros Hsz Hs Hl Hok Herr Hplus. unfold classify.
  rewrite !(is_prefix_spec str line) by (assumption || reflexivity).
  rewrite (hd_cstr str line Hs), Hok, Herr.
  assert (Htag : forall tag, hd 0 (bytes_of tag) = 43 ->
            prefix_of (bytes_of tag) line = false).
  { intros tag Htag. destruct (bytes_of tag) as [|c t]; [discriminate|].
    destruct line as [|d line]; [reflexivity|]. cbn [hd] in *. subst c.
    cbn [prefix_of].
    replace (43 =? d) with false
      by (symmetry; apply Z.eqb_neq; congruence).
    reflexivity. }
  rewrite !Htag by reflexivity.
  destruct (hd 0 line =? 62); [reflexivity|].
  destruct (hd 0 line =? 0); [reflexivity|].
  replace (hd 0 line =? 43) with false
    by (symmetry; now apply Z.eqb_neq).
  cbn [orb]. unfold flag.
  destruct (nth CMGR (awaiting_response s) false); [|reflexivity].
  cbn [negb]. unfold strcpy, str_arg. rewrite Hs. cbn [bind].
  rewrite store_string_fits by (now rewrite (size_received_sms_text s Hsz)).
  reflexivity.
Qed.

(** ** The flag that blocks new actions *)

Lemma upd_upd {A : Type} (i : nat) (v w : A) (l : list A) :
  upd i w (upd i v l) = upd i w l.
Proof.
  revert i. induction l as [|x l IH]; intros [|i]; cbn [upd];
    try reflexivity.
  now rewrite IH.
Qed.

Lemma set_flag_twice (k : nat) (v w : bool) (flags : list bool) :
  set_flag k w (set_flag k v flags) = set_flag k w flags.
Proof. apply upd_upd. Qed.

Lemma collect_fold (l : list nat) :
  forall (a : list bool) (b : bool) (s : state),
  (UNKNOWN < length a)%nat -> ~ In UNKNOWN l ->
  fold_left (fun s i =>
    set_awaiting_response
      (set_flag UNKNOWN (flag UNKNOWN (awaiting_response s)
                         || flag i (awaiting_response s))
                (awaiting_response s)) s)
    l (set_awaiting_response (set_flag UNKNOWN b a) s)
  = set_awaiting_response
      (set_flag UNKNOWN (b || existsb (fun i => flag i a) l) a) s.
Proof.
  induction l as [|i l IH]; intros a b s Ha Hl; cbn [fold_left existsb].
  - now rewrite orb_false_r.
  - fields_goal. rewrite flag_set_eq by exact Ha.
    rewrite flag_set_neq by (intros E; apply Hl; now left).
    rewrite set_flag_twice.
    change (set_awaiting_response ?v (set_awaiting_response _ s))
      with (set_awaiting_response v s).
    rewrite (IH a (b || flag i a) s Ha) by (intros E; apply Hl; now right).
    now rewrite orb_assoc.
Qed.

(** X10: at the start of every traversal the flag under UNKNOWN becomes the
    disjunction of the eleven waits for a response: it tells whether the
    dialogue with the modem is busy.  The waits themselves are left as
    they are. *)
Theorem collect_awaiting_is_busy (s : state) :
  length (awaiting_response s) = MAX_MSG ->
  collect_awaiting s
  = set_awaiting_response
      (set_flag UNKNOWN
         (existsb (fun i => flag i (awaiting_response s))
                  (seq 0 (MAX_MSG - 1)))
         (awaiting_response s)) s
  /\ (flag UNKNOWN (awaiting_response (collect_awaiting s)) = true
      <-> exists k, (k < MAX_MSG - 1)%nat
                    /\ flag k (awaiting_response s) = true)
  /\ forall k, (k < MAX_MSG - 1)%nat ->
       flag k (awaiting_response (collect_awaiting s))
       = flag k (awaiting_response s).
Proof.
  intros Ha.
  assert (E : collect_awaiting s
              = set_awaiting_response
                  (set_flag UNKNOWN
                     (existsb (fun i => flag i (awaiting_response s))
                              (seq 0 (MAX_MSG - 1)))
                     (awaiting_response s)) s).
  { unfold collect_awaiting. cbv zeta.
    change (awaiting_response (set_awaiting_response ?v s)) with v.
    rewrite (collect_fold (seq 0 (MAX_MSG - 1)) (awaiting_response s) false s).
    - reflexivity.
    - rewrite Ha. cbv; lia.
    - rewrite in_seq. cbv; lia. }
  rewrite E. fields_goal. split; [reflexivity|]. split.
  - rewrite flag_set_eq by (rewrite Ha; cbv; lia).
    rewrite existsb_exists. split.
    + intros (k & Hk & Hf). exists k. split; [|exact Hf].
      apply in_seq in Hk. lia.
    + intros (k & Hk & Hf). exists k. split; [|exact Hf].
      apply in_seq. lia.
  - intros k Hk. apply flag_set_neq. unfold UNKNOWN, MAX_MSG in *. lia.
Qed.

(** ** Responses are consumed in the traversal that reads them *)

Lemma flag_clear_false (j k : nat) (l : list bool) :
  flag k l = false -> flag k (upd j false l) = false.
Proof.
  unfold flag. revert j k.
  induction l as [|b l IH]; intros [|j] [|k] H; cbn [upd nth] in *;
    auto.
Qed.

Lemma flag_cleared (k : nat) (l : list bool) : flag k (upd k false l) = false.
Proof.
  unfold flag. revert k.
  induction l as [|b l IH]; intros [|k]; cbn [upd nth]; auto.
Qed.

Ltac none_finish :=
  forward received; helpers_goal;
  repeat match goal with
         | K : received _ = _ |- _ => rewrite ?K; clear K
         end;
  unfold set_flag;
  repeat apply flag_clear_false; assumption.

Ltac none_tac := unfold sets_none; intros; crunch; none_finish.

Ltac none_pure :=
  intros;
  repeat match goal with
         | |- context [if ?c then _ else _] => destruct c
         end;
  helpers_goal; unfold set_flag; repeat apply flag_clear_false; assumption.

Lemma process_cpsi_none now : sets_none (process_cpsi now).
Proof. unfold process_cpsi. none_tac. Qed.

Lemma process_cmti_none now : sets_none (process_cmti now).
Proof. unfold process_cmti. none_tac. Qed.

Lemma process_cmgr_none now : sets_none (process_cmgr now).
Proof. unfold process_cmgr. none_tac. Qed.

Lemma process_csq_none now : sets_none (process_csq now).
Proof. unfold process_csq. none_tac. Qed.

Lemma process_ok_none now : sets_none (process_ok now).
Proof. unfold process_ok. none_tac. Qed.

Lemma start_cpsi_check_none now s k :
  flag k (received s) = false ->
  flag k (received (start_cpsi_check now s)) = false.
Proof. unfold start_cpsi_check. none_pure. Qed.

Lemma start_creg_check_none now s k :
  flag k (received s) = false ->
  flag k (received (start_creg_check now s)) = false.
Proof. unfold start_creg_check. none_pure. Qed.

Lemma process_creg_none now s k :
  flag k (received s) = false ->
  flag k (received (process_creg now s)) = false.
Proof. unfold process_creg. none_pure. Qed.

Lemma process_clcc_none now s k :
  flag k (received s) = false ->
  flag k (received (process_clcc now s)) = false.
Proof. unfold process_clcc. none_pure. Qed.

Lemma delete_messages_none now s k :
  flag k (received s) = false ->
  flag k (received (delete_messages now s)) = false.
Proof. unfold delete_messages. none_pure. Qed.

Lemma process_cmgs_none now s k :
  flag k (received s) = false ->
  flag k (received (process_cmgs now s)) = false.
Proof. unfold process_cmgs. none_pure. Qed.

Lemma process_unknown_none s k :
  flag k (received s) = false ->
  flag k (received (process_unknown s)) = false.
Proof. unfold process_unknown. none_pure. Qed.

Ltac clears_finish :=
  forward received; helpers_goal;
  repeat match goal with
         | K : received _ = _ |- _ => rewrite ?K; clear K
         end;
  unfold set_flag;
  first [ assumption
        | apply flag_cleared
        | repeat apply flag_clear_false; apply flag_cleared ].

Lemma process_cpsi_clears now s s' :
  process_cpsi now s = Done s' -> flag CPSI (received s') = false.
Proof. unfold process_cpsi. intros. crunch; clears_finish. Qed.

Lemma process_csq_clears now s s' :
  process_csq now s = Done s' -> flag CSQ (received s') = false.
Proof. unfold process_csq. intros. crunch; clears_finish. Qed.

Lemma process_ok_clears now s s' :
  process_ok now s = Done s' -> flag OK (received s') = false.
Proof. unfold process_ok. intros. crunch; clears_finish. Qed.

Lemma process_creg_clears now s :
  flag CREG (received (process_creg now s)) = false.
Proof.
  unfold process_creg.
  destruct (flag CREG (received s) && flag CREG (awaiting_response s));
    [helpers_goal; apply flag_cleared|].
  destruct (flag CREG (received s)) eqn:E;
    [helpers_goal; apply flag_cleared | exact E].
Qed.

Lemma process_cmgs_clears now s :
  flag CMGS (received (process_cmgs now s)) = false.
Proof.
  unfold process_cmgs.
  destruct (flag CMGS (received s) && flag CMGS (awaiting_response s));
    [helpers_goal; apply flag_cleared|].
  destruct (flag CMGS (received s)) eqn:E;
    [helpers_goal; apply flag_cleared | exact E].
Qed.

Lemma check_timeout_received now i s :
  received (check_timeout now i s) = received s.
Proof. unfold check_timeout. pure_tac. Qed.

Lemma check_timeouts_received now s :
  received (check_timeouts now s) = received s.
Proof.
  unfold check_timeouts. apply fold_left_keeps. intros.
  apply check_timeout_received.
Qed.

Lemma check_pins_received t : keeps received (check_pins t).
Proof.
  unfold check_pins. intros s s' H. crunch; [|reflexivity].
  apply (for_loop_keeps received) in H; [exact H|].
  intros i. unfold check_pin. keeps_tac received.
Qed.

Lemma check_password_reset_received t :
  keeps received (check_password_reset t).
Proof. unfold check_password_reset. keeps_tac received. Qed.

Lemma act_on_inputs_received t : keeps received (act_on_inputs t).
Proof.
  unfold act_on_inputs, store_settings. intros s s' H.
  bind_inv H. bind_inv H.
  apply check_pins_received in Ha. apply check_password_reset_received in Ha0.
  assert (E : received s' = received (blink_led (current_time t) a0)).
  { destruct (store_new_flash_settings _ && _).
    - now apply save_flash_settings_received in H.
    - now injection H as <-. }
  rewrite E. unfold blink_led.
  destruct (_ >? _); fields_goal; congruence.
Qed.

(** X11: a response OK, +CPSI, +CREG, +CSQ or +CMGS is consumed in the
    traversal of the loop in which it is read, awaited or not: at the end
    of every traversal these five are not marked as received. *)
Theorem responses_consumed (t : tick) (s s' : state) (k : nat) :
  loop_body t s = Done s' -> In k [OK; CPSI; CREG; CSQ; CMGS] ->
  flag k (received s') = false.
Proof.
  unfold loop_body, process_messages. intros H Hk.
  bind_inv H. bind_inv Ha. bind_inv Ha. bind_inv Ha. bind_inv Ha.
  bind_inv Ha. bind_inv Ha. injection Ha as <-.
  rewrite (act_on_inputs_received t _ _ H), check_timeouts_received.
  rename Ha1 into Hcpsi, Ha2 into Hcmti, Ha3 into Hcmgr, Ha4 into Hcsq,
    Ha5 into Hok.
  cbn [In] in Hk.
  destruct Hk as [<-|[<-|[<-|[<-|[<-|[]]]]]].
  - apply process_unknown_none. apply (process_ok_clears _ _ _ Hok).
  - apply process_unknown_none. apply (process_ok_none _ _ _ Hok).
    apply process_cmgs_none, delete_messages_none.
    apply (process_csq_none _ _ _ Hcsq). apply (process_cmgr_none _ _ _ Hcmgr).
    apply process_clcc_none. apply (process_cmti_none _ _ _ Hcmti).
    apply process_creg_none, start_creg_check_none.
    apply (process_cpsi_clears _ _ _ Hcpsi).
  - apply process_unknown_none. apply (process_ok_none _ _ _ Hok).
    apply process_cmgs_none, delete_messages_none.
    apply (process_csq_none _ _ _ Hcsq). apply (process_cmgr_none _ _ _ Hcmgr).
    apply process_clcc_none. apply (process_cmti_none _ _ _ Hcmti).
    apply process_creg_clears.
  - apply process_unknown_none. apply (process_ok_none _ _ _ Hok).
    apply process_cmgs_none, delete_messages_none.
    apply (process_csq_clears _ _ _ Hcsq).
  - apply process_unknown_none. apply (process_ok_none _ _ _ Hok).
    apply process_cmgs_clears.
Qed.

(** ** When the settings are written to flash *)

Lemma save_flash_settings_done s s' :
  save_flash_settings s = Done s' -> store_new_flash_settings s' = false.
Proof. unfold save_flash_settings. intros H. crunch. reflexivity. Qed.

Lemma blink_led_awaiting now s :
  awaiting_response (blink_led now s) = awaiting_response s.
Proof. unfold blink_led. pure_tac. Qed.

(** X12: the settings are written to flash only in a traversal that ends
    with no response awaited, and the request to write them is then
    cleared; at the end of a traversal the request is still pending only
    when the dialogue with the modem is busy. *)
Theorem settings_saved_when_idle (t : tick) (s s' : state) :
  loop_body t s = Done s' ->
  (flash_target_contents s' <> flash_target_contents s ->
   flag UNKNOWN (awaiting_response s') = false
   /\ store_new_flash_settings s' = false)
  /\ (store_new_flash_settings s' = true ->
      flag UNKNOWN (awaiting_response s') = true).
Proof.
  unfold loop_body, act_on_inputs, store_settings. intros H.
  bind_inv H. bind_inv H. bind_inv H.
  apply process_messages_flash in Ha.
  apply check_pins_flash in Ha0. apply check_password_reset_flash in Ha1.
  destruct (store_new_flash_settings (blink_led (current_time t) a1)) eqn:Es;
    cbn [andb] in H.
  - destruct (flag UNKNOWN (awaiting_response (blink_led (current_time t) a1)))
      eqn:Eu; cbn [negb] in H.
    + injection H as <-. split; [|intros _; exact Eu].
      intros Hne. exfalso. apply Hne.
      autorewrite with keeps in *. congruence.
    + pose proof (save_flash_settings_done _ _ H) as Hd.
      apply save_flash_settings_awaiting in H. rewrite H, Hd, Eu.
      split; [now split | discriminate].
  - injection H as <-. split; [|rewrite Es; discriminate].
    intros Hne. exfalso. apply Hne.
    autorewrite with keeps in *. congruence.
Qed.

(** ** What the loop does with the responses *)

Lemma skipn_string (head str rest : list Z) :
  skipn (length head) ((head ++ str) ++ 0 :: rest) = str ++ 0 :: rest.
Proof.
  rewrite <- app_assoc, skipn_app, skipn_all, Nat.sub_diag. reflexivity.
Qed.

Lemma nul_free_split (a b : list Z) :
  nul_free (a ++ b) -> nul_free a /\ nul_free b.
Proof. unfold nul_free. apply Forall_app. Qed.

(** X13: when the modem announces an SMS and the dialogue is idle, the loop
    asks for the read-out of the SMS under the index that the announcement
    gives after its first twelve characters, and awaits the read-out;
    while the dialogue is busy the announcement is kept for a later
    traversal. *)
Theorem cmti_starts_readout (now : Z) (s : state) (head index : list Z) :
  well_sized s -> flag CMTI (received s) = true ->
  cstr (nth CMTI (received_response s) []) = Some (head ++ index) ->
  length head = 12%nat ->
  (flag UNKNOWN (awaiting_response s) = false ->
   exists s', process_cmti now s = Done s'
     /\ uart_tx s' = uart_tx s ++ [bytes_of "AT+CMGR=" ++ index ++ [CR]]
     /\ flag CMTI (received s') = false
     /\ flag CMGR (awaiting_response s') = true
     /\ flag UNKNOWN (awaiting_response s') = true
     /\ nth CMGR (initiate_time s') 0 = now)
  /\ (flag UNKNOWN (awaiting_response s) = true ->
      process_cmti now s = Done s).
Proof.
  intros Hsz Hrec Hrow Hhead. unfold process_cmti. rewrite Hrec.
  split; intros Hbusy; rewrite Hbusy; [|reflexivity].
  cbn [negb andb].
  change (received_response (clear_received CMTI s))
    with (received_response s).
  destruct (cstr_inv _ _ Hrow) as [Hnul [rest Erow]].
  destruct (nul_free_split _ _ Hnul) as [_ Hindex].
  pose proof (cstr_length _ _ Hrow) as Hlen.
  rewrite (table_nth _ _ CMTI _ (size_received_response s Hsz)
             ltac:(cbv; lia)) in Hlen.
  rewrite length_app in Hlen.
  rewrite Erow.
  replace (skipn 12 ((head ++ index) ++ 0 :: rest))
    with (skipn (length head) ((head ++ index) ++ 0 :: rest))
    by (now rewrite Hhead).
  rewrite skipn_string.
  unfold str_arg. rewrite (cstr_app index rest Hindex). cbn [bind].
  rewrite sprintf_fits
    by (apply Nat.ltb_lt; rewrite !length_app; cbn [length];
        change (length (bytes_of "AT+CMGR=")) with 8%nat;
        unfold max_str_l in *; lia).
  cbn [bind]. eexists. split; [reflexivity|].
  unfold await_response, write_command, clear_received, set_flag, flag.
  fields_goal.
  pose proof (size_awaiting_response s Hsz) as Ha.
  pose proof (size_initiate_time s Hsz) as Hi.
  split.
  { rewrite command_chars_string.
    - rewrite firstn_all2; [reflexivity|].
      rewrite !length_app. cbn [length].
      change (length (bytes_of "AT+CMGR=")) with 8%nat.
      unfold max_str_l in *. lia.
    - apply nul_free_app; [now apply nul_free_bytes|].
      apply nul_free_app; [exact Hindex | now repeat constructor]. }
  split; [apply flag_cleared|].
  split.
  { rewrite nth_upd_neq by discriminate.
    apply nth_upd_eq. rewrite Ha. cbv; lia. }
  split; [apply nth_upd_eq; rewrite upd_length, Ha; cbv; lia|].
  apply nth_upd_eq. rewrite Hi. cbv; lia.
Qed.

Lemma store_string_overflows (dst str : list Z) :
  (length dst <= length str)%nat -> store_string dst str = Undefined.
Proof.
  intros H. unfold store_string.
  now replace (length str <? length dst)%nat with false
    by (symmetry; apply Nat.ltb_ge; exact H).
Qed.

Lemma nul_free_skipn (n : nat) (str : list Z) :
  nul_free str -> nul_free (skipn n str).
Proof.
  intros H. unfold nul_free in *. rewrite <- (firstn_skipn n str) in H.
  now apply Forall_app in H.
Qed.

(** X14: the answer to the regular status check decides between a report
    and a reboot: when it holds "Online" the text after its first seven
    characters is staged as the report "Modem check: ..." and an OK is
    awaited; when it does not, the firmware reboots.  A report of 200
    characters or more does not fit its slot. *)
Theorem cpsi_check_outcome (now : Z) (s : state) (r : list Z) :
  well_sized s ->
  flag CPSI (received s) && flag CPSI (awaiting_response s) = true ->
  cstr (nth CPSI (received_response s) []) = Some r ->
  (strstr r (bytes_of "Online") = false -> process_cpsi now s = Reboot)
  /\ (strstr r (bytes_of "Online") = true -> (7 <= length r < 194)%nat ->
      exists s', process_cpsi now s = Done s'
        /\ multi_stage_handling_type s' = MULTI_STAGE_SEND_STATUS_MSG
        /\ cstr (nth MULTI_STAGE_SEND_STATUS_MSG (multi_stage_message s') [])
           = Some (bytes_of "Modem check: " ++ skipn 7 r)
        /\ flag CPSI (received s') = false
        /\ flag CPSI (awaiting_response s') = false
        /\ flag OK (awaiting_response s') = true
        /\ nth OK (initiate_time s') 0 = now
        /\ uart_tx s' = uart_tx s)
  /\ (strstr r (bytes_of "Online") = true -> (194 <= length r)%nat ->
      process_cpsi now s = Undefined).
Proof.
  intros Hsz Hc Hrow.
  assert (Hrun : process_cpsi now s
                 = if strstr r (bytes_of "Online") then
                     rest <- str_arg (skipn 7 (nth CPSI (received_response s)
                                                    [])) ;;
                     s0 <- stage_message MULTI_STAGE_SEND_STATUS_MSG
                             (bytes_of "Modem check: " ++ rest)
                             (clear_awaiting CPSI (clear_received CPSI s)) ;;
                     Done (await_response OK now
                             (set_multi_stage_handling_type
                                MULTI_STAGE_SEND_STATUS_MSG s0))
                   else Reboot).
  { unfold process_cpsi. rewrite Hc.
    change (received_response (clear_awaiting CPSI (clear_received CPSI s)))
      with (received_response s).
    unfold str_arg at 1. rewrite Hrow. reflexivity. }
  rewrite Hrun. clear Hrun.
  destruct (cstr_inv _ _ Hrow) as [Hnul [rest Erow]].
  pose proof (table_nth _ _ MULTI_STAGE_SEND_STATUS_MSG _
                (size_multi_stage_message s Hsz) ltac:(cbv; lia)) as Hslot.
  assert (Hlen : forall n, (n <= length r)%nat ->
            length (bytes_of "Modem check: " ++ skipn n r)
            = (13 + (length r - n))%nat).
  { intros n Hn. rewrite length_app, length_skipn. reflexivity. }
  split; [intros ->; reflexivity|].
  split; intros -> Hr.
  - assert (Hrest : cstr (skipn 7 (nth CPSI (received_response s) []))
                    = Some (skipn 7 r))
      by (apply cstr_skipn; [exact Hrow | lia]).
    unfold str_arg. rewrite Hrest. cbn [bind].
    rewrite stage_message_fits
      by (change (multi_stage_message (clear_awaiting _ _))
            with (multi_stage_message s);
          rewrite Hslot; apply Nat.ltb_lt; rewrite Hlen by lia;
          unfold max_str_l; lia).
    cbn [bind]. eexists. split; [reflexivity|].
    unfold await_response, clear_awaiting, clear_received, set_flag, flag.
    fields_goal.
    pose proof (size_awaiting_response s Hsz) as Ha.
    pose proof (size_initiate_time s Hsz) as Hi.
    split; [reflexivity|].
    split.
    { rewrite nth_upd_eq
        by (rewrite (proj1 (size_multi_stage_message s Hsz)); cbv; lia).
      apply cstr_blit.
      - apply nul_free_app; [now apply nul_free_bytes|].
        now apply nul_free_skipn.
      - rewrite Hslot, Hlen by lia. unfold max_str_l. lia. }
    split; [apply flag_cleared|].
    split.
    { rewrite !nth_upd_neq by discriminate. apply flag_cleared. }
    split.
    { rewrite nth_upd_neq by discriminate.
      apply nth_upd_eq. rewrite upd_length, Ha. cbv; lia. }
    split; [apply nth_upd_eq; rewrite Hi; cbv; lia | reflexivity].
  - assert (Hrest : cstr (skipn 7 (nth CPSI (received_response s) []))
                    = Some (skipn 7 r))
      by (apply cstr_skipn; [exact Hrow | lia]).
    unfold str_arg. rewrite Hrest. cbn [bind].
    unfold stage_message.
    change (multi_stage_message (clear_awaiting _ _))
      with (multi_stage_message s).
    rewrite store_string_overflows; [reflexivity|].
    rewrite Hslot, Hlen by lia. unfold max_str_l. lia.
Qed.

Lemma csq_level_comma (level : list Z) :
  forall (pre rest : list Z) (i fuel : nat) (j : Z),
  length pre = (6 + i)%nat -> ~ In 44 level ->
  (length level <= fuel)%nat -> Z.of_nat (i + length level) <= j ->
  csq_level fuel (pre ++ level ++ 44 :: rest) i j = Done level.
Proof.
  induction level as [|c level IH]; intros pre rest i fuel j Hpre Hno Hfuel Hj.
  - cbn [app]. destruct fuel; cbn [csq_level];
      rewrite <- Hpre, length_app; cbn [length];
      (replace (length pre <? length pre + S (length rest))%nat with true
         by (symmetry; apply Nat.ltb_lt; lia));
      rewrite nth_middle; reflexivity.
  - destruct fuel as [|fuel]; [cbn [length] in Hfuel; lia|].
    cbn [csq_level]. rewrite <- Hpre, length_app. cbn [app length].
    replace (Nat.ltb (length pre)
               (length pre + S (length (level ++ 44 :: rest))))
      with true by (symmetry; apply Nat.ltb_lt; lia).
    rewrite nth_middle.
    replace (c =? 44) with false
      by (symmetry; apply Z.eqb_neq; intros ->; apply Hno; now left).
    replace (Z.of_nat i <? j) with true
      by (symmetry; apply Z.ltb_lt; cbn [length] in Hj; lia).
    cbn [negb andb].
    replace (pre ++ c :: level ++ 44 :: rest)
      with ((pre ++ [c]) ++ level ++ 44 :: rest)
      by (now rewrite <- app_assoc).
    rewrite (IH (pre ++ [c]) rest (S i) fuel j).
    + reflexivity.
    + rewrite length_app. cbn [length]. lia.
    + intros H. apply Hno. now right.
    + cbn [length] in Hfuel. lia.
    + cbn [length] in Hj. lia.
Qed.

(** X15: from the answer to the request for the signal level the loop takes
    what stands between the first six characters and the comma, stages it
    as the report "Signal quality is ...", and awaits an OK. *)
Theorem csq_reports_level (now : Z) (s : state) (head level tail : list Z) :
  well_sized s ->
  flag CSQ (received s) && flag CSQ (awaiting_response s) = true ->
  cstr (nth CSQ (received_response s) []) = Some (head ++ level ++ 44 :: tail) ->
  length head = 6%nat -> ~ In 44 level -> (length level < 182)%nat ->
  exists s', process_csq now s = Done s'
    /\ multi_stage_handling_type s' = MULTI_STAGE_SEND_SIGNAL_LEVEL
    /\ cstr (nth MULTI_STAGE_SEND_SIGNAL_LEVEL (multi_stage_message s') [])
       = Some (bytes_of "Signal quality is " ++ level)
    /\ flag CSQ (received s') = false
    /\ flag CSQ (awaiting_response s') = false
    /\ flag OK (awaiting_response s') = true
    /\ nth OK (initiate_time s') 0 = now
    /\ uart_tx s' = uart_tx s.
Proof.
  intros Hsz Hc Hrow Hhead Hno Hlevel. unfold process_csq. rewrite Hc.
  cbv zeta.
  change (received_response (clear_awaiting CSQ (clear_received CSQ s)))
    with (received_response s).
  destruct (cstr_inv _ _ Hrow) as [Hnul [rest Erow]].
  destruct (nul_free_split _ _ Hnul) as [_ Hnul'].
  destruct (nul_free_split _ _ Hnul') as [Hnl _].
  unfold strlen, str_arg. rewrite Hrow. cbn [bind].
  assert (Hl : csq_level (length (nth CSQ (received_response s) []))
                 (nth CSQ (received_response s) []) 0
                 (Z.of_nat (length (head ++ level ++ 44 :: tail)) - 1)
               = Done level).
  { rewrite Erow. rewrite <- !app_assoc. cbn [app].
    apply (csq_level_comma level head (tail ++ 0 :: rest) 0).
    - rewrite Hhead. reflexivity.
    - exact Hno.
    - rewrite !length_app. lia.
    - rewrite !length_app. cbn [length]. lia. }
  rewrite Hl. clear Hl.
  cbn [bind]. rewrite (cstr_app level [] Hnl). cbn [bind].
  pose proof (table_nth _ _ MULTI_STAGE_SEND_SIGNAL_LEVEL _
                (size_multi_stage_message s Hsz) ltac:(cbv; lia)) as Hslot.
  assert (Hlen : length (bytes_of "Signal quality is " ++ level)
                 = (18 + length level)%nat)
    by (rewrite length_app; reflexivity).
  rewrite stage_message_fits
    by (change (multi_stage_message (clear_awaiting _ _))
          with (multi_stage_message s);
        rewrite Hslot; apply Nat.ltb_lt; rewrite Hlen;
        unfold max_str_l; lia).
  cbn [bind]. eexists. split; [reflexivity|].
  unfold await_response, clear_awaiting, clear_received, set_flag, flag.
  fields_goal.
  pose proof (size_awaiting_response s Hsz) as Ha.
  pose proof (size_initiate_time s Hsz) as Hi.
  split; [reflexivity|].
  split.
  { rewrite nth_upd_eq
      by (rewrite (proj1 (size_multi_stage_message s Hsz)); cbv; lia).
    apply cstr_blit.
    - apply nul_free_app; [now apply nul_free_bytes | exact Hnl].
    - rewrite Hslot, Hlen. unfold max_str_l. lia. }
  split; [apply flag_cleared|].
  split.
  { rewrite !nth_upd_neq by discriminate. apply flag_cleared. }
  split.
  { rewrite nth_upd_neq by discriminate.
    apply nth_upd_eq. rewrite upd_length, Ha. cbv; lia. }
  split; [apply nth_upd_eq; rewrite Hi; cbv; lia | reflexivity].
Qed.

(** X16: an awaited OK continues the pending action: after a request for
    the signal level the loop asks the modem for it and awaits +CSQ; for
    every other pending action it sends the staged message as an SMS to
    the stored number and awaits +CMGS; in both cases the action is then
    no longer pending.  An OK that is not awaited is dropped. *)
Theorem ok_continues_action (now : Z) (s : state) (t m : list Z) :
  well_sized s -> flag OK (received s) = true ->
  (flag OK (awaiting_response s) = false ->
   process_ok now s = Done (clear_received OK s))
  /\ (flag OK (awaiting_response s) = true ->
      multi_stage_handling_type s = MULTI_STAGE_RECEIVED_SIGNAL_REQUEST ->
      exists s', process_ok now s = Done s'
        /\ uart_tx s' = uart_tx s ++ [bytes_of "AT+CSQ" ++ [CR]]
        /\ multi_stage_handling_type s' = 0%nat
        /\ flag OK (awaiting_response s') = false
        /\ flag CSQ (awaiting_response s') = true
        /\ nth CSQ (initiate_time s') 0 = now)
  /\ (flag OK (awaiting_response s) = true ->
      (1 < multi_stage_handling_type s)%nat ->
      cstr (tel_no s) = Some t ->
      cstr (nth (multi_stage_handling_type s) (multi_stage_message s) [])
      = Some m ->
      (length m <= 198)%nat ->
      exists s', process_ok now s = Done s'
        /\ uart_tx s'
           = uart_tx s
             ++ [bytes_of "AT+CMGS=" ++ [quote] ++ t ++ [quote; CR];
                 m ++ [26]]
        /\ multi_stage_handling_type s' = 0%nat
        /\ flag OK (awaiting_response s') = false
        /\ flag CMGS (awaiting_response s') = true
        /\ nth CMGS (initiate_time s') 0 = now).
Proof.
  intros Hsz Hrec. unfold process_ok. rewrite Hrec.
  pose proof (size_awaiting_response s Hsz) as Ha.
  pose proof (size_initiate_time s Hsz) as Hi.
  split; [intros ->; reflexivity|].
  split; intros -> Htag; cbn [andb]; cbv zeta;
    change (multi_stage_handling_type
              (clear_awaiting OK (clear_received OK s)))
      with (multi_stage_handling_type s).
  - rewrite Htag. cbn [Nat.eqb]. eexists. split; [reflexivity|].
    unfold await_response, write_command, clear_awaiting, clear_received,
      set_flag, flag.
    fields_goal.
    split; [reflexivity|]. split; [reflexivity|].
    split.
    { rewrite !nth_upd_neq by discriminate. apply flag_cleared. }
    split.
    { rewrite nth_upd_neq by discriminate.
      apply nth_upd_eq. rewrite upd_length, Ha. cbv; lia. }
    apply nth_upd_eq. rewrite Hi. cbv; lia.
  - intros Ht Hm Hlm.
    replace (multi_stage_handling_type s
             =? MULTI_STAGE_RECEIVED_SIGNAL_REQUEST)%nat with false
      by (symmetry; apply Nat.eqb_neq; unfold
            MULTI_STAGE_RECEIVED_SIGNAL_REQUEST; lia).
    replace (multi_stage_handling_type s =? 0)%nat with false
      by (symmetry; apply Nat.eqb_neq; lia).
    cbn [negb].
    change (tel_no (clear_awaiting OK (clear_received OK s)))
      with (tel_no s).
    change (multi_stage_message (clear_awaiting OK (clear_received OK s)))
      with (multi_stage_message s).
    rewrite (send_sms_sends _ _ t m _ Ht Hm) by
      (try assumption;
       pose proof (cstr_length _ _ Ht) as Hl;
       rewrite (size_tel_no s Hsz) in Hl; lia).
    cbn [bind]. eexists. split; [reflexivity|].
    unfold await_response, clear_awaiting, clear_received, set_flag, flag.
    fields_goal.
    split; [reflexivity|]. split; [reflexivity|].
    split.
    { rewrite !nth_upd_neq by discriminate. apply flag_cleared. }
    split.
    { rewrite nth_upd_neq by discriminate.
      apply nth_upd_eq. rewrite upd_length, Ha. cbv; lia. }
    apply nth_upd_eq. rewrite Hi. cbv; lia.
Qed.

(** ** The reset of the password by the input *)

(** X17: when the reset input is found low, at least ten seconds after the
    last reset and with the dialogue idle, the password becomes the
    default one, the settings are marked for storage and an SMS that says
    so is sent to the stored number; the rest of the configuration stays.
    When the input is high only the time of the check is noted. *)
Theorem password_reset_by_pin (t : tick) (s : state) (tel : list Z) :
  well_sized s -> cstr (tel_no s) = Some tel ->
  absolute_time_diff_us (last_passw_reset_check_time s) (current_time t)
  > 1000000 ->
  absolute_time_diff_us (last_passw_reset_time s) (current_time t)
  > 10000000 ->
  flag UNKNOWN (awaiting_response s) = false ->
  (gpio_get t GPIO_PIN_PW_RESET = false ->
   exists s', check_password_reset t s = Done s'
     /\ cstr (passw s') = Some (bytes_of "674358")
     /\ store_new_flash_settings s' = true
     /\ uart_tx s'
        = uart_tx s
          ++ [bytes_of "AT+CMGS=" ++ [quote] ++ tel ++ [quote; CR];
              bytes_of "Password reset to default" ++ [26]]
     /\ flag CMGS (awaiting_response s') = true
     /\ flag UNKNOWN (awaiting_response s') = true
     /\ last_passw_reset_time s' = current_time t
     /\ tel_no s' = tel_no s /\ sms_on_fall s' = sms_on_fall s
     /\ sms_on_rise s' = sms_on_rise s
     /\ send_sms_on_change s' = send_sms_on_change s)
  /\ (gpio_get t GPIO_PIN_PW_RESET = true ->
      check_password_reset t s
      = Done (set_last_passw_reset_check_time (current_time t) s)).
Proof.
  intros Hsz Htel Hcheck Hlast Hidle. unfold check_password_reset.
  cbv zeta.
  replace (absolute_time_diff_us (last_passw_reset_check_time s)
             (current_time t) >? 1000000) with true
    by (symmetry; rewrite Z.gtb_ltb; apply Z.ltb_lt; lia).
  replace (absolute_time_diff_us (last_passw_reset_time s)
             (current_time t) >? 10000000) with true
    by (symmetry; rewrite Z.gtb_ltb; apply Z.ltb_lt; lia).
  rewrite Hidle. cbn [negb andb].
  split; intros ->; cbn [negb]; [|reflexivity].
  fields_goal. unfold default_passw.
  rewrite strcpy_literal by (rewrite ?(size_passw s Hsz); reflexivity).
  cbn [bind]. fields_goal.
  rewrite (send_sms_sends _ _ tel (bytes_of "Password reset to default") _
             Htel (cstr_literal "Password reset to default" eq_refl))
    by (try (cbv; lia);
        pose proof (cstr_length _ _ Htel) as Hl;
        rewrite (size_tel_no s Hsz) in Hl; lia).
  cbn [bind]. eexists. split; [reflexivity|].
  unfold await_response, set_flag, flag. fields_goal.
  pose proof (size_awaiting_response s Hsz) as Ha.
  split.
  { apply cstr_blit_literal; [reflexivity|].
    now rewrite (size_passw s Hsz). }
  split; [reflexivity|]. split; [reflexivity|].
  split.
  { rewrite nth_upd_neq by discriminate.
    apply nth_upd_eq. rewrite Ha. cbv; lia. }
  split; [apply nth_upd_eq; rewrite upd_length, Ha; cbv; lia|].
  repeat split.
Qed.

(** ** The other commands of the SMS parser *)








Lemma set_recognised_configuration (b : bool) (s : state) :
  configuration_of (set_recognised_instruction b s) = configuration_of s.
Proof. reflexivity. Qed.

Lemma parse_sms_defaults (p arg : list Z) (s : state) :
  well_sized s -> password_is p s -> sms_is p " Defaults!" arg s ->
  exists s', parse_sms s = Done s'
    /\ multi_stage_handling_type s' = MULTI_STAGE_RECEIVED_DEFAULTS
    /\ configuration_of s' = Some default_configuration
    /\ store_new_flash_settings s' = true
    /\ cstr (nth MULTI_STAGE_RECEIVED_DEFAULTS (multi_stage_message s') [])
       = Some (bytes_of "Ok. Resetting settings to defaults").
Proof.
  intros Hsz Hp Hs. unfold parse_sms.
  assert (Hl6 : length p = 6%nat) by apply Hp.
  destruct (sms_is_text _ _ _ _ Hs) as [Hn [rest Htext]].
  assert (Hpre : prefix_of p (received_sms_text s) = true).
  { rewrite Htext. apply prefix_of_spec. now eexists. }
  rewrite (recognised_spec p s Hp), Hpre.
  set (s2 := set_recognised_instruction true s).
  assert (Hsz2 : well_sized s2) by (destruct Hsz; constructor; assumption).
  assert (Hp2 : password_is p s2) by exact Hp.
  assert (Hs2 : sms_is p " Defaults!" arg s2) by exact Hs.
  rewrite skip_signal_request
    by (apply (command_is_other _ " Defaults!" p p arg); auto).
  cbn [bind].
  rewrite skip_telephone_number
    by (apply (command_is_other _ " Defaults!" p p arg); auto).
  cbn [bind].
  rewrite skip_password
    by (apply (command_is_other _ " Defaults!" p p arg); auto).
  cbn [bind].
  rewrite skip_sms_on_input
    by (apply (command_is_other _ " Defaults!" p p arg); auto).
  cbn [bind].
  rewrite skip_message_text
    by (apply (command_is_other _ " Defaults!" p p arg); auto).
  cbn [bind].
  unfold defaults.
  rewrite (command_is_same " Defaults!" p arg s2 Hp2 Hs2) by reflexivity.
  cbn [bind].
  pose proof (table_nth _ _ MULTI_STAGE_RECEIVED_DEFAULTS _
                (size_multi_stage_message s Hsz) ltac:(cbv; lia)) as Hrow.
  rewrite stage_message_fits
    by (change (multi_stage_message _) with (multi_stage_message s);
        rewrite Hrow; reflexivity).
  cbn [bind].
  match goal with
  | |- context [copy_defaults ?x] => set (s3 := x)
  end.
  assert (Hsz3 : well_sized s3).
  { subst s3. apply staged_sized; [|cbv; lia].
    destruct Hsz2. constructor; assumption. }
  rewrite (copy_defaults_spec s3 Hsz3). cbn [bind].
  rewrite skip_invalid_command by reflexivity.
  eexists; split; [reflexivity|].
  split; [reflexivity|].
  split.
  { rewrite set_recognised_configuration, set_store_configuration.
    apply (with_defaults_configuration s3 Hsz3). }
  split; [reflexivity|].
  change (multi_stage_message
            (set_recognised_instruction false
               (set_store_new_flash_settings true (with_defaults s3))))
    with (multi_stage_message s3).
  subst s3 s2. fields_goal.
  rewrite nth_upd_eq
    by (rewrite (proj1 (size_multi_stage_message s Hsz)); cbv; lia).
  apply cstr_blit; [now apply nul_free_bytes | rewrite Hrow; cbv; lia].
Qed.

(** X19: a [Defaults!] command, whatever follows the word, replaces the
    whole configuration by the default one, marks the settings for
    storage and stages the confirmation. *)
Theorem defaults_command (now : Z) (s : state) (p arg : list Z) :
  well_sized s -> password_is p s -> sms_is p " Defaults!" arg s ->
  flag CMGR (received s) && flag CMGR (awaiting_response s)
  && received_sms s = true ->
  exists s', process_cmgr now s = Done s'
    /\ multi_stage_handling_type s' = MULTI_STAGE_RECEIVED_DEFAULTS
    /\ configuration_of s' = Some default_configuration
    /\ store_new_flash_settings s' = true
    /\ cstr (nth MULTI_STAGE_RECEIVED_DEFAULTS (multi_stage_message s') [])
       = Some (bytes_of "Ok. Resetting settings to defaults").
Proof.
  intros Hsz Hp Hs Hc. unfold process_cmgr. rewrite Hc.
  exact (parse_sms_defaults p arg (acknowledge_cmgr now s)
           (acknowledge_cmgr_sized now s Hsz) Hp Hs).
Qed.

Lemma parse_sms_signal_request (p arg : list Z) (s : state) :
  password_is p s -> sms_is p " Signal?" arg s ->
  parse_sms s
  = Done (set_recognised_instruction false
            (set_multi_stage_handling_type
               MULTI_STAGE_RECEIVED_SIGNAL_REQUEST s)).
Proof.
  intros Hp Hs. unfold parse_sms.
  assert (Hl6 : length p = 6%nat) by apply Hp.
  set (s2 := set_recognised_instruction _ s).
  assert (Hp2 : password_is p s2) by exact Hp.
  assert (Hs2 : sms_is p " Signal?" arg s2) by exact Hs.
  unfold signal_request.
  rewrite (command_is_same " Signal?" p arg s2 Hp2 Hs2) by reflexivity.
  cbn [bind].
  match goal with
  | |- context [telephone_number ?x] => set (s3 := x)
  end.
  assert (Hp3 : password_is p s3) by exact Hp.
  assert (Hs3 : sms_is p " Signal?" arg s3) by exact Hs.
  rewrite skip_telephone_number
    by (apply (command_is_other _ " Signal?" p p arg); auto).
  cbn [bind].
  rewrite skip_password
    by (apply (command_is_other _ " Signal?" p p arg); auto).
  cbn [bind].
  rewrite skip_sms_on_input
    by (apply (command_is_other _ " Signal?" p p arg); auto).
  cbn [bind].
  rewrite skip_message_text
    by (apply (command_is_other _ " Signal?" p p arg); auto).
  cbn [bind].
  rewrite skip_defaults
    by (apply (command_is_other _ " Signal?" p p arg); auto).
  cbn [bind].
  rewrite skip_invalid_command by reflexivity.
  reflexivity.
Qed.

(** X20: a [Signal?] command, whatever follows the word, makes the request
    for the signal level the pending action; it stages no message and
    changes nothing of the configuration. *)
Theorem signal_request_command (now : Z) (s : state) (p arg : list Z) :
  password_is p s -> sms_is p " Signal?" arg s ->
  flag CMGR (received s) && flag CMGR (awaiting_response s)
  && received_sms s = true ->
  exists s', process_cmgr now s = Done s'
    /\ multi_stage_handling_type s' = MULTI_STAGE_RECEIVED_SIGNAL_REQUEST
    /\ multi_stage_message s' = multi_stage_message s
    /\ store_new_flash_settings s' = store_new_flash_settings s
    /\ passw s' = passw s /\ tel_no s' = tel_no s
    /\ sms_on_fall s' = sms_on_fall s /\ sms_on_rise s' = sms_on_rise s
    /\ send_sms_on_change s' = send_sms_on_change s
    /\ uart_tx s' = uart_tx s.
Proof.
  intros Hp Hs Hc. unfold process_cmgr. rewrite Hc.
  rewrite (parse_sms_signal_request p arg (acknowledge_cmgr now s) Hp Hs).
  eexists. split; [reflexivity|]. repeat split.
Qed.

Lemma command_is_none (verb : string) (p rest : list Z) (s : state) :
  password_is p s -> cstr (received_sms_text s) = Some (p ++ rest) ->
  nonzero (bytes_of verb) = true ->
  (length (bytes_of verb) <? 100)%nat = true ->
  prefix_of (bytes_of verb) rest = false ->
  command_is verb s = Done false.
Proof.
  intros Hp Ht Hv Hl Hnone.
  rewrite (command_is_spec verb p s Hp Hv Hl).
  destruct (cstr_inv _ _ Ht) as [_ [tail ->]].
  rewrite <- app_assoc, prefix_of_app.
  rewrite prefix_of_cstr by now apply nul_free_bytes.
  now rewrite Hnone.
Qed.

Lemma parse_sms_unrecognised (p rest : list Z) (s : state) :
  well_sized s -> password_is p s ->
  cstr (received_sms_text s) = Some (p ++ rest) ->
  (forall verb, In verb command_verbs ->
     prefix_of (bytes_of verb) rest = false) ->
  parse_sms s
  = Done (set_multi_stage_message
            (upd MULTI_STAGE_INVALID_COMMAND
               (blit (bytes_of "Invalid instruction" ++ [0])
                     (nth MULTI_STAGE_INVALID_COMMAND
                          (multi_stage_message s) []))
               (multi_stage_message s))
            (set_multi_stage_handling_type MULTI_STAGE_INVALID_COMMAND
               (set_recognised_instruction true s))).
Proof.
  intros Hsz Hp Ht Hnone. unfold parse_sms.
  assert (Hpre : prefix_of p (received_sms_text s) = true).
  { destruct (cstr_inv _ _ Ht) as [_ [tail ->]].
    apply prefix_of_spec. rewrite <- app_assoc. now eexists. }
  rewrite (recognised_spec p s Hp), Hpre.
  set (s2 := set_recognised_instruction true s).
  assert (Hp2 : password_is p s2) by exact Hp.
  assert (Ht2 : cstr (received_sms_text s2) = Some (p ++ rest)) by exact Ht.
  rewrite skip_signal_request
    by (apply (command_is_none _ p rest); auto; apply Hnone; cbn; tauto).
  cbn [bind].
  rewrite skip_telephone_number
    by (apply (command_is_none _ p rest); auto; apply Hnone; cbn; tauto).
  cbn [bind].
  rewrite skip_password
    by (apply (command_is_none _ p rest); auto; apply Hnone; cbn; tauto).
  cbn [bind].
  rewrite skip_sms_on_input
    by (apply (command_is_none _ p rest); auto; apply Hnone; cbn; tauto).
  cbn [bind].
  rewrite skip_message_text
    by (apply (command_is_none _ p rest); auto; apply Hnone; cbn; tauto).
  cbn [bind].
  rewrite skip_defaults
    by (apply (command_is_none _ p rest); auto; apply Hnone; cbn; tauto).
  cbn [bind].
  unfold invalid_command.
  change (recognised_instruction s2) with true. cbv iota.
  rewrite stage_message_fits
    by (change (multi_stage_message _) with (multi_stage_message s);
        rewrite (table_nth _ _ MULTI_STAGE_INVALID_COMMAND _
                   (size_multi_stage_message s Hsz) ltac:(cbv; lia));
        reflexivity).
  reflexivity.
Qed.

(** X21: an SMS that begins with the password and goes on with none of the
    six command words is answered: "Invalid instruction" is staged as the
    pending reply.  The configuration and the request to store it are left
    as they are. *)
Theorem unrecognised_command (now : Z) (s : state) (p rest : list Z) :
  well_sized s -> password_is p s ->
  cstr (received_sms_text s) = Some (p ++ rest) ->
  (forall verb, In verb command_verbs ->
     prefix_of (bytes_of verb) rest = false) ->
  flag CMGR (received s) && flag CMGR (awaiting_response s)
  && received_sms s = true ->
  exists s', process_cmgr now s = Done s'
    /\ multi_stage_handling_type s' = MULTI_STAGE_INVALID_COMMAND
    /\ cstr (nth MULTI_STAGE_INVALID_COMMAND (multi_stage_message s') [])
       = Some (bytes_of "Invalid instruction")
    /\ store_new_flash_settings s' = store_new_flash_settings s
    /\ passw s' = passw s /\ tel_no s' = tel_no s
    /\ sms_on_fall s' = sms_on_fall s /\ sms_on_rise s' = sms_on_rise s
    /\ send_sms_on_change s' = send_sms_on_change s.
Proof.
  intros Hsz Hp Ht Hnone Hc. unfold process_cmgr. rewrite Hc.
  rewrite (parse_sms_unrecognised p rest (acknowledge_cmgr now s)
             (acknowledge_cmgr_sized now s Hsz) Hp Ht Hnone).
  eexists. split; [reflexivity|]. helpers_goal.
  split; [reflexivity|].
  split; [|repeat split].
  rewrite nth_upd_eq
    by (rewrite (proj1 (size_multi_stage_message s Hsz)); cbv; lia).
  apply cstr_blit; [now apply nul_free_bytes|].
  rewrite (table_nth _ _ MULTI_STAGE_INVALID_COMMAND _
             (size_multi_stage_message s Hsz) ltac:(cbv; lia)).
  cbv; lia.
Qed.








(** ** The blocking exchanges of the initialisation *)

Lemma store_fits (l : nat) (chr : Z) (message : list Z) :
  (l < length message)%nat ->
  Init.store l chr message = Done (upd l chr message).
Proof.
  intros H. unfold Init.store.
  now replace (l <? length message)%nat with true
    by (symmetry; apply Nat.ltb_lt; exact H).
Qed.

Lemma skipn_cons_tail {A : Type} (k : nat) (l r : list A) (y : A) :
  skipn k l = y :: r -> skipn (S k) l = r.
Proof.
  intros H. replace (S k) with (1 + k)%nat by reflexivity.
  now rewrite <- skipn_skipn, H.
Qed.

Lemma read_message_loop_chars (chars : list Z) :
  forall pre post tail,
  (length pre + length post = max_str_l)%nat ->
  (length pre <= max_str_l - 1)%nat -> ~ In LF chars ->
  let pre' := firstn (max_str_l - 1) (pre ++ without_cr chars) in
  Init.read_message_loop (map Some chars ++ tail) (length pre) (pre ++ post)
  = Init.read_message_loop tail (length pre')
      (pre' ++ skipn (length pre' - length pre) post).
Proof.
  induction chars as [|c chars IH]; intros pre post tail Hlen Hl Hlf pre'.
  - subst pre'. cbn [map app without_cr filter]. rewrite app_nil_r.
    rewrite firstn_all2 by exact Hl. now rewrite Nat.sub_diag.
  - assert (Hc : c <> LF) by (intros ->; apply Hlf; now left).
    assert (Hlf' : ~ In LF chars) by (intros H; apply Hlf; now right).
    cbn [map app Init.read_message_loop].
    apply Z.eqb_neq in Hc. rewrite Hc. cbn [negb andb].
    subst pre'. rewrite without_cr_cons.
    destruct (Z.eqb_spec c CR) as [Ecr|Ncr]; cbn [negb andb bind].
    + apply (IH pre post tail Hlen Hl Hlf').
    + destruct (Nat.ltb_spec (length pre) (max_str_l - 1)) as [Hlt|Hge];
        cbn [bind].
      * destruct post as [|x post];
          [cbn in Hlen; unfold max_str_l in *; lia|].
        rewrite store_fits by (rewrite length_app; cbn; lia).
        cbn [bind]. rewrite upd_app.
        replace (S (length pre)) with (length (pre ++ [c]))
          by (rewrite length_app; cbn; lia).
        replace (pre ++ c :: post) with ((pre ++ [c]) ++ post)
          by (now rewrite <- app_assoc).
        rewrite (IH (pre ++ [c]) post tail)
          by (rewrite ?length_app; cbn in *; unfold max_str_l in *;
              solve [lia | exact Hlf']).
        rewrite <- (app_assoc pre [c]). cbn [app].
        set (pre' := firstn (max_str_l - 1) (pre ++ c :: without_cr chars)).
        assert (Hp : (length pre < length pre')%nat).
        { subst pre'. rewrite length_firstn, length_app. cbn [length].
          lia. }
        rewrite length_app. cbn [length].
        replace (length pre' - length pre)%nat
          with (S (length pre' - (length pre + 1)))%nat by lia.
        reflexivity.
      * assert (E : forall w, firstn (max_str_l - 1) (pre ++ w) = pre).
        { intros w. rewrite firstn_app.
          replace (max_str_l - 1 - length pre)%nat with 0%nat by lia.
          rewrite firstn_all2 by lia. cbn [firstn]. apply app_nil_r. }
        pose proof (IH pre post tail Hlen Hl Hlf') as H. cbv zeta in H.
        rewrite E in H. rewrite E. exact H.
Qed.

Lemma stored_length (line : list Z) :
  (length (stored line) <= max_str_l - 1)%nat.
Proof. unfold stored. rewrite length_firstn. lia. Qed.


Lemma read_message_start (message : list Z) (tail : Init.uart_in)
    (chars : list Z) :
  length message = max_str_l -> ~ In LF chars ->
  Init.store 0 0 message = Done (upd 0 0 message)
  /\ Init.read_message_loop (map Some chars ++ tail) 0 (upd 0 0 message)
     = Init.read_message_loop tail (length (stored chars))
         (blit (stored chars) (upd 0 0 message)).
Proof.
  intros Hlen Hlf.
  destruct message as [|x post]; [discriminate|]. cbn [upd].
  split; [reflexivity|].
  pose proof (read_message_loop_chars chars [] (0 :: post) tail Hlen
                ltac:(cbn; lia) Hlf) as H.
  cbv zeta in H. cbn [app length] in H. rewrite Nat.sub_0_r in H.
  fold (stored chars) in H. rewrite H.
  rewrite blit_app;
    [reflexivity
    | pose proof (stored_length chars); unfold max_str_l in *;
      cbn [length] in *; lia].
Qed.

Lemma read_message_complete_line (message line : list Z) (wait_us : Z)
    (rest : Init.uart_in) :
  length message = max_str_l -> ~ In LF line ->
  Init.read_message message wait_us (map Some line ++ Some LF :: rest)
  = Done (0, blit (stored line ++ [0]) message, rest).
Proof.
  intros Hlen Hlf. unfold Init.read_message.
  destruct (read_message_start message (Some LF :: rest) line Hlen Hlf)
    as [H0 H1].
  rewrite H0. cbn [bind]. rewrite H1. cbn [bind Init.read_message_loop]. rewrite Z.eqb_refl.
  cbn [negb andb bind].
  pose proof (stored_length line) as Hs.
  assert (Hm : length (upd 0 0 message) = max_str_l)
    by now rewrite upd_length.
  rewrite store_fits
    by (rewrite blit_length, Hm; unfold max_str_l in *; lia).
  cbn [bind]. do 3 f_equal.
  rewrite !blit_app
    by (rewrite ?length_app, ?Hm, ?Hlen; cbn [length];
        unfold max_str_l in *; lia).
  destruct (skipn (length (stored line)) (upd 0 0 message)) as [|y r] eqn:E.
  { apply (f_equal (@length Z)) in E. rewrite length_skipn, Hm in E.
    cbn [length] in E. unfold max_str_l in *. lia. }
  rewrite upd_app, <- app_assoc. cbn [app]. do 2 f_equal.
  rewrite length_app. cbn [length]. rewrite Nat.add_1_r.
  apply skipn_cons_tail in E. rewrite <- E.
  destruct message; reflexivity.
Qed.

(** X23: the blocking [read_message] returns 0 for a line that arrives
    complete, with the characters of the line but its CRs as a string in
    the array; of a longer line the first [max_str_l - 1] characters are
    kept and the others dropped.  Nothing is written outside an array of
    [max_str_l] characters. *)
Theorem blocking_read_message_line (message line : list Z) (wait_us : Z)
    (rest : Init.uart_in) :
  length message = max_str_l -> ~ In LF line ->
  Init.read_message message wait_us (map Some line ++ Some LF :: rest)
  = Done (0, blit (stored line ++ [0]) message, rest).
Proof. apply read_message_complete_line. Qed.

(** X24: when the time passes before a LF has arrived, the blocking
    [read_message] returns 1 and leaves the characters it has taken in the
    array without a NUL behind them; if none has come, the array holds the
    empty string. *)
Theorem blocking_read_message_timeout (message chars : list Z)
    (wait_us : Z) (tail rest : Init.uart_in) :
  length message = max_str_l -> ~ In LF chars ->
  tail = None :: rest \/ tail = [] /\ rest = [] ->
  Init.read_message message wait_us (map Some chars ++ tail)
  = Done (1, blit (stored chars) (upd 0 0 message), rest).
Proof.
  intros Hlen Hlf Htail. unfold Init.read_message.
  destruct (read_message_start message tail chars Hlen Hlf) as [H0 H1].
  rewrite H0. cbn [bind]. rewrite H1. destruct Htail as [-> | [-> ->]]; reflexivity.
Qed.

(** The blocking [read_message] ends for everything that can arrive, and
    stays inside its array. *)
Lemma read_message_loop_total (input : Init.uart_in) :
  forall l message,
  length message = max_str_l -> (l <= max_str_l - 1)%nat ->
  exists res message' input',
    Init.read_message_loop input l message = Done (res, message', input')
    /\ length message' = max_str_l
    /\ (res = 0 /\ (length input' < length input)%nat
        \/ res = 1 /\ (length input' <= length input)%nat).
Proof.
  induction input as [|[chr|] input IH]; intros l message Hlen Hl.
  - exists 1, message, []. cbn [Init.read_message_loop length].
    split; [reflexivity|]. split; [exact Hlen|]. right. split; [reflexivity|lia].
  - cbn [Init.read_message_loop].
    assert (Hstep : exists l' message',
      (if negb (chr =? LF) && negb (chr =? CR) && (l <? max_str_l - 1)%nat
       then message <- Init.store l chr message ;; Done (S l, message)
       else Done (l, message)) = Done (l', message')
      /\ length message' = max_str_l /\ (l' <= max_str_l - 1)%nat).
    { destruct (negb (chr =? LF) && negb (chr =? CR)); cbn [andb];
        [|now exists l, message].
      destruct (Nat.ltb_spec l (max_str_l - 1)); [|now exists l, message].
      rewrite store_fits by (rewrite Hlen; unfold max_str_l in *; lia).
      exists (S l), (upd l chr message). rewrite upd_length. cbn [bind].
      split; [reflexivity|]. split; [exact Hlen | lia]. }
    destruct Hstep as (l' & message' & -> & Hlen' & Hl'). cbn [bind].
    destruct (chr =? LF).
    + rewrite store_fits by (rewrite Hlen'; unfold max_str_l in *; lia).
      cbn [bind]. exists 0, (upd l' 0 message'), input.
      rewrite upd_length. cbn [length].
      split; [reflexivity|]. split; [exact Hlen'|]. left. split; [reflexivity|lia].
    + destruct (IH l' message' Hlen' Hl')
        as (res & m & input' & -> & Hm & Hres).
      exists res, m, input'. cbn [length].
      split; [reflexivity|]. split; [exact Hm|].
      destruct Hres as [[? ?]|[? ?]]; [left|right]; split; auto; lia.
  - exists 1, message, input. cbn [Init.read_message_loop length].
    split; [reflexivity|]. split; [exact Hlen|]. right. split; [reflexivity|lia].
Qed.

Lemma read_message_total (message : list Z) (wait_us : Z)
    (input : Init.uart_in) :
  length message = max_str_l ->
  exists res message' input',
    Init.read_message message wait_us input = Done (res, message', input')
    /\ length message' = max_str_l
    /\ (res = 0 /\ (length input' < length input)%nat
        \/ res = 1 /\ (length input' <= length input)%nat).
Proof.
  intros Hlen. unfold Init.read_message.
  rewrite store_fits by (rewrite Hlen; cbv; lia). cbn [bind].
  apply read_message_loop_total;
    [now rewrite upd_length | unfold max_str_l; lia].
Qed.

Lemma strlen_string (buf str : list Z) :
  cstr buf = Some str -> strlen buf = Done (length str).
Proof. intros H. unfold strlen, str_arg. now rewrite H. Qed.

(** The [do ... while] ends before the bound on its turns is reached: a
    larger bound gives the same. *)
Lemma check_response_fuel (fuel : nat) :
  forall fuel' target t response wait_us input,
  cstr target = Some t -> length response = max_str_l ->
  (length input <= fuel)%nat -> (length input <= fuel')%nat ->
  Init.check_response fuel target response wait_us input
  = Init.check_response fuel' target response wait_us input.
Proof.
  induction fuel as [|fuel IH];
    intros fuel' target t response wait_us input Ht Hlen Hf Hf';
    destruct (read_message_total response wait_us input Hlen)
      as (res & r & input' & Hread & Hr & Hres);
    destruct fuel' as [|fuel']; cbn [Init.check_response];
    rewrite Hread; cbn [bind]; rewrite (strlen_string _ _ Ht);
    cbn [bind]; try reflexivity;
    (destruct ((res =? 0)
               && negb ((if strncmp r target (length t) =? 0 then 0 else 1)
                        =? 0)) eqn:E; [|reflexivity]);
    apply andb_true_iff in E as [E _]; apply Z.eqb_eq in E;
    (destruct Hres as [[_ Hlt]|[-> _]]; [|discriminate]); try lia.
  apply (IH fuel' target t r wait_us input' Ht Hr); lia.
Qed.

Lemma check_response_total (fuel : nat) :
  forall target t response wait_us input,
  cstr target = Some t -> length response = max_str_l ->
  (length input <= fuel)%nat ->
  exists success response' input',
    Init.check_response fuel target response wait_us input
    = Done (success, response', input')
    /\ length response' = max_str_l
    /\ (length input' <= length input)%nat
    /\ (success = 0 /\ strncmp response' target (length t) = 0
        \/ success = 1).
Proof.
  induction fuel as [|fuel IH];
    intros target t response wait_us input Ht Hlen Hf;
    destruct (read_message_total response wait_us input Hlen)
      as (res & r & input' & Hread & Hr & Hres);
    cbn [Init.check_response]; rewrite Hread; cbn [bind];
    rewrite (strlen_string _ _ Ht); cbn [bind];
    assert (Hi : (length input' <= length input)%nat)
      by (destruct Hres as [[_ ?]|[_ ?]]; lia);
    (destruct (Z.eqb_spec (strncmp r target (length t)) 0) as [E|E];
     [rewrite andb_false_r; exists 0, r, input';
      split; [reflexivity|]; split; [exact Hr|]; split; [exact Hi|];
      left; split; [reflexivity|exact E]|]);
    cbn [Z.eqb negb]; rewrite andb_true_r;
    (destruct Hres as [[-> Hlt]|[-> _]];
     [|exists 1, r, input'; split; [reflexivity|]; split; [exact Hr|];
       split; [exact Hi|]; now right]);
    cbn [Z.eqb]; [lia|].
  destruct (IH target t r wait_us input' Ht Hr ltac:(lia))
    as (success & r' & input'' & -> & Hr' & Hi' & Hs).
  exists success, r', input''.
  split; [reflexivity|]. split; [exact Hr'|]. split; [lia|exact Hs].
Qed.

Lemma repeat_snoc {A : Type} (x : A) (n : nat) :
  x :: repeat x n = repeat x n ++ [x].
Proof. induction n as [|n IH]; cbn; [reflexivity | now rewrite <- IH]. Qed.

(** Every try flushes the UART, writes the command once and waits for the
    response. *)
Lemma attempts_sends (tries : nat) :
  forall command target t response wait_us input s,
  cstr target = Some t -> length response = max_str_l ->
  exists success response' input' n,
    Init.attempts tries command target response wait_us input s
    = Done (success, response', input',
            set_uart_tx
              (uart_tx s ++ repeat (command_chars max_str_l command) n) s)
    /\ length response' = max_str_l
    /\ (n <= tries)%nat
    /\ (success = 0 /\ (0 < n)%nat /\ prefix_of t response' = true
        \/ success = 1 /\ n = tries).
Proof.
  induction tries as [|tries IH];
    intros command target t response wait_us input s Ht Hlen.
  - exists 1, response, input, 0%nat. cbn [Init.attempts repeat].
    rewrite app_nil_r. split; [now destruct s|].
    split; [exact Hlen|]. split; [lia|]. now right.
  - cbn [Init.attempts].
    destruct (check_response_total (length (Init.flush input)) target t
                response wait_us (Init.flush input) Ht Hlen (le_n _))
      as (success & r & input' & -> & Hr & _ & Hs).
    cbn [bind].
    destruct Hs as [[E Hcmp]|E]; subst success; cbn [Z.eqb].
    + exists 0, r, input', 1%nat. cbn [repeat].
      split; [reflexivity|]. split; [exact Hr|]. split; [lia|]. left.
      split; [reflexivity|]. split; [lia|].
      destruct (cstr_inv _ _ Ht) as [Hn [trest ->]].
      rewrite <- (strncmp_prefix_of t Hn r (0 :: trest)).
      now apply Z.eqb_eq.
    + destruct (IH command target t r wait_us input'
                  (write_command command s) Ht Hr)
        as (success & r' & input'' & n & -> & Hr' & Hn & Hs).
      exists success, r', input'', (S n).
      split.
      { unfold write_command.
        change (uart_tx (set_uart_tx ?x s)) with x.
        cbn [repeat]. rewrite <- app_assoc. reflexivity. }
      split; [exact Hr'|]. split; [lia|].
      destruct Hs as [(E & _ & Hp)|[E En]]; subst; [left|right];
        repeat split; auto; lia.
Qed.

(** X25: [write_command_with_response_check] ends for everything that can
    arrive: it writes the command at least once (if a try is allowed) and
    at most [repeat] times and nothing else, returns 0 only with a message
    in the array that begins with the target response, and returns 1 only
    after all tries. *)
Theorem response_check_writes (command target t response : list Z)
    (wait_us : Z) (tries : nat) (input : Init.uart_in) (s : state) :
  cstr target = Some t -> length response = max_str_l ->
  exists success response' input' n,
    Init.write_command_with_response_check command target response wait_us
      tries input s
    = Done (success, response', input',
            set_uart_tx
              (uart_tx s ++ repeat (command_chars max_str_l command) n) s)
    /\ length response' = max_str_l
    /\ (n <= tries)%nat
    /\ (success = 0 /\ (0 < n)%nat /\ prefix_of t response' = true
        \/ success = 1 /\ n = tries).
Proof. apply attempts_sends. Qed.

Lemma flush_pending (pending : list Z) (tail : Init.uart_in) :
  Init.flush (map Some pending ++ None :: tail) = tail.
Proof. induction pending as [|c pending IH]; [reflexivity | exact IH]. Qed.

Lemma response_begins (t trest str old : list Z) :
  nul_free t -> (length str < length old)%nat ->
  (strncmp (blit (str ++ [0]) old) (t ++ 0 :: trest) (length t) =? 0)
  = prefix_of t str.
Proof.
  intros Hn Hl. rewrite (strncmp_prefix_of t Hn).
  rewrite blit_app by (rewrite length_app; cbn [length]; lia).
  rewrite <- app_assoc. cbn [app]. now apply prefix_of_cstr.
Qed.

Lemma check_response_lines (others : list (list Z)) :
  forall fuel target t response wait_us line rest,
  cstr target = Some t -> length response = max_str_l ->
  Forall (fun l => ~ In LF l /\ prefix_of t (stored l) = false) others ->
  ~ In LF line -> prefix_of t (stored line) = true ->
  (length others <= fuel)%nat ->
  exists old, length old = max_str_l
    /\ Init.check_response fuel target response wait_us
         (lines_in others ++ map Some line ++ Some LF :: rest)
       = Done (0, blit (stored line ++ [0]) old, rest).
Proof.
  induction others as [|l others IH];
    intros fuel target t response wait_us line rest Ht Hlen Ho Hlf Hp Hf;
    destruct (cstr_inv _ _ Ht) as [Hn [trest Etarget]].
  - exists response. split; [exact Hlen|]. cbn [lines_in map concat app].
    destruct fuel; cbn [Init.check_response];
      rewrite read_message_complete_line by assumption; cbn [bind];
      rewrite (strlen_string _ _ Ht); cbn [bind]; rewrite Etarget;
      rewrite response_begins, Hp
        by (assumption
            || (pose proof (stored_length line); rewrite Hlen;
                unfold max_str_l in *; lia));
      reflexivity.
  - inversion_clear Ho as [|? ? [Hl Hnp] Ho'].
    destruct fuel as [|fuel]; [cbn in Hf; lia|].
    assert (Hb : length (blit (stored l ++ [0]) response) = max_str_l)
      by now rewrite blit_length.
    destruct (IH fuel target t (blit (stored l ++ [0]) response) wait_us
                line rest Ht Hb Ho' Hlf Hp ltac:(cbn in Hf; lia))
      as (old & Hold & Hrest).
    exists old. split; [exact Hold|].
    unfold lines_in. cbn [map concat]. fold (lines_in others).
    rewrite <- !app_assoc. cbn [app Init.check_response].
    rewrite read_message_complete_line by assumption. cbn [bind].
    rewrite (strlen_string _ _ Ht). cbn [bind]. rewrite Etarget.
    rewrite response_begins, Hnp
      by (assumption
          || (pose proof (stored_length l); rewrite Hlen;
              unfold max_str_l in *; lia)).
    cbn [Z.eqb negb andb]. rewrite <- Etarget. exact Hrest.
Qed.

Lemma lines_in_length (others : list (list Z)) (tail : Init.uart_in) :
  (length others <= length (lines_in others ++ tail))%nat.
Proof.
  induction others as [|l others IH]; [cbn; lia|].
  unfold lines_in. cbn [map concat]. fold (lines_in others).
  rewrite <- !app_assoc, !length_app, length_map. cbn [length].
  rewrite length_app in IH. lia.
Qed.

(** X26: with a try allowed, [write_command_with_response_check] first
    drops what is pending on the UART, writes the command once, passes
    over the complete lines that do not begin with the target response
    and returns 0 at the first line that does, with that line in the
    array; what arrives later is left. *)
Theorem response_check_skips_lines (command target t response pending
    : list Z) (others : list (list Z)) (line : list Z) (wait_us : Z)
    (tries : nat) (rest : Init.uart_in) (s : state) :
  cstr target = Some t -> length response = max_str_l ->
  Forall (fun l => ~ In LF l /\ prefix_of t (stored l) = false) others ->
  ~ In LF line -> prefix_of t (stored line) = true ->
  exists old, length old = max_str_l
    /\ Init.write_command_with_response_check command target response
         wait_us (S tries)
         (map Some pending ++ None
          :: lines_in others ++ map Some line ++ Some LF :: rest) s
       = Done (0, blit (stored line ++ [0]) old, rest,
               write_command command s).
Proof.
  intros Ht Hlen Ho Hlf Hp.
  unfold Init.write_command_with_response_check. cbn [Init.attempts].
  rewrite flush_pending.
  destruct (check_response_lines others
              (length (lines_in others ++ map Some line ++ Some LF :: rest))
              target t response wait_us line rest Ht Hlen Ho Hlf Hp
              (lines_in_length _ _))
    as (old & Hold & ->).
  exists old. split; [exact Hold | reflexivity].
Qed.

(** One command of the initialisation: the state changes by what is
    written. *)
Lemma response_check_step (command response : list Z) (wait_us : Z)
    (input : Init.uart_in) (s : state) :
  length response = max_str_l ->
  exists success response' input' n,
    Init.write_command_with_response_check command (literal "OK") response
      wait_us 3 input s
    = Done (success, response', input',
            set_uart_tx
              (uart_tx s ++ repeat (command_chars max_str_l command) n) s)
    /\ length response' = max_str_l /\ (1 <= n <= 3)%nat.
Proof.
  intros Hlen.
  destruct (attempts_sends 3 command (literal "OK") (bytes_of "OK") response
              wait_us input s eq_refl Hlen)
    as (success & r & input' & n & H & Hr & Hn & Hs).
  exists success, r, input', n. split; [exact H|]. split; [exact Hr|].
  destruct Hs as [(_ & ? & _)|[_ ?]]; lia.
Qed.

Ltac next_command r i n :=
  match goal with
  | |- context [Init.write_command_with_response_check ?c _ ?r0 ?w 3 ?i0
                  ?s0] =>
      let H := fresh in
      destruct (response_check_step c r0 w i0 s0 ltac:(assumption))
        as (? & r & i & n & H & ? & ?);
      rewrite H; clear H; cbn [bind]; cbv beta iota
  end.

Lemma initialise_modem_runs (response : list Z) (input : Init.uart_in)
    (s : state) :
  length response = max_str_l ->
  exists response' input' ns,
    Init.initialise_modem response input s
    = Done (response', input',
            set_uart_tx (uart_tx s ++ sent modem_commands ns) s)
    /\ length ns = 9%nat /\ Forall (fun n => (1 <= n <= 3)%nat) ns.
Proof.
  intros Hlen. unfold Init.initialise_modem.
  next_command r1 i1 n1. next_command r2 i2 n2. next_command r3 i3 n3.
  next_command r4 i4 n4. next_command r5 i5 n5. next_command r6 i6 n6.
  next_command r7 i7 n7. next_command r8 i8 n8. next_command r9 i9 n9.
  exists r9, i9, [n1; n2; n3; n4; n5; n6; n7; n8; n9].
  split; [|split; [reflexivity
                  | repeat (apply Forall_cons; [lia|]); apply Forall_nil]].
  do 2 f_equal.
  repeat change (uart_tx (set_uart_tx ?x ?y)) with x.
  unfold sent, modem_commands. cbn [map combine concat fst snd].
  rewrite app_nil_r, <- !app_assoc. reflexivity.
Qed.

(** X27: [initialise_modem] ends whatever the modem does, answer or not:
    it sends its nine commands in their order, each of them once, twice
    or three times, and nothing else; apart from what is written, no
    variable of the firmware changes. *)
Theorem initialise_modem_sends (response : list Z) (input : Init.uart_in)
    (s : state) :
  length response = max_str_l ->
  exists response' input' ns,
    Init.initialise_modem response input s
    = Done (response', input',
            set_uart_tx (uart_tx s ++ sent modem_commands ns) s)
    /\ length ns = 9%nat /\ Forall (fun n => (1 <= n <= 3)%nat) ns.
Proof. apply initialise_modem_runs. Qed.

Lemma attempts_silent_try (tries : nat) (command target t : list Z)
    (c : Z) (response : list Z) (wait_us : Z) (s : state) :
  cstr target = Some (c :: t) -> length response = max_str_l ->
  Init.attempts (S tries) command target response wait_us [] s
  = Init.attempts tries command target (upd 0 0 response) wait_us []
      (write_command command s).
Proof.
  intros Ht Hlen. destruct (cstr_inv _ _ Ht) as [Hn [trest Etarget]].
  assert (Hcmp : (strncmp (upd 0 0 response) target (length (c :: t)) =? 0)
                 = false).
  { rewrite Etarget, (strncmp_prefix_of (c :: t) Hn).
    destruct response as [|x r]; [discriminate|].
    cbn [upd prefix_of]. inversion_clear Hn as [|? ? Hc _].
    apply Z.eqb_neq in Hc. now rewrite Hc. }
  change (Init.attempts (S tries) command target response wait_us [] s)
    with ('(success, response, input) <-
            Init.check_response 0 target response wait_us [] ;;
          if success =? 0
          then Done (0, response, input, write_command command s)
          else Init.attempts tries command target response wait_us input
                 (write_command command s)).
  cbn [Init.check_response]. unfold Init.read_message.
  rewrite store_fits by (rewrite Hlen; cbv; lia).
  cbn [bind Init.read_message_loop]. rewrite (strlen_string _ _ Ht).
  cbn [bind]. rewrite Hcmp. reflexivity.
Qed.

Lemma attempts_silent (tries : nat) :
  forall command target t c response wait_us s,
  cstr target = Some (c :: t) -> length response = max_str_l ->
  Init.attempts (S tries) command target response wait_us [] s
  = Done (1, upd 0 0 response, [],
          set_uart_tx
            (uart_tx s ++ repeat (command_chars max_str_l command) (S tries))
            s).
Proof.
  induction tries as [|tries IH];
    intros command target t c response wait_us s Ht Hlen;
    rewrite (attempts_silent_try _ command target t c response wait_us s
               Ht Hlen).
  - reflexivity.
  - rewrite (IH command target t c (upd 0 0 response) wait_us
               (write_command command s) Ht)
      by now rewrite upd_length.
    rewrite upd_upd. do 2 f_equal. unfold write_command.
    change (uart_tx (set_uart_tx ?x s)) with x.
    rewrite <- app_assoc. reflexivity.
Qed.

(** X28: when the modem stays silent, [initialise_modem] sends every one of
    its commands three times and ends all the same, with the empty string
    in its array. *)
Theorem initialise_modem_silent (response : list Z) (s : state) :
  length response = max_str_l ->
  Init.initialise_modem response [] s
  = Done (upd 0 0 response, [],
          set_uart_tx (uart_tx s ++ sent modem_commands (repeat 3%nat 9)) s).
Proof.
  intros Hlen. unfold Init.initialise_modem,
    Init.write_command_with_response_check.
  assert (Hu : length (upd 0 0 response) = max_str_l)
    by now rewrite upd_length.
  rewrite (attempts_silent 2 _ (literal "OK") (bytes_of "K") 79 response _ _
             eq_refl Hlen).
  cbn [bind]. cbv beta iota.
  do 8 (rewrite (attempts_silent 2 _ (literal "OK") (bytes_of "K") 79
                   (upd 0 0 response) _ _ eq_refl Hu);
        cbn [bind]; cbv beta iota; rewrite upd_upd).
  do 2 f_equal.
  repeat change (uart_tx (set_uart_tx ?x ?y)) with x.
  unfold sent, modem_commands.
  cbn [map combine concat fst snd repeat app].
  rewrite <- !app_assoc. reflexivity.
Qed.

Lemma initialise_loop_uart_tx (now : Z) (tx : list (list Z)) (s : state) :
  initialise_loop now (set_uart_tx tx s)
  = set_uart_tx tx (initialise_loop now s).
Proof. destruct s. reflexivity. Qed.

Lemma set_uart_tx_twice (tx tx' : list (list Z)) (s : state) :
  set_uart_tx tx (set_uart_tx tx' s) = set_uart_tx tx s.
Proof. destruct s. reflexivity. Qed.

Lemma uart_tx_set (tx : list (list Z)) (s : state) :
  uart_tx (set_uart_tx tx s) = tx.
Proof. reflexivity. Qed.

Lemma initialise_loop_keeps_uart_tx (now : Z) (s : state) :
  uart_tx (initialise_loop now s) = uart_tx s.
Proof. reflexivity. Qed.

Lemma reset_command_chars :
  command_chars max_str_l (bytes_of "AT+CRESET" ++ [CR; 0])
  = bytes_of "AT+CRESET" ++ [CR].
Proof. reflexivity. Qed.

(** X29: [main] comes to its loop whatever the modem does during the
    initialisation, in the state that [startup] gives but for what has
    been written to the modem: the reset command and then the commands
    of the initialisation, each once, twice or three times. *)
Theorem boot_is_startup (now : Z) (response : list Z)
    (input : Init.uart_in) (flash : list Z) (ram s0 : state) :
  length response = max_str_l ->
  startup now flash ram = Done s0 ->
  exists input' ns,
    Init.boot now response input flash ram
    = Done (input',
            set_uart_tx
              (uart_tx s0
               ++ (bytes_of "AT+CRESET" ++ [CR]) :: sent modem_commands ns)
              s0)
    /\ length ns = 9%nat /\ Forall (fun n => (1 <= n <= 3)%nat) ns.
Proof.
  unfold startup, Init.boot. intros Hlen Hs. bind_inv Hs.
  injection Hs as <-. rewrite Ha. cbn [bind].
  destruct (initialise_modem_runs response input
              (write_command (bytes_of "AT+CRESET" ++ [CR; 0]) a) Hlen)
    as (r & input' & ns & E & Hns & Hall).
  rewrite E. cbn [bind]. cbv beta iota.
  exists input', ns. split; [|split; assumption].
  unfold write_command.
  rewrite uart_tx_set, set_uart_tx_twice, initialise_loop_uart_tx,
    initialise_loop_keeps_uart_tx, reset_command_chars, <- app_assoc.
  reflexivity.
Qed.

(** ** The remaining parts at concrete states *)

Lemma not_in_check (x : Z) (l : list Z) :
  forallb (fun c => negb (c =? x)) l = true -> ~ In x l.
Proof.
  intros H Hin. rewrite forallb_forall in H. specialize (H x Hin).
  now rewrite Z.eqb_refl in H.
Qed.

Lemma started_ring : ring_holds started [].
Proof.
  assert (E : length (rx_buffer started) = Z.to_nat RX_BUFFER_SIZE
              /\ rx_buffer_read_position started = 0
              /\ rx_buffer_entries started = 0
              /\ rx_buffer_write_position started = 0
              /\ rx_buffer_number_lf started = 0)
    by (vm_compute; repeat split; reflexivity).
  destruct E as (E0 & E1 & E2 & E3 & E4). unfold ring_holds.
  rewrite E0, E1, E2, E3, E4. cbn [length count_occ].
  split; [reflexivity|]. split; [unfold RX_BUFFER_SIZE; lia|].
  split; [reflexivity|]. split; [reflexivity|]. split; [reflexivity|].
  split; [unfold RX_BUFFER_SIZE; lia|].
  intros i Hi. lia.
Qed.

Lemma started_sized : well_sized started.
Proof. apply well_sized_check. vm_compute. reflexivity. Qed.

Lemma interrupt_enqueues_witness :
  ring_holds started []
  /\ Z.of_nat (length ([] : list Z) + length (bytes_of "OK" ++ [CR; LF]))
     <= RX_BUFFER_SIZE
  /\ ring_holds (uart_rx_interrupt_handler (bytes_of "OK" ++ [CR; LF]) started)
       (bytes_of "OK" ++ [CR; LF]).
Proof.
  assert (Hroom : Z.of_nat (length ([] : list Z)
                            + length (bytes_of "OK" ++ [CR; LF]))
                  <= RX_BUFFER_SIZE) by (vm_compute; discriminate).
  split; [exact started_ring|]. split; [exact Hroom|].
  exact (interrupt_enqueues _ started [] started_ring Hroom).
Defined.

Lemma read_message_takes_line_witness :
  ring_holds (uart_rx_interrupt_handler (bytes_of "OK" ++ [CR; LF]) started)
    ((bytes_of "OK" ++ [CR]) ++ LF :: [])
  /\ ~ In LF (bytes_of "OK" ++ [CR])
  /\ (length (without_cr (bytes_of "OK" ++ [CR])) < max_str_l - 1)%nat
  /\ exists p e n,
       ring_holds
         (taken p e n
            (uart_rx_interrupt_handler (bytes_of "OK" ++ [CR; LF]) started))
         []
       /\ read_message
            (uart_rx_interrupt_handler (bytes_of "OK" ++ [CR; LF]) started)
          = classify (bytes_of "OK" ++ [0])
              (taken p e n
                 (uart_rx_interrupt_handler (bytes_of "OK" ++ [CR; LF])
                    started)).
Proof.
  assert (Hr : ring_holds
                 (uart_rx_interrupt_handler (bytes_of "OK" ++ [CR; LF])
                    started)
                 ((bytes_of "OK" ++ [CR]) ++ LF :: []))
    by (apply (interrupt_queue _ started [] started_ring);
        vm_compute; discriminate).
  assert (Hlf : ~ In LF (bytes_of "OK" ++ [CR]))
    by (apply not_in_check; reflexivity).
  assert (Hl : (length (without_cr (bytes_of "OK" ++ [CR])) < max_str_l - 1)%nat)
    by (vm_compute; lia).
  split; [exact Hr|]. split; [exact Hlf|]. split; [exact Hl|].
  exact (read_message_takes_line _ _ _ Hr Hlf Hl).
Defined.

Lemma read_message_cuts_long_line_witness :
  ring_holds
    (uart_rx_interrupt_handler (repeat 120 199 ++ [LF]) started)
    (repeat 120 198 ++ 120 :: [LF])
  /\ ~ In LF (repeat 120 198 ++ [120]) /\ 120 <> CR
  /\ length (without_cr (repeat 120 198 ++ [120])) = (max_str_l - 1)%nat
  /\ In LF [LF]
  /\ exists p e n,
       ring_holds
         (taken p e n
            (uart_rx_interrupt_handler (repeat 120 199 ++ [LF]) started))
         [LF]
       /\ read_message
            (uart_rx_interrupt_handler (repeat 120 199 ++ [LF]) started)
          = classify (without_cr (repeat 120 198 ++ [120]) ++ [0])
              (taken p e n
                 (uart_rx_interrupt_handler (repeat 120 199 ++ [LF])
                    started)).
Proof.
  assert (Hr : ring_holds
                 (uart_rx_interrupt_handler (repeat 120 199 ++ [LF]) started)
                 (repeat 120 198 ++ 120 :: [LF]))
    by (apply (interrupt_queue (repeat 120 199 ++ [LF]) started []
                 started_ring); vm_compute; discriminate).
  assert (Hlf : ~ In LF (repeat 120 198 ++ [120]))
    by (apply not_in_check; vm_compute; reflexivity).
  assert (Hc : 120 <> CR) by (vm_compute; discriminate).
  assert (Hl : length (without_cr (repeat 120 198 ++ [120]))
               = (max_str_l - 1)%nat) by (vm_compute; reflexivity).
  assert (Hin : In LF [LF]) by (now left).
  split; [exact Hr|]. split; [exact Hlf|]. split; [exact Hc|].
  split; [exact Hl|]. split; [exact Hin|].
  exact (read_message_cuts_long_line _ _ _ _ Hr Hlf Hc Hl Hin).
Defined.

Lemma read_message_waits_for_lf_witness :
  ring_holds (uart_rx_interrupt_handler (bytes_of "OK") started)
    (bytes_of "OK")
  /\ ~ In LF (bytes_of "OK")
  /\ read_message (uart_rx_interrupt_handler (bytes_of "OK") started)
     = Done (uart_rx_interrupt_handler (bytes_of "OK") started).
Proof.
  assert (Hr : ring_holds (uart_rx_interrupt_handler (bytes_of "OK") started)
                 (bytes_of "OK"))
    by (apply (interrupt_queue (bytes_of "OK") started [] started_ring);
        vm_compute; discriminate).
  assert (Hlf : ~ In LF (bytes_of "OK")) by (apply not_in_check; reflexivity).
  split; [exact Hr|]. split; [exact Hlf|].
  exact (read_message_waits_for_lf _ _ Hr Hlf).
Defined.

Lemma interrupt_overflow_overwrites_witness :
  ring_holds
    (uart_rx_interrupt_handler (repeat 120 (Z.to_nat RX_BUFFER_SIZE)) started)
    (120 :: repeat 120 (Z.to_nat (RX_BUFFER_SIZE - 1)))
  /\ Z.of_nat (length (120 :: repeat 120 (Z.to_nat (RX_BUFFER_SIZE - 1))))
     = RX_BUFFER_SIZE
  /\ rx_buffer_entries
       (uart_rx_interrupt_handler [121]
          (uart_rx_interrupt_handler (repeat 120 (Z.to_nat RX_BUFFER_SIZE))
             started))
     = RX_BUFFER_SIZE + 1.
Proof.
  assert (Hr : ring_holds
                 (uart_rx_interrupt_handler
                    (repeat 120 (Z.to_nat RX_BUFFER_SIZE)) started)
                 (120 :: repeat 120 (Z.to_nat (RX_BUFFER_SIZE - 1)))).
  { change (120 :: repeat 120 (Z.to_nat (RX_BUFFER_SIZE - 1)))
      with (repeat 120 (S (Z.to_nat (RX_BUFFER_SIZE - 1)))).
    replace (S (Z.to_nat (RX_BUFFER_SIZE - 1)))
      with (Z.to_nat RX_BUFFER_SIZE) by (unfold RX_BUFFER_SIZE; lia).
    apply (interrupt_queue _ started [] started_ring).
    cbn [length Nat.add]. rewrite repeat_length. unfold RX_BUFFER_SIZE. lia. }
  assert (Hfull : Z.of_nat
                    (length (120 :: repeat 120 (Z.to_nat (RX_BUFFER_SIZE - 1))))
                  = RX_BUFFER_SIZE)
    by (cbn [length]; rewrite repeat_length; unfold RX_BUFFER_SIZE; lia).
  split; [exact Hr|]. split; [exact Hfull|].
  exact (proj1 (proj2 (interrupt_overflow_overwrites 121 _ _ _ Hr Hfull))).
Defined.

Lemma write_command_sends_witness :
  cstr (bytes_of "AT" ++ [CR; 0]) = Some (bytes_of "AT" ++ [CR])
  /\ uart_tx (write_command (bytes_of "AT" ++ [CR; 0]) started)
     = [bytes_of "AT" ++ [CR]].
Proof.
  assert (H : cstr (bytes_of "AT" ++ [CR; 0]) = Some (bytes_of "AT" ++ [CR]))
    by reflexivity.
  split; [exact H|].
  rewrite (write_command_sends _ _ started H). vm_compute. reflexivity.
Defined.

Lemma send_sms_writes_witness :
  cstr (literal "+447700900000") = Some (bytes_of "+447700900000")
  /\ cstr (literal "Alarm") = Some (bytes_of "Alarm")
  /\ (length (bytes_of "+447700900000") <= 188)%nat
  /\ (length (bytes_of "Alarm") <= 198)%nat
  /\ send_sms (literal "+447700900000") (literal "Alarm") started
     = Done (set_uart_tx
               (uart_tx started
                ++ [bytes_of "AT+CMGS=" ++ [quote] ++ bytes_of "+447700900000"
                    ++ [quote; CR];
                    bytes_of "Alarm" ++ [26]]) started).
Proof.
  assert (Ht : cstr (literal "+447700900000") = Some (bytes_of "+447700900000"))
    by reflexivity.
  assert (Hm : cstr (literal "Alarm") = Some (bytes_of "Alarm"))
    by reflexivity.
  assert (Hlt : (length (bytes_of "+447700900000") <= 188)%nat)
    by (vm_compute; lia).
  assert (Hlm : (length (bytes_of "Alarm") <= 198)%nat) by (vm_compute; lia).
  split; [exact Ht|]. split; [exact Hm|]. split; [exact Hlt|].
  split; [exact Hlm|].
  exact (proj1 (send_sms_writes _ _ _ _ started Ht Hm) Hlt Hlm).
Defined.

Lemma classify_tagged_response_witness :
  well_sized started
  /\ cstr (literal "+CSQ: 20,99") = Some (bytes_of "+CSQ: 20,99")
  /\ (length (bytes_of "+CSQ: 20,99") < max_str_l)%nat
  /\ In (CSQ, "+CSQ"%string) response_tags
  /\ prefix_of (bytes_of "+CSQ") (bytes_of "+CSQ: 20,99") = true
  /\ classify (literal "+CSQ: 20,99") started
     = Done (stored_response CSQ (bytes_of "+CSQ: 20,99") started).
Proof.
  assert (Hc : cstr (literal "+CSQ: 20,99") = Some (bytes_of "+CSQ: 20,99"))
    by reflexivity.
  assert (Hl : (length (bytes_of "+CSQ: 20,99") < max_str_l)%nat)
    by (vm_compute; lia).
  assert (Hin : In (CSQ, "+CSQ"%string) response_tags)
    by (unfold response_tags; cbn [In]; tauto).
  assert (Hp : prefix_of (bytes_of "+CSQ") (bytes_of "+CSQ: 20,99") = true)
    by reflexivity.
  split; [exact started_sized|]. split; [exact Hc|]. split; [exact Hl|].
  split; [exact Hin|]. split; [exact Hp|].
  exact (proj1 (proj1 (classify_tagged_response _ _ started started_sized
                         Hc Hl) CSQ "+CSQ"%string Hin Hp)).
Defined.

Lemma classify_sms_text_witness :
  well_sized (await_response CMGR 20 started)
  /\ cstr (literal "hello") = Some (bytes_of "hello")
  /\ (length (bytes_of "hello") < max_str_l)%nat
  /\ prefix_of (bytes_of "OK") (bytes_of "hello") = false
  /\ prefix_of (bytes_of "ERROR") (bytes_of "hello") = false
  /\ hd 0 (bytes_of "hello") <> 43
  /\ classify (literal "hello") (await_response CMGR 20 started)
     = Done (set_received_sms_text
               (blit (bytes_of "hello" ++ [0])
                  (received_sms_text (await_response CMGR 20 started)))
               (set_received_sms true (await_response CMGR 20 started))).
Proof.
  assert (Hs : well_sized (await_response CMGR 20 started))
    by (apply well_sized_check; vm_compute; reflexivity).
  assert (Hc : cstr (literal "hello") = Some (bytes_of "hello"))
    by reflexivity.
  assert (Hl : (length (bytes_of "hello") < max_str_l)%nat)
    by (vm_compute; lia).
  assert (Hok : prefix_of (bytes_of "OK") (bytes_of "hello") = false)
    by reflexivity.
  assert (Her : prefix_of (bytes_of "ERROR") (bytes_of "hello") = false)
    by reflexivity.
  assert (Hh : hd 0 (bytes_of "hello") <> 43) by (vm_compute; discriminate).
  split; [exact Hs|]. split; [exact Hc|]. split; [exact Hl|].
  split; [exact Hok|]. split; [exact Her|]. split; [exact Hh|].
  rewrite (classify_sms_text _ _ _ Hs Hc Hl Hok Her Hh).
  vm_compute. reflexivity.
Defined.

Lemma collect_awaiting_is_busy_witness :
  length (awaiting_response
            (clear_awaiting UNKNOWN (await_response CMGS 20 started)))
  = MAX_MSG
  /\ flag UNKNOWN
       (awaiting_response
          (collect_awaiting
             (clear_awaiting UNKNOWN (await_response CMGS 20 started))))
     = true.
Proof.
  assert (Hl : length (awaiting_response
                         (clear_awaiting UNKNOWN
                            (await_response CMGS 20 started))) = MAX_MSG)
    by (vm_compute; reflexivity).
  split; [exact Hl|].
  apply (proj1 (proj2 (collect_awaiting_is_busy _ Hl))).
  exists CMGS. split; [vm_compute; lia | vm_compute; reflexivity].
Defined.

Lemma responses_consumed_witness :
  loop_body (mkTick 10 (fun _ => true))
    (uart_rx_interrupt_handler (bytes_of "OK" ++ [CR; LF]) started)
  = Done (state_of
            (loop_body (mkTick 10 (fun _ => true))
               (uart_rx_interrupt_handler (bytes_of "OK" ++ [CR; LF])
                  started)))
  /\ In OK [OK; CPSI; CREG; CSQ; CMGS]
  /\ flag OK (received (line_read (bytes_of "OK") started)) = true
  /\ flag OK
       (received
          (state_of
             (loop_body (mkTick 10 (fun _ => true))
                (uart_rx_interrupt_handler (bytes_of "OK" ++ [CR; LF])
                   started)))) = false.
Proof.
  assert (Hrun : loop_body (mkTick 10 (fun _ => true))
                   (uart_rx_interrupt_handler (bytes_of "OK" ++ [CR; LF])
                      started)
                 = Done (state_of
                           (loop_body (mkTick 10 (fun _ => true))
                              (uart_rx_interrupt_handler
                                 (bytes_of "OK" ++ [CR; LF]) started))))
    by (vm_compute; reflexivity).
  assert (Hin : In OK [OK; CPSI; CREG; CSQ; CMGS]) by (now left).
  split; [exact Hrun|]. split; [exact Hin|].
  split; [vm_compute; reflexivity|].
  exact (responses_consumed _ _ _ OK Hrun Hin).
Defined.

Lemma settings_saved_when_idle_witness :
  loop_body (mkTick 10 (fun _ => true)) started
  = Done (state_of (loop_body (mkTick 10 (fun _ => true)) started))
  /\ flash_target_contents
       (state_of (loop_body (mkTick 10 (fun _ => true)) started))
     <> flash_target_contents started
  /\ flag UNKNOWN
       (awaiting_response
          (state_of (loop_body (mkTick 10 (fun _ => true)) started)))
     = false
  /\ store_new_flash_settings
       (state_of (loop_body (mkTick 10 (fun _ => true)) started)) = false.
Proof.
  assert (Hrun : loop_body (mkTick 10 (fun _ => true)) started
                 = Done (state_of
                           (loop_body (mkTick 10 (fun _ => true)) started)))
    by (vm_compute; reflexivity).
  assert (Hne : flash_target_contents
                  (state_of (loop_body (mkTick 10 (fun _ => true)) started))
                <> flash_target_contents started)
    by (vm_compute; discriminate).
  split; [exact Hrun|]. split; [exact Hne|].
  exact (proj1 (settings_saved_when_idle _ _ _ Hrun) Hne).
Defined.

Lemma cmti_starts_readout_witness :
  well_sized
    (line_read (bytes_of "+CMTI: " ++ [quote] ++ bytes_of "SM" ++ [quote]
                ++ bytes_of ",1") started)
  /\ flag CMTI
       (received
          (line_read (bytes_of "+CMTI: " ++ [quote] ++ bytes_of "SM"
                      ++ [quote] ++ bytes_of ",1") started)) = true
  /\ cstr (nth CMTI
             (received_response
                (line_read (bytes_of "+CMTI: " ++ [quote] ++ bytes_of "SM"
                            ++ [quote] ++ bytes_of ",1") started)) [])
     = Some ((bytes_of "+CMTI: " ++ [quote] ++ bytes_of "SM" ++ [quote; 44])
             ++ bytes_of "1")
  /\ length (bytes_of "+CMTI: " ++ [quote] ++ bytes_of "SM" ++ [quote; 44])
     = 12%nat
  /\ flag UNKNOWN
       (awaiting_response
          (line_read (bytes_of "+CMTI: " ++ [quote] ++ bytes_of "SM"
                      ++ [quote] ++ bytes_of ",1") started)) = false
  /\ exists s',
       process_cmti 20
         (line_read (bytes_of "+CMTI: " ++ [quote] ++ bytes_of "SM"
                     ++ [quote] ++ bytes_of ",1") started) = Done s'
       /\ uart_tx s' = [bytes_of "AT+CMGR=1" ++ [CR]]
       /\ flag CMGR (awaiting_response s') = true.
Proof.
  set (s := line_read (bytes_of "+CMTI: " ++ [quote] ++ bytes_of "SM"
                       ++ [quote] ++ bytes_of ",1") started).
  assert (Hs : well_sized s)
    by (apply well_sized_check; vm_compute; reflexivity).
  assert (Hf : flag CMTI (received s) = true) by (vm_compute; reflexivity).
  assert (Hr : cstr (nth CMTI (received_response s) [])
               = Some ((bytes_of "+CMTI: " ++ [quote] ++ bytes_of "SM"
                        ++ [quote; 44]) ++ bytes_of "1"))
    by (vm_compute; reflexivity).
  assert (Hl : length (bytes_of "+CMTI: " ++ [quote] ++ bytes_of "SM"
                       ++ [quote; 44]) = 12%nat) by reflexivity.
  assert (Hu : flag UNKNOWN (awaiting_response s) = false)
    by (vm_compute; reflexivity).
  split; [exact Hs|]. split; [exact Hf|]. split; [exact Hr|].
  split; [exact Hl|]. split; [exact Hu|].
  destruct (proj1 (cmti_starts_readout 20 s _ _ Hs Hf Hr Hl) Hu)
    as (s' & Hrun & Htx & _ & Hw & _).
  exists s'. split; [exact Hrun|]. split; [|exact Hw].
  rewrite Htx. vm_compute. reflexivity.
Defined.

Lemma cpsi_check_outcome_witness :
  well_sized
    (line_read (bytes_of "+CPSI: LTE,Online,234-15")
       (await_response CPSI 5 started))
  /\ flag CPSI
       (received
          (line_read (bytes_of "+CPSI: LTE,Online,234-15")
             (await_response CPSI 5 started)))
     && flag CPSI
          (awaiting_response
             (line_read (bytes_of "+CPSI: LTE,Online,234-15")
                (await_response CPSI 5 started))) = true
  /\ cstr (nth CPSI
             (received_response
                (line_read (bytes_of "+CPSI: LTE,Online,234-15")
                   (await_response CPSI 5 started))) [])
     = Some (bytes_of "+CPSI: LTE,Online,234-15")
  /\ strstr (bytes_of "+CPSI: LTE,Online,234-15") (bytes_of "Online") = true
  /\ (7 <= length (bytes_of "+CPSI: LTE,Online,234-15") < 194)%nat
  /\ exists s',
       process_cpsi 20
         (line_read (bytes_of "+CPSI: LTE,Online,234-15")
            (await_response CPSI 5 started)) = Done s'
       /\ cstr (nth MULTI_STAGE_SEND_STATUS_MSG (multi_stage_message s') [])
          = Some (bytes_of "Modem check: LTE,Online,234-15").
Proof.
  set (s := line_read (bytes_of "+CPSI: LTE,Online,234-15")
              (await_response CPSI 5 started)).
  assert (Hs : well_sized s)
    by (apply well_sized_check; vm_compute; reflexivity).
  assert (Hf : flag CPSI (received s) && flag CPSI (awaiting_response s)
               = true) by (vm_compute; reflexivity).
  assert (Hr : cstr (nth CPSI (received_response s) [])
               = Some (bytes_of "+CPSI: LTE,Online,234-15"))
    by (vm_compute; reflexivity).
  assert (Ho : strstr (bytes_of "+CPSI: LTE,Online,234-15")
                 (bytes_of "Online") = true) by (vm_compute; reflexivity).
  assert (Hl : (7 <= length (bytes_of "+CPSI: LTE,Online,234-15") < 194)%nat)
    by (vm_compute; lia).
  split; [exact Hs|]. split; [exact Hf|]. split; [exact Hr|].
  split; [exact Ho|]. split; [exact Hl|].
  destruct (proj1 (proj2 (cpsi_check_outcome 20 s _ Hs Hf Hr)) Ho Hl)
    as (s' & Hrun & _ & Hm & _).
  exists s'. split; [exact Hrun | exact Hm].
Defined.

Lemma csq_reports_level_witness :
  well_sized
    (line_read (bytes_of "+CSQ: 20,99") (await_response CSQ 5 started))
  /\ flag CSQ
       (received
          (line_read (bytes_of "+CSQ: 20,99") (await_response CSQ 5 started)))
     && flag CSQ
          (awaiting_response
             (line_read (bytes_of "+CSQ: 20,99")
                (await_response CSQ 5 started))) = true
  /\ cstr (nth CSQ
             (received_response
                (line_read (bytes_of "+CSQ: 20,99")
                   (await_response CSQ 5 started))) [])
     = Some (bytes_of "+CSQ: " ++ bytes_of "20" ++ 44 :: bytes_of "99")
  /\ length (bytes_of "+CSQ: ") = 6%nat
  /\ ~ In 44 (bytes_of "20") /\ (length (bytes_of "20") < 182)%nat
  /\ exists s',
       process_csq 20
         (line_read (bytes_of "+CSQ: 20,99") (await_response CSQ 5 started))
       = Done s'
       /\ cstr (nth MULTI_STAGE_SEND_SIGNAL_LEVEL (multi_stage_message s') [])
          = Some (bytes_of "Signal quality is 20")
       /\ flag OK (awaiting_response s') = true.
Proof.
  set (s := line_read (bytes_of "+CSQ: 20,99")
              (await_response CSQ 5 started)).
  assert (Hs : well_sized s)
    by (apply well_sized_check; vm_compute; reflexivity).
  assert (Hf : flag CSQ (received s) && flag CSQ (awaiting_response s) = true)
    by (vm_compute; reflexivity).
  assert (Hr : cstr (nth CSQ (received_response s) [])
               = Some (bytes_of "+CSQ: " ++ bytes_of "20"
                       ++ 44 :: bytes_of "99")) by (vm_compute; reflexivity).
  assert (Hh : length (bytes_of "+CSQ: ") = 6%nat) by reflexivity.
  assert (Hc : ~ In 44 (bytes_of "20")) by (apply not_in_check; reflexivity).
  assert (Hl : (length (bytes_of "20") < 182)%nat) by (vm_compute; lia).
  split; [exact Hs|]. split; [exact Hf|]. split; [exact Hr|].
  split; [exact Hh|]. split; [exact Hc|]. split; [exact Hl|].
  destruct (csq_reports_level 20 s _ _ _ Hs Hf Hr Hh Hc Hl)
    as (s' & Hrun & _ & Hm & _ & _ & Hok & _).
  exists s'. split; [exact Hrun|]. split; [exact Hm | exact Hok].
Defined.

Lemma ok_continues_action_witness :
  well_sized
    (line_read (bytes_of "OK")
       (set_multi_stage_handling_type MULTI_STAGE_RECEIVED_SIGNAL_REQUEST
          (await_response OK 5 started)))
  /\ flag OK
       (received
          (line_read (bytes_of "OK")
             (set_multi_stage_handling_type
                MULTI_STAGE_RECEIVED_SIGNAL_REQUEST
                (await_response OK 5 started)))) = true
  /\ flag OK
       (awaiting_response
          (line_read (bytes_of "OK")
             (set_multi_stage_handling_type
                MULTI_STAGE_RECEIVED_SIGNAL_REQUEST
                (await_response OK 5 started)))) = true
  /\ multi_stage_handling_type
       (line_read (bytes_of "OK")
          (set_multi_stage_handling_type MULTI_STAGE_RECEIVED_SIGNAL_REQUEST
             (await_response OK 5 started)))
     = MULTI_STAGE_RECEIVED_SIGNAL_REQUEST
  /\ exists s',
       process_ok 20
         (line_read (bytes_of "OK")
            (set_multi_stage_handling_type
               MULTI_STAGE_RECEIVED_SIGNAL_REQUEST
               (await_response OK 5 started))) = Done s'
       /\ uart_tx s' = [bytes_of "AT+CSQ" ++ [CR]]
       /\ flag CSQ (awaiting_response s') = true.
Proof.
  set (s := line_read (bytes_of "OK")
              (set_multi_stage_handling_type
                 MULTI_STAGE_RECEIVED_SIGNAL_REQUEST
                 (await_response OK 5 started))).
  assert (Hs : well_sized s)
    by (apply well_sized_check; vm_compute; reflexivity).
  assert (Hf : flag OK (received s) = true) by (vm_compute; reflexivity).
  assert (Hw : flag OK (awaiting_response s) = true)
    by (vm_compute; reflexivity).
  assert (Ht : multi_stage_handling_type s
               = MULTI_STAGE_RECEIVED_SIGNAL_REQUEST)
    by (vm_compute; reflexivity).
  split; [exact Hs|]. split; [exact Hf|]. split; [exact Hw|].
  split; [exact Ht|].
  destruct (proj1 (proj2 (ok_continues_action 20 s [] [] Hs Hf)) Hw Ht)
    as (s' & Hrun & Htx & _ & _ & Hcsq & _).
  exists s'. split; [exact Hrun|]. split; [|exact Hcsq].
  rewrite Htx. vm_compute. reflexivity.
Defined.

Lemma password_reset_by_pin_witness :
  well_sized started
  /\ cstr (tel_no started) = Some (bytes_of "+447700900000")
  /\ absolute_time_diff_us (last_passw_reset_check_time started)
       (current_time (mkTick 20000000 (fun _ => false))) > 1000000
  /\ absolute_time_diff_us (last_passw_reset_time started)
       (current_time (mkTick 20000000 (fun _ => false))) > 10000000
  /\ flag UNKNOWN (awaiting_response started) = false
  /\ gpio_get (mkTick 20000000 (fun _ => false)) GPIO_PIN_PW_RESET = false
  /\ exists s',
       check_password_reset (mkTick 20000000 (fun _ => false)) started
       = Done s'
       /\ cstr (passw s') = Some (bytes_of "674358")
       /\ store_new_flash_settings s' = true
       /\ flag CMGS (awaiting_response s') = true.
Proof.
  assert (Ht : cstr (tel_no started) = Some (bytes_of "+447700900000"))
    by (vm_compute; reflexivity).
  assert (H1 : absolute_time_diff_us (last_passw_reset_check_time started)
                 (current_time (mkTick 20000000 (fun _ => false)))
               > 1000000) by (vm_compute; reflexivity).
  assert (H2 : absolute_time_diff_us (last_passw_reset_time started)
                 (current_time (mkTick 20000000 (fun _ => false)))
               > 10000000) by (vm_compute; reflexivity).
  assert (Hu : flag UNKNOWN (awaiting_response started) = false)
    by (vm_compute; reflexivity).
  assert (Hg : gpio_get (mkTick 20000000 (fun _ => false)) GPIO_PIN_PW_RESET
               = false) by reflexivity.
  split; [exact started_sized|]. split; [exact Ht|]. split; [exact H1|].
  split; [exact H2|]. split; [exact Hu|]. split; [exact Hg|].
  destruct (proj1 (password_reset_by_pin _ started _ started_sized Ht H1 H2
                     Hu) Hg)
    as (s' & Hrun & Hp & Hst & _ & Hc & _).
  exists s'. split; [exact Hrun|]. split; [exact Hp|].
  split; [exact Hst | exact Hc].
Defined.

Ltac read_out_facts s p verb arg :=
  assert (Hs : well_sized s)
    by (apply well_sized_check; vm_compute; reflexivity);
  assert (Hp : password_is p s) by (split; vm_compute; reflexivity);
  assert (Hm : sms_is p verb arg s) by (vm_compute; reflexivity);
  assert (Hc : flag CMGR (received s) && flag CMGR (awaiting_response s)
               && received_sms s = true) by (vm_compute; reflexivity).


Lemma defaults_command_witness :
  well_sized (read_out (bytes_of "674358 Defaults!"))
  /\ password_is (bytes_of "674358") (read_out (bytes_of "674358 Defaults!"))
  /\ sms_is (bytes_of "674358") " Defaults!" []
       (read_out (bytes_of "674358 Defaults!"))
  /\ flag CMGR (received (read_out (bytes_of "674358 Defaults!")))
     && flag CMGR (awaiting_response (read_out (bytes_of "674358 Defaults!")))
     && received_sms (read_out (bytes_of "674358 Defaults!")) = true
  /\ exists s',
       process_cmgr 40 (read_out (bytes_of "674358 Defaults!")) = Done s'
       /\ configuration_of s' = Some default_configuration
       /\ store_new_flash_settings s' = true.
Proof.
  set (s := read_out (bytes_of "674358 Defaults!")).
  read_out_facts s (bytes_of "674358") " Defaults!"%string ([] : list Z).
  split; [exact Hs|]. split; [exact Hp|]. split; [exact Hm|].
  split; [exact Hc|].
  destruct (defaults_command 40 s _ _ Hs Hp Hm Hc)
    as (s' & Hrun & _ & Hcfg & Hst & _).
  exists s'. split; [exact Hrun|]. split; [exact Hcfg | exact Hst].
Defined.

Lemma signal_request_command_witness :
  password_is (bytes_of "674358") (read_out (bytes_of "674358 Signal?"))
  /\ sms_is (bytes_of "674358") " Signal?" []
       (read_out (bytes_of "674358 Signal?"))
  /\ flag CMGR (received (read_out (bytes_of "674358 Signal?")))
     && flag CMGR (awaiting_response (read_out (bytes_of "674358 Signal?")))
     && received_sms (read_out (bytes_of "674358 Signal?")) = true
  /\ exists s',
       process_cmgr 40 (read_out (bytes_of "674358 Signal?")) = Done s'
       /\ multi_stage_handling_type s' = MULTI_STAGE_RECEIVED_SIGNAL_REQUEST.
Proof.
  set (s := read_out (bytes_of "674358 Signal?")).
  read_out_facts s (bytes_of "674358") " Signal?"%string ([] : list Z).
  split; [exact Hp|]. split; [exact Hm|]. split; [exact Hc|].
  destruct (signal_request_command 40 s _ _ Hp Hm Hc) as (s' & Hrun & Ht & _).
  exists s'. split; [exact Hrun | exact Ht].
Defined.

Lemma unrecognised_command_witness :
  well_sized (read_out (bytes_of "674358 Hello"))
  /\ password_is (bytes_of "674358") (read_out (bytes_of "674358 Hello"))
  /\ cstr (received_sms_text (read_out (bytes_of "674358 Hello")))
     = Some (bytes_of "674358" ++ bytes_of " Hello")
  /\ (forall verb, In verb command_verbs ->
        prefix_of (bytes_of verb) (bytes_of " Hello") = false)
  /\ flag CMGR (received (read_out (bytes_of "674358 Hello")))
     && flag CMGR (awaiting_response (read_out (bytes_of "674358 Hello")))
     && received_sms (read_out (bytes_of "674358 Hello")) = true
  /\ exists s',
       process_cmgr 40 (read_out (bytes_of "674358 Hello")) = Done s'
       /\ multi_stage_handling_type s' = MULTI_STAGE_INVALID_COMMAND
       /\ cstr (nth MULTI_STAGE_INVALID_COMMAND (multi_stage_message s') [])
          = Some (bytes_of "Invalid instruction").
Proof.
  set (s := read_out (bytes_of "674358 Hello")).
  read_out_facts s (bytes_of "674358") " Hello"%string ([] : list Z).
  assert (Ht : cstr (received_sms_text s)
               = Some (bytes_of "674358" ++ bytes_of " Hello"))
    by (vm_compute; reflexivity).
  assert (Hv : forall verb, In verb command_verbs ->
                 prefix_of (bytes_of verb) (bytes_of " Hello") = false).
  { intros verb Hin. unfold command_verbs in Hin. cbn [In] in Hin.
    repeat (destruct Hin as [<-|Hin]; [reflexivity|]). contradiction. }
  split; [exact Hs|]. split; [exact Hp|]. split; [exact Ht|].
  split; [exact Hv|]. split; [exact Hc|].
  destruct (unrecognised_command 40 s _ _ Hs Hp Ht Hv Hc)
    as (s' & Hrun & Htag & Hmsg & _).
  exists s'. split; [exact Hrun|]. split; [exact Htag | exact Hmsg].
Defined.


Lemma blocking_read_message_line_witness :
  length (repeat 170 max_str_l) = max_str_l
  /\ ~ In LF (bytes_of "OK" ++ [CR])
  /\ Init.read_message (repeat 170 max_str_l) 9000000
       (map Some (bytes_of "OK" ++ [CR]) ++ Some LF :: [])
     = Done (0, bytes_of "OK" ++ 0 :: repeat 170 (max_str_l - 3), []).
Proof.
  assert (Hl : length (repeat 170 max_str_l) = max_str_l)
    by apply repeat_length.
  assert (Hlf : ~ In LF (bytes_of "OK" ++ [CR]))
    by (apply not_in_check; reflexivity).
  split; [exact Hl|]. split; [exact Hlf|].
  rewrite (blocking_read_message_line _ _ 9000000 [] Hl Hlf).
  vm_compute. reflexivity.
Defined.

Lemma blocking_read_message_timeout_witness :
  length (repeat 170 max_str_l) = max_str_l
  /\ ~ In LF (bytes_of "OK")
  /\ Init.read_message (repeat 170 max_str_l) 9000000
       (map Some (bytes_of "OK") ++ [None])
     = Done (1, bytes_of "OK" ++ repeat 170 (max_str_l - 2), []).
Proof.
  assert (Hl : length (repeat 170 max_str_l) = max_str_l)
    by apply repeat_length.
  assert (Hlf : ~ In LF (bytes_of "OK")) by (apply not_in_check; reflexivity).
  split; [exact Hl|]. split; [exact Hlf|].
  rewrite (blocking_read_message_timeout _ _ 9000000 [None] [] Hl Hlf
             (or_introl eq_refl)).
  vm_compute. reflexivity.
Defined.

Lemma response_check_writes_witness :
  cstr (literal "OK") = Some (bytes_of "OK")
  /\ length (repeat 170 max_str_l) = max_str_l
  /\ exists success response' input' n,
       Init.write_command_with_response_check Init.ATE0 (literal "OK")
         (repeat 170 max_str_l) 120000000 3
         (map Some (bytes_of "ERROR" ++ [CR; LF])) started
       = Done (success, response', input',
               set_uart_tx
                 (uart_tx started
                  ++ repeat (command_chars max_str_l Init.ATE0) n) started)
       /\ (n <= 3)%nat.
Proof.
  assert (Ht : cstr (literal "OK") = Some (bytes_of "OK")) by reflexivity.
  assert (Hl : length (repeat 170 max_str_l) = max_str_l)
    by apply repeat_length.
  split; [exact Ht|]. split; [exact Hl|].
  destruct (response_check_writes Init.ATE0 _ _ _ 120000000 3
              (map Some (bytes_of "ERROR" ++ [CR; LF])) started Ht Hl)
    as (success & r & input' & n & Hrun & _ & Hn & _).
  exists success, r, input', n. split; [exact Hrun | exact Hn].
Defined.

Lemma response_check_skips_lines_witness :
  cstr (literal "OK") = Some (bytes_of "OK")
  /\ length (repeat 170 max_str_l) = max_str_l
  /\ Forall (fun l => ~ In LF l /\ prefix_of (bytes_of "OK") (stored l) = false)
       [bytes_of "ATE0" ++ [CR; CR]; []]
  /\ ~ In LF (bytes_of "OK" ++ [CR])
  /\ prefix_of (bytes_of "OK") (stored (bytes_of "OK" ++ [CR])) = true
  /\ exists old,
       Init.write_command_with_response_check Init.ATE0 (literal "OK")
         (repeat 170 max_str_l) 120000000 3
         (map Some (bytes_of "+CPIN: READY") ++ None
          :: lines_in [bytes_of "ATE0" ++ [CR; CR]; []]
             ++ map Some (bytes_of "OK" ++ [CR]) ++ Some LF :: [])
         started
       = Done (0, blit (bytes_of "OK" ++ [0]) old, [],
               write_command Init.ATE0 started).
Proof.
  assert (Ht : cstr (literal "OK") = Some (bytes_of "OK")) by reflexivity.
  assert (Hl : length (repeat 170 max_str_l) = max_str_l)
    by apply repeat_length.
  assert (Ho : Forall (fun l => ~ In LF l
                               /\ prefix_of (bytes_of "OK") (stored l) = false)
                 [bytes_of "ATE0" ++ [CR; CR]; []]).
  { repeat (apply Forall_cons;
            [split; [apply not_in_check; reflexivity | reflexivity]|]).
    apply Forall_nil. }
  assert (Hlf : ~ In LF (bytes_of "OK" ++ [CR]))
    by (apply not_in_check; reflexivity).
  assert (Hp : prefix_of (bytes_of "OK") (stored (bytes_of "OK" ++ [CR]))
               = true) by reflexivity.
  split; [exact Ht|]. split; [exact Hl|]. split; [exact Ho|].
  split; [exact Hlf|]. split; [exact Hp|].
  destruct (response_check_skips_lines Init.ATE0 _ _ _
              (bytes_of "+CPIN: READY") _ _ 120000000 2 [] started
              Ht Hl Ho Hlf Hp) as (old & _ & Hrun).
  exists old. exact Hrun.
Defined.

Lemma initialise_modem_sends_witness :
  length (repeat 170 max_str_l) = max_str_l
  /\ exists response' input' ns,
       Init.initialise_modem (repeat 170 max_str_l)
         (map Some (bytes_of "OK" ++ [CR; LF])) started
       = Done (response', input',
               set_uart_tx (uart_tx started ++ sent modem_commands ns)
                 started)
       /\ length ns = 9%nat.
Proof.
  assert (Hl : length (repeat 170 max_str_l) = max_str_l)
    by apply repeat_length.
  split; [exact Hl|].
  destruct (initialise_modem_sends _ (map Some (bytes_of "OK" ++ [CR; LF]))
              started Hl) as (r & input' & ns & Hrun & Hn & _).
  exists r, input', ns. split; [exact Hrun | exact Hn].
Defined.

Lemma initialise_modem_silent_witness :
  length (repeat 170 max_str_l) = max_str_l
  /\ (exists response' s',
        Init.initialise_modem (repeat 170 max_str_l) [] started
        = Done (response', [], s')
        /\ length (uart_tx s') = 27%nat).
Proof.
  assert (Hl : length (repeat 170 max_str_l) = max_str_l)
    by apply repeat_length.
  split; [exact Hl|].
  rewrite (initialise_modem_silent _ started Hl).
  eexists. eexists. split; [reflexivity|]. vm_compute. reflexivity.
Defined.

Lemma boot_is_startup_witness :
  length (repeat 170 max_str_l) = max_str_l
  /\ startup 0 blank_flash zero_ram = Done started
  /\ exists input' ns,
       Init.boot 0 (repeat 170 max_str_l) [] blank_flash zero_ram
       = Done (input',
               set_uart_tx
                 (uart_tx started
                  ++ (bytes_of "AT+CRESET" ++ [CR])
                     :: sent modem_commands ns) started)
       /\ length ns = 9%nat.
Proof.
  assert (Hl : length (repeat 170 max_str_l) = max_str_l)
    by apply repeat_length.
  split; [exact Hl|]. split; [exact started_run|].
  destruct (boot_is_startup 0 _ [] blank_flash zero_ram started Hl
              started_run) as (input' & ns & Hrun & Hn & _).
  exists input', ns. split; [exact Hrun | exact Hn].
Defined.
